(** * Smart-ring BLE core: connection, sync orchestration and normalization

    A shallow embedding of the TypeScript sources of the device
    connection / sync orchestration / data-normalization core:

    - [DataProcessors] (PlatformUtils, IOSStepsProcessor),
    - [DataNormalizerService] (per-metric normalizers, normalizeHealthData),
    - [DeviceHealthSync] (fetchHealthDataWithRetry, runAutoDeviceSync),
    - [AutoSyncService] (classifyError, handleDeviceSyncError, performSafeSync,
      runOSSync, the detail-screen switch, DeviceMapper),
    - [DeviceScanner] (scanDevices, performScan, the vendor scans,
      detectDeviceType),
    - [DeviceConnectionService] (connectDevice, the connection probe and
      its cache),
    - [YCProductBridge] (device state, battery level), [BatteryManager],
      [BluetoothManager] and [SDKManager].

    A number read from a payload is the rational it denotes ([Q]), and
    comparisons and [Math.round] of a single such number are exact.  Where
    the sources add, multiply or divide (the step totals, the sleep
    totals and their scaling, the conversion of seconds to milliseconds)
    the operations are those of IEEE 754 doubles ([Js.double]).  Objects
    of type [any] are finite maps from property names to scalar values.
    Module-level mutable variables are threaded explicitly as state
    records, native calls are answered by an explicit environment, and
    every reading of the clock is an input of its own. *)

From Stdlib Require Import ZArith QArith Qabs Qround String Ascii List Bool Lia Lqa
  Permutation.
From stdpp Require Import base gmap strings list.

Local Open Scope Z_scope.

#[global] Set Warnings "-clear-no-such-hyp".

(** ** JavaScript values and the few built-ins the sources rely on *)

Module Js.

Inductive value : Type :=
| VUndef
| VNull
| VBool (b : bool)
| VNum (q : Q)
| VStr (s : string).

(** A plain object; a missing property reads as [undefined]. *)
Abbreviation obj := (gmap string value).

Definition get (o : obj) (k : string) : value := default VUndef (o !! k).

Definition Qltb (a b : Q) : bool := negb (Qle_bool b a).
Definition Qgtb (a b : Q) : bool := Qltb b a.
Definition Qleb (a b : Q) : bool := Qle_bool a b.
Definition Qgeb (a b : Q) : bool := Qle_bool b a.

Definition is_empty_string (s : string) : bool :=
  match s with EmptyString => true | _ => false end.

(** ToBoolean. *)
Definition truthy (v : value) : bool :=
  match v with
  | VUndef | VNull => false
  | VBool b => b
  | VNum q => negb (Qeq_bool q 0)
  | VStr s => negb (is_empty_string s)
  end.

(** [a || b]. *)
Definition or (a b : value) : value := if truthy a then a else b.

(** [a !== undefined]. *)
Definition defined (v : value) : bool :=
  match v with VUndef => false | _ => true end.

(** The string-consuming built-ins ([Number(s)], [Date.parse(s)]) belong
    to the host; [None] stands for [NaN]. *)
Record Host : Type := {
  StringToNumber : string -> option Q;
  Date_parse : string -> option Q
}.

(** ToNumber; [None] is [NaN]. *)
Definition toNumber (h : Host) (v : value) : option Q :=
  match v with
  | VUndef => None
  | VNull => Some 0%Q
  | VBool b => Some (if b then 1%Q else 0%Q)
  | VNum q => Some q
  | VStr s => StringToNumber h s
  end.

(** [v > 0] with the operand coerced to a number ([NaN > 0] is false). *)
Definition gt0 (h : Host) (v : value) : bool :=
  match toNumber h v with
  | Some q => Qgtb q 0
  | None => false
  end.

(** [Math.round]: nearest integer, halves towards plus infinity. *)
Definition round (q : Q) : Z := Qfloor (q + (1 # 2)).

(** *** Arithmetic

    The sources add, multiply and divide the numbers they read, and
    JavaScript does that in IEEE 754 binary64.  A [double] is a finite
    value, given as the rational it denotes, an infinity or NaN.  The two
    zeros are not told apart: the sources modelled here divide by 60 and
    by a total above 1440 only. *)
Inductive double : Type :=
| Finite (q : Q)
| Infinity (negative : bool)
| NaN.

(** 2 to the power [k]. *)
Definition pow2 (k : Z) : Q :=
  if (0 <=? k)%Z then inject_Z (2 ^ k) else 1 # Z.to_pos (2 ^ (- k)).

(** The binary exponent of a rational other than 0: the [e] with
    [2^e <= |x| < 2^(e+1)]. *)
Definition ilog2 (x : Q) : Z :=
  let e0 := (Z.log2 (Z.abs (Qnum x)) - Z.log2 (Zpos (Qden x)))%Z in
  if Qle_bool (pow2 e0) (Qabs x) then e0 else (e0 - 1)%Z.

(** The nearest integer, halves to the even neighbour. *)
Definition roundHalfEven (q : Q) : Z :=
  let f := Qfloor q in
  match (q - inject_Z f ?= 1 # 2)%Q with
  | Lt => f
  | Gt => (f + 1)%Z
  | Eq => if Z.even f then f else (f + 1)%Z
  end.

(** The double nearest to a real number (round to nearest, ties to even):
    53 significant bits, the unit in the last place never below 2^-1074,
    and an infinity from 2^1024 on. *)
Definition fl (x : Q) : double :=
  if Qeq_bool x 0 then Finite 0
  else
    let u := Z.max (ilog2 x - 52) (-1074) in
    let y := (inject_Z (roundHalfEven (x / pow2 u)) * pow2 u)%Q in
    if Qle_bool (pow2 1024) (Qabs y) then Infinity (Qltb x 0) else Finite (Qred y).

(** [a + b] *)
Definition fadd (a b : double) : double :=
  match a, b with
  | NaN, _ | _, NaN => NaN
  | Infinity s, Infinity t => if Bool.eqb s t then Infinity s else NaN
  | Infinity s, Finite _ => Infinity s
  | Finite _, Infinity t => Infinity t
  | Finite x, Finite y => fl (x + y)
  end.

(** [a * b] *)
Definition fmul (a b : double) : double :=
  match a, b with
  | NaN, _ | _, NaN => NaN
  | Infinity s, Infinity t => Infinity (xorb s t)
  | Infinity s, Finite y => if Qeq_bool y 0 then NaN else Infinity (xorb s (Qltb y 0))
  | Finite x, Infinity t => if Qeq_bool x 0 then NaN else Infinity (xorb (Qltb x 0) t)
  | Finite x, Finite y => fl (x * y)
  end.

(** [a / b]; a zero divisor counts as the positive zero. *)
Definition fdiv (a b : double) : double :=
  match a, b with
  | NaN, _ | _, NaN => NaN
  | Infinity _, Infinity _ => NaN
  | Infinity s, Finite y => Infinity (xorb s (Qltb y 0))
  | Finite _, Infinity _ => Finite 0
  | Finite x, Finite y =>
      if Qeq_bool y 0 then (if Qeq_bool x 0 then NaN else Infinity (Qltb x 0))
      else fl (x / y)
  end.

(** [a > b] *)
Definition fgt (a b : double) : bool :=
  match a, b with
  | NaN, _ | _, NaN => false
  | Infinity s, Infinity t => negb s && t
  | Infinity s, Finite _ => negb s
  | Finite _, Infinity t => t
  | Finite x, Finite y => Qgtb x y
  end.

(** [a === 0] *)
Definition isZero (a : double) : bool :=
  match a with
  | Finite q => Qeq_bool q 0
  | _ => false
  end.

(** ToBoolean of a number, and [a || b] on numbers. *)
Definition truthyNumber (a : double) : bool :=
  match a with
  | Finite q => negb (Qeq_bool q 0)
  | Infinity _ => true
  | NaN => false
  end.

Definition orNumber (a b : double) : double := if truthyNumber a then a else b.

(** [Math.round] of a double: a finite double is an integer already from
    2^52 on, so the nearest integer below that is a double as well. *)
Definition mathRound (a : double) : double :=
  match a with
  | Finite q => Finite (inject_Z (round q))
  | other => other
  end.

(** An integer, and the number a value coerces to, as doubles. *)
Definition ofZ (z : Z) : double := fl (inject_Z z).

Definition ofNumber (n : option Q) : double :=
  match n with
  | Some q => fl q
  | None => NaN
  end.

(** The time value of [new Date(ms)]: the integral part of [ms], or
    [None] (an invalid date) beyond the representable range. *)
Definition Date_new (ms : Q) : option Z :=
  let t := if Qle_bool 0 ms then Qfloor ms else Qceiling ms in
  if (Z.abs t <=? 8640000000000000) then Some t else None.

Definition Date_of (ms : double) : option Z :=
  match ms with
  | Finite q => Date_new q
  | _ => None
  end.

(** *** Strings *)

Definition lower_ascii (c : ascii) : ascii :=
  let n := nat_of_ascii c in
  if ((65 <=? n)%nat && (n <=? 90)%nat)%bool then ascii_of_nat (n + 32) else c.

Fixpoint toLowerCase (s : string) : string :=
  match s with
  | EmptyString => EmptyString
  | String c r => String (lower_ascii c) (toLowerCase r)
  end.

Fixpoint startsWith (p s : string) : bool :=
  match p, s with
  | EmptyString, _ => true
  | String a p', String b s' => if Ascii.eqb a b then startsWith p' s' else false
  | String _ _, EmptyString => false
  end.

(** [s.includes(p)]. *)
Fixpoint includes (p s : string) : bool :=
  if startsWith p s then true
  else match s with
       | EmptyString => false
       | String _ r => includes p r
       end.

Definition is_space (c : ascii) : bool :=
  let n := nat_of_ascii c in
  ((n =? 32) || (n =? 9) || (n =? 10) || (n =? 11) || (n =? 12) || (n =? 13))%nat.

Fixpoint trimStart (s : string) : string :=
  match s with
  | EmptyString => EmptyString
  | String c r => if is_space c then trimStart r else s
  end.

Fixpoint rev_string (acc s : string) : string :=
  match s with
  | EmptyString => acc
  | String c r => rev_string (String c acc) r
  end.

Definition trim (s : string) : string :=
  rev_string EmptyString (trimStart (rev_string EmptyString (trimStart s))).

(** A host that reads plain decimal digit strings and knows no date
    format; used to run the model on concrete payloads. *)
Fixpoint digits (acc : Z) (s : string) : option Z :=
  match s with
  | EmptyString => Some acc
  | String c r =>
      let n := Z.of_nat (nat_of_ascii c) in
      if ((48 <=? n) && (n <=? 57))%bool then digits (10 * acc + (n - 48)) r else None
  end.

Definition decimalHost : Host :=
  {| StringToNumber := fun s => option_map inject_Z (digits 0 (trim s));
     Date_parse := fun _ => None |}.

End Js.

(** ** DataProcessors: PlatformUtils and the step processor *)

Module DataProcessors.
Import Js.

(** The day window [getVietnamStartOfDayUTC() .. getVietnamEndOfDayUTC()],
    as time values in milliseconds (the date-time utilities are outside
    the sources at hand; the window is an input, read off the clock at
    each call). *)
Record DayRange : Type := { dayStart : Z; dayEnd : Z }.

(** [HealthCalculator], whose estimates are outside the sources at hand. *)
Record HealthCalculator : Type := {
  calculateCaloriesFromSteps : double -> double;
  calculateDistanceFromSteps : double -> double
}.

Record StepsResult : Type := { steps : double; calories : double; distance : double }.

Definition zeroResult : StepsResult :=
  {| steps := Finite 0; calories := Finite 0; distance := Finite 0 |}.

Section WithHost.
Variable h : Host.
(** The window one call of isWithinCurrentDayGMT7 reads off the clock. *)
Variable day : DayRange.

(** PlatformUtils.roundValue *)
Definition roundValue (v : value) : Z :=
  match toNumber h v with
  | None => 0
  | Some q => round q
  end.

(** PlatformUtils.hasHealthMetrics *)
Definition hasHealthMetrics (record : obj) : bool :=
  existsb (fun f => gt0 h (get record f))
    ["heartValue"; "heartRate"; "heart_rate"; "OOValue"; "spo2"; "bloodOxygen";
     "SBPValue"; "DBPValue"; "systolic"; "diastolic"; "tempFloatValue";
     "temperature"; "respiratoryRateValue"; "respirationRate"]%string.

(** PlatformUtils.filterStepRecords *)
Definition isStepRecord (record : obj) : bool :=
  let hasSteps :=
    truthy (or (get record "step") (or (get record "steps")
             (or (get record "sportStep") (get record "value")))) in
  let hasOnlySteps := negb (hasHealthMetrics record) in
  hasSteps && hasOnlySteps.

Definition filterStepRecords (dataArray : list obj) : list obj :=
  List.filter isStepRecord dataArray.

(** PlatformUtils.toMilliseconds *)
Definition toMilliseconds (v : value) : double :=
  match v with
  | VNum q => if Qltb q 10000000000 then fmul (fl q) (Finite 1000) else fl q
  | VStr s => match Date_parse h s with Some p => fl p | None => Finite 0 end
  | _ => Finite 0
  end.

(** PlatformUtils.extractTimestamp *)
Definition timeFields : list string :=
  ["sportStartTime"; "startTime"; "time"; "timestamp"; "sportEndTime";
   "endTime"; "endTimestamp"]%string.

Fixpoint extractTimestampFrom (fields : list string) (record : obj) : double :=
  match fields with
  | [] => Finite 0
  | f :: rest =>
      let v := get record f in
      if truthy v then
        let ms := toMilliseconds v in
        if fgt ms (Finite 0) then ms else extractTimestampFrom rest record
      else extractTimestampFrom rest record
  end.

Definition extractTimestamp (record : obj) : double :=
  extractTimestampFrom timeFields record.

(** PlatformUtils.extractSteps *)
Definition extractSteps (record : obj) : Z :=
  roundValue
    (or (get record "sportStep") (or (get record "step") (or (get record "steps")
      (or (get record "value") (or (get record "stepValue") (VNum 0)))))).

(** PlatformUtils.isWithinCurrentDayGMT7 *)
Definition isWithinCurrentDayGMT7 (timestampMs : double) : bool :=
  if negb (truthyNumber timestampMs) then false
  else match Date_of timestampMs with
       | Some t => (dayStart day <=? t) && (t <=? dayEnd day)
       | None => false
       end.

Definition recordCalories (record : obj) : Z :=
  roundValue (or (get record "calories") (or (get record "sportCalorie")
               (or (get record "cal") (VNum 0)))).

Definition recordDistance (record : obj) : Z :=
  roundValue (or (get record "distance") (or (get record "sportDistance") (VNum 0))).

End WithHost.

Section Processor.
Variable h : Host.
(** The windows the calls of isWithinCurrentDayGMT7 read in the course of
    one run of the step processor: [days i] is what the call for the
    [i]-th step record gets.  The clock is read afresh in every call, so
    the windows of one run need not be the same. *)
Variable days : nat -> DayRange.
Variable calculator : HealthCalculator.

(** The accumulation loop of IOSStepsProcessor.process over the step
    records, from the [i]-th on: (totalSteps, totalCalories,
    totalDistance). *)
Fixpoint sumCurrentDay (i : nat) (stepRecords : list obj) (acc : double * double * double)
  : double * double * double :=
  match stepRecords with
  | [] => acc
  | record :: rest =>
      let '(totalSteps, totalCalories, totalDistance) := acc in
      if isWithinCurrentDayGMT7 (days i) (extractTimestamp h record) then
        sumCurrentDay (S i) rest
          (fadd totalSteps (ofZ (extractSteps h record)),
           fadd totalCalories (ofZ (recordCalories h record)),
           fadd totalDistance (ofZ (recordDistance h record)))
      else sumCurrentDay (S i) rest acc
  end.

(** IOSStepsProcessor.process *)
Definition process (dataArray : list obj) : StepsResult :=
  match dataArray with
  | [] => zeroResult
  | _ =>
      let stepRecords := filterStepRecords h dataArray in
      match stepRecords with
      | [] => zeroResult
      | _ =>
          let '(totalSteps, totalCalories, totalDistance) :=
            sumCurrentDay 0 stepRecords (Finite 0, Finite 0, Finite 0) in
          let calories0 :=
            if fgt totalCalories (Finite 0) then totalCalories
            else calculateCaloriesFromSteps calculator totalSteps in
          let calories := if isZero totalSteps then Finite 0 else calories0 in
          let distance :=
            if fgt totalDistance (Finite 0) then totalDistance
            else calculateDistanceFromSteps calculator totalSteps in
          {| steps := totalSteps; calories := calories; distance := distance |}
      end
  end.

(** DataProcessors.processYCStepsData / processRWStepsData: both
    delegate to the same processor and ignore the mapping. *)
Definition processYCStepsData (dataArray : list obj) : StepsResult := process dataArray.
Definition processRWStepsData (dataArray : list obj) : StepsResult := process dataArray.

(** The summed step count over the current day's step records. *)
Definition currentDaySteps (dataArray : list obj) : double :=
  fst (fst (sumCurrentDay 0 (filterStepRecords h dataArray) (Finite 0, Finite 0, Finite 0))).

End Processor.

End DataProcessors.

(** ** Field mapping table and DeviceMapper *)

Module Mapping.
Import Js.

Inductive Platform : Type := ios | android.

Record FieldMapping : Type := {
  dataPath : string;
  valueFields : list string;
  timestampFields : list string
}.

Record SleepMapping : Type := {
  sleepPath : string;
  deepSleepFields : list string;
  lightSleepFields : list string;
  remSleepFields : list string;
  sleepTimestampFields : list string
}.

Record BloodPressureMapping : Type := {
  bpPath : string;
  systolicFields : list string;
  diastolicFields : list string;
  bpTimestampFields : list string
}.

(** [calories] and [distance] are read through [mapping.calories ||
    mapping.steps], hence optional here. *)
Record DeviceFieldMapping : Type := {
  heartRate : FieldMapping;
  spo2 : FieldMapping;
  bloodOxygen : FieldMapping;
  steps : FieldMapping;
  calories : option FieldMapping;
  distance : option FieldMapping;
  sleep : SleepMapping;
  bloodPressure : BloodPressureMapping;
  temperature : FieldMapping;
  battery : FieldMapping
}.

Definition fm (p : string) (vs ts : list string) : FieldMapping :=
  {| dataPath := p; valueFields := vs; timestampFields := ts |}.

Definition tsDefault : list string := ["time"; "timestamp"; "date"]%string.

Local Open Scope string_scope.

Definition mapping_yc : DeviceFieldMapping :=
  {| heartRate := fm "heartRate" ["heartValue"; "heartRate"; "value"] tsDefault;
     spo2 := fm "bloodOxygen" ["OOValue"; "bloodOxygen"; "spo2"; "value"] tsDefault;
     bloodOxygen := fm "bloodOxygen" ["OOValue"; "bloodOxygen"; "spo2"; "value"]
                      ["startTime"; "time"; "timestamp"; "date"];
     steps := fm "step" ["stepValue"; "sportStep"; "step"; "steps"; "value"] tsDefault;
     calories := Some (fm "step" ["sportCalorie"; "calories"; "calorie"; "kcal"; "cal"; "value"]
                         ["sportStartTime"; "time"; "timestamp"; "date"]);
     distance := Some (fm "step" ["sportDistance"; "distance"; "dist"; "km"; "meters"; "value"]
                         ["sportStartTime"; "time"; "timestamp"; "date"]);
     sleep := {| sleepPath := "sleep";
                 deepSleepFields := ["deepSleepSeconds"; "deepSleepMinutes"];
                 lightSleepFields := ["lightSleepSeconds"; "lightSleepMinutes"];
                 remSleepFields := ["remSleepSeconds"; "remSleepMinutes"];
                 sleepTimestampFields := tsDefault |};
     bloodPressure := {| bpPath := "bloodPressure";
                         systolicFields := ["systolic"; "sbp"; "high"];
                         diastolicFields := ["diastolic"; "dbp"; "low"];
                         bpTimestampFields := tsDefault |};
     temperature := fm "temperature" ["temperature"; "temp"; "value"] tsDefault;
     battery := fm "battery" ["battery"; "batteryLevel"; "batteryPercent"] tsDefault |}.

Definition mapping_rw : DeviceFieldMapping :=
  {| heartRate := fm "heartRate" ["heartRate"; "hr"; "value"] tsDefault;
     spo2 := fm "spo2" ["spo2"; "oxygen"; "value"] tsDefault;
     bloodOxygen := fm "spo2" ["spo2"; "oxygen"; "value"] tsDefault;
     calories := Some (fm "steps" ["calories"; "calorie"; "kcal"; "cal"; "value"] tsDefault);
     distance := Some (fm "steps" ["distance"; "dist"; "km"; "meters"; "value"] tsDefault);
     steps := fm "steps" ["steps"; "step"; "value"] tsDefault;
     sleep := {| sleepPath := "sleep";
                 deepSleepFields := ["deepSleep"; "deep"];
                 lightSleepFields := ["lightSleep"; "light"];
                 remSleepFields := ["remSleep"; "rem"];
                 sleepTimestampFields := tsDefault |};
     bloodPressure := {| bpPath := "bloodPressure";
                         systolicFields := ["systolic"; "high"];
                         diastolicFields := ["diastolic"; "low"];
                         bpTimestampFields := tsDefault |};
     temperature := fm "temperature" ["temperature"; "temp"] tsDefault;
     battery := fm "battery" ["battery"; "batteryLevel"] tsDefault |}.

Definition mapping_android_yc : DeviceFieldMapping :=
  {| heartRate := fm "heartRate" ["heartValue"; "heartRate"; "value"]
                    ["heartStartTime"; "time"; "timestamp"; "date"];
     spo2 := fm "bloodOxygen" ["OOValue"; "bloodOxygen"; "spo2"; "value"]
               ["startTime"; "time"; "timestamp"; "date"];
     bloodOxygen := fm "bloodOxygen" ["OOValue"; "bloodOxygen"; "spo2"; "value"]
                      ["startTime"; "time"; "timestamp"; "date"];
     calories := Some (fm "step" ["sportCalorie"; "calories"; "calorie"; "kcal"; "cal"; "value"]
                         ["sportStartTime"; "time"; "timestamp"; "date"]);
     distance := Some (fm "step" ["sportDistance"; "distance"; "dist"; "km"; "meters"; "value"]
                         ["sportStartTime"; "time"; "timestamp"; "date"]);
     steps := fm "step" ["stepValue"; "sportStep"; "step"; "steps"; "value"] tsDefault;
     sleep := {| sleepPath := "sleep";
                 deepSleepFields := ["deepSleepTotal"; "deepSleepSeconds"; "deepSleepMinutes"];
                 lightSleepFields := ["lightSleepTotal"; "lightSleepSeconds"; "lightSleepMinutes"];
                 remSleepFields := ["rapidEyeMovementTotal"; "remSleepSeconds"; "remSleepMinutes"];
                 sleepTimestampFields := ["startTime"; "endTime"; "time"; "timestamp"; "date"] |};
     bloodPressure := {| bpPath := "bloodPressure";
                         systolicFields := ["bloodSBP"; "systolic"; "sbp"; "high"];
                         diastolicFields := ["bloodDBP"; "diastolic"; "dbp"; "low"];
                         bpTimestampFields := ["bloodStartTime"; "time"; "timestamp"; "date"] |};
     temperature := fm "temperature" ["temperature"; "temp"; "value"] tsDefault;
     battery := fm "battery" ["battery"; "batteryLevel"; "batteryPercent"] tsDefault |}.

(** The [ios_yc] entry repeats the [yc] entry field for field. *)
Definition mapping_ios_yc : DeviceFieldMapping := mapping_yc.

(** The [default] entry repeats the [rw] entry field for field. *)
Definition mapping_default : DeviceFieldMapping := mapping_rw.

Definition DEVICE_MAPPINGS : gmap string DeviceFieldMapping :=
  <["yc" := mapping_yc]> (<["rw" := mapping_rw]> (<["android_yc" := mapping_android_yc]>
    (<["ios_yc" := mapping_ios_yc]> (<["default" := mapping_default]> ∅)))).

(** DeviceMapper.normalizeDeviceType *)
Definition typeMap : gmap string string :=
  <["yc" := "yc"]> (<["yichuang" := "yc"]> (<["yucheng" := "yc"]> (<["vita" := "yc"]>
    (<["rw" := "rw"]> (<["ringtech" := "rw"]> (<["ring" := "rw"]> ∅)))))).

Definition normalizeDeviceType (deviceType : string) : string :=
  if is_empty_string deviceType then "yc"
  else
    let normalized := trim (toLowerCase deviceType) in
    match typeMap !! normalized with
    | Some t => t
    | None => normalized
    end.

(** DeviceMapper.getDeviceMapping; [hostOS] is [Platform.OS] ([None] for a
    host that is neither of the two). *)
Definition getDeviceMapping (hostOS : option Platform) (deviceType : string)
  : DeviceFieldMapping :=
  let normalizedType := normalizeDeviceType deviceType in
  let prefixed :=
    match hostOS with
    | Some android => DEVICE_MAPPINGS !! ("android_" ++ normalizedType)
    | Some ios => DEVICE_MAPPINGS !! ("ios_" ++ normalizedType)
    | None => None
    end in
  match prefixed with
  | Some m => m
  | None =>
      match DEVICE_MAPPINGS !! normalizedType with
      | Some m => m
      | None => mapping_default
      end
  end.

(** PLATFORM_ADJUSTMENTS: only timestamp field lists are overridden. *)
Record PlatformAdjustment : Type := {
  adjHeartRate : list string;
  adjSpo2 : list string;
  adjSleep : list string
}.

Definition PLATFORM_ADJUSTMENTS (platform : Platform) : PlatformAdjustment :=
  match platform with
  | ios => {| adjHeartRate := ["time"; "heartStartTime"; "timestamp"; "startTime"];
              adjSpo2 := ["time"; "startTime"; "timestamp"];
              adjSleep := ["time"; "startTime"; "date"] |}
  | android => {| adjHeartRate := ["timestamp"; "time"; "startTime"];
                  adjSpo2 := ["timestamp"; "time"; "startTime"];
                  adjSleep := ["timestamp"; "time"; "date"] |}
  end.

Definition withTimestampFields (m : FieldMapping) (ts : list string) : FieldMapping :=
  {| dataPath := dataPath m; valueFields := valueFields m; timestampFields := ts |}.

(** DeviceMapper.applyPlatformAdjustments *)
Definition applyPlatformAdjustments (mapping : DeviceFieldMapping) (platform : Platform)
  : DeviceFieldMapping :=
  let adj := PLATFORM_ADJUSTMENTS platform in
  {| heartRate := withTimestampFields (heartRate mapping) (adjHeartRate adj);
     spo2 := withTimestampFields (spo2 mapping) (adjSpo2 adj);
     bloodOxygen := bloodOxygen mapping;
     steps := steps mapping;
     calories := calories mapping;
     distance := distance mapping;
     sleep := {| sleepPath := sleepPath (sleep mapping);
                 deepSleepFields := deepSleepFields (sleep mapping);
                 lightSleepFields := lightSleepFields (sleep mapping);
                 remSleepFields := remSleepFields (sleep mapping);
                 sleepTimestampFields := adjSleep adj |};
     bloodPressure := bloodPressure mapping;
     temperature := temperature mapping;
     battery := battery mapping |}.

End Mapping.

(** ** DataNormalizerService *)

Module Normalizer.
Import Js Mapping.
Export DataProcessors.

(** The raw payload: an object whose relevant properties are arrays of
    records.  Writing a property is an insertion. *)
Abbreviation RawData := (gmap string (list obj)).

(** The interface of [DataValidator], whose implementation is outside the
    sources at hand.  [extractDataArray] yields [None] for [null];
    [extractTimestamp] yields [None] for [null]/[undefined];
    [extractBestValue] takes the optional plausibility filter. *)
Record DataValidator : Type := {
  extractDataArray : RawData -> string -> option (list obj);
  extractTimestamp : obj -> list string -> option Q;
  extractBestValue : obj -> list string -> option (Q -> bool) -> Q;
  validateAndCleanData : RawData -> RawData
}.

Definition TIMESTAMP_SECOND_TO_MS_THRESHOLD : Q := 1000000000000.
Definition TIMESTAMP_SECOND_TO_MS_THRESHOLD_SHORT : Q := 10000000000.
Definition HEART_RATE_MIN : Q := 0.
Definition HEART_RATE_MAX : Q := 200.
Definition SPO2_MIN : Q := 0.
Definition SPO2_MAX : Q := 100.
Definition TEMPERATURE_MIN : Q := (-10).
Definition TEMPERATURE_MAX : Q := 100.
Definition SYSTOLIC_MIN : Q := 50.
Definition SYSTOLIC_MAX : Q := 300.
Definition DIASTOLIC_MIN : Q := 30.
Definition DIASTOLIC_MAX : Q := 200.
Definition MAX_SLEEP_MINUTES : double := Finite 1440.

Record Metric : Type := { current : Q; timestamp : Q; unit : string }.

Record StepsMetric : Type := {
  stepsCurrent : double;
  stepsTimestamp : Q;
  stepsUnit : string
}.

Record SleepData : Type := {
  totalMinutes : double;
  deepSleepMinutes : double;
  lightSleepMinutes : double;
  remSleepMinutes : double;
  totalSleepSeconds : double;
  totalDeepSleepSeconds : double;
  totalLightSleepSeconds : double;
  totalRemSleepSeconds : double;
  sleepTimestamp : value;
  sleepUnit : string
}.

Record BloodPressure : Type := {
  systolic : Q;
  diastolic : Q;
  bpTimestamp : Q;
  bpUnit : string
}.

Record NormalizedHealthData : Type := {
  nHeartRate : option Metric;
  nSpo2 : option Metric;
  nSteps : option StepsMetric;
  nCalories : option double;
  nDistance : option double;
  nSleep : option SleepData;
  nBloodPressure : option BloodPressure;
  nTemperature : option Metric;
  nBattery : option Metric;
  lastSync : Q;
  nDeviceType : string;
  nPlatform : Platform;
  nRawData : option RawData
}.

(** [dataArray?.length] is falsy for [null] and for the empty array. *)
Definition nonEmpty (a : option (list obj)) : option (list obj) :=
  match a with
  | Some (x :: l) => Some (x :: l)
  | _ => None
  end.

(** A validator reads an array through its path only: the alias that the
    Android step normalizer writes under [combinedData] is invisible to
    every other path. *)
Definition readsByPath (V : DataValidator) : Prop :=
  forall (rawData : RawData) (alias : list obj) (path : string),
    path <> "combinedData"%string ->
    extractDataArray V (<["combinedData"%string := alias]> rawData) path
    = extractDataArray V rawData path.

(** The same holds through [validateAndCleanData]. *)
Definition cleansByPath (V : DataValidator) : Prop :=
  forall (rawData : RawData) (alias : list obj) (path : string),
    path <> "combinedData"%string ->
    extractDataArray V (validateAndCleanData V (<["combinedData"%string := alias]> rawData)) path
    = extractDataArray V (validateAndCleanData V rawData) path.

(** The metric values of a record, slot by slot, without the readings of
    the clock ([lastSync] and the timestamps that fall back on
    [Date.now()]) and without the payload it carries along. *)
Definition sleepValues (s : SleepData)
  : double * double * double * double * double * double * double * double :=
  (totalMinutes s, deepSleepMinutes s, lightSleepMinutes s, remSleepMinutes s,
   totalSleepSeconds s, totalDeepSleepSeconds s, totalLightSleepSeconds s,
   totalRemSleepSeconds s).

Definition metricValues (r : NormalizedHealthData) :=
  (nHeartRate r, nSpo2 r, option_map stepsCurrent (nSteps r), nCalories r, nDistance r,
   option_map sleepValues (nSleep r), nBloodPressure r, nTemperature r,
   option_map current (nBattery r), nDeviceType r, nPlatform r).

(** A validator hands back, under a plausibility filter, either a value
    that passes the filter or nothing positive. *)
Definition filtersValues (V : DataValidator) : Prop :=
  forall (record : obj) (fields : list string) (ok : Q -> bool),
    Qgtb (extractBestValue V record fields (Some ok)) 0 = true ->
    ok (extractBestValue V record fields (Some ok)) = true.

Section WithEnvironment.
Variable h : Host.
Variable V : DataValidator.
Variable calculator : HealthCalculator.
(** [startOfToday() .. endOfToday()] *)
Variable today : DayRange.
(** [getVietnamStartOfDayUTC() .. getVietnamEndOfDayUTC()], as
    normalizeSleepMetric reads it once per call. *)
Variable vietnamDay : DayRange.
(** The same window as the step processor reads it for each of its
    records in turn. *)
Variable stepDays : nat -> DayRange.
(** [Date.now()] *)
Variable now : Q.

Local Open Scope string_scope.

(** normalizeTimestamp.  The product is a double product; one too far
    below zero for a double is minus infinity in the source and is given
    as 0 here: the one caller skips a record on either. *)
Definition normalizeTimestamp (ts : option Q) : Q :=
  match ts with
  | None => 0%Q
  | Some t =>
      if Qeq_bool t 0 then 0%Q
      else if Qltb t TIMESTAMP_SECOND_TO_MS_THRESHOLD then
             match fmul (fl t) (Finite 1000) with
             | Finite ms => ms
             | _ => 0%Q
             end
           else t
  end.

(** extractDataArrayForIOS *)
Definition extractDataArrayForIOS (cleanedData : RawData) (combinedPath fallbackPath : string)
  : option (list obj) * string :=
  match nonEmpty (extractDataArray V cleanedData combinedPath) with
  | Some combinedData => (Some combinedData, combinedPath)
  | None => (nonEmpty (extractDataArray V cleanedData fallbackPath), fallbackPath)
  end.

(** The body of the loop of findBestValueInTimeRange, on (bestTimestamp,
    bestValue). *)
Definition bestInRangeStep (valueFields timestampFields : list string)
    (validator : Q -> bool) (record : obj) (best : Q * Q) : Q * Q :=
  let timestampMs := normalizeTimestamp (extractTimestamp V record timestampFields) in
  if Qeq_bool timestampMs 0
     || Qltb timestampMs (inject_Z (dayStart today))
     || Qgtb timestampMs (inject_Z (dayEnd today))
  then best
  else
    let v := extractBestValue V record valueFields (Some validator) in
    if Qgtb v 0 && Qgtb timestampMs (fst best) then (timestampMs, v) else best.

(** findBestValueInTimeRange: the array is walked from its last record
    to its first. *)
Definition findBestValueInTimeRange (dataArray : list obj)
    (valueFields timestampFields : list string) (validator : Q -> bool) : option (Q * Q) :=
  let '(bestTimestamp, bestValue) :=
    fold_left (fun best record => bestInRangeStep valueFields timestampFields validator record best)
      (rev dataArray) (0%Q, 0%Q) in
  if Qgtb bestValue 0 && Qgtb bestTimestamp 0 then Some (bestValue, bestTimestamp) else None.

Definition heartRateValid (v : Q) : bool := Qgtb v HEART_RATE_MIN && Qltb v HEART_RATE_MAX.
Definition spo2Valid (v : Q) : bool := Qgtb v SPO2_MIN && Qleb v SPO2_MAX.
Definition temperatureValid (v : Q) : bool := Qgtb v TEMPERATURE_MIN && Qltb v TEMPERATURE_MAX.
Definition systolicValid (v : Q) : bool := Qgtb v SYSTOLIC_MIN && Qltb v SYSTOLIC_MAX.
Definition diastolicValid (v : Q) : bool := Qgtb v DIASTOLIC_MIN && Qltb v DIASTOLIC_MAX.

(** The shared shape of normalizeHeartRateMetric and normalizeSpo2Metric. *)
Definition normalizeRangedMetric (rawData : RawData) (config : FieldMapping)
    (platform : Platform) (combinedFields : list string) (validator : Q -> bool)
    (u : string) : option Metric :=
  let cleanedData := validateAndCleanData V rawData in
  let '(dataArray, fields) :=
    match platform with
    | ios =>
        let '(arr, dataSource) := extractDataArrayForIOS cleanedData "combinedData" (dataPath config) in
        (arr, if String.eqb dataSource "combinedData" then combinedFields else valueFields config)
    | android => (extractDataArray V cleanedData (dataPath config), valueFields config)
    end in
  match nonEmpty dataArray with
  | None => None
  | Some arr =>
      match findBestValueInTimeRange arr fields (timestampFields config) validator with
      | Some (v, t) => Some {| current := v; timestamp := t; unit := u |}
      | None => None
      end
  end.

Definition normalizeHeartRateMetric (rawData : RawData) (config : FieldMapping)
    (platform : Platform) : option Metric :=
  normalizeRangedMetric rawData config platform
    ["heartRate"; "heartValue"; "heart"; "hr"; "bpm"; "value"] heartRateValid "bpm".

Definition normalizeSpo2Metric (rawData : RawData) (config : FieldMapping)
    (platform : Platform) : option Metric :=
  normalizeRangedMetric rawData config platform
    ["bloodOxygen"; "spO2"; "spo2"; "OOValue"; "spo2Value"; "oxygenValue"; "value"]
    spo2Valid "%".

(** [timestamp > bestTimestamp] where [null] coerces to 0 and the best
    timestamp never drops below 0. *)
Definition tsNum (ts : option Q) : Q := default 0%Q ts.

(** normalizeTemperatureMetric *)
Definition temperatureStep (config : FieldMapping) (best : Q * Q) (record : obj) : Q * Q :=
  let ts := tsNum (extractTimestamp V record (timestampFields config)) in
  let temperature := extractBestValue V record (valueFields config) (Some temperatureValid) in
  if Qgtb temperature 0 && Qgtb ts (fst best) then (ts, temperature) else best.

Definition normalizeTemperatureMetric (rawData : RawData) (config : FieldMapping)
  : option Metric :=
  match nonEmpty (extractDataArray V rawData (dataPath config)) with
  | None => None
  | Some dataArray =>
      let '(bestTimestamp, bestTemperature) :=
        fold_left (temperatureStep config) dataArray (0%Q, 0%Q) in
      if Qgtb bestTemperature 0
      then Some {| current := bestTemperature; timestamp := bestTimestamp; unit := "celsius" |}
      else None
  end.

(** normalizeBatteryMetric *)
Definition batteryStep (config : FieldMapping) (best : Q * Q) (record : obj) : Q * Q :=
  let battery := extractBestValue V record (valueFields config) None in
  let ts := tsNum (extractTimestamp V record (timestampFields config)) in
  if Qgtb battery 0 && Qgtb ts (snd best) then (battery, ts) else best.

Definition normalizeBatteryMetric (rawData : RawData) (config : FieldMapping)
  : option Metric :=
  match nonEmpty (extractDataArray V rawData (dataPath config)) with
  | None => None
  | Some dataArray =>
      let '(latestBattery, latestTimestamp) :=
        fold_left (batteryStep config) dataArray (0%Q, 0%Q) in
      if Qgtb latestBattery 0
      then Some {| current := inject_Z (round latestBattery);
                   timestamp := if Qeq_bool latestTimestamp 0 then now else latestTimestamp;
                   unit := "%" |}
      else None
  end.

Definition isYCDevice (deviceType : string) : bool :=
  String.eqb deviceType "yc" || String.eqb deviceType "android_yc"
  || String.eqb deviceType "ios_yc".

Definition processStepsData (deviceType : string) (dataArray : list obj) : StepsResult :=
  if isYCDevice deviceType
  then processYCStepsData h stepDays calculator dataArray
  else processRWStepsData h stepDays calculator dataArray.

(** normalizeStepsMetricAndroid: returns the metric and the payload as
    the call leaves it (the combined-stream alias is written into it). *)
Definition isCombinedData (stepDataArray : list obj) : bool :=
  match stepDataArray with
  | [] => false
  | first :: _ =>
      defined (get first "stepValue") || defined (get first "heartValue")
      || defined (get first "SBPValue") || defined (get first "OOValue")
      || defined (get first "respiratoryRateValue")
  end.

Definition normalizeStepsMetricAndroid (rawData : RawData) (config : FieldMapping)
    (deviceType : string) : option StepsMetric * RawData :=
  match nonEmpty (extractDataArray V rawData (dataPath config)) with
  | None => (None, rawData)
  | Some stepDataArray =>
      let rawData' :=
        if isCombinedData stepDataArray
        then <["combinedData" := stepDataArray]> rawData else rawData in
      let processedData := processStepsData deviceType stepDataArray in
      (Some {| stepsCurrent := orNumber (DataProcessors.steps processedData) (Finite 0);
               stepsTimestamp := now; stepsUnit := "steps" |}, rawData')
  end.

(** normalizeStepsMetricIOS *)
Definition normalizeStepsMetricIOS (rawData : RawData) (config : FieldMapping)
    (deviceType : string) : option StepsMetric :=
  match nonEmpty (extractDataArray V rawData (dataPath config)) with
  | None => None
  | Some dataArray =>
      let processedData := processStepsData deviceType dataArray in
      Some {| stepsCurrent := orNumber (DataProcessors.steps processedData) (Finite 0);
              stepsTimestamp := now; stepsUnit := "steps" |}
  end.

(** normalizeStepsMetric *)
Definition normalizeStepsMetric (rawData : RawData) (config : FieldMapping)
    (deviceType : string) (platform : Platform) : option StepsMetric * RawData :=
  match platform with
  | android => normalizeStepsMetricAndroid rawData config deviceType
  | ios => (normalizeStepsMetricIOS rawData config deviceType, rawData)
  end.

(** normalizeCaloriesMetric *)
Definition normalizeCaloriesMetric (rawData : RawData) (config : FieldMapping)
    (deviceType : string) : option double :=
  match nonEmpty (extractDataArray V rawData (dataPath config)) with
  | None => None
  | Some dataArray =>
      let processedData := processStepsData deviceType dataArray in
      let stepCount := orNumber (DataProcessors.steps processedData) (Finite 0) in
      let validated :=
        if isZero stepCount then Finite 0
        else orNumber (DataProcessors.calories processedData) (Finite 0) in
      Some validated
  end.

(** normalizeDistanceMetric *)
Definition normalizeDistanceMetric (rawData : RawData) (config : FieldMapping)
    (deviceType : string) : option double :=
  match nonEmpty (extractDataArray V rawData (dataPath config)) with
  | None => None
  | Some dataArray =>
      Some (orNumber (DataProcessors.distance (processStepsData deviceType dataArray))
              (Finite 0))
  end.

(** *** Sleep *)

(** createEmptySleepData *)
Definition createEmptySleepData : SleepData :=
  {| totalMinutes := Finite 0; deepSleepMinutes := Finite 0; lightSleepMinutes := Finite 0;
     remSleepMinutes := Finite 0; totalSleepSeconds := Finite 0;
     totalDeepSleepSeconds := Finite 0; totalLightSleepSeconds := Finite 0;
     totalRemSleepSeconds := Finite 0;
     sleepTimestamp := VNum now; sleepUnit := "minutes" |}.

(** The time value of [sessionDate] in the filter callback of
    normalizeSleepMetric, or [None] when the session is dropped for want
    of a usable start. *)
Definition sessionStartFallback (session : obj) : option Z :=
  let rawTime :=
    or (get session "startTime") (or (get session "time") (or (get session "timestamp")
      (or (get session "startTimeStamp") (or (get session "startTimestamp") (VNum 0))))) in
  let scaled :=
    match toNumber h rawTime with
    | Some n =>
        if Qltb n TIMESTAMP_SECOND_TO_MS_THRESHOLD_SHORT
        then Some (fmul (fl n) (Finite 1000)) else None
    | None => None
    end in
  match scaled with
  | Some ms => if truthyNumber ms then Date_of ms else None
  | None =>
      if truthy rawTime then
        match rawTime with
        | VNum q => Date_new q
        | VStr s => match Date_parse h s with Some p => Date_new p | None => None end
        | _ => None
        end
      else None
  end.

Definition sessionStartDate (config : SleepMapping) (session : obj) : option Z :=
  match extractTimestamp V session (sleepTimestampFields config) with
  | Some t => if Qeq_bool t 0 then sessionStartFallback session else Date_new t
  | None => sessionStartFallback session
  end.

Definition isCurrentDaySession (config : SleepMapping) (session : obj) : bool :=
  match sessionStartDate config session with
  | Some t => (dayStart vietnamDay <=? t)%Z && (t <=? dayEnd vietnamDay)%Z
  | None => false
  end.

(** One stage duration of a session, in seconds. *)
Definition stageSeconds (session : obj) (fields : list string) (minutesField : string)
  : double :=
  let best := extractBestValue V session fields None in
  if Qeq_bool best 0 then
    let m := get session minutesField in
    if truthy m then fmul (ofNumber (toNumber h m)) (Finite 60) else Finite 0
  else fl best.

(** [a > b] on values: two strings compare as strings, anything else as
    numbers. *)
Definition jsGt (a b : value) : bool :=
  match a, b with
  | VStr x, VStr y => String.ltb y x
  | _, _ =>
      match toNumber h a, toNumber h b with
      | Some x, Some y => Qgtb x y
      | _, _ => false
      end
  end.

Record SleepTotals : Type := {
  deepSeconds : double;
  lightSeconds : double;
  remSeconds : double;
  latestEndTime : value
}.

Definition sleepStep (config : SleepMapping) (acc : SleepTotals) (session : obj)
  : SleepTotals :=
  let sessionEndTime := or (get session "endTime") (or (get session "startTime") (VNum 0)) in
  {| deepSeconds :=
       fadd (deepSeconds acc) (stageSeconds session (deepSleepFields config) "deepSleepMinutes");
     lightSeconds :=
       fadd (lightSeconds acc) (stageSeconds session (lightSleepFields config) "lightSleepMinutes");
     remSeconds :=
       fadd (remSeconds acc) (stageSeconds session (remSleepFields config) "remSleepMinutes");
     latestEndTime :=
       if jsGt sessionEndTime (latestEndTime acc) then sessionEndTime else latestEndTime acc |}.

Definition sleepTotals (config : SleepMapping) (sessions : list obj) : SleepTotals :=
  fold_left (sleepStep config) sessions
    {| deepSeconds := Finite 0; lightSeconds := Finite 0; remSeconds := Finite 0;
       latestEndTime := VNum 0 |}.

(** The tail of normalizeSleepMetric, from the three totals on. *)
Definition sleepFromTotals (d l r : double) (latest : value) : option SleepData :=
  let totalSeconds := fadd (fadd d l) r in
  let total := mathRound (fdiv totalSeconds (Finite 60)) in
  if fgt total MAX_SLEEP_MINUTES then
    let ratio := fdiv MAX_SLEEP_MINUTES total in
    Some {| totalMinutes := MAX_SLEEP_MINUTES;
            deepSleepMinutes := mathRound (fmul (fdiv d (Finite 60)) ratio);
            lightSleepMinutes := mathRound (fmul (fdiv l (Finite 60)) ratio);
            remSleepMinutes := mathRound (fmul (fdiv r (Finite 60)) ratio);
            totalDeepSleepSeconds := d;
            totalLightSleepSeconds := l;
            totalRemSleepSeconds := r;
            totalSleepSeconds := mathRound (fmul totalSeconds ratio);
            sleepTimestamp := or latest (VNum now);
            sleepUnit := "minutes" |}
  else if fgt total (Finite 0) then
    Some {| totalMinutes := total;
            deepSleepMinutes := mathRound (fdiv d (Finite 60));
            lightSleepMinutes := mathRound (fdiv l (Finite 60));
            remSleepMinutes := mathRound (fdiv r (Finite 60));
            totalSleepSeconds := totalSeconds;
            totalDeepSleepSeconds := d;
            totalLightSleepSeconds := l;
            totalRemSleepSeconds := r;
            sleepTimestamp := or latest (VNum now);
            sleepUnit := "minutes" |}
  else None.

(** normalizeSleepMetric *)
Definition normalizeSleepMetric (rawData : RawData) (config : SleepMapping)
  : option SleepData :=
  match nonEmpty (extractDataArray V rawData (sleepPath config)) with
  | None => Some createEmptySleepData
  | Some dataArray =>
      match List.filter (isCurrentDaySession config) dataArray with
      | [] => Some createEmptySleepData
      | currentDaySleepSessions =>
          let t := sleepTotals config currentDaySleepSessions in
          sleepFromTotals (deepSeconds t) (lightSeconds t) (remSeconds t) (latestEndTime t)
      end
  end.

(** *** Blood pressure *)

Definition bpStep (config : BloodPressureMapping) (best : Q * Q * Q) (record : obj)
  : Q * Q * Q :=
  let '(bestTimestamp, bestSystolic, bestDiastolic) := best in
  let ts := tsNum (extractTimestamp V record (bpTimestampFields config)) in
  let sys := extractBestValue V record (systolicFields config) (Some systolicValid) in
  let dia := extractBestValue V record (diastolicFields config) (Some diastolicValid) in
  if Qgtb sys 0 && Qgtb dia 0 && Qgtb ts bestTimestamp then (ts, sys, dia) else best.

(** What the loop reads off one record, and when the record can be
    selected at all. *)
Definition bpSystolic (config : BloodPressureMapping) (record : obj) : Q :=
  extractBestValue V record (systolicFields config) (Some systolicValid).
Definition bpDiastolic (config : BloodPressureMapping) (record : obj) : Q :=
  extractBestValue V record (diastolicFields config) (Some diastolicValid).
Definition bpTime (config : BloodPressureMapping) (record : obj) : Q :=
  tsNum (extractTimestamp V record (bpTimestampFields config)).
Definition bpQualifies (config : BloodPressureMapping) (record : obj) : bool :=
  Qgtb (bpSystolic config record) 0 && Qgtb (bpDiastolic config record) 0
  && Qgtb (bpTime config record) 0.

(** What the loop holds after the records [seen]: nothing yet, or the
    readings of a qualifying record of greatest timestamp, with its place
    in the array: every qualifying record before it is strictly older,
    every qualifying record after it is no newer. *)
Definition bpFirstLatest (config : BloodPressureMapping) (seen : list obj)
    (best : Q * Q * Q) : Prop :=
  (best = (0%Q, 0%Q, 0%Q) /\ forall r, In r seen -> bpQualifies config r = false)
  \/ (exists pre r post,
        seen = (pre ++ r :: post)%list /\ bpQualifies config r = true
        /\ best = (bpTime config r, bpSystolic config r, bpDiastolic config r)
        /\ (forall r', In r' pre -> bpQualifies config r' = true ->
                       (bpTime config r' < bpTime config r)%Q)
        /\ (forall r', In r' post -> bpQualifies config r' = true ->
                       (bpTime config r' <= bpTime config r)%Q)).

(** normalizeBloodPressureMetric *)
Definition normalizeBloodPressureMetric (rawData : RawData) (config : BloodPressureMapping)
  : option BloodPressure :=
  match nonEmpty (extractDataArray V rawData (bpPath config)) with
  | None => None
  | Some dataArray =>
      let '(bestTimestamp, bestSystolic, bestDiastolic) :=
        fold_left (bpStep config) dataArray (0%Q, 0%Q, 0%Q) in
      if Qgtb bestSystolic 0 && Qgtb bestDiastolic 0
      then Some {| systolic := bestSystolic; diastolic := bestDiastolic;
                   bpTimestamp := bestTimestamp; bpUnit := "mmHg" |}
      else None
  end.

End WithEnvironment.

(** *** The whole record *)

(** What one run of normalizeHealthData reads off the calendar: the day
    range of the heart-rate and of the SpO2 normalizer, the day window of
    the sleep normalizer, and the windows the step processor reads record
    by record when it runs for the steps metric, for the calories and
    for the distance.  The synchronous normalizers run while the promises
    are collected, the sleep normalizer resumes during the [await] on
    them, and calories and distance are computed after it. *)
Record DayReadings : Type := {
  heartRateToday : DayRange;
  spo2Today : DayRange;
  stepsDays : nat -> DayRange;
  sleepDay : DayRange;
  caloriesDays : nat -> DayRange;
  distanceDays : nat -> DayRange
}.

(** What one run reads off [Date.now()] and [new Date()]. *)
Record ClockReadings : Type := {
  stepsNow : Q;
  sleepNow : Q;
  batteryNow : Q;
  lastSyncNow : Q
}.

Section WholeRecord.
Variable h : Host.
Variable V : DataValidator.
Variable calculator : HealthCalculator.
Variable days : DayReadings.
Variable clock : ClockReadings.
(** [Platform.OS] *)
Variable hostOS : option Platform.

Definition emptyRecord (deviceType : string) (platform : Platform) : NormalizedHealthData :=
  {| nHeartRate := None; nSpo2 := None; nSteps := None; nCalories := None;
     nDistance := None; nSleep := None; nBloodPressure := None; nTemperature := None;
     nBattery := None; lastSync := lastSyncNow clock; nDeviceType := deviceType;
     nPlatform := platform; nRawData := None |}.

(** normalizeHealthData.  The metric normalizers run in the order the
    argument list of [Promise.all] evaluates them; the step normalizer may
    write into the payload, and everything after it reads the payload as
    it was left.  The record carries the payload object itself. *)
Definition normalizeHealthData (rawData : option RawData) (deviceType : string)
    (platform : Platform) : NormalizedHealthData :=
  match rawData with
  | None => emptyRecord deviceType platform
  | Some raw0 =>
      let baseMapping := getDeviceMapping hostOS deviceType in
      let mapping := applyPlatformAdjustments baseMapping platform in
      let heartRate :=
        normalizeHeartRateMetric V (heartRateToday days) raw0 (Mapping.heartRate mapping)
          platform in
      let spo2 :=
        normalizeSpo2Metric V (spo2Today days) raw0 (Mapping.spo2 mapping) platform in
      let '(steps, raw1) :=
        normalizeStepsMetric h V calculator (stepsDays days) (stepsNow clock) raw0
          (Mapping.steps mapping) deviceType platform in
      let sleep :=
        normalizeSleepMetric h V (sleepDay days) (sleepNow clock) raw1 (Mapping.sleep mapping) in
      let bloodPressure := normalizeBloodPressureMetric V raw1 (Mapping.bloodPressure mapping) in
      let temperature := normalizeTemperatureMetric V raw1 (Mapping.temperature mapping) in
      let battery :=
        normalizeBatteryMetric V (batteryNow clock) raw1 (Mapping.battery mapping) in
      let calories :=
        normalizeCaloriesMetric h V calculator (caloriesDays days) raw1
          (default (Mapping.steps mapping) (Mapping.calories mapping)) deviceType in
      let distance :=
        normalizeDistanceMetric h V calculator (distanceDays days) raw1
          (default (Mapping.steps mapping) (Mapping.distance mapping)) deviceType in
      {| nHeartRate := heartRate; nSpo2 := spo2; nSteps := steps; nCalories := calories;
         nDistance := distance; nSleep := sleep; nBloodPressure := bloodPressure;
         nTemperature := temperature; nBattery := battery; lastSync := lastSyncNow clock;
         nDeviceType := deviceType; nPlatform := platform; nRawData := Some raw1 |}
  end.

End WholeRecord.

(** One window and one clock reading throughout a run. *)
Definition sameDay (day : DayRange) : DayReadings :=
  {| heartRateToday := day; spo2Today := day; stepsDays := fun _ => day;
     sleepDay := day; caloriesDays := fun _ => day; distanceDays := fun _ => day |}.

Definition sameClock (now : Q) : ClockReadings :=
  {| stepsNow := now; sleepNow := now; batteryNow := now; lastSyncNow := now |}.

End Normalizer.

(** ** A reference [DataValidator] *)

Module SpecValidator.
Import Js Normalizer.

(** Modelled from the spec: the implementation of [DataValidator] is
    missing from the sources.  The spec describes the field lists as
    "priority order, first present wins" (an ordered lookup where the
    first present non-null field wins): this is that lookup. *)
Fixpoint firstPresent (record : obj) (fields : list string) : option value :=
  match fields with
  | [] => None
  | f :: rest =>
      match get record f with
      | VUndef | VNull => firstPresent record rest
      | v => Some v
      end
  end.

(** Modelled from the spec: [DataValidator.extractDataArray] is missing
    from the sources.  The spec describes the payload as "named arrays
    per metric" read through the [dataPath] of the mapping. *)
Definition specExtractDataArray (rawData : RawData) (path : string) : option (list obj) :=
  rawData !! path.

(** Modelled from the spec: [DataValidator.extractTimestamp] is missing
    from the sources.  The first present timestamp field wins. *)
Definition specExtractTimestamp (h : Host) (record : obj) (fields : list string)
  : option Q :=
  match firstPresent record fields with
  | Some v => toNumber h v
  | None => None
  end.

(** Modelled from the spec: [DataValidator.extractBestValue] is missing
    from the sources.  The first present value field wins and is kept
    only when it "passes a metric-specific plausibility filter". *)
Definition specExtractBestValue (h : Host) (record : obj) (fields : list string)
    (validator : option (Q -> bool)) : Q :=
  match firstPresent record fields with
  | Some v =>
      match toNumber h v with
      | Some q =>
          match validator with
          | Some ok => if ok q then q else 0%Q
          | None => q
          end
      | None => 0%Q
      end
  | None => 0%Q
  end.

(** Modelled from the spec: the [DataValidator] instance, missing from
    the sources, assembled from the lookups above;
    [validateAndCleanData] hands the payload back as it is. *)
Definition specValidator (h : Host) : DataValidator :=
  {| extractDataArray := specExtractDataArray;
     extractTimestamp := specExtractTimestamp h;
     extractBestValue := specExtractBestValue h;
     validateAndCleanData := fun rawData => rawData |}.

(** A day window for running the model (14 to 15 November 2023, UTC). *)
Definition sampleDay : DayRange :=
  {| dayStart := 1700000000000; dayEnd := 1700086399999 |}.

(** A calculator for running the model: 0.04 kcal and 0.762 m per step. *)
Definition sampleCalculator : HealthCalculator :=
  {| calculateCaloriesFromSteps := fun s => fmul s (fl (4 # 100));
     calculateDistanceFromSteps := fun s => fmul s (fl (762 # 1000)) |}.

(** The day after the sample day. *)
Definition nextDay : DayRange :=
  {| dayStart := 1700086400000; dayEnd := 1700172799999 |}.

(** A run that begins just before midnight: the steps metric is computed
    while the windows read are still those of the sample day; calories
    and distance are computed after the [await], when the windows read
    are those of the next day. *)
Definition acrossMidnight : DayReadings :=
  {| heartRateToday := sampleDay; spo2Today := sampleDay; stepsDays := fun _ => sampleDay;
     sleepDay := nextDay; caloriesDays := fun _ => nextDay;
     distanceDays := fun _ => nextDay |}.

(** *** Sample payloads *)

Import Mapping.
Local Open Scope string_scope.

(** Scenario A: [steps = [{value: 0}]] and [calories = [{value: 500}]]. *)
Definition valueRecord (q : Q) : obj := <["value" := VNum q]> ∅.

Definition scenarioA : RawData :=
  <["steps" := cons (valueRecord 0) nil]>
    (<["calories" := cons (valueRecord 500) nil]> ∅).

(** A step record with its time, step value and calories. *)
Definition stepRecord (time steps kcal : Q) : obj :=
  <["time" := VNum time]> (<["step" := VNum steps]> (<["calories" := VNum kcal]> ∅)).

(** One step record dated one second after the midnight that ends the
    sample day: 1000 steps, 500 kcal. *)
Definition afterMidnightSteps : RawData :=
  <["steps" := cons (stepRecord 1700086401000 1000 500) nil]> ∅.

(** A step record of the sample day whose step value rounds to 0 while
    it reports 500 kcal. *)
Definition restingSteps : RawData :=
  <["steps" := cons (stepRecord 1700000001000 (4 # 10) 500) nil]> ∅.

(** Scenario D: two in-day sessions that sum to 600 + 700 + 200 = 1500
    minutes of deep, light and rem sleep. *)
Definition sleepSession (start deep light rem : Q) : obj :=
  <["time" := VNum start]> (<["deepSleepSeconds" := VNum deep]>
    (<["lightSleepSeconds" := VNum light]> (<["remSleepSeconds" := VNum rem]> ∅))).

Definition scenarioD : RawData :=
  <["sleep" := cons (sleepSession 1700000001000 18000 21000 6000)
                 (cons (sleepSession 1700000002000 18000 21000 6000) nil)]> ∅.

(** One in-day session of 1953 s of deep and 87327 s of light sleep
    (1488 minutes), and one that reports no deep seconds and 1e307
    minutes of deep sleep. *)
Definition longNight : RawData :=
  <["sleep" := cons (sleepSession 1700000001000 1953 87327 0) nil]> ∅.

Definition overflowingNight : RawData :=
  <["sleep" :=
      cons (<["time" := VNum 1700000001000]>
              (<["deepSleepSeconds" := VNum 0]>
                 (<["deepSleepMinutes" := VNum (inject_Z (10 ^ 307))]> ∅))) nil]> ∅.

Definition sleepConfig : SleepMapping :=
  Mapping.sleep (applyPlatformAdjustments mapping_yc android).

(** Two readings taken well before the day window of the run. *)
Definition reading (time sys dia : Q) : obj :=
  <["time" := VNum time]> (<["systolic" := VNum sys]> (<["diastolic" := VNum dia]> ∅)).

Definition staleReadings : RawData :=
  <["bloodPressure" :=
      cons (reading 1690000000000 120 80) (cons (reading 1690000600000 118 76) nil)]> ∅.

(** Two readings sharing the latest timestamp, after an older one. *)
Definition tiedReadings : RawData :=
  <["bloodPressure" :=
      cons (reading 1690000000000 120 80)
        (cons (reading 1690000600000 118 76) (cons (reading 1690000600000 131 85) nil))]> ∅.

Definition oneStaleReading : RawData :=
  <["bloodPressure" := cons (reading 1690000000000 120 80) nil]> ∅.

(** An Android payload in the combined-stream shape. *)
Definition combinedStep : obj :=
  <["stepValue" := VNum 120]> (<["step" := VNum 120]> (<["time" := VNum 1700000001000]> ∅)).

Definition combinedPayload : RawData := <["step" := cons combinedStep nil]> ∅.

End SpecValidator.

(** ** DeviceHealthSync: the bounded-retry retrieval loop *)

Module HealthSync.
Import Js.

Local Open Scope string_scope.

Definition HEALTH_SYNC_TIMEOUT_MS : Z := 65000.
Definition DATA_RETRY_ATTEMPTS : nat := 3.
Definition RECOVERY_DELAY_MS : Z := 2000.

(** createSyncError: the message of the error object. *)
Definition createSyncError (code message : string) : string :=
  "[AutoDeviceSync:" ++ code ++ "] " ++ message.

(** A property of the raw payload that may hold a collection: an array,
    an object wrapping one under [data] or [list], or anything else. *)
Inductive Collection : Type :=
| CArray (items : list obj)
| CData (items : list obj)
| CList (items : list obj)
| COther.

(** The local [extractArray] of hasMeaningfulData. *)
Definition extractArray (c : Collection) : list obj :=
  match c with
  | CArray l | CData l | CList l => l
  | COther => []
  end.

(** The raw payload as hasMeaningfulData reads it: its collections by
    name and the summary block ([raw.summary || raw.healthData?.summary]). *)
Record Payload : Type := {
  collections : gmap string Collection;
  summary : option obj
}.

Definition arraysToCheck : list string :=
  ["combinedData"; "step"; "steps"; "heartRate"; "heartRates"; "sleep"; "sleepData";
   "spO2"; "spO2Data"; "bloodPressure"; "bloodOxygen"].

Definition positiveNumber (v : value) : bool :=
  match v with
  | VNum q => Qgtb q 0
  | _ => false
  end.

(** hasMeaningfulData; [None] is a payload that is not an object. *)
Definition hasMeaningfulData (raw : option Payload) : bool :=
  match raw with
  | None => false
  | Some p =>
      if existsb (fun name =>
                    match extractArray (default COther (collections p !! name)) with
                    | [] => false
                    | _ => true
                    end) arraysToCheck
      then true
      else match summary p with
           | Some s =>
               existsb (fun f => positiveNumber (get s f))
                 ["step"; "heartRate"; "bloodOxygen"; "sleepMinutes"; "calories"]
           | None => false
           end
  end.

(** What one pass through the loop body meets: the answers of the
    collaborators, [inl] for a thrown error message. *)
Record AttemptEnv : Type := {
  probeConnected : string + bool;        (* isDeviceConnectedByUUID *)
  connectResult : bool;                  (* connectDevice *)
  pullResult : string + option Payload;  (* pullRawHealthData *)
  normalizeResult : option string        (* normalizeAndSaveHealthData: a thrown message *)
}.

Inductive Event : Type :=
| EvAttempt (attempt : nat)
| EvProbe
| EvConnect
| EvPull
| EvNormalize
| EvDisconnect
| EvReconnect
| EvWait (ms : Z).

(** anonymizeUuid *)
Fixpoint takeChars (n : nat) (s : string) : string :=
  match n, s with
  | S k, String c r => String c (takeChars k r)
  | _, _ => EmptyString
  end.

Definition lastChars (n : nat) (s : string) : string :=
  rev_string EmptyString (takeChars n (rev_string EmptyString s)).

Definition anonymizeUuid (uuid : string) : string :=
  if (8 <? String.length uuid)%nat
  then takeChars 4 uuid ++ "…" ++ lastChars 4 uuid
  else if is_empty_string uuid then "unknown" else uuid.

Section Loop.
Variable uuid : string.
Variable deviceType : string.
Variable platformOS : string.
Variable isAlreadyConnected : bool.
Variable env : nat -> AttemptEnv.

Definition connectionFailedMessage : string :=
  createSyncError "CONNECTION_FAILED"
    ("Failed to connect to device before health data fetch. UUID: " ++ anonymizeUuid uuid
     ++ ", DeviceType: " ++ deviceType ++ ", Platform: " ++ platformOS).

(** The [try] body of one pass: the payload, or the message of the error
    it throws, with the calls it makes. *)
Definition tryAttempt (e : AttemptEnv) : (string + option Payload) * list Event :=
  let connectPhase : option string * list Event :=
    if isAlreadyConnected then (None, [EvWait 100])
    else
      match probeConnected e with
      | inl msg => (Some msg, [EvProbe])
      | inr true => (None, [EvProbe; EvWait 100])
      | inr false =>
          if connectResult e then (None, [EvProbe; EvConnect; EvWait 100])
          else (Some connectionFailedMessage, [EvProbe; EvConnect])
      end in
  match connectPhase with
  | (Some msg, evs) => (inl msg, evs)
  | (None, evs) =>
      match pullResult e with
      | inl msg => (inl msg, (evs ++ [EvWait 100; EvPull])%list)
      | inr raw =>
          if hasMeaningfulData raw then
            match normalizeResult e with
            | Some msg => (inl msg, (evs ++ [EvWait 100; EvPull; EvNormalize])%list)
            | None => (inr raw, (evs ++ [EvWait 100; EvPull; EvNormalize])%list)
            end
          else (inl (createSyncError "EMPTY_DATA" "Health data payload is empty"),
                (evs ++ [EvWait 100; EvPull])%list)
      end
  end.

Definition isLockedMessage (msg : string) : bool :=
  includes "locked" (toLowerCase msg).

Definition isEmptyDataMessage (msg : string) : bool :=
  let lower := toLowerCase msg in
  includes "empty_data" lower || includes "empty data" lower
  || includes "payload is empty" lower.

(** attemptRecovery *)
Definition attemptRecovery : list Event :=
  [EvDisconnect; EvWait RECOVERY_DELAY_MS; EvReconnect].

(** The [for] loop of fetchHealthDataWithRetry, entered at [attempt] with
    [remaining = DATA_RETRY_ATTEMPTS - attempt] passes left.  The result is
    the payload ([inr]) or the message of the error finally thrown. *)
Fixpoint retryLoop (remaining attempt : nat) (lastError : option string)
  : (string + option Payload) * list Event :=
  match remaining with
  | O =>
      (inl (default (createSyncError "UNKNOWN" "Unable to complete health data sync") lastError),
       [])
  | S k =>
      let '(r, evs) := tryAttempt (env attempt) in
      match r with
      | inr raw => (inr raw, EvAttempt attempt :: evs)
      | inl msg =>
          if isLockedMessage msg then (inl msg, EvAttempt attempt :: evs)
          else if isEmptyDataMessage msg then
            (inl (createSyncError "EMPTY_DATA" "Health data payload is empty - sync failed"),
             EvAttempt attempt :: evs)
          else if (attempt =? DATA_RETRY_ATTEMPTS - 1)%nat then
            (inl msg, EvAttempt attempt :: evs)
          else
            let '(res, rest) := retryLoop k (S attempt) (Some msg) in
            (res,
             (EvAttempt attempt :: evs ++ attemptRecovery
                ++ [EvWait (RECOVERY_DELAY_MS * (Z.of_nat attempt + 1))] ++ rest)%list)
      end
  end.

(** fetchHealthDataWithRetry *)
Definition fetchHealthDataWithRetry : (string + option Payload) * list Event :=
  retryLoop DATA_RETRY_ATTEMPTS 0 None.

End Loop.

Definition isAttempt (e : Event) : bool :=
  match e with EvAttempt _ => true | _ => false end.

Definition isPull (e : Event) : bool :=
  match e with EvPull => true | _ => false end.

Definition countAttempts (tr : list Event) : nat := length (List.filter isAttempt tr).
Definition countPulls (tr : list Event) : nat := length (List.filter isPull tr).

(** How the loop classifies the message of a failed pass. *)
Inductive FailureKind : Type := LOCKED | EMPTY_DATA | OTHER.

Definition failureKind (msg : string) : FailureKind :=
  if isLockedMessage msg then LOCKED
  else if isEmptyDataMessage msg then EMPTY_DATA
  else OTHER.

(** *** A sample run *)

(** A run on a connected ring: the first pull times out, the second
    brings a payload without any usable metric. *)
Definition timeoutMessage : string :=
  createSyncError "TIMEOUT" "Operation timeout after 65000ms".

Definition emptyPayload : Payload := {| collections := ∅; summary := None |}.

Definition timeoutThenEmpty (attempt : nat) : AttemptEnv :=
  match attempt with
  | O => {| probeConnected := inr true; connectResult := true;
            pullResult := inl timeoutMessage; normalizeResult := None |}
  | _ => {| probeConnected := inr true; connectResult := true;
            pullResult := inr (Some emptyPayload); normalizeResult := None |}
  end.

End HealthSync.

(** ** AutoSyncService: error classification, counters and cooldown *)

Module AutoSync.
Import Js.

Local Open Scope string_scope.
Local Open Scope Z_scope.

Definition DEVICE_SYNC_TIMEOUT_MS : Z := 90000.
Definition ERROR_COOLDOWN_MS : Z := 5 * 60 * 1000.
Definition SYNC_INTERVAL_MS : Z := 30 * 60 * 1000.
Definition MAX_CONSECUTIVE_ERRORS : Z := 3.

(** The static fields of the service that the error path and the tick
    gate read or write.  Times are epoch milliseconds; [lastErrorTime] is
    the parsed value of the stored ISO string. *)
Record State : Type := {
  isDeviceSyncRunning : bool;
  isOSSyncRunning : bool;
  isInDetailDeviceScreen : bool;
  isPaused : bool;
  isRunning : bool;
  intervalActive : bool;
  consecutiveErrorCount : Z;
  lastErrorTime : option Z;
  lastSyncTime : option Z;
  lastSyncSource : option string
}.

Definition initialState : State :=
  {| isDeviceSyncRunning := false; isOSSyncRunning := false;
     isInDetailDeviceScreen := false; isPaused := false; isRunning := false;
     intervalActive := false; consecutiveErrorCount := 0; lastErrorTime := None;
     lastSyncTime := None; lastSyncSource := None |}.

Definition setDeviceSyncRunning (b : bool) (st : State) : State :=
  {| isDeviceSyncRunning := b; isOSSyncRunning := isOSSyncRunning st;
     isInDetailDeviceScreen := isInDetailDeviceScreen st; isPaused := isPaused st;
     isRunning := isRunning st; intervalActive := intervalActive st;
     consecutiveErrorCount := consecutiveErrorCount st;
     lastErrorTime := lastErrorTime st; lastSyncTime := lastSyncTime st;
     lastSyncSource := lastSyncSource st |}.

Definition setOSSyncRunning (b : bool) (st : State) : State :=
  {| isDeviceSyncRunning := isDeviceSyncRunning st; isOSSyncRunning := b;
     isInDetailDeviceScreen := isInDetailDeviceScreen st; isPaused := isPaused st;
     isRunning := isRunning st; intervalActive := intervalActive st;
     consecutiveErrorCount := consecutiveErrorCount st;
     lastErrorTime := lastErrorTime st; lastSyncTime := lastSyncTime st;
     lastSyncSource := lastSyncSource st |}.

Definition setErrors (count : Z) (t : option Z) (st : State) : State :=
  {| isDeviceSyncRunning := isDeviceSyncRunning st; isOSSyncRunning := isOSSyncRunning st;
     isInDetailDeviceScreen := isInDetailDeviceScreen st; isPaused := isPaused st;
     isRunning := isRunning st; intervalActive := intervalActive st;
     consecutiveErrorCount := count; lastErrorTime := t;
     lastSyncTime := lastSyncTime st; lastSyncSource := lastSyncSource st |}.

Definition setLastSync (t : Z) (source : string) (st : State) : State :=
  {| isDeviceSyncRunning := isDeviceSyncRunning st; isOSSyncRunning := isOSSyncRunning st;
     isInDetailDeviceScreen := isInDetailDeviceScreen st; isPaused := isPaused st;
     isRunning := isRunning st; intervalActive := intervalActive st;
     consecutiveErrorCount := consecutiveErrorCount st;
     lastErrorTime := lastErrorTime st; lastSyncTime := Some t;
     lastSyncSource := Some source |}.

Definition setPaused (paused interval : bool) (st : State) : State :=
  {| isDeviceSyncRunning := isDeviceSyncRunning st; isOSSyncRunning := isOSSyncRunning st;
     isInDetailDeviceScreen := isInDetailDeviceScreen st; isPaused := paused;
     isRunning := isRunning st; intervalActive := interval;
     consecutiveErrorCount := consecutiveErrorCount st;
     lastErrorTime := lastErrorTime st; lastSyncTime := lastSyncTime st;
     lastSyncSource := lastSyncSource st |}.

(** What the service does to its collaborators along the way. *)
Inductive Effect : Type :=
| ClearConnectionTimeout
| ForceStopHealthDataOperation
| ResetConnectionState
| OnSyncError (source : string)
| OnSyncComplete (source : string)
| EmitAnimationStop
| EmitServiceStarted.

(** shouldAbort *)
Definition shouldAbort (st : State) : bool := isPaused st || isInDetailDeviceScreen st.

Record ErrorClass : Type := {
  isBluetooth : bool;
  isTimeout : bool;
  isNullPointer : bool;
  isConnection : bool;
  isLocked : bool;
  isEmptyData : bool
}.

(** classifyError *)
Definition classifyError (errorMessage : string) : ErrorClass :=
  let lower := toLowerCase errorMessage in
  {| isBluetooth :=
       includes "bluetooth" lower || includes "noclassdeffounderror" lower
       || includes "mqttcallback" lower || includes "aliagentsdk" lower;
     isTimeout := includes "timed out" lower || includes "timeout" lower;
     isNullPointer :=
       includes "null" lower || includes "undefined" lower
       || includes "cannot read property" lower || includes "cannot read properties" lower;
     isConnection :=
       includes "connect failed" lower || includes "cannot connect" lower
       || includes "connection failed" lower || includes "device not connected" lower
       || includes "out of range" lower || includes "error 1" lower
       || includes "error code 1" lower || includes "state: 7" lower
       || includes "device out of range" lower;
     isLocked := includes "locked" lower;
     isEmptyData :=
       includes "empty_data" lower || includes "empty data" lower
       || includes "payload is empty" lower |}.

(** handleDeviceSyncError, at clock reading [now]. *)
Definition handleDeviceSyncError (errorMessage : string) (hasConnectionTimeout : bool)
    (now : Z) (st : State) : State * list Effect :=
  let c := classifyError errorMessage in
  let pre := if hasConnectionTimeout then [ClearConnectionTimeout] else [] in
  if isLocked c then
    (setErrors MAX_CONSECUTIVE_ERRORS (Some now) (setDeviceSyncRunning false st),
     pre ++ [ForceStopHealthDataOperation; OnSyncError "device"; EmitAnimationStop])%list
  else if isEmptyData c then
    (setErrors MAX_CONSECUTIVE_ERRORS (Some now) (setDeviceSyncRunning false st),
     pre ++ [ForceStopHealthDataOperation; OnSyncError "device"; EmitAnimationStop])%list
  else if isBluetooth c then
    (setDeviceSyncRunning false st,
     pre ++ [ForceStopHealthDataOperation; EmitAnimationStop])%list
  else if isConnection c then
    if 2 <=? consecutiveErrorCount st then
      (setDeviceSyncRunning false (setErrors (consecutiveErrorCount st) (Some now) st),
       pre ++ [EmitAnimationStop])%list
    else
      let count :=
        if consecutiveErrorCount st <? 3 then consecutiveErrorCount st + 1
        else consecutiveErrorCount st in
      (setDeviceSyncRunning false (setErrors count (Some now) st),
       pre ++ [EmitAnimationStop])%list
  else if isNullPointer c then
    if 1 <=? consecutiveErrorCount st then
      (setDeviceSyncRunning false (setErrors (consecutiveErrorCount st) (Some now) st),
       pre ++ [EmitAnimationStop])%list
    else
      let count :=
        if consecutiveErrorCount st <? 2 then consecutiveErrorCount st + 1
        else consecutiveErrorCount st in
      (setDeviceSyncRunning false (setErrors count (Some now) st),
       pre ++ [EmitAnimationStop])%list
  else if isTimeout c then
    if 2 <=? consecutiveErrorCount st then
      (setDeviceSyncRunning false (setErrors (consecutiveErrorCount st) (Some now) st),
       pre ++ [ForceStopHealthDataOperation; EmitAnimationStop])%list
    else
      let count :=
        if consecutiveErrorCount st <? 1 then consecutiveErrorCount st + 1
        else consecutiveErrorCount st in
      (setErrors count (Some now) st,
       pre ++ [OnSyncError "device"; EmitAnimationStop])%list
  else if MAX_CONSECUTIVE_ERRORS <=? consecutiveErrorCount st then
    (setDeviceSyncRunning false (setErrors (consecutiveErrorCount st) (Some now) st),
     pre ++ [ForceStopHealthDataOperation; EmitAnimationStop])%list
  else
    (setErrors (consecutiveErrorCount st + 1) (Some now) st,
     pre ++ [OnSyncError "device"; EmitAnimationStop])%list.

(** The one class under which handleDeviceSyncError treats an error: the
    first test that fires, in the order of its branches. *)
Inductive ErrorKind : Type :=
| KLocked | KEmptyData | KBluetooth | KConnection | KNullReference | KTimeout | KOther.

Definition errorKind (errorMessage : string) : ErrorKind :=
  let c := classifyError errorMessage in
  if isLocked c then KLocked
  else if isEmptyData c then KEmptyData
  else if isBluetooth c then KBluetooth
  else if isConnection c then KConnection
  else if isNullPointer c then KNullReference
  else if isTimeout c then KTimeout
  else KOther.

(** The failing exit of runDeviceSync when getHealthDataByDeviceType
    rejects with [errorMessage]: the inner [catch] swallows radio errors,
    anything else reaches the outer [catch] that classifies it; then the
    [finally]. *)
Definition deviceSyncFailure (errorMessage : string) (now : Z) (st : State)
  : State * list Effect :=
  let reset :=
    if includes "Connection already in progress" errorMessage
    then [ResetConnectionState] else [] in
  if isBluetooth (classifyError errorMessage) then
    (setDeviceSyncRunning false st,
     reset ++ [ClearConnectionTimeout; ForceStopHealthDataOperation])%list
  else
    let '(st1, effs) := handleDeviceSyncError errorMessage true now st in
    (setDeviceSyncRunning false st1,
     reset ++ effs ++ [ClearConnectionTimeout; ForceStopHealthDataOperation])%list.

(** The successful exit of runDeviceSync (the payload arrived and the
    service was not asked to abort meanwhile), then the [finally]. *)
Definition deviceSyncSuccess (now : Z) (st : State) : State * list Effect :=
  let st1 := setErrors 0 None (setLastSync now "device" st) in
  (setDeviceSyncRunning false st1,
   [OnSyncComplete "device"; ClearConnectionTimeout; ClearConnectionTimeout;
    ForceStopHealthDataOperation]).

(** The successful exit of runOSSync, then the [finally]. *)
Definition osSyncSuccess (now : Z) (st : State) : State * list Effect :=
  let st1 := setErrors 0 None (setLastSync now "os" st) in
  (setOSSyncRunning false st1, [OnSyncComplete "os"]).

(** resume *)
Definition resume (triggerSyncImmediately : bool) (st : State) : State * list Effect :=
  if negb (isPaused st) || negb (isRunning st) then (st, [])
  else (setPaused false true st, [EmitServiceStarted]).

(** How a call of performSafeSync gets past its guards. *)
Inductive TickDecision : Type :=
| SkipNotLoggedIn
| SkipLoggedOut
| SkipDetailScreen
| SkipShouldAbort
| SkipAlreadyRunning
| SkipCooldown
| Proceed.

(** The guards of performSafeSync, up to the point where the sync tasks
    are launched; [loggedIn] and [loggedOut] are the answers of the
    session collaborators. *)
Definition performSafeSyncGate (loggedIn loggedOut isManualSync : bool) (now : Z)
    (st : State) : TickDecision * State * list Effect :=
  if negb loggedIn then (SkipNotLoggedIn, st, [])
  else if loggedOut then (SkipLoggedOut, st, [])
  else
    let afterPause : option (TickDecision) * State * list Effect :=
      if isManualSync then
        if isInDetailDeviceScreen st then (Some SkipDetailScreen, st, [])
        else if isPaused st then
               let '(st', effs) := resume false st in (None, st', effs)
             else (None, st, [])
      else if shouldAbort st then (Some SkipShouldAbort, st, [])
           else (None, st, []) in
    match afterPause with
    | (Some d, st1, effs) => (d, st1, effs)
    | (None, st1, effs) =>
        if negb isManualSync && (isDeviceSyncRunning st1 || isOSSyncRunning st1)
        then (SkipAlreadyRunning, st1, effs)
        else if isManualSync then (Proceed, st1, effs)
        else if MAX_CONSECUTIVE_ERRORS <=? consecutiveErrorCount st1 then
          let timeSinceLastError :=
            match lastErrorTime st1 with
            | Some t => now - t
            | None => 0
            end in
          if timeSinceLastError <? ERROR_COOLDOWN_MS
          then (SkipCooldown, st1, (effs ++ [EmitAnimationStop])%list)
          else (Proceed, setErrors 0 None st1, effs)
        else (Proceed, st1, effs)
    end.

(** Whether a non-manual tick at [now] is inside the error cooldown. *)
Definition inCooldown (now : Z) (st : State) : bool :=
  (MAX_CONSECUTIVE_ERRORS <=? consecutiveErrorCount st)
  && (match lastErrorTime st with Some t => now - t | None => 0 end <? ERROR_COOLDOWN_MS).

(** resetLocks; [isInitializing] and the animation timer are not among
    the fields kept here. *)
Definition resetLocks (st : State) : State :=
  setErrors 0 None (setOSSyncRunning false (setDeviceSyncRunning false st)).

(** A run of consecutive failing device syncs, oldest first.  Each comes
    with the clock reading at which it is handled and with [recovered]:
    whether, while the pull was retried, a recovery went as far as
    resetLocks.  (Between two attempts fetchHealthDataWithRetry awaits
    attemptRecovery; its disconnectDevice, when the ring was connected
    and the native disconnect went through, awaits resetScanState, which
    calls resetAllOperationLocks, which calls AutoSyncService.resetLocks
    where that module resolves.)  The pull rejects afterwards, so the
    reset comes before the failing exit of runDeviceSync. *)
Fixpoint deviceSyncFailures (errors : list (string * Z * bool)) (st : State) : State :=
  match errors with
  | [] => st
  | (msg, now, recovered) :: rest =>
      deviceSyncFailures rest
        (fst (deviceSyncFailure msg now (if recovered then resetLocks st else st)))
  end.

(** *** Sample error messages *)

Definition timeoutMessage : string :=
  "[AutoDeviceSync:TIMEOUT] Operation timeout after 65000ms"%string.

Definition emptyDataMessage : string :=
  "[AutoDeviceSync:EMPTY_DATA] Health data payload is empty - sync failed"%string.

Definition genericMessage : string := "Native module rejected the request"%string.

End AutoSync.

(** ** DeviceScanner: discovery passes, lock back-off and single flight *)

Module Scanner.
Import Js.

Local Open Scope string_scope.

Definition SCAN_TIMEOUT_MS_DEFAULT : Z := 25000.
Definition MAX_SCAN_RETRIES : nat := 2.

(** [a === b] *)
Definition strictEq (a b : value) : bool :=
  match a, b with
  | VUndef, VUndef => true
  | VNull, VNull => true
  | VBool x, VBool y => Bool.eqb x y
  | VNum x, VNum y => Qeq_bool x y
  | VStr x, VStr y => String.eqb x y
  | _, _ => false
  end.

(** The first step of the deduplication: [uuid] and [id] alias each other. *)
Definition normalizeDevice (d : obj) : obj :=
  <["id" := or (get d "id") (get d "uuid")]>
    (<["uuid" := or (get d "uuid") (get d "id")]> d).

(** [arr.findIndex(x => x.uuid === u)], [None] for -1. *)
Fixpoint findIndex (u : value) (arr : list obj) : option nat :=
  match arr with
  | [] => None
  | x :: rest =>
      if strictEq (get x "uuid") u then Some O
      else option_map S (findIndex u rest)
  end.

(** [arr.filter((d, i, arr) => i === arr.findIndex(x => x.uuid === d.uuid))],
    walking the suffix that starts at index [i]. *)
Fixpoint keepFirstFrom (arr : list obj) (i : nat) (suffix : list obj) : list obj :=
  match suffix with
  | [] => []
  | d :: rest =>
      let tail := keepFirstFrom arr (S i) rest in
      match findIndex (get d "uuid") arr with
      | Some j => if (i =? j)%nat then d :: tail else tail
      | None => tail
      end
  end.

Definition dedupe (devices : list obj) : list obj :=
  let normalized := map normalizeDevice devices in
  keepFirstFrom normalized 0 normalized.

(** What one discovery pass meets. *)
Record PassEnv : Type := {
  bluetoothEnabled : bool;
  hasYCScanner : bool;
  hasRWScanner : bool;
  ycDevices : list obj;      (* the answer of scanYCDevices *)
  rwDevices : list obj;      (* the answer of scanRWDevices *)
  throws : bool              (* a collaborator fails inside the [try] *)
}.

Inductive ScanEvent : Type :=
| EvDiscovery (attempt : nat) (vendor : string)
| EvStopScan
| EvDelay (ms : Z).

(** [!deviceType] *)
Definition noDeviceType (deviceType : option string) : bool :=
  match deviceType with
  | None => true
  | Some s => is_empty_string s
  end.

Definition isType (t : string) (deviceType : option string) : bool :=
  match deviceType with
  | Some s => String.eqb s t
  | None => false
  end.

(** The part of a pass before deduplication: [None] when the pass ends
    early with the empty list (an error, the radio off, no scanner for
    the requested vendor), otherwise the discovered devices and the vendor
    asked, with whether the scanners were stopped first. *)
Definition discover (e : PassEnv) (deviceType : option string)
  : option (list obj * string) * bool :=
  if throws e then (None, false)
  else if negb (bluetoothEnabled e) then (None, false)
  else if isType "yc" deviceType && negb (hasYCScanner e) then (None, true)
  else if isType "rw" deviceType && negb (hasRWScanner e) then (None, true)
  else if noDeviceType deviceType && negb (hasYCScanner e) && negb (hasRWScanner e)
  then (None, true)
  else if isType "yc" deviceType then (Some (ycDevices e, "yc"), true)
  else if isType "rw" deviceType then (Some (rwDevices e, "rw"), true)
  else (Some (ycDevices e, "yc"), true).

Section PerformScan.
Variable env : nat -> PassEnv.
Variable deviceType : option string.

(** performScan with [attempt]; [budget] bounds the recursion depth and is
    never exhausted from [MAX_SCAN_RETRIES] on (see [performScan]). *)
Fixpoint performScanFrom (budget attempt : nat) : list obj * list ScanEvent :=
  let '(found, stopped) := discover (env attempt) deviceType in
  let stopEvents := if stopped then [EvStopScan] else [] in
  match found with
  | None => ([], stopEvents)
  | Some (devices, vendor) =>
      let unique := dedupe devices in
      match unique with
      | [] =>
          if (attempt + 1 <? MAX_SCAN_RETRIES)%nat then
            match budget with
            | S b =>
                let '(res, evs) := performScanFrom b (attempt + 1) in
                (res, stopEvents ++ [EvDiscovery attempt vendor; EvStopScan; EvDelay 500] ++ evs)%list
            | O => ([], stopEvents ++ [EvDiscovery attempt vendor])%list
            end
          else (unique, stopEvents ++ [EvDiscovery attempt vendor])%list
      | _ => (unique, stopEvents ++ [EvDiscovery attempt vendor])%list
      end
  end.

Definition performScan : list obj * list ScanEvent :=
  performScanFrom MAX_SCAN_RETRIES 0.

End PerformScan.

(** Whether an earlier device carries the identifier [u]. *)
Definition seenBefore (u : value) (earlier : list obj) : bool :=
  existsb (fun x => strictEq (get x "uuid") u) earlier.

Definition isDiscovery (e : ScanEvent) : bool :=
  match e with EvDiscovery _ _ => true | _ => false end.

(** The number of discovery calls of a scan. *)
Definition discoveryCalls (evs : list ScanEvent) : nat :=
  length (List.filter isDiscovery evs).

(** *** scanDevices *)

(** What scanDevices observes each time it runs its guards: the pending
    scan promise, if any, and the two locks of the connection service. *)
Record LockView : Type := {
  pendingScan : option nat;
  connectionInProgress : bool;
  healthDataOperationInProgress : bool
}.

(** What the guards at the head of scanDevices decide, in the order of
    the source: hand out the pending promise, give up with the empty
    list, back off for a second, or start a scan. *)
Inductive Guard : Type :=
| HandOut (p : nat)
| GiveUp
| BackOff
| Start.

Definition scanGuards (v : LockView) (bypassLocks : bool) (retryCount : nat) : Guard :=
  match pendingScan v with
  | Some p => HandOut p
  | None =>
      if (5 <=? retryCount)%nat then GiveUp
      else if connectionInProgress v then BackOff
      else if negb bypassLocks && healthDataOperationInProgress v then BackOff
      else Start
  end.

(** How a call of scanDevices ends: it is handed the pending promise, it
    returns the empty list, or it starts a scan of its own. *)
Inductive ScanOutcome : Type :=
| SharedPromise (p : nat)
| EmptyResult
| StartsScan.

(** scanDevices from [retryCount]; [view i] is what the guards observe
    when they run with retry count [i]; the delays waited are listed.
    [left] counts down from [6 - retryCount]; at 0 the retry count has
    passed 5, where the guards never back off. *)
Fixpoint scanDevicesFrom (view : nat -> LockView) (bypassLocks : bool)
    (left retryCount : nat) : ScanOutcome * list Z :=
  match scanGuards (view retryCount) bypassLocks retryCount with
  | HandOut p => (SharedPromise p, [])
  | GiveUp => (EmptyResult, [])
  | Start => (StartsScan, [])
  | BackOff =>
      match left with
      | O => (EmptyResult, [])
      | S k =>
          let '(r, waits) := scanDevicesFrom view bypassLocks k (retryCount + 1) in
          (r, 1000 :: waits)
      end
  end.

Definition scanDevices (view : nat -> LockView) (retryCount : nat) (bypassLocks : bool)
  : ScanOutcome * list Z :=
  scanDevicesFrom view bypassLocks (6 - retryCount) retryCount.

(** Whether a lock makes the guards of scanDevices back off. *)
Definition lockHeld (bypassLocks : bool) (v : LockView) : bool :=
  connectionInProgress v || (negb bypassLocks && healthDataOperationInProgress v).

(** *** Deduplication, restated; sample scans *)

(** The index filter of the source keeps a device exactly when no
    earlier device carries its identifier. *)
Fixpoint keepUnseen (earlier suffix : list obj) : list obj :=
  match suffix with
  | [] => []
  | d :: rest =>
      if seenBefore (get d "uuid") earlier then keepUnseen (earlier ++ [d]) rest
      else d :: keepUnseen (earlier ++ [d]) rest
  end.

(** No two devices of a list carry the same identifier. *)
Fixpoint distinctUuids (l : list obj) : Prop :=
  match l with
  | [] => True
  | d :: rest => seenBefore (get d "uuid") rest = false /\ distinctUuids rest
  end.

(** Retries, counted as discovery calls after the first. *)
Definition retriesOf (evs : list ScanEvent) : nat := (discoveryCalls evs - 1)%nat.

(** A ring that never shows up: every pass runs and finds nothing. *)
Definition nothingFound (attempt : nat) : PassEnv :=
  {| bluetoothEnabled := true; hasYCScanner := true; hasRWScanner := true;
     ycDevices := []; rwDevices := []; throws := false |}.

(** A scan whose first pass finds nothing and whose second pass reports
    one ring twice, once under [id] and once under [uuid], and another
    ring once. *)
Definition ringById : obj := <["id" := VStr "AA:01"]> (<["name" := VStr "Ring"]> ∅).

Definition ringByUuid : obj := <["uuid" := VStr "AA:01"]> (<["name" := VStr "Ring"]> ∅).

Definition otherRing : obj := <["uuid" := VStr "BB:02"]> (<["name" := VStr "Ring 2"]> ∅).

Definition foundOnRetry (attempt : nat) : PassEnv :=
  match attempt with
  | O => nothingFound 0
  | _ => {| bluetoothEnabled := true; hasYCScanner := true; hasRWScanner := true;
            ycDevices := [ringById; ringByUuid; otherRing]; rwDevices := [];
            throws := false |}
  end.

(** A connect that never finishes. *)
Definition connectHolds (retryCount : nat) : LockView :=
  {| pendingScan := None; connectionInProgress := true;
     healthDataOperationInProgress := false |}.

End Scanner.

(** ** DeviceConnectionService: connectDevice and its locks *)

Module Connection.
Import Js.
Import Mapping(Platform, ios, android).

Local Open Scope string_scope.

Definition CONNECTION_TIMEOUT_MS : Z := 45000.
Definition RETRY_DELAY_MS : Z := 1000.
Definition SDK_RESET_DELAY_MS : Z := 500.
Definition CONNECTION_CHECK_CACHE_TTL : Z := 2000.

(** The stored descriptor of the connected device: text that does not
    parse to an object, or an object with its [uuid] property. *)
Inductive StoredDevice : Type :=
| Malformed
| Parsed (uuid : value).

(** The module-level variables of the service, and the storage entry
    [CONNECTED_DEVICE]. *)
Record State : Type := {
  _isConnecting : bool;
  _isHealthDataOperationInProgress : bool;
  _connectionAttempts : gset string;
  _pendingDeviceInfoRequest : bool;
  storedDevice : option StoredDevice
}.

Definition setConnecting (b : bool) (st : State) : State :=
  {| _isConnecting := b;
     _isHealthDataOperationInProgress := _isHealthDataOperationInProgress st;
     _connectionAttempts := _connectionAttempts st;
     _pendingDeviceInfoRequest := _pendingDeviceInfoRequest st;
     storedDevice := storedDevice st |}.

Definition setAttempts (s : gset string) (st : State) : State :=
  {| _isConnecting := _isConnecting st;
     _isHealthDataOperationInProgress := _isHealthDataOperationInProgress st;
     _connectionAttempts := s;
     _pendingDeviceInfoRequest := _pendingDeviceInfoRequest st;
     storedDevice := storedDevice st |}.

Definition setPending (b : bool) (st : State) : State :=
  {| _isConnecting := _isConnecting st;
     _isHealthDataOperationInProgress := _isHealthDataOperationInProgress st;
     _connectionAttempts := _connectionAttempts st;
     _pendingDeviceInfoRequest := b;
     storedDevice := storedDevice st |}.

Definition setStored (d : option StoredDevice) (st : State) : State :=
  {| _isConnecting := _isConnecting st;
     _isHealthDataOperationInProgress := _isHealthDataOperationInProgress st;
     _connectionAttempts := _connectionAttempts st;
     _pendingDeviceInfoRequest := _pendingDeviceInfoRequest st;
     storedDevice := d |}.

(** cleanUuid; [None] is an argument that is not a string. *)
Definition cleanUuid (uuid : option string) : string :=
  match uuid with
  | Some s => trim s
  | None => ""
  end.

(** cancelAllPendingOperations *)
Definition cancelAllPendingOperations (st : State) : State := setPending false st.

(** [parsed.uuid !== target] *)
Definition differsFrom (u : value) (target : string) : bool :=
  match u with
  | VStr s => negb (String.eqb s target)
  | _ => true
  end.

(** clearOldDeviceData *)
Definition clearOldDeviceData (targetUuid : string) (st : State) : State :=
  match storedDevice st with
  | Some (Parsed u) =>
      if truthy u && differsFrom u targetUuid then setStored None st else st
  | _ => st
  end.

(** A native connect call: a truthy or falsy answer, or a rejection with
    its [code] and [message]. *)
Inductive NativeAnswer : Type :=
| Answered (v : value)
| Rejected (code message : string).

(** What one call of connectDevice meets. *)
Record Env : Type := {
  platformOS : option Platform;
  ycAvailable : bool;                       (* ycIsAvailable() *)
  hasYCConnect : bool;                      (* YCRingManager?.connectDevice *)
  hasGetDeviceInfoRaw : bool;               (* YCRingManager?.getDeviceInfoRaw *)
  hasRWConnect : bool;                      (* RWRingManager?.connectDevice *)
  firstProbe : option bool;                 (* isDeviceConnectedByUUID; None: it throws *)
  secondProbe : option bool;                (* the probe raced against the timer *)
  ycConnect : NativeAnswer;                 (* ycConnect raced against its timeout *)
  ycManagerConnect : nat -> NativeAnswer;   (* YCRingManager.connectDevice, per retry *)
  rwConnect : NativeAnswer                  (* RWRingManager.connectDevice *)
}.

Definition isGattError (code message : string) : bool :=
  includes "133" message || includes "GATT_ERROR" message || String.eqb code "CONNECT_FAILED".

Definition isRetryable (code message : string) : bool :=
  String.eqb code "CONNECT_FAILED" || String.eqb code "CONNECT_TIMEOUT"
  || String.eqb code "not_found" || includes "timeout" message
  || includes "Peripheral not found" message || isGattError code message.

(** [v === true] *)
Definition strictEqTrue (v : value) : bool :=
  match v with VBool true => true | _ => false end.

Section Connect.
Variable env : Env.

(** The retry loop over YCRingManager.connectDevice: [true] when a pass
    returns [true] from inside the loop, [false] when the loop is left
    with [lastError] set. *)
Fixpoint ycManagerLoop (remaining retryCount maxRetries : nat) : bool :=
  match remaining with
  | O => false
  | S k =>
      match ycManagerConnect env retryCount with
      | Answered v =>
          if truthy v then true
          else if (retryCount <? maxRetries - 1)%nat
               then ycManagerLoop k (S retryCount) maxRetries
               else false
      | Rejected code message =>
          if isRetryable code message && (retryCount <? maxRetries - 1)%nat
          then ycManagerLoop k (S retryCount) maxRetries
          else false
      end
  end.

(** The body of the [try] block: the returned value, or [None] when an
    error escapes to the [catch]; with the state as the body leaves it. *)
Definition connectBody (clean type : string) (disableRetry : bool) (st : State)
  : option bool * State :=
  if String.eqb type "yc" then
    if match platformOS env with Some ios => ycAvailable env | _ => false end then
      match ycConnect env with
      | Rejected _ _ => (None, st)
      | Answered v =>
          if truthy v then (Some true, st)
          else (Some false, clearOldDeviceData clean st)
      end
    else if hasYCConnect env then
      let maxRetries := if disableRetry then 1%nat else 3%nat in
      if ycManagerLoop maxRetries 0 maxRetries
      then (Some true,
            if match platformOS env with Some android => hasGetDeviceInfoRaw env | _ => false end
            then setPending false st else st)
      else (Some false, clearOldDeviceData clean st)
    else (Some false, st)
  else if hasRWConnect env then
    match rwConnect env with
    | Rejected _ _ => (None, st)
    | Answered v => (Some (strictEqTrue v), st)
    end
  else (Some false, st).

Record Outcome : Type := {
  returned : bool;      (* the value the promise resolves to *)
  acquired : bool       (* whether the call got as far as raising the flag *)
}.

(** The locked part of connectDevice: [try], [catch], [finally]. *)
Definition connectLocked (clean type : string) (disableRetry : bool) (st : State)
  : Outcome * State :=
  let st1 := setConnecting true st in
  let '(r, st2) := connectBody clean type disableRetry st1 in
  let '(result, st3) :=
    match r with
    | Some b => (b, st2)
    | None => (false, clearOldDeviceData clean st2)
    end in
  ({| returned := result; acquired := true |},
   setAttempts (_connectionAttempts st3 ∖ {[clean]}) (setConnecting false st3)).

(** connectDevice *)
Definition connectDevice (uuid deviceType : option string) (disableRetry : bool)
    (skipPreConnectionCheck : bool) (st : State) : Outcome * State :=
  let clean := cleanUuid uuid in
  if is_empty_string clean then ({| returned := false; acquired := false |}, st)
  else
    let type :=
      toLowerCase (match deviceType with
                   | Some s => if is_empty_string s then "yc" else s
                   | None => "yc"
                   end) in
    let st1 := cancelAllPendingOperations st in
    let st2 :=
      match storedDevice st1 with
      | Some (Parsed u) => if differsFrom u clean then clearOldDeviceData clean st1 else st1
      | Some Malformed => clearOldDeviceData clean st1
      | None => clearOldDeviceData clean st1
      end in
    let st3 :=
      if bool_decide (clean ∈ _connectionAttempts st2)
      then setAttempts (_connectionAttempts st2 ∖ {[clean]}) st2 else st2 in
    if skipPreConnectionCheck then
      connectLocked clean type disableRetry
        (setAttempts ({[clean]} ∪ _connectionAttempts st3) st3)
    else
      match firstProbe env with
      | Some true =>
          ({| returned := true; acquired := false |},
           setAttempts (_connectionAttempts st3 ∖ {[clean]}) st3)
      | _ =>
          let st4 := setAttempts ({[clean]} ∪ _connectionAttempts st3) st3 in
          let alreadyThere :=
            match storedDevice st4 with
            | Some (Parsed u) =>
                if differsFrom u clean
                then match secondProbe env with Some true => true | _ => false end
                else false
            | _ => false
            end in
          if alreadyThere then
            ({| returned := true; acquired := false |},
             setAttempts (_connectionAttempts st4 ∖ {[clean]}) st4)
          else connectLocked clean type disableRetry st4
      end.

End Connect.

(** *** A sample call *)

(** An Android host whose ring refuses every connect with a GATT error,
    and a service state that still lists the ring as being attempted. *)
Definition refusingEnv : Env :=
  {| platformOS := Some android; ycAvailable := false; hasYCConnect := true;
     hasGetDeviceInfoRaw := true; hasRWConnect := false;
     firstProbe := Some false; secondProbe := None;
     ycConnect := Rejected "" "unused";
     ycManagerConnect := fun _ => Rejected "CONNECT_FAILED" "GATT_ERROR 133";
     rwConnect := Rejected "" "unused" |}.

Definition staleState : State :=
  {| _isConnecting := false; _isHealthDataOperationInProgress := false;
     _connectionAttempts := {[ "AA:BB:CC:DD:EE:01"%string ]};
     _pendingDeviceInfoRequest := true; storedDevice := None |}.

(** A service state in which another connect is under way: the flag is
    up for it. *)
Definition busyState : State :=
  {| _isConnecting := true; _isHealthDataOperationInProgress := false;
     _connectionAttempts := {[ "AA:BB:CC:DD:EE:02"%string ]};
     _pendingDeviceInfoRequest := false; storedDevice := None |}.

(** A host on which the first pre-connection probe finds the ring
    connected. *)
Definition connectedEnv : Env :=
  {| platformOS := Some android; ycAvailable := false; hasYCConnect := true;
     hasGetDeviceInfoRaw := true; hasRWConnect := false;
     firstProbe := Some true; secondProbe := None;
     ycConnect := Rejected "" "unused";
     ycManagerConnect := fun _ => Answered (VBool true);
     rwConnect := Rejected "" "unused" |}.

End Connection.

(** ** Concurrent callers of scanDevices on the cooperative scheduler *)

Module SingleFlight.
Import Js Scanner.

(** A call of scanDevices as it stands between two scheduler turns. *)
Inductive Call : Type :=
| Delayed (retryCount : nat) (bypassLocks : bool)   (* in its one-second back-off *)
| Awaiting (p : nat) (owner : bool)                 (* holds promise [p]; the owner created it *)
| Finished (p : option nat) (result : list obj).    (* resolved; [p] is the promise it held *)

(** The module variable [scanPromise], the discovery tasks started so far
    (promise [p] belongs to task number [p]), the promises already settled
    with their result sets, and the calls in flight or finished. *)
Record System : Type := {
  scanPromise : option nat;
  launched : nat;
  settled : gmap nat (list obj);
  calls : gmap nat Call
}.

Definition initial : System :=
  {| scanPromise := None; launched := 0; settled := ∅; calls := ∅ |}.

Definition viewOf (sys : System) (connecting healthOp : bool) : LockView :=
  {| pendingScan := scanPromise sys;
     connectionInProgress := connecting;
     healthDataOperationInProgress := healthOp |}.

(** One synchronous run of scanDevices for call [i], from its guards to
    its first suspension; [connecting] and [healthOp] are the locks of the
    connection service at that moment. *)
Definition enter (i : nat) (connecting healthOp bypassLocks : bool) (retryCount : nat)
    (sys : System) : System :=
  match scanGuards (viewOf sys connecting healthOp) bypassLocks retryCount with
  | HandOut p =>
      {| scanPromise := scanPromise sys; launched := launched sys;
         settled := settled sys; calls := <[i := Awaiting p false]> (calls sys) |}
  | GiveUp =>
      {| scanPromise := scanPromise sys; launched := launched sys;
         settled := settled sys; calls := <[i := Finished None []]> (calls sys) |}
  | BackOff =>
      {| scanPromise := scanPromise sys; launched := launched sys;
         settled := settled sys;
         calls := <[i := Delayed retryCount bypassLocks]> (calls sys) |}
  | Start =>
      {| scanPromise := Some (launched sys); launched := S (launched sys);
         settled := settled sys;
         calls := <[i := Awaiting (launched sys) true]> (calls sys) |}
  end.

(** resetScanLocks and forceStopScan, and the first statement of
    resetScanState (which disconnectDevice awaits after a successful
    disconnect): the module variable is cleared, whatever it held. *)
Definition resetScanLocks (sys : System) : System :=
  {| scanPromise := None; launched := launched sys; settled := settled sys;
     calls := calls sys |}.

(** The scheduler turns that belong to scanDevices itself. *)
Inductive scanStep : System -> System -> Prop :=
| step_call i connecting healthOp bypassLocks retryCount sys :
    calls sys !! i = None ->
    scanStep sys (enter i connecting healthOp bypassLocks retryCount sys)
| step_wake i retryCount bypassLocks connecting healthOp sys :
    calls sys !! i = Some (Delayed retryCount bypassLocks) ->
    scanStep sys (enter i connecting healthOp bypassLocks (retryCount + 1) sys)
| step_settle p result sys :
    (p < launched sys)%nat ->
    settled sys !! p = None ->
    scanStep sys {| scanPromise := scanPromise sys; launched := launched sys;
                    settled := <[p := result]> (settled sys); calls := calls sys |}
| step_owner_resumes i p result sys :
    calls sys !! i = Some (Awaiting p true) ->
    settled sys !! p = Some result ->
    scanStep sys {| scanPromise := None; launched := launched sys;
                    settled := settled sys;
                    calls := <[i := Finished (Some p) result]> (calls sys) |}
| step_sharer_resumes i p result sys :
    calls sys !! i = Some (Awaiting p false) ->
    settled sys !! p = Some result ->
    scanStep sys {| scanPromise := scanPromise sys; launched := launched sys;
                    settled := settled sys;
                    calls := <[i := Finished (Some p) result]> (calls sys) |}.

(** All scheduler turns: those of scanDevices, and a reset of the scan
    lock by some other task, at any moment. *)
Inductive step : System -> System -> Prop :=
| step_scan sys sys' : scanStep sys sys' -> step sys sys'
| step_reset sys : step sys (resetScanLocks sys).

(** The turns of a run in which the scan lock is reset only while no scan
    promise is pending. *)
Definition calmStep (sys sys' : System) : Prop :=
  scanStep sys sys' \/ (scanPromise sys = None /\ sys' = resetScanLocks sys).

Definition reachable (sys : System) : Prop := rtc step initial sys.

Definition undisturbed (sys : System) : Prop := rtc calmStep initial sys.

(** A discovery task is running while its promise is not settled. *)
Definition running (sys : System) (p : nat) : Prop :=
  (p < launched sys)%nat /\ settled sys !! p = None.

(** *** The invariant of the scheduler; a sample schedule *)

(** What every state of an undisturbed run satisfies. *)
Definition Inv (sys : System) : Prop :=
  (forall p, scanPromise sys = Some p -> (p < launched sys)%nat)
  /\ (forall q, (q < launched sys)%nat -> settled sys !! q = None ->
                scanPromise sys = Some q)
  /\ (forall i p, calls sys !! i = Some (Awaiting p true) -> scanPromise sys = Some p)
  /\ (forall i j p q, calls sys !! i = Some (Awaiting p true) ->
                      calls sys !! j = Some (Awaiting q true) -> i = j)
  /\ (forall i p r, calls sys !! i = Some (Finished (Some p) r) ->
                    settled sys !! p = Some r).

(** Two callers behind one scan: the first starts the discovery task,
    the second arrives while it runs, the task settles with one ring, and
    both resume. *)
Definition oneRing : list obj := [<["uuid"%string := VStr "AA:01"]> ∅].

Definition afterFirstCall : System := enter 0 false false false 0 initial.

Definition afterSecondCall : System := enter 1 false false false 0 afterFirstCall.

Definition afterSettle : System :=
  {| scanPromise := scanPromise afterSecondCall; launched := launched afterSecondCall;
     settled := <[0%nat := oneRing]> (settled afterSecondCall);
     calls := calls afterSecondCall |}.

Definition afterOwner : System :=
  {| scanPromise := None; launched := launched afterSettle; settled := settled afterSettle;
     calls := <[0%nat := Finished (Some 0%nat) oneRing]> (calls afterSettle) |}.

Definition afterSharer : System :=
  {| scanPromise := scanPromise afterOwner; launched := launched afterOwner;
     settled := settled afterOwner;
     calls := <[1%nat := Finished (Some 0%nat) oneRing]> (calls afterOwner) |}.

(** A reset between two callers: the first call starts task 0, the scan
    lock is reset while that task runs, and the second call starts
    task 1.  Task 0 then settles with one ring and task 1 with none, and
    both callers resume. *)
Definition afterReset : System := resetScanLocks afterFirstCall.

Definition afterSecondStart : System := enter 1 false false false 0 afterReset.

Definition afterBothSettle : System :=
  {| scanPromise := scanPromise afterSecondStart; launched := launched afterSecondStart;
     settled := <[1%nat := []]> (<[0%nat := oneRing]> (settled afterSecondStart));
     calls := calls afterSecondStart |}.

Definition afterBothResume : System :=
  {| scanPromise := None; launched := launched afterBothSettle;
     settled := settled afterBothSettle;
     calls := <[1%nat := Finished (Some 1%nat) []]>
                (<[0%nat := Finished (Some 0%nat) oneRing]> (calls afterBothSettle)) |}.

End SingleFlight.

(** ** YCProductBridge: device state and battery level *)

Module YCBridge.
Import Js.

Local Open Scope string_scope.

(** A value that crosses the native bridge: a scalar or a plain object. *)
Inductive Native : Type :=
| Scalar (v : value)
| Object (o : obj).

(** How an awaited native call ends. *)
Inductive Settled : Type :=
| Resolved (r : Native)
| Rejected (message : string).

(** The methods of YCProductModule that the battery readers probe with
    [typeof ... === 'function']. *)
Record YCModule : Type := {
  hasGetDeviceBasicInfo : bool;
  hasGetBatteryLevel : bool;
  hasGetBatteryLevelByUUID : bool;
  hasConnectDevice : bool
}.

(** [a ?? b] *)
Definition nullish (v : value) : bool :=
  match v with VUndef | VNull => true | _ => false end.

Definition coalesce (a b : value) : value := if nullish a then b else a.

(** [info?.batteryPower ?? info?.battery ?? null] *)
Definition infoBattery (info : Native) : Native :=
  match info with
  | Object o => Scalar (coalesce (coalesce (get o "batteryPower") (get o "battery")) VNull)
  | Scalar _ => Scalar VNull
  end.

(** [res?.battery ?? res ?? null] *)
Definition resBattery (res : Native) : Native :=
  match res with
  | Object o => if nullish (get o "battery") then Object o else Scalar (get o "battery")
  | Scalar v => Scalar (coalesce v VNull)
  end.

(** [typeof battery === 'number' ? battery
     : Number.isFinite(Number(battery)) ? Number(battery) : null];
    a plain object converts to [NaN]. *)
Definition numberOrNull (h : Host) (battery : Native) : option Q :=
  match battery with
  | Scalar v => toNumber h v
  | Object _ => None
  end.

(** ycGetBatteryLevel; [answer] is how the one native call it makes ends. *)
Definition ycGetBatteryLevel (h : Host) (module : option YCModule) (answer : Settled)
  : option Q :=
  match module with
  | None => None
  | Some m =>
      if hasGetDeviceBasicInfo m then
        match answer with
        | Resolved info => numberOrNull h (infoBattery info)
        | Rejected _ => None
        end
      else if hasGetBatteryLevel m then
        match answer with
        | Resolved res => numberOrNull h (resBattery res)
        | Rejected _ => None
        end
      else if hasGetBatteryLevelByUUID m then
        match answer with
        | Resolved res => numberOrNull h (resBattery res)
        | Rejected _ => None
        end
      else None
  end.

(** ycGetBatteryLevelByUUID; [answer] is how the battery call ends (the
    connect that may precede it has its errors swallowed). *)
Definition ycGetBatteryLevelByUUID (h : Host) (module : option YCModule) (answer : Settled)
  : option Q :=
  match module with
  | None => None
  | Some m =>
      if hasGetBatteryLevelByUUID m then
        match answer with
        | Resolved res => numberOrNull h (resBattery res)
        | Rejected _ => None
        end
      else if hasConnectDevice m && hasGetDeviceBasicInfo m then
        match answer with
        | Resolved info => numberOrNull h (infoBattery info)
        | Rejected _ => None
        end
      else None
  end.

(** *** Device state *)

Record StateMeta : Type := {
  code : string;
  description : string;
  category : string;
  isError : bool
}.

Definition meta (c d k : string) (e : bool) : StateMeta :=
  {| code := c; description := d; category := k; isError := e |}.

Definition YC_STATE_MAP : gmap Z StateMeta :=
  list_to_map
    [(0, meta "unknown" "Bluetooth trạng thái không xác định" "bluetooth" false);
     (1, meta "resetting" "Bluetooth đang khởi động lại" "bluetooth" false);
     (2, meta "unsupported" "Thiết bị không hỗ trợ Bluetooth" "bluetooth" true);
     (3, meta "unauthorized" "Quyền Bluetooth bị từ chối" "permission" true);
     (4, meta "poweredOff" "Bluetooth đang tắt" "bluetooth" false);
     (5, meta "poweredOn" "Bluetooth đã bật" "bluetooth" false);
     (6, meta "disconnected" "Thiết bị đã ngắt kết nối" "connection" false);
     (7, meta "connected" "Thiết bị đã kết nối" "connection" false);
     (8, meta "connectFailed" "Kết nối Bluetooth thất bại" "connection" true);
     (9, meta "succeed" "Thao tác thành công" "operation" false);
     (10, meta "failed" "Thao tác thất bại" "operation" true);
     (11, meta "unavailable" "API không khả dụng" "operation" true);
     (12, meta "timeout" "Hết thời gian (timeout)" "operation" true);
     (13, meta "dataError" "Lỗi dữ liệu" "data" true);
     (14, meta "crcError" "Lỗi CRC" "data" true);
     (15, meta "dataTypeError" "Lỗi kiểu dữ liệu" "data" true);
     (16, meta "noRecord" "Không có bản ghi" "data" false);
     (17, meta "parameterError" "Lỗi tham số" "operation" true);
     (18, meta "alarmNotExist" "Báo thức không tồn tại" "alarm" true);
     (19, meta "alarmAlreadyExist" "Báo thức đã tồn tại" "alarm" true);
     (20, meta "alarmCountLimit" "Số lượng báo thức đạt giới hạn" "alarm" true);
     (21, meta "alarmTypeNotSupport" "Loại báo thức không được hỗ trợ" "alarm" true)].

(** [YC_STATE_MAP[state]]: the property named by the number, which
    exists only for the integers of the table. *)
Definition stateEntry (state : Q) : option StateMeta :=
  if Qeq_bool state (inject_Z (Qfloor state)) then YC_STATE_MAP !! Qfloor state else None.

Record StateInfo : Type := {
  infoState : option Q;
  infoMeta : StateMeta;
  connected : bool
}.

(** ycDescribeState; [None] is a state that is not a number. *)
Definition ycDescribeState (state : option Q) : StateInfo :=
  match state with
  | None =>
      {| infoState := None;
         infoMeta := meta "unknown" "Không xác định" "bluetooth" false;
         connected := false |}
  | Some s =>
      {| infoState := Some s;
         infoMeta :=
           match stateEntry s with
           | Some m => m
           | None => meta "unknown" "Bluetooth trạng thái không xác định" "bluetooth" false
           end;
         connected := Qeq_bool s 7 |}
  end.

(** The handler of the state event: what [ycDeviceStateLast] becomes on
    a payload ([None]: the payload is [null] or [undefined]). *)
Definition onDeviceState (payload : option obj) : option Q :=
  match payload with
  | Some o => match get o "state" with VNum q => Some q | _ => None end
  | None => None
  end.

(** ycIsConnected, on [ycDeviceStateLast]. *)
Definition ycIsConnected (ycDeviceStateLast : option Q) : bool :=
  match ycDeviceStateLast with
  | Some s => negb (Qeq_bool s 0)
  | None => false
  end.

(** ycGetConnectionStatus: the [connected] field of what it returns. *)
Definition ycGetConnectionStatus (ycDeviceStateLast : option Q) : StateInfo :=
  ycDescribeState ycDeviceStateLast.

End YCBridge.

(** ** DeviceConnectionService: isDeviceConnected and getConnectionStatus *)

Module ConnectionQueries.
Import Js YCBridge.
Import Mapping(Platform, ios, android).
Import Connection(StoredDevice, Malformed, Parsed).

Local Open Scope string_scope.

(** [(deviceType || '').toLowerCase()] *)
Definition lowerType (deviceType : option string) : string :=
  toLowerCase (default "" deviceType).

(** [type === 'yc' && Platform.OS === 'ios' && ycIsAvailable()] *)
Definition usesYCModule (deviceType : option string) (platformOS : option Platform)
    (ycAvailable : bool) : bool :=
  String.eqb (lowerType deviceType) "yc"
  && match platformOS with Some ios => ycAvailable | _ => false end.

(** isDeviceConnected; [stored] is the storage entry CONNECTED_DEVICE
    ([None]: no text, or the empty text). *)
Definition isDeviceConnected (deviceType : option string) (platformOS : option Platform)
    (ycAvailable : bool) (ycDeviceStateLast : option Q) (stored : option StoredDevice) : bool :=
  if usesYCModule deviceType platformOS ycAvailable then ycIsConnected ycDeviceStateLast
  else match stored with Some _ => true | None => false end.

(** getConnectionStatus: the [connected] property of the result. *)
Definition getConnectionStatus (deviceType : option string) (platformOS : option Platform)
    (ycAvailable : bool) (ycDeviceStateLast : option Q) (stored : option StoredDevice) : bool :=
  if usesYCModule deviceType platformOS ycAvailable
  then connected (ycGetConnectionStatus ycDeviceStateLast)
  else match stored with
       | Some (Parsed _) => true
       | Some Malformed => false
       | None => false
       end.

End ConnectionQueries.

(** ** BatteryManager *)

Module Battery.
Import Js YCBridge.
Import Mapping(Platform, ios, android).

Local Open Scope string_scope.

Definition TIMEOUT_MS : Z := 50000.
Definition MAX_BATTERY_RETRIES : nat := 2.

(** isTimeoutError, on the message of the error *)
Definition isTimeoutError (msg : string) : bool :=
  includes "timeout" msg || includes "TIMEOUT" msg.

(** handleBatteryRetry: whether to go on, and [batteryRetryCount] after. *)
Definition handleBatteryRetry (retryCount maxRetries : nat) : bool * nat :=
  if (maxRetries <? retryCount)%nat then (false, O) else (true, retryCount).

(** The module-level retry counter next to the state of the connection
    service, which a reconnection goes through. *)
Record State : Type := {
  batteryRetryCount : nat;
  connection : Connection.State
}.

Inductive Event : Type :=
| EvBluetoothCheck
| EvUuidProbe
| EvReconnect (uuid deviceType : string)
| EvRead (source : string) (timeoutMs : Z)
| EvWait (ms : Z).

(** What one battery check meets. *)
Record Env : Type := {
  connectEnv : Connection.Env;           (* what a reconnection meets; holds Platform.OS *)
  ycModule : option YCModule;            (* YCProductModule, if the host has it *)
  bluetoothReady : option bool;          (* ensureBluetoothEnabled(false); None: it throws *)
  uuidConnected : bool;                  (* ycIsUuidConnected *)
  ycFirst : Settled;                     (* the call made by ycGetBatteryLevel *)
  ycSecond : Settled;                    (* the call made by ycGetBatteryLevelByUUID *)
  ycLegacy : option Settled;             (* YCRingManager?.getBatteryLevel?.(uuid) *)
  ycAndroid : Settled;                   (* YCRingManager.getBatteryLevel() *)
  rwFirst : Settled;                     (* RWRingManager.getBatteryLevel(), first read *)
  rwRetry : Settled                      (* the read after a reconnection *)
}.

Section Check.
Variable h : Host.
Variable env : Env.

Definition platformOS : option Platform := Connection.platformOS (connectEnv env).

(** performDeviceReconnection: [connectDevice(uuid || '', deviceType, 0, true)] *)
Definition performDeviceReconnection (deviceType : string) (uuid : option string)
    (st : State) : bool * State * list Event :=
  let target := match uuid with Some u => u | None => "" end in
  let '(out, conn) :=
    Connection.connectDevice (connectEnv env) (Some target) (Some deviceType) false false
      (connection st) in
  let st' := {| batteryRetryCount := batteryRetryCount st; connection := conn |} in
  if Connection.returned out
  then (true, st', [EvReconnect target deviceType; EvWait 2000])
  else (false, st', [EvReconnect target deviceType]).

Definition resetRetryCount (st : State) : State :=
  {| batteryRetryCount := O; connection := connection st |}.

Definition setRetryCount (n : nat) (st : State) : State :=
  {| batteryRetryCount := n; connection := connection st |}.

Definition isNumber (r : Native) : bool :=
  match r with Scalar (VNum _) => true | _ => false end.

Definition ofNumber (n : option Q) : Native :=
  match n with Some q => Scalar (VNum q) | None => Scalar VNull end.

(** getYCBatteryLevel: what it resolves to, or the message it rejects with. *)
Definition getYCBatteryLevel (uuid : string) (timeoutMs : Z) (st : State)
  : Settled * State * list Event :=
  match platformOS with
  | Some ios =>
      match ycModule env with
      | Some _ =>
          match ycGetBatteryLevel h (ycModule env) (ycFirst env) with
          | Some q => (Resolved (Scalar (VNum q)), resetRetryCount st, [EvRead "yc" 0])
          | None =>
              match ycGetBatteryLevelByUUID h (ycModule env) (ycSecond env) with
              | Some q =>
                  (Resolved (Scalar (VNum q)), resetRetryCount st,
                   [EvRead "yc" 0; EvRead "yc-uuid" 0])
              | None => (Resolved (Scalar VNull), st, [EvRead "yc" 0; EvRead "yc-uuid" 0])
              end
          end
      | None =>
          match ycLegacy env with
          | Some (Resolved res) =>
              let val := match res with
                         | Object o => get o "battery"
                         | Scalar v => v
                         end in
              match val with
              | VNum q => (Resolved (Scalar (VNum q)), resetRetryCount st,
                           [EvRead "yc-legacy" timeoutMs])
              | _ => (Resolved (Scalar VNull), st, [EvRead "yc-legacy" timeoutMs])
              end
          | Some (Rejected _) => (Resolved (Scalar VNull), st, [EvRead "yc-legacy" timeoutMs])
          | None => (Resolved (Scalar VNull), st, [])
          end
      end
  | _ => (ycAndroid env, st, [EvRead "yc-android" timeoutMs])
  end.

(** getRWBatteryLevel *)
Definition getRWBatteryLevel (timeoutMs : Z) (st : State) : Settled * State * list Event :=
  match rwFirst env with
  | Resolved result => (Resolved result, resetRetryCount st, [EvRead "rw" timeoutMs])
  | Rejected msg =>
      if isTimeoutError msg then
        let retryCount := S (batteryRetryCount st) in
        let '(goOn, count) := handleBatteryRetry retryCount MAX_BATTERY_RETRIES in
        let st1 := setRetryCount count st in
        if goOn then
          let '(reconnectSuccess, st2, evs) := performDeviceReconnection "RW" None st1 in
          if reconnectSuccess then
            match rwRetry env with
            | Resolved result =>
                (Resolved result, resetRetryCount st2,
                 ([EvRead "rw" timeoutMs] ++ evs ++ [EvRead "rw" 15000])%list)
            | Rejected _ =>
                (Rejected msg, st2, ([EvRead "rw" timeoutMs] ++ evs ++ [EvRead "rw" 15000])%list)
            end
          else (Rejected msg, st2, ([EvRead "rw" timeoutMs] ++ evs)%list)
        else (Rejected msg, st1, [EvRead "rw" timeoutMs])
      else (Rejected msg, st, [EvRead "rw" timeoutMs])
  end.

(** [!uuid || uuid === 'temp-device' || uuid.startsWith('temp-')] *)
Definition isPlaceholderUuid (uuid : string) : bool :=
  is_empty_string uuid || String.eqb uuid "temp-device" || startsWith "temp-" uuid.

(** [typeof result === 'number' && result >= 0 && result <= 100] *)
Definition validLevel (r : Native) : option Q :=
  match r with
  | Scalar (VNum q) => if Qle_bool 0 q && Qle_bool q 100 then Some q else None
  | _ => None
  end.

(** performBatteryCheck *)
Definition performBatteryCheck (deviceType uuid : string) (skipReconnect : bool) (st : State)
  : option Q * State * list Event :=
  if isPlaceholderUuid uuid then (None, st, [])
  else
    match bluetoothReady env with
    | None | Some false => (None, st, [EvBluetoothCheck])
    | Some true =>
        let probe : bool * State * list Event :=
          if String.eqb deviceType "yc"
             && match platformOS with Some ios => true | _ => false end
          then
            if uuidConnected env then (true, st, [EvUuidProbe])
            else
              let '(reconnected, st1, evs) := performDeviceReconnection "yc" (Some uuid) st in
              (reconnected, st1, (EvUuidProbe :: evs)%list)
          else (true, st, []) in
        let '(goOn, st1, evs1) := probe in
        if negb goOn then (None, st1, (EvBluetoothCheck :: evs1)%list)
        else if skipReconnect && match platformOS with Some android => true | _ => false end
        then (None, st1, (EvBluetoothCheck :: evs1)%list)
        else
          let '(result, st2, evs2) :=
            if String.eqb deviceType "yc" then getYCBatteryLevel uuid TIMEOUT_MS st1
            else getRWBatteryLevel TIMEOUT_MS st1 in
          match result with
          | Rejected _ => (None, st2, (EvBluetoothCheck :: evs1 ++ evs2)%list)
          | Resolved r => (validLevel r, st2, (EvBluetoothCheck :: evs1 ++ evs2)%list)
          end
    end.

(** getBatteryLevelByDeviceType *)
Definition getBatteryLevelByDeviceType (deviceType uuid : string) (skipReconnect : bool)
    (st : State) : option Q * State * list Event :=
  performBatteryCheck deviceType uuid skipReconnect st.

End Check.

Definition isRead (e : Event) : bool :=
  match e with EvRead _ _ => true | _ => false end.

(** The number of battery reads of a trace. *)
Definition reads (evs : list Event) : nat := length (List.filter isRead evs).

(** *** Sample rings *)

Definition idleConnection : Connection.State :=
  {| Connection._isConnecting := false;
     Connection._isHealthDataOperationInProgress := false;
     Connection._connectionAttempts := ∅;
     Connection._pendingDeviceInfoRequest := false;
     Connection.storedDevice := None |}.

Definition idle : State := {| batteryRetryCount := 0; connection := idleConnection |}.

Definition noModule : YCModule :=
  {| hasGetDeviceBasicInfo := false; hasGetBatteryLevel := false;
     hasGetBatteryLevelByUUID := false; hasConnectDevice := false |}.

Definition androidRing (level : Settled) : Env :=
  {| connectEnv := Connection.refusingEnv; ycModule := None; bluetoothReady := Some true;
     uuidConnected := false; ycFirst := Rejected "unused"; ycSecond := Rejected "unused";
     ycLegacy := None; ycAndroid := level; rwFirst := level; rwRetry := level |}.

Definition timedOut : Settled := Rejected "Operation timeout after 50000ms".

Definition basicInfoModule : YCModule :=
  {| hasGetDeviceBasicInfo := true; hasGetBatteryLevel := false;
     hasGetBatteryLevelByUUID := false; hasConnectDevice := true |}.

Definition iosConnect : Connection.Env :=
  {| Connection.platformOS := Some ios; Connection.ycAvailable := true;
     Connection.hasYCConnect := false; Connection.hasGetDeviceInfoRaw := false;
     Connection.hasRWConnect := false; Connection.firstProbe := Some true;
     Connection.secondProbe := None; Connection.ycConnect := Connection.Answered (VBool true);
     Connection.ycManagerConnect := fun _ => Connection.Answered (VBool true);
     Connection.rwConnect := Connection.Answered (VBool true) |}.

Definition firmwareOnly : obj := <["firmware" := VStr "1.0.3"]> ∅.

Definition iosRing : Env :=
  {| connectEnv := iosConnect; ycModule := Some basicInfoModule; bluetoothReady := Some true;
     uuidConnected := true; ycFirst := Resolved (Object firmwareOnly);
     ycSecond := Rejected "unused"; ycLegacy := None; ycAndroid := Rejected "unused";
     rwFirst := Rejected "unused"; rwRetry := Rejected "unused" |}.

End Battery.

(** ** BluetoothManager *)

Module Bluetooth.
Import Js.
Import Mapping(Platform, ios, android).

Local Open Scope string_scope.

Definition REQUEST_ENABLE_COOLDOWN_MS : Z := 30 * 1000.
Definition BLUETOOTH_STATE_STABLE_MAX_RETRIES : nat := 8.
Definition BLUETOOTH_STATE_STABLE_RETRY_DELAY_MS : Z := 1500.
Definition BLUETOOTH_STATE_STABLE_MIN_RETRIES_FOR_POWERED_OFF : nat := 3.
Definition BLUETOOTH_RECHECK_DELAY_MS : Z := 2000.

(** The module-level variables. *)
Record State : Type := {
  bluetoothEnabled : bool;
  bluetoothStateListener : bool;
  isCheckingBluetooth : bool;
  bluetoothCheckPromise : bool;
  lastRequestEnableTime : Z
}.

(** What one call of getBluetoothStateRaw meets. *)
Record Radio : Type := {
  managerAvailable : bool;                (* BluetoothStateManager.getState is a function *)
  permissionsGranted : option bool;       (* checkBlePermissions(); None: it throws *)
  radioState : option (option string)     (* getState(); None: it throws; Some None: null *)
}.

Inductive Event : Type :=
| EvPermissionCheck
| EvGetState
| EvRequestToEnable
| EvSettingsDialog
| EvAddListener
| EvWait (ms : Z).

(** The variables, how many times each collaborator has been called, and
    what has been done so far (oldest first). *)
Record World : Type := {
  vars : State;
  radioCalls : nat;
  clockReads : nat;
  enableCalls : nat;
  trace : list Event
}.

(** A computation over the world. *)
Definition M (A : Type) : Type := World -> A * World.

Definition ret {A : Type} (a : A) : M A := fun w => (a, w).

Definition bind {A B : Type} (m : M A) (k : A -> M B) : M B :=
  fun w => let '(a, w') := m w in k a w'.

(** The collaborators: the answers are indexed by the number of earlier
    calls of the same collaborator.  [pendingCheck] is what the holder of
    the guard has still to run of its performBluetoothCheck when a call
    arrives while a check is under way. *)
Record Env : Type := {
  platformOS : option Platform;
  radio : nat -> Radio;
  clock : nat -> Z;                       (* Date.now() *)
  enableRequest : nat -> option string;   (* requestToEnable(); Some msg: it rejects *)
  canAddListener : bool;                  (* BluetoothStateManager.addListener is a function *)
  pendingCheck : M bool
}.

Notation "x <- m ;; k" := (bind m (fun x => k))
  (at level 100, m at next level, right associativity).
Notation "m ;;; k" := (bind m (fun _ => k))
  (at level 100, right associativity).

Definition emit (e : Event) : M unit :=
  fun w => (tt, {| vars := vars w; radioCalls := radioCalls w; clockReads := clockReads w;
                   enableCalls := enableCalls w; trace := (trace w ++ [e])%list |}).

Definition getVars : M State := fun w => (vars w, w).

Definition setVars (s : State) : M unit :=
  fun w => (tt, {| vars := s; radioCalls := radioCalls w; clockReads := clockReads w;
                   enableCalls := enableCalls w; trace := trace w |}).

Definition updateBluetoothEnabledState (enabled : bool) : M unit :=
  s <- getVars ;;
  setVars {| bluetoothEnabled := enabled;
             bluetoothStateListener := bluetoothStateListener s;
             isCheckingBluetooth := isCheckingBluetooth s;
             bluetoothCheckPromise := bluetoothCheckPromise s;
             lastRequestEnableTime := lastRequestEnableTime s |}.

Definition setLastRequestEnableTime (t : Z) : M unit :=
  s <- getVars ;;
  setVars {| bluetoothEnabled := bluetoothEnabled s;
             bluetoothStateListener := bluetoothStateListener s;
             isCheckingBluetooth := isCheckingBluetooth s;
             bluetoothCheckPromise := bluetoothCheckPromise s;
             lastRequestEnableTime := t |}.

Definition setChecking (checking promise : bool) : M unit :=
  s <- getVars ;;
  setVars {| bluetoothEnabled := bluetoothEnabled s;
             bluetoothStateListener := bluetoothStateListener s;
             isCheckingBluetooth := checking;
             bluetoothCheckPromise := promise;
             lastRequestEnableTime := lastRequestEnableTime s |}.

Definition setListener (l : bool) : M unit :=
  s <- getVars ;;
  setVars {| bluetoothEnabled := bluetoothEnabled s;
             bluetoothStateListener := l;
             isCheckingBluetooth := isCheckingBluetooth s;
             bluetoothCheckPromise := bluetoothCheckPromise s;
             lastRequestEnableTime := lastRequestEnableTime s |}.

Section WithEnv.
Variable env : Env.

Definition nextRadio : M Radio :=
  fun w => (radio env (radioCalls w),
            {| vars := vars w; radioCalls := S (radioCalls w); clockReads := clockReads w;
               enableCalls := enableCalls w; trace := trace w |}).

(** [Date.now()] *)
Definition now : M Z :=
  fun w => (clock env (clockReads w),
            {| vars := vars w; radioCalls := radioCalls w; clockReads := S (clockReads w);
               enableCalls := enableCalls w; trace := trace w |}).

(** [BluetoothStateManager.requestToEnable()] *)
Definition requestToEnable : M (option string) :=
  fun w => (enableRequest env (enableCalls w),
            {| vars := vars w; radioCalls := radioCalls w; clockReads := clockReads w;
               enableCalls := S (enableCalls w);
               trace := (trace w ++ [EvRequestToEnable])%list |}).

Definition isAndroid : bool :=
  match platformOS env with Some android => true | _ => false end.

Definition isIOS : bool :=
  match platformOS env with Some ios => true | _ => false end.

(** isInCooldownPeriod *)
Definition isInCooldownPeriod : M bool :=
  t <- now ;;
  s <- getVars ;;
  ret (t - lastRequestEnableTime s <? REQUEST_ENABLE_COOLDOWN_MS)%Z.

(** getCooldownInfo: only its reading of the clock matters here. *)
Definition getCooldownInfo : M unit := now ;;; ret tt.

(** resetBluetoothDialogCooldown *)
Definition resetBluetoothDialogCooldown : M unit := setLastRequestEnableTime 0.

(** getBluetoothStateRaw; [None] is [null]. *)
Definition getBluetoothStateRaw : M (option string) :=
  r <- nextRadio ;;
  if negb (managerAvailable r) then ret None
  else
    proceed <-
      (if isAndroid then
         emit EvPermissionCheck ;;;
         ret (match permissionsGranted r with Some false => false | _ => true end)
       else ret true) ;;
    if proceed then
      emit EvGetState ;;;
      ret (match radioState r with Some s => s | None => None end)
    else ret None.

(** [state === 'PoweredOn'] *)
Definition isState (name : string) (state : option string) : bool :=
  match state with
  | Some s => String.eqb s name
  | None => false
  end.

(** checkBluetoothState *)
Definition checkBluetoothState : M unit :=
  state <- getBluetoothStateRaw ;;
  updateBluetoothEnabledState (isState "PoweredOn" state).

(** checkBluetoothStateOnlyInternal *)
Definition checkBluetoothStateOnlyInternal : M bool :=
  state <- getBluetoothStateRaw ;;
  ret (isState "PoweredOn" state).

(** requestBtPermissionsAndroid *)
Definition requestBtPermissionsAndroid : M unit :=
  if negb isAndroid then ret tt
  else
    currentState <- getBluetoothStateRaw ;;
    if isState "PoweredOn" currentState then ret tt
    else
      cooling <- isInCooldownPeriod ;;
      if cooling then getCooldownInfo
      else
        t <- now ;;
        setLastRequestEnableTime t ;;;
        outcome <- requestToEnable ;;
        match outcome with
        | None => ret tt
        | Some message =>
            if includes "NullPointerException" message
               || includes "getCurrentActivity" message
            then
              coolingAgain <- isInCooldownPeriod ;;
              if coolingAgain then ret tt
              else
                t' <- now ;;
                setLastRequestEnableTime t' ;;;
                requestToEnable ;;; ret tt
            else ret tt
        end.

(** handleAndroidBluetooth *)
Definition handleAndroidBluetooth : M bool :=
  state <- getBluetoothStateRaw ;;
  if isState "PoweredOn" state then
    updateBluetoothEnabledState true ;;;
    resetBluetoothDialogCooldown ;;;
    ret true
  else
    updateBluetoothEnabledState false ;;; ret false.

(** showBluetoothEnableDialog *)
Definition showBluetoothEnableDialog : M unit :=
  currentState <- getBluetoothStateRaw ;;
  if isState "PoweredOn" currentState then updateBluetoothEnabledState true
  else emit EvSettingsDialog.

(** [!state] *)
Definition noState (state : option string) : bool :=
  match state with
  | Some s => is_empty_string s
  | None => true
  end.

(** The loop of waitForStableBluetoothState from index [i], with
    [remaining] passes left. *)
Fixpoint stableLoop (remaining i : nat) (lastState : string) : M string :=
  match remaining with
  | O => ret lastState
  | S k =>
      state <- getBluetoothStateRaw ;;
      if noState state then stableLoop k (S i) lastState
      else
        let s := default "" state in
        if String.eqb s "PoweredOn" then ret s
        else if String.eqb s "PoweredOff"
                && (BLUETOOTH_STATE_STABLE_MIN_RETRIES_FOR_POWERED_OFF <=? i)%nat
        then ret s
        else
          (if (i <? BLUETOOTH_STATE_STABLE_MAX_RETRIES - 1)%nat
           then emit (EvWait BLUETOOTH_STATE_STABLE_RETRY_DELAY_MS) else ret tt) ;;;
          stableLoop k (S i) s
  end.

(** waitForStableBluetoothState *)
Definition waitForStableBluetoothState : M string :=
  stableLoop BLUETOOTH_STATE_STABLE_MAX_RETRIES 0 "Unknown".

(** tryEnableIOSBluetooth *)
Definition tryEnableIOSBluetooth : M bool :=
  currentState <- getBluetoothStateRaw ;;
  if isState "PoweredOn" currentState then
    updateBluetoothEnabledState true ;;; ret true
  else
    showBluetoothEnableDialog ;;;
    updateBluetoothEnabledState false ;;;
    ret false.

(** handleIOSBluetooth *)
Definition handleIOSBluetooth : M bool :=
  stableState <- waitForStableBluetoothState ;;
  if String.eqb stableState "PoweredOn" then
    updateBluetoothEnabledState true ;;; ret true
  else if String.eqb stableState "PoweredOff" then
    emit (EvWait BLUETOOTH_RECHECK_DELAY_MS) ;;;
    recheckState <- getBluetoothStateRaw ;;
    if isState "PoweredOn" recheckState then
      updateBluetoothEnabledState true ;;; ret true
    else
      updateBluetoothEnabledState false ;;;
      tryEnableIOSBluetooth
  else
    updateBluetoothEnabledState false ;;; ret false.

(** setupBluetoothListener; what the listener does when the radio
    changes state happens between calls and is no part of one. *)
Definition setupBluetoothListener : M unit :=
  s <- getVars ;;
  if bluetoothStateListener s then ret tt
  else if isIOS && canAddListener env then emit EvAddListener ;;; setListener true
  else ret tt.

(** isBluetoothEnabled *)
Definition isBluetoothEnabled : M bool :=
  s <- getVars ;;
  if bluetoothEnabled s then ret true
  else
    checkBluetoothState ;;;
    s' <- getVars ;;
    ret (bluetoothEnabled s').

(** requestBluetoothEnable *)
Definition requestBluetoothEnable : M bool :=
  isEnabled <- isBluetoothEnabled ;;
  if isEnabled then ret true
  else
    (if isAndroid then requestBtPermissionsAndroid else showBluetoothEnableDialog) ;;;
    checkBluetoothState ;;;
    s <- getVars ;;
    ret (bluetoothEnabled s).

(** performBluetoothCheck *)
Definition performBluetoothCheck : M bool :=
  setupBluetoothListener ;;;
  if isAndroid then handleAndroidBluetooth else handleIOSBluetooth.

(** What ensureBluetoothEnabled resolves to: the result of the check
    already under way, or an answer of its own. *)
Inductive Ensured : Type :=
| CheckUnderWay (result : bool)
| Answer (enabled : bool).

(** ensureBluetoothEnabled.  A call that finds a check under way returns
    its promise, so the caller is resumed only after that check has run
    to its end and the [finally] of the call that started it has released
    the guard. *)
Definition ensureBluetoothEnabled (shouldRequestPermission : bool) : M Ensured :=
  s <- getVars ;;
  if isCheckingBluetooth s && bluetoothCheckPromise s then
    result <- pendingCheck env ;;
    setChecking false false ;;;
    ret (CheckUnderWay result)
  else if bluetoothEnabled s then ret (Answer true)
  else if negb shouldRequestPermission then
    b <- checkBluetoothStateOnlyInternal ;; ret (Answer b)
  else
    setChecking true true ;;;
    result <- performBluetoothCheck ;;
    setChecking false false ;;;
    ret (Answer result).

(** resetBluetoothCache *)
Definition resetBluetoothCache : M unit :=
  s <- getVars ;;
  setVars {| bluetoothEnabled := false;
             bluetoothStateListener := bluetoothStateListener s;
             isCheckingBluetooth := isCheckingBluetooth s;
             bluetoothCheckPromise := false;
             lastRequestEnableTime := lastRequestEnableTime s |}.

(** refreshBluetoothState *)
Definition refreshBluetoothState : M Ensured :=
  updateBluetoothEnabledState false ;;;
  ensureBluetoothEnabled false.

End WithEnv.

Definition isPrompt (e : Event) : bool :=
  match e with EvRequestToEnable | EvSettingsDialog => true | _ => false end.

Definition isGetState (e : Event) : bool :=
  match e with EvGetState => true | _ => false end.

Definition waited (e : Event) : Z :=
  match e with EvWait ms => ms | _ => 0 end.

(** The time spent waiting along a trace. *)
Definition totalWait (evs : list Event) : Z := fold_right (fun e acc => waited e + acc) 0 evs.

(** The prompts (enable requests and settings dialogs) of a trace. *)
Definition prompts (evs : list Event) : nat := length (List.filter isPrompt evs).

(** What getBluetoothStateRaw yields on what it meets, and what it does
    on the way. *)
Definition stateOf (env : Env) (r : Radio) : option string :=
  if managerAvailable r then
    if isAndroid env && match permissionsGranted r with Some false => true | _ => false end
    then None
    else match radioState r with Some s => s | None => None end
  else None.

Definition readEvents (env : Env) (r : Radio) : list Event :=
  if managerAvailable r then
    if isAndroid env then
      match permissionsGranted r with
      | Some false => [EvPermissionCheck]
      | _ => [EvPermissionCheck; EvGetState]
      end
    else [EvGetState]
  else [].

Definition afterRead (env : Env) (w : World) : World :=
  {| vars := vars w; radioCalls := S (radioCalls w); clockReads := clockReads w;
     enableCalls := enableCalls w;
     trace := (trace w ++ readEvents env (radio env (radioCalls w)))%list |}.

Definition start (s : State) : World :=
  {| vars := s; radioCalls := 0; clockReads := 0; enableCalls := 0; trace := [] |}.

(** *** Views of a run *)

(** What a computation may have done between two worlds: it appended
    [evs] to the trace. *)
Definition appended (w w' : World) (evs : list Event) : Prop :=
  trace w' = (trace w ++ evs)%list.

(** The reading of the radio a world is about to get. *)
Definition reading (env : Env) (w : World) : option string :=
  fst (getBluetoothStateRaw env w).

(** What a platform handler leaves behind: the guard and the cooldown
    as they were (the cooldown possibly reset), the cache equal to the
    answer, and a bounded number of reads, prompts and waits. *)
Definition handled (w : World) (r : bool * World) (reads promptsMax : nat) (waitMax : Z)
  : Prop :=
  isCheckingBluetooth (vars (snd r)) = isCheckingBluetooth (vars w)
  /\ bluetoothCheckPromise (vars (snd r)) = bluetoothCheckPromise (vars w)
  /\ bluetoothStateListener (vars (snd r)) = bluetoothStateListener (vars w)
  /\ enableCalls (snd r) = enableCalls w
  /\ bluetoothEnabled (vars (snd r)) = fst r
  /\ (radioCalls (snd r) <= radioCalls w + reads)%nat
  /\ exists evs, appended w (snd r) evs /\ (prompts evs <= promptsMax)%nat
                 /\ 0 <= totalWait evs <= waitMax.

(** *** Sample radios *)

Definition cold : State :=
  {| bluetoothEnabled := false; bluetoothStateListener := false;
     isCheckingBluetooth := false; bluetoothCheckPromise := false;
     lastRequestEnableTime := 0 |}.

Definition radioOn : Radio :=
  {| managerAvailable := true; permissionsGranted := Some true;
     radioState := Some (Some "PoweredOn") |}.

Definition radioOff : Radio :=
  {| managerAvailable := true; permissionsGranted := Some true;
     radioState := Some (Some "PoweredOff") |}.

Definition silentRadio : Radio :=
  {| managerAvailable := true; permissionsGranted := Some true; radioState := Some None |}.

Definition androidOn : Env :=
  {| platformOS := Some android; radio := fun _ => radioOn; clock := fun k => 1000 * Z.of_nat k;
     enableRequest := fun _ => None; canAddListener := false; pendingCheck := ret false |}.

Definition androidOff : Env :=
  {| platformOS := Some android; radio := fun _ => radioOff; clock := fun k => 1000 * Z.of_nat k;
     enableRequest := fun _ => None; canAddListener := false; pendingCheck := ret false |}.

Definition iosSilent : Env :=
  {| platformOS := Some ios; radio := fun _ => silentRadio; clock := fun k => 1000 * Z.of_nat k;
     enableRequest := fun _ => None; canAddListener := true; pendingCheck := ret false |}.

(** The variables while a full check is under way, and an Android host
    on which what is left of that check is handleAndroidBluetooth. *)
Definition checking : State :=
  {| bluetoothEnabled := false; bluetoothStateListener := false;
     isCheckingBluetooth := true; bluetoothCheckPromise := true;
     lastRequestEnableTime := 0 |}.

Definition androidOnMidCheck : Env :=
  {| platformOS := Some android; radio := fun _ => radioOn; clock := fun k => 1000 * Z.of_nat k;
     enableRequest := fun _ => None; canAddListener := false;
     pendingCheck := handleAndroidBluetooth androidOn |}.

Definition radioOffDenied : Env :=
  {| platformOS := Some android; radio := fun _ => radioOff;
     clock := fun k => 1700000000000 + 100 * Z.of_nat k;
     enableRequest := fun _ => Some "User denied"; canAddListener := false;
     pendingCheck := ret false |}.

End Bluetooth.

(** ** SDKManager *)

Module SDKManager.
Import Js.
Import Mapping(Platform, ios, android).

Local Open Scope string_scope.

Definition INIT_TIMEOUT_MS : Z := 50000.

(** The module-level variables, and the storage entry
    DEVICE_SDK_INITIALIZED. *)
Record State : Type := {
  _isInitializing : bool;
  _initializationPromise : bool;
  _ycSDKInitialized : bool;
  storedFlag : option string
}.

(** How a native [initSDK()] ends. *)
Inductive InitAnswer : Type :=
| InitResolved (truthy : bool)
| InitRejected.

(** What the manager meets. *)
Record Env : Type := {
  platformOS : option Platform;
  bluetoothEnabled : option bool;               (* isBluetoothEnabled(); None: it throws *)
  bluetoothState : nat -> option (option string);
     (* the k-th BluetoothStateManager.getState(); None: it throws; Some None: null *)
  rwInit : InitAnswer;                          (* RWRingManager.initSDK() *)
  ycInit : InitAnswer                           (* YCRingManager.initSDK() *)
}.

Inductive Event : Type :=
| EvBluetoothEnabled
| EvGetState
| EvWait (ms : Z)
| EvInitRW
| EvInitYC
| EvStoreFlag
| EvAwaitPending.

(** [!bluetoothState] *)
Definition noState (s : option string) : bool :=
  match s with
  | Some x => is_empty_string x
  | None => true
  end.

Definition isState (name : string) (s : option string) : bool :=
  match s with
  | Some x => String.eqb x name
  | None => false
  end.

Section WithEnv.
Variable env : Env.

(** The iOS branch of checkBluetoothPermissionBeforeInit: the verdict
    and how many times the state was read; a wait of 2000 ms precedes
    every read but the first. *)
Definition checkIOS : bool * nat :=
  match bluetoothState env 0 with
  | None => (false, 1%nat)
  | Some s0 =>
      (* the first usable state, after at most one wait *)
      let first : option (option string) * nat :=
        if noState s0 then
          match bluetoothState env 1 with
          | None => (None, 2%nat)
          | Some s1 => if noState s1 then (Some None, 2%nat) else (Some s1, 2%nat)
          end
        else (Some s0, 1%nat) in
      match first with
      | (None, n) => (false, n)
      | (Some None, n) => (false, n)
      | (Some state, n) =>
          if isState "PoweredOn" state then (true, n)
          else if isState "Unauthorized" state then (false, n)
          else if isState "PoweredOff" state then (false, n)
          else if isState "Unknown" state then
            match bluetoothState env n with
            | None => (false, S n)
            | Some after1 =>
                if isState "PoweredOn" after1 then (true, S n)
                else if noState after1 || isState "Unknown" after1 then
                  match bluetoothState env (S n) with
                  | None => (false, S (S n))
                  | Some after2 => (isState "PoweredOn" after2, S (S n))
                  end
                else (false, S n)
            end
          else (false, n)
      end
  end.

(** checkBluetoothPermissionBeforeInit *)
Definition checkBluetoothPermissionBeforeInit : bool * list Event :=
  match platformOS env with
  | Some android =>
      (match bluetoothEnabled env with Some true => true | _ => false end,
       [EvBluetoothEnabled])
  | Some ios =>
      let '(verdict, reads) := checkIOS in
      (verdict,
       EvGetState :: concat (repeat [EvWait 2000; EvGetState] (reads - 1)))
  | None => (true, [])
  end.

Definition setInitializing (b promise : bool) (st : State) : State :=
  {| _isInitializing := b; _initializationPromise := promise;
     _ycSDKInitialized := _ycSDKInitialized st; storedFlag := storedFlag st |}.

Definition setYC (b : bool) (st : State) : State :=
  {| _isInitializing := _isInitializing st;
     _initializationPromise := _initializationPromise st;
     _ycSDKInitialized := b; storedFlag := storedFlag st |}.

Definition setFlag (v : string) (st : State) : State :=
  {| _isInitializing := _isInitializing st;
     _initializationPromise := _initializationPromise st;
     _ycSDKInitialized := _ycSDKInitialized st; storedFlag := Some v |}.

(** [StorageServiceManager.getString(SDK_CONFIG.STORAGE_KEY) === 'true'] *)
Definition flagIsTrue (st : State) : bool :=
  match storedFlag st with
  | Some v => String.eqb v "true"
  | None => false
  end.

(** initializeRWSDK: the [success] property of its result. *)
Definition initializeRWSDK : bool * list Event :=
  match platformOS env with
  | Some ios =>
      match rwInit env with
      | InitResolved _ => (true, [EvInitRW])
      | InitRejected => (false, [EvInitRW])
      end
  | _ => (false, [])
  end.

(** initializeYCSDK: whether it returns an object with [success] set. *)
Definition initializeYCSDK (st : State) : bool * State * list Event :=
  if _ycSDKInitialized st then (true, st, [])
  else
    match ycInit env with
    | InitResolved _ => (true, setYC true st, [EvInitYC])
    | InitRejected => (false, st, [EvInitYC])
    end.

(** The body of the promise that initializeDeviceSDKs creates. *)
Definition initializationBody (st : State) : State * list Event :=
  if flagIsTrue st && _ycSDKInitialized st then (st, [])
  else
    let '(hasPermission, evs) := checkBluetoothPermissionBeforeInit in
    if negb hasPermission then (st, evs)
    else
      match platformOS env with
      | Some ios =>
          let '(success, evs') := initializeRWSDK in
          if success then (setFlag "true" st, (evs ++ evs' ++ [EvStoreFlag])%list)
          else (st, (evs ++ evs')%list)
      | Some android =>
          let '(success, st1, evs') := initializeYCSDK st in
          if success && _ycSDKInitialized st1
          then (setFlag "true" st1, (evs ++ evs' ++ [EvStoreFlag])%list)
          else (st1, (evs ++ evs')%list)
      | None => (st, evs)
      end.

(** initializeDeviceSDKs *)
Definition initializeDeviceSDKs (st : State) : State * list Event :=
  if _ycSDKInitialized st && match platformOS env with Some android => true | _ => false end
  then (st, [])
  else if _isInitializing st then
    (st, if _initializationPromise st then [EvAwaitPending] else [])
  else
    let '(st1, evs) := initializationBody (setInitializing true true st) in
    (setInitializing false false st1, evs).

(** ensureSDKsInitialized *)
Definition ensureSDKsInitialized (st : State) : State * list Event :=
  if _isInitializing st && _initializationPromise st then (st, [EvAwaitPending])
  else if flagIsTrue st
          && (negb match platformOS env with Some android => true | _ => false end
              || _ycSDKInitialized st)
  then (st, [])
  else initializeDeviceSDKs st.

End WithEnv.

Definition isNativeInit (e : Event) : bool :=
  match e with EvInitRW | EvInitYC => true | _ => false end.

(** The native [initSDK()] calls of a trace. *)
Definition nativeInits (evs : list Event) : nat := length (List.filter isNativeInit evs).

Definition waits (evs : list Event) : Z :=
  fold_right (fun e acc => match e with EvWait ms => ms + acc | _ => acc end) 0 evs.

(** The native module asked on this platform did not throw. *)
Definition nativeInitSettled (env : Env) : Prop :=
  match platformOS env with
  | Some ios => rwInit env <> InitRejected
  | Some android => ycInit env <> InitRejected
  | None => False
  end.

(** *** Sample environments *)

Definition quietIOS : Env :=
  {| platformOS := Some ios; bluetoothEnabled := Some true;
     bluetoothState := fun k => match k with
                                | 0%nat => Some None
                                | 1%nat => Some (Some "Unknown")
                                | 2%nat => Some (Some "Unknown")
                                | _ => Some (Some "PoweredOn")
                                end;
     rwInit := InitResolved false; ycInit := InitRejected |}.

Definition fresh : State :=
  {| _isInitializing := false; _initializationPromise := false;
     _ycSDKInitialized := false; storedFlag := None |}.

Definition androidReady : Env :=
  {| platformOS := Some android; bluetoothEnabled := Some true;
     bluetoothState := fun _ => None;
     rwInit := InitRejected; ycInit := InitResolved true |}.

Definition restarted : State :=
  {| _isInitializing := false; _initializationPromise := false;
     _ycSDKInitialized := false; storedFlag := Some "true" |}.

End SDKManager.

(** ** DeviceHealthSync: runAutoDeviceSync and its lock *)

Module DeviceSync.
Import Js.

Local Open Scope string_scope.

(** The module-level variables of DeviceHealthSync, and those of
    DeviceConnectionService that it reads and writes. *)
Record State : Type := {
  autoSyncLock : bool;
  lastSkipReason : option string;
  connection : Connection.State
}.

(** getLastAutoSyncSkipReason *)
Definition getLastAutoSyncSkipReason (st : State) : option string := lastSkipReason st.

Definition setSkipReason (reason : option string) (st : State) : State :=
  {| autoSyncLock := autoSyncLock st; lastSkipReason := reason;
     connection := connection st |}.

Definition setAutoSyncLock (b : bool) (st : State) : State :=
  {| autoSyncLock := b; lastSkipReason := lastSkipReason st;
     connection := connection st |}.

Definition setConnection (c : Connection.State) (st : State) : State :=
  {| autoSyncLock := autoSyncLock st; lastSkipReason := lastSkipReason st;
     connection := c |}.

(** setHealthDataOperationLock; clearHealthDataOperationLock and
    forceStopHealthDataOperation are this with [false]. *)
Definition setHealthDataOperationLock (value : bool) (c : Connection.State)
  : Connection.State :=
  {| Connection._isConnecting := Connection._isConnecting c;
     Connection._isHealthDataOperationInProgress := value;
     Connection._connectionAttempts := Connection._connectionAttempts c;
     Connection._pendingDeviceInfoRequest := Connection._pendingDeviceInfoRequest c;
     Connection.storedDevice := Connection.storedDevice c |}.

(** resetAllLocks *)
Definition resetAllLocks (st : State) : State :=
  {| autoSyncLock := false; lastSkipReason := None;
     connection := setHealthDataOperationLock false
                     (setHealthDataOperationLock false (connection st)) |}.

(** normalizeDeviceType; [None] is an argument left out. *)
Definition normalizeDeviceType (deviceType : option string) : string :=
  let value :=
    toLowerCase (match deviceType with
                 | Some s => if is_empty_string s then "yc" else s
                 | None => "yc"
                 end) in
  if String.eqb value "rw" then "rw" else "yc".

(** sanitizeUuid *)
Definition sanitizeUuid (uuid : value) : option string :=
  match uuid with
  | VStr s =>
      if is_empty_string s then None
      else
        let trimmed := trim s in
        if is_empty_string trimmed || String.eqb trimmed "temp-device"
           || startsWith "temp" trimmed
        then None else Some trimmed
  | _ => None
  end.

(** The DeviceContext argument. *)
Record DeviceContext : Type := {
  uuid : value;
  deviceType : option string
}.

(** What one call of runAutoDeviceSync meets. *)
Record Env : Type := {
  inDetailDevice : option bool;        (* AutoSyncService.isInDetailDevice(); None: it throws *)
  scanInProgress : bool;               (* isScanInProgress() *)
  bluetoothReady : string + bool;      (* ensureBluetoothEnabled(false); inl: it throws *)
  platformOS : string;
  attempts : nat -> HealthSync.AttemptEnv;
  (* what the connection service's variables are when the fetch is over *)
  fetchLeaves : Connection.State -> Connection.State
}.

(** How a call ends: with [null], with the payload, or with an error. *)
Inductive Result : Type :=
| Skipped
| Synced (raw : option HealthSync.Payload)
| Threw (message : string).

Section Run.
Variable env : Env.

(** The [try] block of runAutoDeviceSync. *)
Definition syncBody (device : DeviceContext) (isAlreadyConnected : bool) (st : State)
  : Result * State * list HealthSync.Event :=
  match bluetoothReady env with
  | inl message => (Threw message, st, [])
  | inr false =>
      (Threw (HealthSync.createSyncError "BLUETOOTH_DISABLED" "Bluetooth is not available"),
       st, [])
  | inr true =>
      let normalizedType := normalizeDeviceType (deviceType device) in
      match sanitizeUuid (uuid device) with
      | None => (Skipped, setSkipReason (Some "INVALID_UUID") st, [])
      | Some sanitizedUuid =>
          let '(res, evs) :=
            HealthSync.fetchHealthDataWithRetry sanitizedUuid normalizedType
              (platformOS env) isAlreadyConnected (attempts env) in
          let st1 := setConnection (fetchLeaves env (connection st)) st in
          match res with
          | inr raw => (Synced raw, st1, evs)
          | inl message => (Threw message, st1, evs)
          end
      end
  end.

(** runAutoDeviceSync; the SDK initialisation it awaits first touches
    none of these variables. *)
Definition runAutoDeviceSync (device : option DeviceContext) (isAlreadyConnected : bool)
    (st : State) : Result * State * list HealthSync.Event :=
  if match inDetailDevice env with Some true => true | _ => false end
  then (Skipped, setSkipReason (Some "IN_DETAIL_DEVICE_SCREEN") st, [])
  else
    match device with
    | None => (Skipped, setSkipReason (Some "MISSING_DEVICE_INFO") st, [])
    | Some d =>
        if negb (truthy (uuid d))
        then (Skipped, setSkipReason (Some "MISSING_DEVICE_INFO") st, [])
        else if autoSyncLock st
        then (Skipped, setSkipReason (Some "LOCKED") st, [])
        else if scanInProgress env || Connection._isConnecting (connection st)
        then (Skipped, setSkipReason (Some "OPERATION_CONFLICT") st, [])
        else
          let st1 :=
            setConnection (setHealthDataOperationLock true (connection st))
              (setAutoSyncLock true st) in
          let '(r, st2, evs) := syncBody d isAlreadyConnected st1 in
          (r, resetAllLocks st2, evs)
    end.

End Run.

(** The message of the error that getHealthDataByDeviceType throws when
    runAutoDeviceSync has handed it [null]:
    [getLastAutoSyncSkipReason() || 'unknown']. *)
Definition failedMessage (st : State) : string :=
  "Failed to get health data: "
  ++ match getLastAutoSyncSkipReason st with
     | Some reason => if is_empty_string reason then "unknown" else reason
     | None => "unknown"
     end.

(** Whether a call gets past the guards at the head of runAutoDeviceSync. *)
Definition passesGuards (env : Env) (device : option DeviceContext) (st : State) : bool :=
  negb match inDetailDevice env with Some true => true | _ => false end
  && match device with Some d => truthy (uuid d) | None => false end
  && negb (autoSyncLock st)
  && negb (scanInProgress env || Connection._isConnecting (connection st)).

(** *** Sample calls *)

Definition idle : State :=
  {| autoSyncLock := false; lastSkipReason := None;
     connection := {| Connection._isConnecting := false;
                      Connection._isHealthDataOperationInProgress := false;
                      Connection._connectionAttempts := ∅;
                      Connection._pendingDeviceInfoRequest := false;
                      Connection.storedDevice := None |} |}.

Definition quiet : Env :=
  {| inDetailDevice := Some false; scanInProgress := false; bluetoothReady := inr true;
     platformOS := "android"; attempts := HealthSync.timeoutThenEmpty;
     fetchLeaves := fun c => c |}.

(** A ring still carrying the name the pairing screen gave it. *)
Definition placeholderRing : DeviceContext :=
  {| uuid := VStr " temp-1"; deviceType := Some "YC" |}.

End DeviceSync.

(** ** What the metric loops select *)

Module MetricSelection.
Import Js Mapping Normalizer.

Section WithValidator.
Variable V : DataValidator.
Variable today : DayRange.

(** What the loop of findBestValueInTimeRange reads off one record. *)
Definition rangedTime (timestampFields : list string) (record : obj) : Q :=
  normalizeTimestamp (extractTimestamp V record timestampFields).

Definition rangedValue (valueFields : list string) (validator : Q -> bool) (record : obj) : Q :=
  extractBestValue V record valueFields (Some validator).

(** The record gets past the [continue] of the loop. *)
Definition inToday (t : Q) : bool :=
  negb (Qeq_bool t 0 || Qltb t (inject_Z (dayStart today))
        || Qgtb t (inject_Z (dayEnd today))).

(** The record can be selected at all. *)
Definition rangedQualifies (valueFields timestampFields : list string)
    (validator : Q -> bool) (record : obj) : bool :=
  inToday (rangedTime timestampFields record)
  && Qgtb (rangedValue valueFields validator record) 0
  && Qgtb (rangedTime timestampFields record) 0.

(** What the loop holds after the records [seen]: nothing yet, or the
    time and value of a qualifying record of greatest time. *)
Definition rangedSelected (valueFields timestampFields : list string)
    (validator : Q -> bool) (seen : list obj) (best : Q * Q) : Prop :=
  (best = (0%Q, 0%Q)
   /\ forall r, In r seen -> rangedQualifies valueFields timestampFields validator r = false)
  \/ (exists r, In r seen
                /\ rangedQualifies valueFields timestampFields validator r = true
                /\ best = (rangedTime timestampFields r,
                           rangedValue valueFields validator r)
                /\ forall r', In r' seen ->
                              rangedQualifies valueFields timestampFields validator r' = true ->
                              (rangedTime timestampFields r' <= rangedTime timestampFields r)%Q).

(** The array and the value fields that normalizeHeartRateMetric and
    normalizeSpo2Metric hand to the loop. *)
Definition rangedSource (rawData : RawData) (config : FieldMapping) (platform : Platform)
    (combinedFields : list string) : option (list obj) * list string :=
  let cleanedData := validateAndCleanData V rawData in
  match platform with
  | ios =>
      let '(arr, dataSource) :=
        extractDataArrayForIOS V cleanedData "combinedData" (dataPath config) in
      (arr, if String.eqb dataSource "combinedData" then combinedFields else valueFields config)
  | android => (extractDataArray V cleanedData (dataPath config), valueFields config)
  end.

(** What the loops of normalizeTemperatureMetric and
    normalizeBatteryMetric read off one record. *)
Definition timedAt (timestampFields : list string) (record : obj) : Q :=
  tsNum (extractTimestamp V record timestampFields).

Definition temperatureOf (config : FieldMapping) (record : obj) : Q :=
  extractBestValue V record (valueFields config) (Some temperatureValid).

Definition batteryOf (config : FieldMapping) (record : obj) : Q :=
  extractBestValue V record (valueFields config) None.

(** What such a loop holds after the records [seen], for the reading
    [valueOf]: nothing, or the time and reading of a record whose reading
    and time are positive and whose time is greatest among such. *)
Definition timedSelected (valueOf : obj -> Q) (timestampFields : list string)
    (seen : list obj) (bestTime bestValue : Q) : Prop :=
  (bestTime = 0%Q /\ bestValue = 0%Q
   /\ forall r, In r seen ->
                Qgtb (valueOf r) 0 && Qgtb (timedAt timestampFields r) 0 = false)
  \/ (exists r, In r seen
                /\ Qgtb (valueOf r) 0 = true
                /\ Qgtb (timedAt timestampFields r) 0 = true
                /\ bestTime = timedAt timestampFields r
                /\ bestValue = valueOf r
                /\ forall r', In r' seen ->
                              Qgtb (valueOf r') 0 = true ->
                              (timedAt timestampFields r' <= timedAt timestampFields r)%Q).

(** The loop of normalizeTemperatureMetric and normalizeBatteryMetric on
    (time, reading), for the reading [valueOf]. *)
Definition timedStep (valueOf : obj -> Q) (timestampFields : list string)
    (best : Q * Q) (record : obj) : Q * Q :=
  if Qgtb (valueOf record) 0 && Qgtb (timedAt timestampFields record) (fst best)
  then (timedAt timestampFields record, valueOf record) else best.

End WithValidator.

(** *** Sample payloads *)

Local Open Scope string_scope.

Definition pulse (time bpm : Q) : obj :=
  <["time" := VNum time]> (<["heartRate" := VNum bpm]> ∅).

(** A reading of yesterday and two of today, the later one implausible. *)
Definition pulses : RawData :=
  <["heartRate" := [pulse 1699990000000 61; pulse 1700000005000 72;
                    pulse 1700000009000 250]]> ∅.

Definition level (time : option Q) (percent : Q) : obj :=
  match time with
  | Some t => <["time" := VNum t]> (<["battery" := VNum percent]> ∅)
  | None => <["battery" := VNum percent]> ∅
  end.

(** Battery records, none of which carries a time. *)
Definition untimedLevels : RawData := <["battery" := [level None 80; level None 75]]> ∅.

Definition timedLevels : RawData :=
  <["battery" := [level (Some 1690000000000%Q) 80; level None 75]]> ∅.

Definition degrees (time t : Q) : obj :=
  <["time" := VNum time]> (<["temperature" := VNum t]> ∅).

Definition coldAndWarm : RawData :=
  <["temperature" := [degrees 1690000000000 (-5); degrees 1690000001000 (365 # 10)]]> ∅.

End MetricSelection.

(** ** DeviceMapper: the queries on the mapping table *)

Module DeviceMapper.
Import Js Mapping.

Local Open Scope string_scope.

(** [Object.keys(DEVICE_MAPPINGS)], in the order of the table. *)
Definition deviceMappingKeys : list string :=
  ["yc"; "rw"; "android_yc"; "ios_yc"; "default"].

(** getAvailableDeviceTypes *)
Definition getAvailableDeviceTypes : list string :=
  List.filter (fun key => negb (startsWith "android_" key) && negb (startsWith "ios_" key)
                          && negb (String.eqb key "default"))
    deviceMappingKeys.

(** [!!DEVICE_MAPPINGS[key]] *)
Definition hasMapping (key : string) : bool :=
  match DEVICE_MAPPINGS !! key with Some _ => true | None => false end.

(** isDeviceTypeSupported *)
Definition isDeviceTypeSupported (deviceType : string) : bool :=
  let normalizedType := normalizeDeviceType deviceType in
  hasMapping normalizedType || hasMapping ("android_" ++ normalizedType)
  || hasMapping ("ios_" ++ normalizedType).

End DeviceMapper.

(** ** AutoSyncService: pausing, the detail screen, uuid validity *)

Module AutoSyncControl.
Import Js AutoSync.

Local Open Scope string_scope.

(** isValidDeviceUuid *)
Definition isValidDeviceUuid (uuid : value) : bool :=
  match uuid with
  | VStr s =>
      if is_empty_string s || is_empty_string (trim s) then false
      else negb (String.eqb s "temp-device") && negb (startsWith "temp" s)
  | _ => false
  end.

(** The service state together with the promise of the device sync
    under way, which forceInterruptSyncOperations also looks at. *)
Record Control : Type := {
  service : State;
  activeDeviceSyncPromise : bool
}.

(** What the detail-screen switch asks of the other modules. *)
Inductive Call : Type :=
| CallForceStopHealthDataOperation
| CallResetAllLocks
| CallServiceStarted.

Definition setDetail (b : bool) (st : State) : State :=
  {| isDeviceSyncRunning := isDeviceSyncRunning st; isOSSyncRunning := isOSSyncRunning st;
     isInDetailDeviceScreen := b; isPaused := isPaused st;
     isRunning := isRunning st; intervalActive := intervalActive st;
     consecutiveErrorCount := consecutiveErrorCount st;
     lastErrorTime := lastErrorTime st; lastSyncTime := lastSyncTime st;
     lastSyncSource := lastSyncSource st |}.

(** pause *)
Definition pause (st : State) : State :=
  if isPaused st then st else setPaused true false st.

(** forceInterruptSyncOperations *)
Definition forceInterruptSyncOperations (c : Control) : Control * list Call :=
  if isDeviceSyncRunning (service c) || isOSSyncRunning (service c)
     || activeDeviceSyncPromise c
  then ({| service := setOSSyncRunning false (setDeviceSyncRunning false (service c));
           activeDeviceSyncPromise := false |},
        [CallForceStopHealthDataOperation; CallResetAllLocks])
  else (c, []).

(** setDetailDeviceScreenState *)
Definition setDetailDeviceScreenState (isInDetailScreen : bool) (c : Control)
  : Control * list Call :=
  let wasInDetailScreen := isInDetailDeviceScreen (service c) in
  let st := setDetail isInDetailScreen (service c) in
  if isInDetailScreen && negb wasInDetailScreen then
    let st1 := if isRunning st && negb (isPaused st) then pause st else st in
    forceInterruptSyncOperations
      {| service := st1; activeDeviceSyncPromise := activeDeviceSyncPromise c |}
  else if negb isInDetailScreen && wasInDetailScreen then
    if isRunning st && isPaused st then
      let '(st1, effs) := resume false st in
      ({| service := st1; activeDeviceSyncPromise := activeDeviceSyncPromise c |},
       map (fun _ => CallServiceStarted) effs)
    else ({| service := st; activeDeviceSyncPromise := activeDeviceSyncPromise c |}, [])
  else ({| service := st; activeDeviceSyncPromise := activeDeviceSyncPromise c |}, []).

(** The error classes that handleDeviceSyncError counts with a ceiling
    of their own, below MAX_CONSECUTIVE_ERRORS, or does not count. *)
Definition countedBelowCeiling (errorMessage : string) : bool :=
  match errorKind errorMessage with
  | KBluetooth | KConnection | KNullReference | KTimeout => true
  | _ => false
  end.

(** *** Sample states and messages *)

(** A running service that the user has paused, with a sync under way. *)
Definition pausedByUser : Control :=
  {| service := {| isDeviceSyncRunning := true; isOSSyncRunning := false;
                   isInDetailDeviceScreen := false; isPaused := true; isRunning := true;
                   intervalActive := false; consecutiveErrorCount := 0;
                   lastErrorTime := None; lastSyncTime := None; lastSyncSource := None |};
     activeDeviceSyncPromise := true |}.

Definition connectionMessage : string := "Device not connected".

Definition nullMessage : string := "Cannot read property 'uuid' of undefined".

End AutoSyncControl.

(** ** DeviceScanner: the vendor scans and detectDeviceType *)

Module ScannerVendors.
Import Js Scanner.
Import Mapping(Platform, ios, android).

Local Open Scope string_scope.

(** [v.toLowerCase()] on a value that has passed a truthiness test:
    [None] is the TypeError of a value that is not a string. *)
Definition lowerOf (v : value) : option string :=
  match v with
  | VStr s => Some (toLowerCase s)
  | _ => None
  end.

(** The vendor that a lower-cased name or identifier points at. *)
Definition vendorHint (text : string) : option string :=
  if includes "rw" text || includes "ring" text then Some "rw"
  else if includes "yc" text || includes "yicheng" text then Some "yc"
  else None.

(** detectDeviceType; the outer [None] is a thrown TypeError. *)
Definition detectDeviceType (device : option obj) : option string :=
  match device with
  | None => Some "yc"
  | Some d =>
      let byIdentifier : option string :=
        let identifier := or (get d "uuid") (get d "id") in
        if truthy identifier then
          match lowerOf identifier with
          | None => None
          | Some text => Some (default "yc" (vendorHint text))
          end
        else Some "yc" in
      let byName : option string :=
        if truthy (get d "name") then
          match lowerOf (get d "name") with
          | None => None
          | Some name =>
              match vendorHint name with
              | Some vendor => Some vendor
              | None => byIdentifier
              end
          end
        else byIdentifier in
      if truthy (get d "type") then
        match lowerOf (get d "type") with
        | None => None
        | Some type =>
            if String.eqb type "yc" || String.eqb type "rw" then Some type else byName
        end
      else byName
  end.

(** What the vendor scans meet; for the answers of the native scans,
    [None] is a scan that rejects, times out or answers [null]. *)
Record Env : Type := {
  platformOS : option Platform;
  ycAvailable : bool;                            (* ycIsAvailable() *)
  ycStartScan : option (list obj);               (* under withScanTimeout *)
  connectedPeripherals : option (option (list obj));
     (* ycGetConnectedPeripherals(); None: it rejects; Some None: null *)
  hasYCManager : bool;
  hasYCScan : bool;                              (* YCRingManager.scanDevices *)
  ycLegacyScan : option (list obj);
  hasRWManager : bool;
  hasRWScan : bool;
  rwScan : option (list obj)
}.

(** [(devices || []).filter(item => item.name).map(item => ({...item, type}))] *)
Definition namedAndTagged (vendor : string) (devices : option (list obj)) : list obj :=
  map (fun item => <["type" := VStr vendor]> item)
    (List.filter (fun item => truthy (get item "name")) (default [] devices)).

(** The object that the iOS branch of scanYCDevices builds for a device. *)
Definition describeYC (connectedIds : list value) (d : obj) : obj :=
  let id := or (get d "id") (or (get d "uuid") (get d "identifier")) in
  <["uuid" := id]>
    (<["name" := or (get d "name") (VStr "YC Device")]>
       (<["type" := VStr "yc"]>
          (<["isConnected" := VBool (existsb (fun x => strictEq x id) connectedIds)]> ∅))).

(** scanYCDevices *)
Definition scanYCDevices (e : Env) : list obj :=
  if match platformOS e with Some ios => ycAvailable e | _ => false end then
    match connectedPeripherals e with
    | None => []
    | Some connected =>
        let connectedIds := map (fun x => get x "id") (default [] connected) in
        map (describeYC connectedIds)
          (List.filter (fun d => truthy (get d "name")) (default [] (ycStartScan e)))
    end
  else if negb (hasYCManager e) then []
  else if negb (hasYCScan e) then []
  else namedAndTagged "yc" (ycLegacyScan e).

(** scanRWDevices *)
Definition scanRWDevices (e : Env) : list obj :=
  if negb (hasRWManager e) then []
  else if negb (hasRWScan e) then []
  else namedAndTagged "rw" (rwScan e).

(** *** A sample scan *)

(** A YC ring whose advertised name mentions a ring. *)
Definition smartRing : obj :=
  <["id" := VStr "C1:02"]> (<["name" := VStr "Smart Ring 2"]> ∅).

Definition nameless : obj := <["id" := VStr "C1:03"]> ∅.

Definition androidScan : Env :=
  {| platformOS := Some android; ycAvailable := false; ycStartScan := None;
     connectedPeripherals := None; hasYCManager := true; hasYCScan := true;
     ycLegacyScan := Some [smartRing; nameless];
     hasRWManager := false; hasRWScan := false; rwScan := None |}.

(** A device object as a vendor scan hands it out: named, and tagged
    with the vendor. *)
Definition tagged (vendor : string) (d : obj) : Prop :=
  truthy (get d "name") = true /\ get d "type" = VStr vendor.

End ScannerVendors.

(** ** DeviceConnectionService: the connection probe and its cache *)

Module ConnectionCheck.
Import Js.
Import Mapping(Platform, ios, android).

Local Open Scope string_scope.

(** What the probe reads of the answer of getDeviceInfoRaw; a field is
    [None] when it is not a string. *)
Record DeviceInfo : Type := {
  code : value;
  dataUuid : option string;        (* deviceInfo.data.uuid *)
  ownUuid : option string;         (* deviceInfo.uuid *)
  dataMacAddress : option string;  (* deviceInfo.data.macAddress *)
  ownMacAddress : option string    (* deviceInfo.macAddress *)
}.

(** [a || b] on strings *)
Definition orElse (a b : string) : string := if is_empty_string a then b else a.

(** _extractDeviceUuid; the empty string stands for [null]. *)
Definition _extractDeviceUuid (info : DeviceInfo) : string :=
  orElse (Connection.cleanUuid (dataUuid info))
    (orElse (Connection.cleanUuid (ownUuid info))
       (orElse (Connection.cleanUuid (dataMacAddress info))
          (Connection.cleanUuid (ownMacAddress info)))).

(** What one probe meets. *)
Record Env : Type := {
  batteryEnv : Battery.Env;
  (* how the device-info request already pending settles within its
     7 s: None when it rejects or runs out of time, Some None for an
     empty answer *)
  pendingInfo : option (option DeviceInfo);
  (* how a new getDeviceInfoRaw settles within its 9 s *)
  freshInfo : option (option DeviceInfo)
}.

(** The entries of [_connectionCheckCache]: the answer and when it was
    stored. *)
Record State : Type := {
  probing : Battery.State;
  _connectionCheckCache : gmap string (bool * Z)
}.

Section Probe.
Variable h : Host.
Variable env : Env.

Definition platformOS : option Platform := Battery.platformOS (batteryEnv env).

Definition isAndroid : bool := match platformOS with Some android => true | _ => false end.
Definition isIOS : bool := match platformOS with Some ios => true | _ => false end.

Definition withConnection (c : Connection.State) (st : Battery.State) : Battery.State :=
  {| Battery.batteryRetryCount := Battery.batteryRetryCount st; Battery.connection := c |}.

(** [cleanUuid(parsed?.uuid)] *)
Definition storedUuid (d : Connection.StoredDevice) : string :=
  match d with
  | Connection.Parsed (VStr s) => trim s
  | _ => ""
  end.

(** The branch of _checkDeviceConnection for a YC ring on Android whose
    native module has getDeviceInfoRaw. *)
Definition deviceInfoProbe (id : string) (st : Battery.State) : bool * Battery.State :=
  let c := Battery.connection st in
  let reused : option DeviceInfo :=
    if Connection._pendingDeviceInfoRequest c then
      match pendingInfo env with
      | Some info => info
      | None => None
      end
    else None in
  let settled := withConnection (Connection.setPending false c) st in
  let answer : option (option DeviceInfo) :=
    match reused with
    | Some info => Some (Some info)
    | None => freshInfo env
    end in
  match answer with
  | None => (false, settled)                       (* thrown, and caught below *)
  | Some None => (false, settled)
  | Some (Some deviceInfo) =>
      if negb (Scanner.strictEq (code deviceInfo) (VNum 0)) then (false, settled)
      else
        let deviceUuid := _extractDeviceUuid deviceInfo in
        if negb (is_empty_string deviceUuid)
        then (String.eqb (Connection.cleanUuid (Some deviceUuid))
                (Connection.cleanUuid (Some id)), settled)
        else
          let storedMatches :=
            match Connection.storedDevice c with
            | Some d =>
                negb (is_empty_string (storedUuid d))
                && String.eqb (storedUuid d) (Connection.cleanUuid (Some id))
            | None => false
            end in
          if storedMatches then (true, settled)
          else (bool_decide (Connection.cleanUuid (Some id) ∈ Connection._connectionAttempts c),
                settled)
  end.

(** [typeof battery === 'number' && battery >= 0] *)
Definition batteryAnswers (b : option Q) : bool :=
  match b with
  | Some q => Qle_bool 0 q
  | None => false
  end.

(** _checkDeviceConnection; the SDK initialisation that it awaits first
    for a YC ring on Android touches none of these variables. *)
Definition _checkDeviceConnection (uuid deviceType : option string) (st : Battery.State)
  : bool * Battery.State * list Battery.Event :=
  let type :=
    toLowerCase (match deviceType with
                 | Some s => if is_empty_string s then "yc" else s
                 | None => "yc"
                 end) in
  let id := Connection.cleanUuid uuid in
  if is_empty_string id then (false, st, [])
  else if String.eqb type "yc" && isIOS
          && Connection.ycAvailable (Battery.connectEnv (batteryEnv env))
  then (Battery.uuidConnected (batteryEnv env), st, [Battery.EvUuidProbe])
  else if isAndroid then
    if String.eqb type "yc"
       && Connection.hasGetDeviceInfoRaw (Battery.connectEnv (batteryEnv env))
    then let '(r, st1) := deviceInfoProbe id st in (r, st1, [])
    else
      let '(battery, st1, evs) :=
        Battery.getBatteryLevelByDeviceType h (batteryEnv env) type id true st in
      (batteryAnswers battery, st1, evs)
  else if String.eqb type "rw" && isIOS then
    let '(battery, st1, evs) :=
      Battery.getBatteryLevelByDeviceType h (batteryEnv env) type id true st in
    (batteryAnswers battery, st1, evs)
  else (false, st, []).

(** The key of a cache entry. *)
Definition cacheKey (uuid deviceType : option string) : string :=
  Connection.cleanUuid uuid ++ "_"
  ++ trim (toLowerCase (match deviceType with
                        | Some s => if is_empty_string s then "yc" else s
                        | None => "yc"
                        end)).

(** isDeviceConnectedByUUID with no request in flight; [now] is the
    clock when the cache is looked up, [later] when the answer is
    stored. *)
Definition isDeviceConnectedByUUID (uuid deviceType : option string) (skipCache : bool)
    (now later : Z) (st : State) : bool * State * list Battery.Event :=
  let id := Connection.cleanUuid uuid in
  if is_empty_string id then (false, st, [])
  else
    let key := cacheKey uuid deviceType in
    let cached :=
      if skipCache then None
      else
        match _connectionCheckCache st !! key with
        | Some (result, timestamp) =>
            if (now - timestamp <? Connection.CONNECTION_CHECK_CACHE_TTL)%Z
            then Some result else None
        | None => None
        end in
    match cached with
    | Some result => (result, st, [])
    | None =>
        let '(result, probed, evs) := _checkDeviceConnection uuid deviceType (probing st) in
        (result,
         {| probing := probed;
            _connectionCheckCache :=
              if skipCache then _connectionCheckCache st
              else <[key := (result, later)]> (_connectionCheckCache st) |},
         evs)
    end.

End Probe.

(** invalidateConnectionCache *)
Definition invalidateConnectionCache (uuid : option string) (st : State) : State :=
  {| probing := probing st;
     _connectionCheckCache :=
       match uuid with
       | Some s =>
           if is_empty_string s then ∅
           else
             let clean := Connection.cleanUuid uuid in
             delete (clean ++ "_jl")
               (delete (clean ++ "_dh") (delete (clean ++ "_yc") (_connectionCheckCache st)))
       | None => ∅
       end |}.

(** The device type as _checkDeviceConnection reads it. *)
Definition probedType (deviceType : option string) : string :=
  toLowerCase (match deviceType with
               | Some s => if is_empty_string s then "yc" else s
               | None => "yc"
               end).

(** *** A sample probe *)

Definition androidProbe : Env :=
  {| batteryEnv := Battery.androidRing (YCBridge.Resolved (YCBridge.Scalar (VNum 80)));
     pendingInfo := None; freshInfo := None |}.

Definition emptyCache : State := {| probing := Battery.idle; _connectionCheckCache := ∅ |}.

End ConnectionCheck.

(** ** DeviceConnectionService: what the retry loop of connectDevice does *)

Module ConnectRetry.
Import Js Connection.

Local Open Scope string_scope.

Inductive Event : Type :=
| EvNativeConnect (retryCount : nat)     (* YCRingManager.connectDevice(clean) *)
| EvDelay (ms : Z)
| EvStillConnectedProbe                  (* isDeviceConnectedByUUID(clean, type) *)
| EvRescan                               (* ycStartScan(3) *)
| EvResetSDK.                            (* resetSDKState(false) *)

Section Loop.
Variable env : Env.
(** The answer of the probe made before a rescan, per retry; [None]: it
    throws. *)
Variable stillConnected : nat -> option bool.

(** What the [catch] of a pass does before the next pass. *)
Definition beforeRetry (retryCount : nat) (code message : string) : list Event :=
  let retryDelay := if isGattError code message then RETRY_DELAY_MS * 2 else RETRY_DELAY_MS in
  (if String.eqb code "not_found" || includes "Peripheral not found" message
   then match stillConnected retryCount with
        | Some false => [EvStillConnectedProbe; EvRescan]
        | _ => [EvStillConnectedProbe]
        end
   else [])
  ++ (if isGattError code message && (retryCount =? 0)%nat
      then [EvResetSDK; EvDelay SDK_RESET_DELAY_MS] else [])
  ++ [EvDelay retryDelay].

(** The retry loop over YCRingManager.connectDevice, with what it does
    on the way; the verdict is the one of [ycManagerLoop]. *)
Fixpoint ycManagerTrace (remaining retryCount maxRetries : nat) : bool * list Event :=
  match remaining with
  | O => (false, [])
  | S k =>
      match ycManagerConnect env retryCount with
      | Answered v =>
          if truthy v then (true, [EvNativeConnect retryCount])
          else if (retryCount <? maxRetries - 1)%nat then
            let '(r, evs) := ycManagerTrace k (S retryCount) maxRetries in
            (r, EvNativeConnect retryCount :: EvDelay RETRY_DELAY_MS :: evs)
          else (false, [EvNativeConnect retryCount])
      | Rejected code message =>
          if isRetryable code message && (retryCount <? maxRetries - 1)%nat then
            let '(r, evs) := ycManagerTrace k (S retryCount) maxRetries in
            (r, EvNativeConnect retryCount :: (beforeRetry retryCount code message ++ evs)%list)
          else (false, [EvNativeConnect retryCount])
      end
  end.

End Loop.

Definition isNativeConnect (e : Event) : bool :=
  match e with EvNativeConnect _ => true | _ => false end.

(** The native connect calls of a trace. *)
Definition connectCalls (evs : list Event) : nat := length (List.filter isNativeConnect evs).

(** The time spent waiting between passes. *)
Definition totalDelay (evs : list Event) : Z :=
  fold_right (fun e acc => match e with EvDelay ms => ms + acc | _ => acc end) 0 evs.

End ConnectRetry.

(** ** DeviceConnectionService: the stored device descriptor *)

Module StoredDescriptor.
Import Js Connection.

Local Open Scope string_scope.

(** What a step may do to the stored descriptor as far as the ring
    [clean] is concerned: keep it, or remove it when it names another
    ring. *)
Definition keptOrForgotten (clean : string) (st st' : State) : Prop :=
  storedDevice st' = storedDevice st
  \/ (storedDevice st' = None
      /\ exists u, storedDevice st = Some (Parsed u)
                   /\ truthy u = true /\ u <> VStr clean).

(** A service that remembers another ring. *)
Definition otherRingStored : State :=
  {| _isConnecting := false; _isHealthDataOperationInProgress := false;
     _connectionAttempts := ∅; _pendingDeviceInfoRequest := false;
     storedDevice := Some (Parsed (VStr "11:22:33:44:55:66")) |}.

End StoredDescriptor.

(** ** The raw payload, as the sync and as the normalizer read it *)

Module PayloadViews.
Import Js Normalizer.

Local Open Scope string_scope.

(** A payload made of named arrays only, as hasMeaningfulData reads it:
    every property is an array, and there is no summary block. *)
Definition payloadOf (raw : RawData) : HealthSync.Payload :=
  {| HealthSync.collections := HealthSync.CArray <$> raw;
     HealthSync.summary := None |}.

(** The names under which the payload carries something. *)
Definition carries (raw : RawData) (name : string) : bool :=
  match raw !! name with
  | Some (_ :: _) => true
  | _ => false
  end.

(** *** A sample payload: a ring that reports its temperature and
    battery level and nothing else. *)
Definition vitalsOnly : RawData :=
  <["temperature" :=
      cons (<["time" := VNum 1700000001000]> (<["temperature" := VNum (365 # 10)%Q]> ∅)) nil]>
    (<["battery" :=
         cons (<["time" := VNum 1700000001000]> (<["battery" := VNum 80]> ∅)) nil]> ∅).

(** A sync on a connected ring whose every pull brings that payload. *)
Definition vitalsOnlyRing (attempt : nat) : HealthSync.AttemptEnv :=
  {| HealthSync.probeConnected := inr true; HealthSync.connectResult := true;
     HealthSync.pullResult := inr (Some (payloadOf vitalsOnly));
     HealthSync.normalizeResult := None |}.

End PayloadViews.

(** ** DataProcessors: the records a day total counts *)

Module StepTotal.
Import Js DataProcessors.

(** Whether the day total counts a record: sumCurrentDay runs over the
    records isStepRecord keeps, and adds those of the current day. *)
Definition counted (h : Host) (day : DayRange) (record : obj) : bool :=
  isStepRecord h record && isWithinCurrentDayGMT7 day (extractTimestamp h record).

(** The rounded step values of the records the day total counts, in the
    order of the array; their sum, and the sum of their absolute values. *)
Definition countedSteps (h : Host) (day : DayRange) (dataArray : list obj) : list Z :=
  map (extractSteps h) (List.filter (counted h day) dataArray).

Definition total (values : list Z) : Z := fold_right Z.add 0%Z values.

Definition magnitude (values : list Z) : Z :=
  fold_right (fun v acc => (Z.abs v + acc)%Z) 0%Z values.

(** *** Sample records *)

Local Open Scope string_scope.

(** A step record of the sample day, one of an earlier day, and a
    record of the sample day that also carries a heart rate. *)
Definition todayStep : obj :=
  <["step" := VNum 120]> (<["time" := VNum 1700000001000]> ∅).

Definition earlierStep : obj :=
  <["step" := VNum 900]> (<["time" := VNum 1690000000000]> ∅).

Definition pulseStep : obj :=
  <["step" := VNum 50]>
    (<["heartRate" := VNum 70]> (<["time" := VNum 1700000002000]> ∅)).

(** Two single steps and one record of 2^53 steps, all of the sample
    day. *)
Definition oneStep (time : Q) : obj :=
  <["step" := VNum 1]> (<["time" := VNum time]> ∅).

Definition hugeStep : obj :=
  <["step" := VNum (inject_Z (2 ^ 53))]> (<["time" := VNum 1700000003000]> ∅).

End StepTotal.

(** ** AutoSyncService: runOSSync and the stored sync switch *)

Module OSSync.
Import Js AutoSync.

Local Open Scope string_scope.

(** The storage entry SYNC_DATA_STATUS: absent, a text that JSON.parse
    reads as a scalar, or a text that it refuses. *)
Inductive StatusEntry : Type :=
| NoEntry
| JsonEntry (v : value)
| TextEntry (text : string).

(** [syncDataStatus] as runOSSync works it out. *)
Definition syncDataStatus (e : StatusEntry) : bool :=
  match e with
  | NoEntry => false
  | JsonEntry v => truthy v
  | TextEntry text => String.eqb text "true" || String.eqb text "1"
  end.

Record State : Type := {
  service : AutoSync.State;
  statusEntry : StatusEntry
}.

(** How [osSync()] ends. *)
Inductive OsAnswer : Type :=
| OsResolved
| OsRejected (message : string).

Record Env : Type := {
  hasOSHealthPermissions : bool;
  osSync : OsAnswer
}.

Inductive Call : Type :=
| CallOsSync
| CallOnSyncComplete
| CallOnSyncError
| CallStatusChanged (reason : string).

Definition isPermissionError (errorMessage : string) : bool :=
  let lower := toLowerCase errorMessage in
  includes "permission" lower || includes "unauthorized" lower
  || includes "not authorized" lower.

Definition withService (s : AutoSync.State) (st : State) : State :=
  {| service := s; statusEntry := statusEntry st |}.

(** runOSSync, at clock reading [now]. *)
Definition runOSSync (env : Env) (now : Z) (st : State) : State * list Call :=
  let s := service st in
  if shouldAbort s then (st, [])
  else if negb (syncDataStatus (statusEntry st))
  then (withService (setOSSyncRunning false s) st, [])
  else if negb (hasOSHealthPermissions env)
  then (withService (setOSSyncRunning false s) st, [])
  else
    match osSync env with
    | OsResolved =>
        (withService (fst (osSyncSuccess now (setOSSyncRunning true s))) st,
         [CallOsSync; CallOnSyncComplete])
    | OsRejected errorMessage =>
        if isPermissionError errorMessage then
          let count := (consecutiveErrorCount s + 1)%Z in
          let off := (MAX_CONSECUTIVE_ERRORS <=? count)%Z in
          ({| service := setOSSyncRunning false (setErrors count (Some now) s);
              statusEntry := if off then JsonEntry (VBool false) else statusEntry st |},
           CallOsSync
             :: (if off then [CallStatusChanged "permission_denied_persistent"] else []))
        else if (MAX_CONSECUTIVE_ERRORS <=? consecutiveErrorCount s)%Z then
          (withService (setOSSyncRunning false (setErrors (consecutiveErrorCount s) (Some now) s))
             st,
           [CallOsSync])
        else
          (withService
             (setOSSyncRunning false (setErrors (consecutiveErrorCount s + 1)%Z (Some now) s)) st,
           [CallOsSync; CallOnSyncError])
    end.

Definition isOsSync (c : Call) : bool :=
  match c with CallOsSync => true | _ => false end.

(** The calls of [osSync()] in a trace. *)
Definition osSyncCalls (calls : list Call) : nat := length (List.filter isOsSync calls).

(** *** A sample run *)

Definition switchedOn : State :=
  {| service := initialState; statusEntry := JsonEntry (VBool true) |}.

Definition deniedEnv : Env :=
  {| hasOSHealthPermissions := true;
     osSync := OsRejected "HealthKit: Not authorized to read steps" |}.

End OSSync.

(** * Properties *)

(** ** Whole numbers in double arithmetic *)

Module DoubleFacts.
Import Js.

Local Open Scope Z_scope.

Lemma inject_Z_plus_eq (a b : Z) : (inject_Z a + inject_Z b)%Q = inject_Z (a + b).
Proof. unfold Qplus, inject_Z. simpl. rewrite !Z.mul_1_r. reflexivity. Qed.

Lemma Qred_inject_Z (z : Z) : Qred (inject_Z z) = inject_Z z.
Proof.
  unfold Qred, inject_Z.
  pose proof (Z.ggcd_gcd z 1) as Hg.
  pose proof (Z.ggcd_correct_divisors z 1) as Hd.
  destruct (Z.ggcd z 1) as [g [aa bb]]. cbn [fst] in Hg.
  rewrite Z.gcd_1_r in Hg. subst g. destruct Hd as [Ha Hb].
  rewrite !Z.mul_1_l in *. subst aa bb. reflexivity.
Qed.

Lemma roundHalfEven_inject (q : Q) (k : Z) : q == inject_Z k -> roundHalfEven q = k.
Proof.
  intros H. unfold roundHalfEven.
  assert (Hf : Qfloor q = k).
  { rewrite H. apply Qfloor_Z. }
  rewrite Hf.
  assert (Hc : (q - inject_Z k ?= 1 # 2)%Q = Lt).
  { rewrite <- Qlt_alt. rewrite H. lra. }
  rewrite Hc. reflexivity.
Qed.

Lemma pow2_pos (k : Z) : (0 < pow2 k)%Q.
Proof.
  unfold pow2. destruct (Z.leb_spec 0 k).
  - change 0%Q with (inject_Z 0). rewrite <- Zlt_Qlt. apply Z.pow_pos_nonneg; lia.
  - reflexivity.
Qed.

Lemma pow2_neg (k : Z) : 0 <= k -> (pow2 (- k) * inject_Z (2 ^ k) == 1)%Q.
Proof.
  intros Hk. unfold pow2. destruct (Z.leb_spec 0 (- k)).
  - replace k with 0 by lia. reflexivity.
  - rewrite Z.opp_involutive.
    assert (0 < 2 ^ k) by (apply Z.pow_pos_nonneg; lia).
    unfold Qeq, Qmult, inject_Z. cbn [Qnum Qden].
    rewrite Pos.mul_1_r, Z2Pos.id by lia. lia.
Qed.

Lemma ilog2_inject_Z (z : Z) : z <> 0 -> ilog2 (inject_Z z) = Z.log2 (Z.abs z).
Proof.
  intros Hz. unfold ilog2.
  change (Qnum (inject_Z z)) with z. change (Qden (inject_Z z)) with 1%positive.
  change (Qabs (inject_Z z)) with (inject_Z (Z.abs z)).
  change (Z.log2 1) with 0. rewrite Z.sub_0_r.
  assert (Hpos : 0 < Z.abs z) by lia.
  destruct (Z.log2_spec (Z.abs z) Hpos) as [Hlo _].
  assert (H0 : 0 <= Z.log2 (Z.abs z)) by apply Z.log2_nonneg.
  unfold pow2. destruct (Z.leb_spec 0 (Z.log2 (Z.abs z))); [|lia].
  destruct (Qle_bool (inject_Z (2 ^ Z.log2 (Z.abs z))) (inject_Z (Z.abs z))) eqn:E;
    [reflexivity|].
  exfalso. rewrite Zle_Qle in Hlo. apply Qle_bool_iff in Hlo. congruence.
Qed.

(** Whole numbers up to 2^53 are doubles. *)
Lemma fl_inject_Z (z : Z) : Z.abs z <= 2 ^ 53 -> fl (inject_Z z) = Finite (inject_Z z).
Proof.
  intros Hb. unfold fl.
  destruct (Qeq_bool (inject_Z z) 0) eqn:E0.
  { apply Qeq_bool_eq in E0. unfold Qeq in E0. cbn in E0.
    rewrite Z.mul_1_r in E0. subst z. reflexivity. }
  assert (Hz : z <> 0).
  { intros ->. discriminate E0. }
  rewrite (ilog2_inject_Z z Hz).
  assert (Hpos : 0 < Z.abs z) by lia.
  destruct (Z.log2_spec (Z.abs z) Hpos) as [Hlo Hhi].
  set (a := Z.log2 (Z.abs z)) in *.
  assert (Ha0 : 0 <= a) by apply Z.log2_nonneg.
  assert (Ha : a <= 53).
  { destruct (Z.le_gt_cases a 53) as [H|H]; [exact H|].
    assert (2 ^ 54 <= 2 ^ a) by (apply Z.pow_le_mono_r; lia).
    assert (2 ^ 53 < 2 ^ 54) by (apply Z.pow_lt_mono_r; lia). lia. }
  rewrite Z.max_l by lia.
  pose proof (pow2_pos (a - 52)) as Hpp.
  assert (Hy : exists m, (inject_Z z == inject_Z m * pow2 (a - 52))%Q).
  { destruct (Z.eq_dec a 53) as [Ea|Hne].
    - assert (Hz2 : Z.abs z = 2 ^ 53) by (rewrite Ea in *; lia).
      exists (z / 2). rewrite Ea. change (pow2 (53 - 52)) with (inject_Z 2).
      assert (Hdiv : z = 2 * (z / 2)).
      { apply Z.div_exact; [lia|].
        destruct (Z.abs_spec z) as [[_ Habs]|[_ Habs]]; rewrite Hz2 in Habs.
        - rewrite <- Habs. reflexivity.
        - replace z with (- 2 ^ 53) by lia. reflexivity. }
      rewrite <- inject_Z_mult. rewrite Z.mul_comm, <- Hdiv. reflexivity.
    - exists (z * 2 ^ (52 - a)).
      pose proof (pow2_neg (52 - a) ltac:(lia)) as Hp.
      replace (- (52 - a)) with (a - 52) in Hp by lia.
      rewrite inject_Z_mult, <- Qmult_assoc, (Qmult_comm (inject_Z (2 ^ (52 - a)))), Hp.
      ring. }
  destruct Hy as (m & Hm).
  assert (Hr : roundHalfEven (inject_Z z / pow2 (a - 52)) = m).
  { apply roundHalfEven_inject. rewrite Hm. field. lra. }
  rewrite Hr.
  assert (Hle : Qle_bool (pow2 1024) (Qabs (inject_Z m * pow2 (a - 52))) = false).
  { destruct (Qle_bool _ _) eqn:E; [|reflexivity]. exfalso.
    apply Qle_bool_iff in E. rewrite <- Hm in E.
    change (Qabs (inject_Z z)) with (inject_Z (Z.abs z)) in E.
    change (pow2 1024) with (inject_Z (2 ^ 1024)) in E.
    rewrite <- Zle_Qle in E.
    assert (2 ^ 53 < 2 ^ 1024) by (apply Z.pow_lt_mono_r; lia). lia. }
  rewrite Hle. f_equal.
  rewrite <- (Qred_inject_Z z). apply Qred_complete. symmetry. exact Hm.
Qed.

Lemma ofZ_exact (z : Z) : Z.abs z <= 2 ^ 53 -> ofZ z = Finite (inject_Z z).
Proof. apply fl_inject_Z. Qed.

(** Adding whole numbers is exact as long as the sum stays within 2^53. *)
Lemma fadd_exact (a b : Z) :
  Z.abs b <= 2 ^ 53 -> Z.abs (a + b) <= 2 ^ 53 ->
  fadd (Finite (inject_Z a)) (ofZ b) = Finite (inject_Z (a + b)).
Proof.
  intros Hb Hab. rewrite (ofZ_exact b Hb). cbn [fadd].
  rewrite inject_Z_plus_eq. apply fl_inject_Z. exact Hab.
Qed.

End DoubleFacts.

(** ** Steps and calories *)

Module StepsFacts.
Import Js Mapping Normalizer SpecValidator.

Local Open Scope string_scope.

Lemma process_steps h days calc (dataArray : list obj) :
  DataProcessors.steps (process h days calc dataArray) = currentDaySteps h days dataArray.
Proof.
  unfold process, currentDaySteps.
  destruct dataArray as [|x l]; [reflexivity|].
  destruct (filterStepRecords h (x :: l)) as [|y l'] eqn:E; [reflexivity|].
  destruct (sumCurrentDay h days 0 (y :: l') (Finite 0, Finite 0, Finite 0)) as [[s c] d].
  reflexivity.
Qed.

Lemma process_zero_steps_zero_calories h days calc (dataArray : list obj) :
  isZero (DataProcessors.steps (process h days calc dataArray)) = true ->
  DataProcessors.calories (process h days calc dataArray) = Finite 0.
Proof.
  unfold process.
  destruct dataArray as [|x l]; [reflexivity|].
  destruct (filterStepRecords h (x :: l)) as [|y l']; [reflexivity|].
  destruct (sumCurrentDay h days 0 (y :: l') (Finite 0, Finite 0, Finite 0)) as [[s c] d].
  simpl. intros ->. reflexivity.
Qed.

Lemma processStepsData_process h calc days deviceType (dataArray : list obj) :
  processStepsData h calc days deviceType dataArray = process h days calc dataArray.
Proof. unfold processStepsData. destruct (isYCDevice deviceType); reflexivity. Qed.

(** The step processor reads the clock through the windows only. *)
Lemma sumCurrentDay_ext h (days days' : nat -> DayRange) (l : list obj) :
  forall i acc, (forall k, days' k = days k) ->
    sumCurrentDay h days' i l acc = sumCurrentDay h days i l acc.
Proof.
  induction l as [|r l IH]; intros i [[s c] d] Hd; [reflexivity|].
  cbn [sumCurrentDay]. rewrite (Hd i).
  destruct (isWithinCurrentDayGMT7 (days i) (DataProcessors.extractTimestamp h r));
    apply IH; exact Hd.
Qed.

Lemma process_ext h calc (days days' : nat -> DayRange) (dataArray : list obj) :
  (forall k, days' k = days k) ->
  process h days' calc dataArray = process h days calc dataArray.
Proof.
  intros Hd. unfold process.
  destruct dataArray as [|x l]; [reflexivity|].
  destruct (filterStepRecords h (x :: l)) as [|y l']; [reflexivity|].
  rewrite (sumCurrentDay_ext h days days' (y :: l') 0 _ Hd). reflexivity.
Qed.

(** Every entry of the table reads steps and calories from one path. *)
Lemma DEVICE_MAPPINGS_entries (k : string) (m : DeviceFieldMapping) :
  DEVICE_MAPPINGS !! k = Some m ->
  m = mapping_yc \/ m = mapping_rw \/ m = mapping_android_yc.
Proof.
  unfold DEVICE_MAPPINGS, mapping_ios_yc, mapping_default.
  rewrite !lookup_insert_Some, lookup_empty.
  intuition (subst; auto; discriminate).
Qed.

Lemma getDeviceMapping_entries hostOS deviceType :
  let m := getDeviceMapping hostOS deviceType in
  m = mapping_yc \/ m = mapping_rw \/ m = mapping_android_yc.
Proof.
  unfold getDeviceMapping.
  set (n := normalizeDeviceType deviceType).
  assert (Hd : forall k, match DEVICE_MAPPINGS !! k with
                         | Some m => m | None => mapping_default end = mapping_yc
                         \/ match DEVICE_MAPPINGS !! k with
                            | Some m => m | None => mapping_default end = mapping_rw
                         \/ match DEVICE_MAPPINGS !! k with
                            | Some m => m | None => mapping_default end = mapping_android_yc).
  { intros k. destruct (DEVICE_MAPPINGS !! k) eqn:E.
    - apply (DEVICE_MAPPINGS_entries k). exact E.
    - right; left; reflexivity. }
  destruct hostOS as [[|]|]; simpl.
  - destruct (DEVICE_MAPPINGS !! ("ios_" ++ n)) eqn:E;
      [apply (DEVICE_MAPPINGS_entries _ _ E) | apply Hd].
  - destruct (DEVICE_MAPPINGS !! ("android_" ++ n)) eqn:E;
      [apply (DEVICE_MAPPINGS_entries _ _ E) | apply Hd].
  - apply Hd.
Qed.

Lemma calories_path_is_steps_path hostOS deviceType platform :
  let mapping := applyPlatformAdjustments (getDeviceMapping hostOS deviceType) platform in
  dataPath (default (Mapping.steps mapping) (Mapping.calories mapping))
  = dataPath (Mapping.steps mapping)
  /\ dataPath (Mapping.steps mapping) <> "combinedData".
Proof.
  destruct (getDeviceMapping_entries hostOS deviceType) as [E|[E|E]];
    simpl in *; rewrite E; simpl; split; try reflexivity; discriminate.
Qed.

Lemma specValidator_readsByPath h : readsByPath (specValidator h).
Proof.
  intros rawData alias path Hne. simpl. unfold specExtractDataArray.
  apply lookup_insert_ne. congruence.
Qed.

Lemma normalizeCaloriesMetric_forced h V calc days (rawData : RawData) config deviceType
    (dataArray : list obj) :
  nonEmpty (extractDataArray V rawData (dataPath config)) = Some dataArray ->
  isZero (orNumber (currentDaySteps h days dataArray) (Finite 0)) = true ->
  normalizeCaloriesMetric h V calc days rawData config deviceType = Some (Finite 0).
Proof.
  intros Harr Hz. unfold normalizeCaloriesMetric. rewrite Harr.
  rewrite processStepsData_process, process_steps, Hz. reflexivity.
Qed.

(** C1.  The rule is the code's own ("if steps is 0, calories must be
    0"), and each run of the step processor keeps it.  But a record is
    assembled from two such runs that read the day window separately:
    the steps metric before the [await] on the metric promises, the
    calories after it.  In a run that crosses midnight, a step record
    dated just after midnight lies outside the windows the steps metric
    reads and inside those the calories read: the record reports 0 steps
    with 500 kcal.  When the calories read the windows the steps metric
    read, a steps total of 0 comes with a calories value of 0 whatever
    calorie values the payload carries.  (The validator is any
    implementation that reads arrays through their path.) *)
Theorem zero_steps_force_zero_calories :
  (let r := normalizeHealthData decimalHost (specValidator decimalHost) sampleCalculator
              acrossMidnight (sameClock 1700086399000) (Some android)
              (Some afterMidnightSteps) "rw" android in
   option_map stepsCurrent (nSteps r) = Some (Finite 0)
   /\ nCalories r = Some (Finite 500))
  /\ (forall h V calc days clock hostOS (rawData : option RawData) deviceType platform,
        readsByPath V ->
        (forall i, caloriesDays days i = stepsDays days i) ->
        let r := normalizeHealthData h V calc days clock hostOS rawData deviceType platform in
        forall s, nSteps r = Some s -> isZero (stepsCurrent s) = true ->
                  nCalories r = Some (Finite 0)).
Proof.
  split; [vm_compute; split; reflexivity|].
  intros h V calc days clock hostOS rawData deviceType platform HV Hdays r s Hs Hz.
  subst r. destruct rawData as [raw0|]; [|discriminate].
  unfold normalizeHealthData in *.
  destruct (calories_path_is_steps_path hostOS deviceType platform) as [Hp Hne].
  set (mapping := applyPlatformAdjustments (getDeviceMapping hostOS deviceType) platform) in *.
  destruct (normalizeStepsMetric h V calc (stepsDays days) (stepsNow clock) raw0
              (Mapping.steps mapping) deviceType platform) as [st raw1] eqn:Est.
  cbn [nSteps nCalories] in Hs |- *. subst st.
  assert (Harr : exists dataArray,
             nonEmpty (extractDataArray V raw1 (dataPath (Mapping.steps mapping)))
             = Some dataArray
             /\ isZero (orNumber (currentDaySteps h (stepsDays days) dataArray) (Finite 0))
                = true).
  { unfold normalizeStepsMetric in Est. destruct platform.
    - unfold normalizeStepsMetricIOS in Est.
      destruct (nonEmpty (extractDataArray V raw0 (dataPath (Mapping.steps mapping))))
        as [arr|] eqn:Ea; [|discriminate].
      injection Est as Es <-. subst s. simpl in Hz.
      rewrite processStepsData_process, process_steps in Hz. eauto.
    - unfold normalizeStepsMetricAndroid in Est.
      destruct (nonEmpty (extractDataArray V raw0 (dataPath (Mapping.steps mapping))))
        as [arr|] eqn:Ea; [|discriminate].
      injection Est as Es <-. subst s. simpl in Hz.
      rewrite processStepsData_process, process_steps in Hz.
      exists arr. split; [|exact Hz].
      destruct (isCombinedData arr); [|exact Ea].
      rewrite HV by exact Hne. exact Ea. }
  destruct Harr as (arr & Ha & Hz').
  eapply normalizeCaloriesMetric_forced; [rewrite Hp; exact Ha|].
  unfold currentDaySteps in *.
  rewrite (sumCurrentDay_ext h (stepsDays days) (caloriesDays days) _ 0 _ Hdays).
  exact Hz'.
Qed.

Lemma zero_steps_force_zero_calories_witness :
  readsByPath (specValidator decimalHost)
  /\ let r := normalizeHealthData decimalHost (specValidator decimalHost) sampleCalculator
                (sameDay sampleDay) (sameClock 1700000002000) (Some android)
                (Some restingSteps) "rw" android in
     sumCurrentDay decimalHost (fun _ => sampleDay) 0
       (filterStepRecords decimalHost (cons (stepRecord 1700000001000 (4 # 10) 500) nil))
       (Finite 0, Finite 0, Finite 0) = (Finite 0, Finite 500, Finite 0)
     /\ option_map stepsCurrent (nSteps r) = Some (Finite 0)
     /\ nCalories r = Some (Finite 0).
Proof.
  split; [apply specValidator_readsByPath|].
  split; [vm_compute; reflexivity|].
  split; [vm_compute; reflexivity|].
  eapply (proj2 zero_steps_force_zero_calories decimalHost (specValidator decimalHost)
            sampleCalculator (sameDay sampleDay) (sameClock 1700000002000) (Some android)
            (Some restingSteps) "rw" android (specValidator_readsByPath _));
    [intros i; reflexivity | vm_compute; reflexivity | vm_compute; reflexivity].
Defined.

End StepsFacts.

(** ** Sleep aggregation *)

Module SleepFacts.
Import Js Mapping Normalizer SpecValidator.

Local Open Scope string_scope.

Lemma fgt_finite_false (a b : Z) :
  fgt (Finite (inject_Z a)) (Finite (inject_Z b)) = false -> (a <= b)%Z.
Proof.
  cbn [fgt]. unfold Qgtb, Qltb. rewrite negb_false_iff. intros H.
  apply Qle_bool_iff in H. rewrite <- Zle_Qle in H. exact H.
Qed.

Lemma fgt_finite_true (a b : Z) :
  fgt (Finite (inject_Z a)) (Finite (inject_Z b)) = true -> (b < a)%Z.
Proof.
  cbn [fgt]. unfold Qgtb, Qltb. rewrite negb_true_iff. intros H.
  destruct (Z.lt_ge_cases b a) as [Hlt|Hge]; [exact Hlt|].
  rewrite Zle_Qle in Hge. apply Qle_bool_iff in Hge. congruence.
Qed.

(** Whatever the three totals are (infinities and NaN included), the
    minutes reported are a whole number from 1 to 1440. *)
Lemma sleepFromTotals_bound now d l r latest s :
  sleepFromTotals now d l r latest = Some s ->
  exists m : Z, totalMinutes s = Finite (inject_Z m) /\ (0 <= m <= 1440)%Z.
Proof.
  unfold sleepFromTotals.
  set (total := mathRound (fdiv (fadd (fadd d l) r) (Finite 60))).
  destruct (fgt total MAX_SLEEP_MINUTES) eqn:Hcap.
  - intros [= <-]. exists 1440%Z. split; [reflexivity|lia].
  - destruct (fgt total (Finite 0)) eqn:Hpos; [|discriminate].
    intros [= <-]. cbn [totalMinutes].
    unfold total in *. destruct (fdiv (fadd (fadd d l) r) (Finite 60)) as [q|[|]|];
      cbn [mathRound] in *; try discriminate.
    exists (round q). split; [reflexivity|].
    apply (fgt_finite_false (round q) 1440) in Hcap.
    apply (fgt_finite_true (round q) 0) in Hpos. lia.
Qed.

Lemma sleepFromTotals_capped now d l r latest :
  let total := mathRound (fdiv (fadd (fadd d l) r) (Finite 60)) in
  fgt total (Finite 1440) = true ->
  exists s,
    sleepFromTotals now d l r latest = Some s
    /\ totalMinutes s = Finite 1440
    /\ deepSleepMinutes s = mathRound (fmul (fdiv d (Finite 60)) (fdiv (Finite 1440) total))
    /\ lightSleepMinutes s = mathRound (fmul (fdiv l (Finite 60)) (fdiv (Finite 1440) total))
    /\ remSleepMinutes s = mathRound (fmul (fdiv r (Finite 60)) (fdiv (Finite 1440) total)).
Proof.
  intros total Hgt. unfold sleepFromTotals. fold total.
  unfold MAX_SLEEP_MINUTES. rewrite Hgt.
  eexists. split; [reflexivity|]. cbn. repeat split; reflexivity.
Qed.

(** C2.  The sleep aggregate of a normalized record never reports more
    than 1440 minutes: its total is a whole number of minutes from 0 to
    1440, whatever the payload holds.  When the deep, light and rem
    seconds summed over the in-day sessions come to a total of more than
    1440 minutes (the total being the sum in seconds divided by 60 and
    rounded), the reported total is exactly 1440 and each of the three
    components is its minutes scaled by 1440/total, rounded.  The sums,
    the quotients and the products are those of double arithmetic, as
    the code computes them. *)
Theorem sleep_total_capped_at_1440 :
  forall h V vday now (rawData : RawData) (config : SleepMapping),
    (forall calc days clock hostOS payload deviceType platform s,
        nSleep (normalizeHealthData h V calc days clock hostOS payload deviceType platform)
        = Some s ->
        exists m : Z, totalMinutes s = Finite (inject_Z m) /\ (0 <= m <= 1440)%Z)
    /\ (forall s, normalizeSleepMetric h V vday now rawData config = Some s ->
                  exists m : Z, totalMinutes s = Finite (inject_Z m) /\ (0 <= m <= 1440)%Z)
    /\ (forall (dataArray : list obj),
          nonEmpty (extractDataArray V rawData (sleepPath config)) = Some dataArray ->
          List.filter (isCurrentDaySession h V vday config) dataArray <> [] ->
          let t := sleepTotals h V config
                     (List.filter (isCurrentDaySession h V vday config) dataArray) in
          let d := deepSeconds t in
          let l := lightSeconds t in
          let r := remSeconds t in
          let total := mathRound (fdiv (fadd (fadd d l) r) (Finite 60)) in
          fgt total (Finite 1440) = true ->
          exists s,
            normalizeSleepMetric h V vday now rawData config = Some s
            /\ totalMinutes s = Finite 1440
            /\ deepSleepMinutes s
               = mathRound (fmul (fdiv d (Finite 60)) (fdiv (Finite 1440) total))
            /\ lightSleepMinutes s
               = mathRound (fmul (fdiv l (Finite 60)) (fdiv (Finite 1440) total))
            /\ remSleepMinutes s
               = mathRound (fmul (fdiv r (Finite 60)) (fdiv (Finite 1440) total))).
Proof.
  intros h V vday now rawData config.
  assert (Hbound : forall day t (raw : RawData) cfg s,
             normalizeSleepMetric h V day t raw cfg = Some s ->
             exists m : Z, totalMinutes s = Finite (inject_Z m) /\ (0 <= m <= 1440)%Z).
  { intros day t raw cfg s. unfold normalizeSleepMetric.
    destruct (nonEmpty (extractDataArray V raw (sleepPath cfg))) as [arr|].
    - destruct (List.filter (isCurrentDaySession h V day cfg) arr) as [|x l] eqn:Ef.
      + intros [= <-]. exists 0%Z. split; [reflexivity|lia].
      + apply sleepFromTotals_bound.
    - intros [= <-]. exists 0%Z. split; [reflexivity|lia]. }
  split; [|split].
  - intros calc days clock hostOS payload deviceType platform s.
    destruct payload as [raw0|]; [|discriminate].
    unfold normalizeHealthData.
    destruct (normalizeStepsMetric _ _ _ _ _ _ _ _ _) as [st raw1].
    cbn [nSleep]. apply Hbound.
  - apply Hbound.
  - intros arr Harr Hne t d l r total Hgt.
    unfold normalizeSleepMetric. rewrite Harr.
    destruct (List.filter (isCurrentDaySession h V vday config) arr) as [|x l'] eqn:Ef;
      [congruence|].
    apply sleepFromTotals_capped. exact Hgt.
Qed.

Lemma sleep_total_capped_at_1440_witness :
  exists s,
    normalizeSleepMetric decimalHost (specValidator decimalHost) sampleDay
      1700000003000 scenarioD sleepConfig = Some s
    /\ totalMinutes s = Finite 1440
    /\ deepSleepMinutes s = Finite 576
    /\ lightSleepMinutes s = Finite 672
    /\ remSleepMinutes s = Finite 192.
Proof.
  destruct (proj2 (proj2 (sleep_total_capped_at_1440 decimalHost (specValidator decimalHost)
                            sampleDay 1700000003000 scenarioD sleepConfig))
              (cons (sleepSession 1700000001000 18000 21000 6000)
                 (cons (sleepSession 1700000002000 18000 21000 6000) nil)))
    as (s & Hs & Ht & Hd & Hl & Hr).
  - vm_compute; reflexivity.
  - vm_compute; discriminate.
  - vm_compute; reflexivity.
  - exists s. repeat split; [exact Hs | exact Ht | rewrite Hd | rewrite Hl | rewrite Hr];
      vm_compute; reflexivity.
Defined.

(** The scaled minutes are rounded as the doubles they are: 1953 s of
    deep sleep in a night of 1488 minutes come to 31.499999999999996
    scaled minutes, reported as 31.  A stage that overflows leaves the
    total at 1440 and the stage minutes NaN. *)
Example scaled_minutes_are_doubles :
  option_map (fun s => (totalMinutes s, deepSleepMinutes s, lightSleepMinutes s))
    (normalizeSleepMetric decimalHost (specValidator decimalHost) sampleDay
       1700000003000 longNight sleepConfig)
  = Some (Finite 1440, Finite 31, Finite 1409)
  /\ option_map (fun s => (totalMinutes s, deepSleepMinutes s))
       (normalizeSleepMetric decimalHost (specValidator decimalHost) sampleDay
          1700000003000 overflowingNight sleepConfig)
     = Some (Finite 1440, NaN).
Proof. split; vm_compute; reflexivity. Qed.

End SleepFacts.

(** ** The retrieval loop *)

Module HealthSyncFacts.
Import Js HealthSync.

Section Facts.
Variable uuid deviceType platformOS : string.
Variable isAlreadyConnected : bool.
Variable env : nat -> AttemptEnv.

Local Abbreviation tryAt e := (tryAttempt uuid deviceType platformOS isAlreadyConnected e).
Local Abbreviation loop := (retryLoop uuid deviceType platformOS isAlreadyConnected env).

Lemma tryAttempt_no_attempt (e : AttemptEnv) (j : nat) :
  ~ In (EvAttempt j) (snd (tryAt e)).
Proof.
  unfold tryAttempt.
  destruct isAlreadyConnected, (probeConnected e) as [?|[|]], (connectResult e),
    (pullResult e) as [?|?]; simpl;
    try destruct (hasMeaningfulData _); try destruct (normalizeResult e); simpl;
    intuition discriminate.
Qed.

Lemma tryAttempt_count (e : AttemptEnv) : countAttempts (snd (tryAt e)) = 0%nat.
Proof.
  unfold tryAttempt, countAttempts.
  destruct isAlreadyConnected, (probeConnected e) as [?|[|]], (connectResult e),
    (pullResult e) as [?|?]; simpl;
    try destruct (hasMeaningfulData _); try destruct (normalizeResult e); reflexivity.
Qed.

Lemma tryAttempt_pulls (e : AttemptEnv) : (countPulls (snd (tryAt e)) <= 1)%nat.
Proof.
  unfold tryAttempt, countPulls.
  destruct isAlreadyConnected, (probeConnected e) as [?|[|]], (connectResult e),
    (pullResult e) as [?|?]; simpl;
    try destruct (hasMeaningfulData _); try destruct (normalizeResult e); simpl; lia.
Qed.

Lemma countAttempts_app (a b : list Event) :
  countAttempts (a ++ b) = (countAttempts a + countAttempts b)%nat.
Proof. unfold countAttempts. rewrite List.filter_app, length_app. reflexivity. Qed.

Lemma countPulls_app (a b : list Event) :
  countPulls (a ++ b) = (countPulls a + countPulls b)%nat.
Proof. unfold countPulls. rewrite List.filter_app, length_app. reflexivity. Qed.

(** One pass of the loop, by the way it ends. *)
Lemma retryLoop_step (k attempt : nat) (lastError : option string) :
  let r := fst (tryAt (env attempt)) in
  let evs := snd (tryAt (env attempt)) in
  (snd (loop (S k) attempt lastError) = EvAttempt attempt :: evs
   /\ ((exists raw, r = inr raw) \/ (exists msg, r = inl msg /\ failureKind msg <> OTHER)
       \/ attempt = (DATA_RETRY_ATTEMPTS - 1)%nat)
   /\ (forall msg, r = inl msg -> exists m, fst (loop (S k) attempt lastError) = inl m))
  \/ (exists msg,
        r = inl msg /\ failureKind msg = OTHER
        /\ attempt <> (DATA_RETRY_ATTEMPTS - 1)%nat
        /\ fst (loop (S k) attempt lastError) = fst (loop k (S attempt) (Some msg))
        /\ snd (loop (S k) attempt lastError)
           = EvAttempt attempt :: evs ++ attemptRecovery
               ++ [EvWait (RECOVERY_DELAY_MS * (Z.of_nat attempt + 1))]
               ++ snd (loop k (S attempt) (Some msg))).
Proof.
  simpl. destruct (tryAt (env attempt)) as [r evs] eqn:E. simpl.
  destruct r as [msg|raw].
  - destruct (isLockedMessage msg) eqn:HL.
    { left. split; [reflexivity|]. split; [|intros; eexists; reflexivity].
      right; left. exists msg. split; [reflexivity|].
      unfold failureKind. rewrite HL. discriminate. }
    destruct (isEmptyDataMessage msg) eqn:HE.
    { left. split; [reflexivity|]. split; [|intros; eexists; reflexivity].
      right; left. exists msg. split; [reflexivity|].
      unfold failureKind. rewrite HL, HE. discriminate. }
    destruct (Nat.eqb_spec attempt 2) as [Heq|Hne].
    { left. split; [reflexivity|]. split; [right; right; exact Heq|].
      intros; eexists; reflexivity. }
    right. exists msg.
    destruct (loop k (S attempt) (Some msg)) as [res rest]. simpl.
    unfold failureKind. rewrite HL, HE. repeat split; auto.
  - left. split; [reflexivity|]. split; [left; exists raw; reflexivity|]. intros; discriminate.
Qed.

Lemma retryLoop_count (remaining attempt : nat) (lastError : option string) :
  (countAttempts (snd (loop remaining attempt lastError)) <= remaining)%nat
  /\ (countPulls (snd (loop remaining attempt lastError)) <= remaining)%nat.
Proof.
  revert attempt lastError. induction remaining as [|k IH]; intros attempt lastError.
  - simpl. split; apply Nat.le_refl.
  - pose proof (tryAttempt_count (env attempt)) as Hc.
    pose proof (tryAttempt_pulls (env attempt)) as Hp.
    destruct (retryLoop_step k attempt lastError) as [(Ht & _)|(msg & _ & _ & _ & _ & Ht)];
      rewrite Ht.
    + change (EvAttempt attempt :: ?l) with ([EvAttempt attempt] ++ l).
      rewrite countAttempts_app, countPulls_app, Hc.
      unfold countAttempts at 1, countPulls at 1. simpl. lia.
    + destruct (IH (S attempt) (Some msg)) as [IHa IHp].
      change (EvAttempt attempt :: ?l) with ([EvAttempt attempt] ++ l).
      rewrite !countAttempts_app, !countPulls_app, Hc.
      unfold countAttempts at 1 2 3, countPulls at 1 3 4. simpl. lia.
Qed.

Lemma retryLoop_indices (remaining attempt : nat) (lastError : option string) (j : nat) :
  In (EvAttempt j) (snd (loop remaining attempt lastError)) -> (attempt <= j)%nat.
Proof.
  revert attempt lastError. induction remaining as [|k IH]; intros attempt lastError.
  - simpl. intros [].
  - pose proof (tryAttempt_no_attempt (env attempt) j) as Hn.
    destruct (retryLoop_step k attempt lastError) as [(Ht & _)|(msg & _ & _ & _ & _ & Ht)];
      rewrite Ht.
    + intros [[= ->]|Hin]; [lia|contradiction].
    + intros [[= ->]|Hin]; [lia|].
      rewrite !in_app_iff in Hin. destruct Hin as [Hin|[Hin|[Hin|Hin]]].
      * contradiction.
      * simpl in Hin. intuition discriminate.
      * simpl in Hin. intuition discriminate.
      * apply IH in Hin. lia.
Qed.

(** A pass that fails as LOCKED or EMPTY_DATA is the last one. *)
Lemma retryLoop_stops (remaining attempt : nat) (lastError : option string) (i : nat) msg :
  In (EvAttempt i) (snd (loop remaining attempt lastError)) ->
  fst (tryAt (env i)) = inl msg ->
  failureKind msg <> OTHER ->
  (forall j, In (EvAttempt j) (snd (loop remaining attempt lastError)) -> (j <= i)%nat)
  /\ exists m, fst (loop remaining attempt lastError) = inl m.
Proof.
  revert attempt lastError. induction remaining as [|k IH]; intros attempt lastError.
  - simpl. intros [].
  - intros Hin Hmsg Hkind.
    pose proof (tryAttempt_no_attempt (env attempt)) as Hn.
    destruct (retryLoop_step k attempt lastError)
      as [(Ht & _ & Hres)|(msg' & Hr & Hk & Hlast & Hf & Ht)]; rewrite Ht in *.
    + destruct Hin as [[= ->]|Hin]; [|exfalso; eapply Hn; eauto].
      split; [|eapply Hres; eauto].
      intros j [[= ->]|Hj]; [lia|exfalso; eapply Hn; eauto].
    + assert (Hrest : In (EvAttempt i) (snd (loop k (S attempt) (Some msg')))).
      { destruct Hin as [[= ->]|Hin]; [congruence|].
        rewrite !in_app_iff in Hin. destruct Hin as [Hin|[Hin|[Hin|Hin]]]; auto.
        - exfalso; eapply Hn; eauto.
        - simpl in Hin. intuition discriminate.
        - simpl in Hin. intuition discriminate. }
      destruct (IH _ _ Hrest Hmsg Hkind) as [Hle Hres].
      split; [|rewrite Hf; exact Hres].
      intros j [[= ->]|Hj].
      * apply retryLoop_indices in Hrest. lia.
      * rewrite !in_app_iff in Hj. destruct Hj as [Hj|[Hj|[Hj|Hj]]]; auto.
        -- exfalso; eapply Hn; eauto.
        -- simpl in Hj. intuition discriminate.
        -- simpl in Hj. intuition discriminate.
Qed.

Lemma retryLoop_head (k attempt : nat) (lastError : option string) :
  exists rest, snd (loop (S k) attempt lastError) = EvAttempt attempt :: rest.
Proof.
  destruct (retryLoop_step k attempt lastError) as [(Ht & _)|(msg & _ & _ & _ & _ & Ht)];
    rewrite Ht; eexists; reflexivity.
Qed.

(** A pass that fails otherwise, and is not the last allowed one, is
    followed by recovery, the scaled wait, and the next pass. *)
Lemma retryLoop_recovers (remaining attempt : nat) (lastError : option string) (i : nat) msg :
  (attempt + remaining = DATA_RETRY_ATTEMPTS)%nat ->
  In (EvAttempt i) (snd (loop remaining attempt lastError)) ->
  fst (tryAt (env i)) = inl msg ->
  failureKind msg = OTHER ->
  (i + 1 < DATA_RETRY_ATTEMPTS)%nat ->
  exists pre post,
    snd (loop remaining attempt lastError)
    = pre ++ EvAttempt i :: snd (tryAt (env i)) ++ attemptRecovery
        ++ [EvWait (RECOVERY_DELAY_MS * (Z.of_nat i + 1)); EvAttempt (S i)] ++ post.
Proof.
  revert attempt lastError. induction remaining as [|k IH]; intros attempt lastError.
  - simpl. intros _ [].
  - intros Hsum Hin Hmsg Hkind Hlt.
    pose proof (tryAttempt_no_attempt (env attempt)) as Hn.
    destruct (retryLoop_step k attempt lastError)
      as [(Ht & Hwhy & _)|(msg' & Hr & Hk & Hlast & Hf & Ht)]; rewrite Ht in *.
    + destruct Hin as [[= ->]|Hin]; [|exfalso; eapply Hn; eauto].
      exfalso. destruct Hwhy as [Hs|[(m & Hm & Hk)|Hl]].
      * rewrite Hmsg in Hs. destruct Hs as [? Hs]. discriminate.
      * rewrite Hmsg in Hm. injection Hm as <-. contradiction.
      * unfold DATA_RETRY_ATTEMPTS in *. lia.
    + destruct Hin as [[= ->]|Hin].
      * destruct k as [|k']; [unfold DATA_RETRY_ATTEMPTS in *; lia|].
        destruct (retryLoop_head k' (S i) (Some msg')) as [rest Hrest].
        exists [], rest. rewrite Hrest. reflexivity.
      * rewrite !in_app_iff in Hin. destruct Hin as [Hin|[Hin|[Hin|Hin]]].
        -- exfalso; eapply Hn; eauto.
        -- simpl in Hin. intuition discriminate.
        -- simpl in Hin. intuition discriminate.
        -- destruct (IH (S attempt) (Some msg') ltac:(lia) Hin Hmsg Hkind Hlt)
             as (pre & post & Heq).
           exists (EvAttempt attempt :: snd (tryAt (env attempt)) ++ attemptRecovery
                     ++ [EvWait (RECOVERY_DELAY_MS * (Z.of_nat attempt + 1))] ++ pre), post.
           rewrite Heq. simpl. rewrite <- !app_assoc. reflexivity.
Qed.

(** C3.  The retrieval loop makes at most 3 passes (hence at most 3
    pulls of the raw payload).  A pass whose failure is classified LOCKED
    or EMPTY_DATA is the last pass and the call fails; in particular the
    first pass always runs, so EMPTY_DATA there leaves no second pass.  A
    pass that fails in any other way, when another pass is still allowed,
    is followed by recovery (disconnect, wait of the recovery delay,
    reconnect), then a wait of the recovery delay times the number of the
    pass counted from 1, then the next pass. *)
Theorem bounded_retry_with_recovery :
  let run := fetchHealthDataWithRetry uuid deviceType platformOS isAlreadyConnected env in
  ((countAttempts (snd run) <= 3)%nat /\ (countPulls (snd run) <= 3)%nat
   /\ In (EvAttempt 0) (snd run))
  /\ (forall i msg,
        In (EvAttempt i) (snd run) ->
        fst (tryAt (env i)) = inl msg ->
        failureKind msg <> OTHER ->
        (forall j, In (EvAttempt j) (snd run) -> (j <= i)%nat)
        /\ exists m, fst run = inl m)
  /\ (forall i msg,
        In (EvAttempt i) (snd run) ->
        fst (tryAt (env i)) = inl msg ->
        failureKind msg = OTHER ->
        (i + 1 < 3)%nat ->
        exists pre post,
          snd run
          = pre ++ EvAttempt i :: snd (tryAt (env i))
              ++ [EvDisconnect; EvWait RECOVERY_DELAY_MS; EvReconnect]
              ++ [EvWait (RECOVERY_DELAY_MS * (Z.of_nat i + 1)); EvAttempt (S i)] ++ post).
Proof.
  intros run. subst run. unfold fetchHealthDataWithRetry.
  split; [|split].
  - destruct (retryLoop_count DATA_RETRY_ATTEMPTS 0 None) as [Ha Hp].
    split; [exact Ha|]. split; [exact Hp|].
    destruct (retryLoop_head 2 0 None) as [rest Hrest].
    unfold DATA_RETRY_ATTEMPTS. rewrite Hrest. left. reflexivity.
  - intros i msg Hin Hmsg Hkind. eapply retryLoop_stops; eauto.
  - intros i msg Hin Hmsg Hkind Hlt.
    eapply (retryLoop_recovers DATA_RETRY_ATTEMPTS 0 None i msg); auto.
Qed.

End Facts.

Ltac in_trace := vm_compute; repeat (first [left; reflexivity | right]).

Lemma bounded_retry_with_recovery_witness :
  let run := fetchHealthDataWithRetry "A1B2C3D4-0001" "yc" "ios" true timeoutThenEmpty in
  snd run
  = [EvAttempt 0; EvWait 100; EvWait 100; EvPull;
     EvDisconnect; EvWait 2000; EvReconnect; EvWait 2000;
     EvAttempt 1; EvWait 100; EvWait 100; EvPull]
  /\ (forall j, In (EvAttempt j) (snd run) -> (j <= 1)%nat)
  /\ (exists m, fst run = inl m)
  /\ exists pre post,
       snd run
       = pre ++ EvAttempt 0
           :: snd (tryAttempt "A1B2C3D4-0001" "yc" "ios" true (timeoutThenEmpty 0))
           ++ [EvDisconnect; EvWait RECOVERY_DELAY_MS; EvReconnect]
           ++ [EvWait (RECOVERY_DELAY_MS * (Z.of_nat 0 + 1)); EvAttempt 1] ++ post.
Proof.
  intros run.
  pose proof (bounded_retry_with_recovery "A1B2C3D4-0001" "yc" "ios" true timeoutThenEmpty)
    as (_ & Hstop & Hrec).
  split; [vm_compute; reflexivity|].
  destruct (Hstop 1%nat (createSyncError "EMPTY_DATA" "Health data payload is empty"))
    as [Hlast Hfail].
  - in_trace.
  - vm_compute; reflexivity.
  - vm_compute; discriminate.
  - split; [exact Hlast|]. split; [exact Hfail|].
    apply (Hrec 0%nat timeoutMessage).
    + in_trace.
    + vm_compute; reflexivity.
    + vm_compute; reflexivity.
    + lia.
Defined.

End HealthSyncFacts.

(** ** Error counters and cooldown *)

Module AutoSyncFacts.
Import Js AutoSync.

Local Open Scope Z_scope.

Example timeoutMessage_kind : errorKind timeoutMessage = KTimeout.
Proof. vm_compute. reflexivity. Qed.

Example emptyDataMessage_kind : errorKind emptyDataMessage = KEmptyData.
Proof. vm_compute. reflexivity. Qed.

Example genericMessage_kind : errorKind genericMessage = KOther.
Proof. vm_compute. reflexivity. Qed.

Ltac by_kind H :=
  unfold errorKind in H; unfold deviceSyncFailure, handleDeviceSyncError;
  destruct (isLocked (classifyError _)); try discriminate H;
  destruct (isEmptyData (classifyError _)); try discriminate H;
  destruct (isBluetooth (classifyError _)); try discriminate H;
  destruct (isConnection (classifyError _)); try discriminate H;
  destruct (isNullPointer (classifyError _)); try discriminate H;
  destruct (isTimeout (classifyError _)); try discriminate H.



(** LOCKED and EMPTY_DATA put the counter at the ceiling at once. *)
Lemma locked_or_empty_enters_cooldown msg tmo now st :
  errorKind msg = KLocked \/ errorKind msg = KEmptyData ->
  consecutiveErrorCount (fst (handleDeviceSyncError msg tmo now st)) = MAX_CONSECUTIVE_ERRORS
  /\ lastErrorTime (fst (handleDeviceSyncError msg tmo now st)) = Some now.
Proof.
  intros [H|H]; unfold errorKind in H; unfold handleDeviceSyncError;
    destruct (isLocked (classifyError msg)); try discriminate H;
    try (split; reflexivity);
    destruct (isEmptyData (classifyError msg)); try discriminate H;
    try (split; reflexivity);
    destruct (isBluetooth (classifyError msg)), (isConnection (classifyError msg)),
      (isNullPointer (classifyError msg)), (isTimeout (classifyError msg));
    discriminate H.
Qed.

(** An unclassified failure counts up to the ceiling. *)
Lemma other_failure_count msg now st :
  errorKind msg = KOther ->
  consecutiveErrorCount (fst (deviceSyncFailure msg now st))
  = (if MAX_CONSECUTIVE_ERRORS <=? consecutiveErrorCount st then consecutiveErrorCount st
     else consecutiveErrorCount st + 1)
  /\ lastErrorTime (fst (deviceSyncFailure msg now st)) = Some now.
Proof.
  intros H. by_kind H.
  destruct (MAX_CONSECUTIVE_ERRORS <=? consecutiveErrorCount st); split; reflexivity.
Qed.


Lemma success_resets now st :
  consecutiveErrorCount (fst (deviceSyncSuccess now st)) = 0
  /\ lastErrorTime (fst (deviceSyncSuccess now st)) = None
  /\ consecutiveErrorCount (fst (osSyncSuccess now st)) = 0
  /\ lastErrorTime (fst (osSyncSuccess now st)) = None.
Proof. repeat split; reflexivity. Qed.




End AutoSyncFacts.

(** ** Blood pressure selection *)

Module BloodPressureFacts.
Import Js Mapping Normalizer SpecValidator.

Lemma Qgtb_true (a b : Q) : Qgtb a b = true <-> (b < a)%Q.
Proof.
  unfold Qgtb, Qltb. rewrite negb_true_iff.
  split.
  - intros H. apply Qnot_le_lt. intros Hle. apply Qle_bool_iff in Hle. congruence.
  - intros H. destruct (Qle_bool a b) eqn:E; [|reflexivity].
    apply Qle_bool_iff in E. exfalso. eapply Qlt_not_le; eauto.
Qed.

Lemma Qgtb_false (a b : Q) : Qgtb a b = false <-> (a <= b)%Q.
Proof.
  unfold Qgtb, Qltb. rewrite negb_false_iff. apply Qle_bool_iff.
Qed.

Section Selection.
Variable V : DataValidator.
Variable config : BloodPressureMapping.

Local Abbreviation sysOf := (bpSystolic V config).
Local Abbreviation diaOf := (bpDiastolic V config).
Local Abbreviation timeOf := (bpTime V config).
Local Abbreviation qualifies := (bpQualifies V config).

Local Abbreviation FirstLatest := (bpFirstLatest V config).

Lemma bpStep_first_latest (seen : list obj) (best : Q * Q * Q) (x : obj) :
  FirstLatest seen best -> FirstLatest (seen ++ [x]) (bpStep V config best x).
Proof.
  intros [[-> Hnone]|(pre & r & post & -> & Hq & -> & Hpre & Hpost)]; unfold bpStep;
    change (extractBestValue V x (systolicFields config) (Some systolicValid)) with (sysOf x);
    change (extractBestValue V x (diastolicFields config) (Some diastolicValid)) with (diaOf x);
    change (tsNum (extractTimestamp V x (bpTimestampFields config))) with (timeOf x).
  - destruct (Qgtb (sysOf x) 0 && Qgtb (diaOf x) 0 && Qgtb (timeOf x) 0) eqn:E.
    + right. exists seen, x, []. split; [reflexivity|].
      split; [exact E|]. split; [reflexivity|]. split.
      * intros r' Hr' Hq'. rewrite (Hnone r' Hr') in Hq'. discriminate.
      * intros r' [].
    + left. split; [reflexivity|].
      intros r' Hr'. apply in_app_or in Hr'. destruct Hr' as [Hr'|[<-|[]]]; auto.
  - destruct (Qgtb (sysOf x) 0 && Qgtb (diaOf x) 0 && Qgtb (timeOf x) (timeOf r)) eqn:E.
    + apply andb_true_iff in E. destruct E as [E Et].
      apply Qgtb_true in Et.
      assert (Hr0 : (0 < timeOf r)%Q).
      { unfold bpQualifies in Hq. apply andb_true_iff in Hq. destruct Hq as [_ Hq].
        apply Qgtb_true in Hq. exact Hq. }
      right. exists (pre ++ r :: post)%list, x, []. split; [reflexivity|].
      split.
      { unfold bpQualifies. rewrite E. simpl. apply Qgtb_true.
        eapply Qlt_trans; eauto. }
      split; [reflexivity|]. split.
      * intros r' Hr' Hq'. apply in_app_or in Hr'. destruct Hr' as [Hr'|[<-|Hr']].
        -- eapply Qlt_trans; [apply (Hpre r' Hr' Hq')|exact Et].
        -- exact Et.
        -- eapply Qle_lt_trans; [apply (Hpost r' Hr' Hq')|exact Et].
      * intros r' [].
    + right. exists pre, r, (post ++ [x])%list.
      split; [rewrite <- app_assoc; reflexivity|].
      split; [exact Hq|]. split; [reflexivity|]. split; [exact Hpre|].
      intros r' Hr' Hq'. apply in_app_or in Hr'. destruct Hr' as [Hr'|[<-|[]]].
      * apply (Hpost r' Hr' Hq').
      * unfold bpQualifies in Hq'. apply andb_true_iff in Hq'. destruct Hq' as [Hsd _].
        rewrite Hsd in E. simpl in E. apply Qgtb_false in E. exact E.
Qed.

Lemma bp_fold_first_latest (l seen : list obj) (best : Q * Q * Q) :
  FirstLatest seen best -> FirstLatest (seen ++ l) (fold_left (bpStep V config) l best).
Proof.
  revert seen best. induction l as [|x l IH]; intros seen best H.
  - rewrite app_nil_r. exact H.
  - simpl. replace (seen ++ x :: l) with ((seen ++ [x]) ++ l)
      by (rewrite <- app_assoc; reflexivity).
    apply IH. apply bpStep_first_latest. exact H.
Qed.

End Selection.

(** C5, as amended.  The blood pressure selection looks at every record
    of the array, whatever its day.  A record qualifies when the systolic
    and diastolic readings extracted from it under the filters (50,300)
    and (30,200), and its timestamp, are all above 0.  The metric carries
    the readings of the qualifying record of greatest timestamp, the
    earliest such record of the array when several share that timestamp:
    every qualifying record before it is strictly older and every
    qualifying record after it is no newer.  The metric is null exactly
    when no record qualifies, an empty or missing array included.  With
    a validator that hands back only readings passing the filter it is
    given, the systolic value kept lies in (50,300) and the diastolic one
    in (30,200). *)
Theorem blood_pressure_latest_plausible :
  forall V (rawData : RawData) (config : BloodPressureMapping),
    match nonEmpty (extractDataArray V rawData (bpPath config)) with
    | None => normalizeBloodPressureMetric V rawData config = None
    | Some dataArray =>
        match normalizeBloodPressureMetric V rawData config with
        | Some bp =>
            (exists pre r post,
                dataArray = (pre ++ r :: post)%list
                /\ bpQualifies V config r = true
                /\ systolic bp = bpSystolic V config r
                /\ diastolic bp = bpDiastolic V config r
                /\ bpTimestamp bp = bpTime V config r
                /\ (forall r', In r' pre -> bpQualifies V config r' = true ->
                               (bpTime V config r' < bpTime V config r)%Q)
                /\ (forall r', In r' post -> bpQualifies V config r' = true ->
                               (bpTime V config r' <= bpTime V config r)%Q))
            /\ (filtersValues V ->
                (50 < systolic bp)%Q /\ (systolic bp < 300)%Q
                /\ (30 < diastolic bp)%Q /\ (diastolic bp < 200)%Q)
        | None => forall r, In r dataArray -> bpQualifies V config r = false
        end
    end.
Proof.
  intros V rawData config.
  unfold normalizeBloodPressureMetric.
  destruct (nonEmpty (extractDataArray V rawData (bpPath config))) as [dataArray|];
    [|reflexivity].
  pose proof (bp_fold_first_latest V config dataArray [] (0%Q, 0%Q, 0%Q)) as H.
  simpl in H.
  destruct H as [[-> Hnone]|(pre & r & post & Heq & Hq & -> & Hpre & Hpost)].
  - left. split; [reflexivity|]. intros r [].
  - simpl. exact Hnone.
  - pose proof Hq as Hq'. unfold bpQualifies in Hq'.
    apply andb_true_iff in Hq'. destruct Hq' as [Hsd Ht].
    rewrite Hsd. split.
    + exists pre, r, post. simpl. repeat split; auto.
    + intros HV. simpl.
      apply andb_true_iff in Hsd. destruct Hsd as [Hs Hd].
      apply HV in Hs. apply HV in Hd.
      unfold systolicValid in Hs. unfold diastolicValid in Hd.
      apply andb_true_iff in Hs. apply andb_true_iff in Hd.
      destruct Hs as [Hs1 Hs2], Hd as [Hd1 Hd2].
      apply Qgtb_true in Hs1, Hs2, Hd1, Hd2.
      repeat split; assumption.
Qed.

(** A single plausible reading dated months before the current day is
    not discarded: the normalized record carries it. *)
Lemma stale_blood_pressure_is_kept :
  let r := normalizeHealthData decimalHost (specValidator decimalHost) sampleCalculator
             (sameDay sampleDay) (sameClock 1700000001000) (Some ios) (Some oneStaleReading)
             "yc"%string ios in
  (1690000000000 < dayStart sampleDay)%Z
  /\ isWithinCurrentDayGMT7 sampleDay (Finite 1690000000000) = false
  /\ nBloodPressure r
     = Some {| systolic := 120; diastolic := 80; bpTimestamp := 1690000000000;
               bpUnit := "mmHg"%string |}.
Proof. vm_compute. repeat split; reflexivity. Qed.

Lemma blood_pressure_latest_plausible_witness :
  exists bp,
    normalizeBloodPressureMetric (specValidator decimalHost) tiedReadings
      (Mapping.bloodPressure mapping_yc) = Some bp
    /\ systolic bp = 118%Q /\ diastolic bp = 76%Q /\ bpTimestamp bp = 1690000600000%Q
    /\ normalizeBloodPressureMetric (specValidator decimalHost) scenarioD
         (Mapping.bloodPressure mapping_yc) = None.
Proof.
  pose proof (blood_pressure_latest_plausible (specValidator decimalHost) tiedReadings
                (Mapping.bloodPressure mapping_yc)) as H.
  pose proof (blood_pressure_latest_plausible (specValidator decimalHost) scenarioD
                (Mapping.bloodPressure mapping_yc)) as Hnone.
  change (nonEmpty _) with
    (Some (cons (reading 1690000000000 120 80)
             (cons (reading 1690000600000 118 76)
                (cons (reading 1690000600000 131 85) nil)))) in H.
  change (nonEmpty _) with (@None (list obj)) in Hnone.
  cbv iota in H, Hnone.
  destruct (normalizeBloodPressureMetric (specValidator decimalHost) tiedReadings
              (Mapping.bloodPressure mapping_yc)) as [bp|] eqn:E.
  - exists bp. split; [reflexivity|].
    vm_compute in E. injection E as <-.
    split; [reflexivity|]. split; [reflexivity|]. split; [reflexivity|]. exact Hnone.
  - exfalso. specialize (H (reading 1690000600000 118 76) (or_intror (or_introl eq_refl))).
    vm_compute in H. discriminate H.
Defined.

End BloodPressureFacts.

(** ** Discovery passes and deduplication *)

Module ScannerFacts.
Import Js Scanner.

Local Open Scope string_scope.
Local Open Scope list_scope.

Lemma strictEq_refl (v : value) : strictEq v v = true.
Proof.
  destruct v as [| |b|q|s]; simpl; auto.
  - destruct b; reflexivity.
  - apply Qeq_bool_iff. reflexivity.
  - apply String.eqb_refl.
Qed.

Lemma strictEq_trans (a b c : value) :
  strictEq a b = true -> strictEq b c = true -> strictEq a c = true.
Proof.
  destruct a as [| |x|x|x], b as [| |y|y|y], c as [| |z|z|z]; simpl; try congruence.
  - destruct x, y, z; simpl; congruence.
  - rewrite !Qeq_bool_iff. intros H1 H2. rewrite H1. exact H2.
  - rewrite !String.eqb_eq. congruence.
Qed.

Lemma seenBefore_app (u : value) (a b : list obj) :
  seenBefore u (a ++ b) = seenBefore u a || seenBefore u b.
Proof. unfold seenBefore. apply existsb_app. Qed.

Lemma findIndex_seen (u : value) (earlier rest : list obj) :
  seenBefore u earlier = true ->
  exists j, findIndex u (earlier ++ rest) = Some j /\ (j < length earlier)%nat.
Proof.
  induction earlier as [|x l IH]; simpl; [discriminate|].
  destruct (strictEq (get x "uuid") u) eqn:E; simpl.
  - intros _. exists 0%nat. split; [reflexivity|lia].
  - intros H. destruct (IH H) as (j & -> & Hj). exists (S j). split; [reflexivity|lia].
Qed.

Lemma findIndex_unseen (u : value) (earlier rest : list obj) :
  seenBefore u earlier = false ->
  findIndex u (earlier ++ rest)
  = option_map (fun j => (length earlier + j)%nat) (findIndex u rest).
Proof.
  induction earlier as [|x l IH]; simpl.
  - intros _. destruct (findIndex u rest); reflexivity.
  - destruct (strictEq (get x "uuid") u) eqn:E; simpl; [discriminate|].
    intros H. rewrite (IH H). destruct (findIndex u rest); reflexivity.
Qed.

Lemma keepFirstFrom_keepUnseen (suffix earlier : list obj) :
  keepFirstFrom (earlier ++ suffix) (length earlier) suffix = keepUnseen earlier suffix.
Proof.
  revert earlier. induction suffix as [|d rest IH]; intros earlier; [reflexivity|].
  simpl.
  assert (Htail : keepFirstFrom (earlier ++ d :: rest) (S (length earlier)) rest
                  = keepUnseen (earlier ++ [d]) rest).
  { rewrite <- (IH (earlier ++ [d])). rewrite <- app_assoc, length_app. simpl.
    replace (length earlier + 1)%nat with (S (length earlier)) by lia. reflexivity. }
  rewrite Htail.
  destruct (seenBefore (get d "uuid") earlier) eqn:E.
  - destruct (findIndex_seen _ earlier (d :: rest) E) as (j & -> & Hj).
    destruct (Nat.eqb_spec (length earlier) j); [lia|reflexivity].
  - rewrite (findIndex_unseen _ earlier (d :: rest) E). simpl.
    rewrite strictEq_refl. simpl. rewrite Nat.add_0_r, Nat.eqb_refl. reflexivity.
Qed.

Lemma dedupe_keepUnseen (devices : list obj) :
  dedupe devices = keepUnseen [] (map normalizeDevice devices).
Proof. unfold dedupe. apply (keepFirstFrom_keepUnseen _ []). Qed.

Lemma seenBefore_sym_false (d : obj) (l : list obj) :
  (forall e, In e l -> strictEq (get d "uuid") (get e "uuid") = false) ->
  seenBefore (get d "uuid") l = false.
Proof.
  induction l as [|x l IH]; simpl; [reflexivity|].
  intros H. rewrite IH by (intros; apply H; right; assumption).
  destruct (strictEq (get x "uuid") (get d "uuid")) eqn:E; [|reflexivity].
  assert (strictEq (get d "uuid") (get x "uuid") = true).
  { destruct (get d "uuid"), (get x "uuid"); simpl in *; try congruence.
    - destruct b, b0; simpl in *; congruence.
    - apply Qeq_bool_iff. apply Qeq_bool_iff in E. symmetry. exact E.
    - apply String.eqb_eq. apply String.eqb_eq in E. congruence. }
  rewrite H in H0 by (left; reflexivity). discriminate.
Qed.

Lemma keepUnseen_unseen (suffix earlier : list obj) (e : obj) :
  In e (keepUnseen earlier suffix) -> seenBefore (get e "uuid") earlier = false.
Proof.
  revert earlier. induction suffix as [|d rest IH]; intros earlier; simpl; [intros []|].
  destruct (seenBefore (get d "uuid") earlier) eqn:E.
  - intros H. apply IH in H. rewrite seenBefore_app in H.
    apply orb_false_iff in H. tauto.
  - intros [<-|H]; [exact E|]. apply IH in H. rewrite seenBefore_app in H.
    apply orb_false_iff in H. tauto.
Qed.

Lemma keepUnseen_distinct (suffix earlier : list obj) :
  distinctUuids (keepUnseen earlier suffix).
Proof.
  revert earlier. induction suffix as [|d rest IH]; intros earlier; simpl; [exact I|].
  destruct (seenBefore (get d "uuid") earlier) eqn:E; [apply IH|].
  simpl. split; [|apply IH].
  apply seenBefore_sym_false. intros e He.
  apply keepUnseen_unseen in He. rewrite seenBefore_app in He.
  apply orb_false_iff in He. destruct He as [_ He]. simpl in He.
  rewrite orb_false_r in He. exact He.
Qed.

Lemma keepUnseen_sublist (suffix earlier : list obj) :
  sublist (keepUnseen earlier suffix) suffix.
Proof.
  revert earlier. induction suffix as [|d rest IH]; intros earlier; simpl; [constructor|].
  destruct (seenBefore (get d "uuid") earlier); [apply sublist_cons|apply sublist_skip];
    apply IH.
Qed.

Lemma keepUnseen_first (suffix earlier : list obj) (e : obj) :
  In e (keepUnseen earlier suffix) ->
  exists k, suffix !! k = Some e
            /\ seenBefore (get e "uuid") (earlier ++ take k suffix) = false.
Proof.
  revert earlier. induction suffix as [|d rest IH]; intros earlier; simpl; [intros []|].
  assert (Hrec : In e (keepUnseen (earlier ++ [d]) rest) ->
                 exists k, (d :: rest) !! k = Some e
                           /\ seenBefore (get e "uuid") (earlier ++ take k (d :: rest)) = false).
  { intros H. destruct (IH _ H) as (k & Hk & Hs). exists (S k). split; [exact Hk|].
    simpl. rewrite <- app_assoc in Hs. exact Hs. }
  destruct (seenBefore (get d "uuid") earlier) eqn:E; [exact Hrec|].
  intros [<-|H]; [|apply Hrec; exact H].
  exists 0%nat. split; [reflexivity|]. simpl. rewrite app_nil_r. exact E.
Qed.

Lemma keepUnseen_covers (suffix earlier : list obj) (x : obj) :
  In x suffix ->
  seenBefore (get x "uuid") earlier = true
  \/ exists d, In d (keepUnseen earlier suffix)
               /\ strictEq (get d "uuid") (get x "uuid") = true.
Proof.
  revert earlier. induction suffix as [|d rest IH]; intros earlier; simpl; [intros []|].
  intros [<-|Hx].
  - destruct (seenBefore (get d "uuid") earlier) eqn:E; [left; reflexivity|].
    right. exists d. split; [left; reflexivity|apply strictEq_refl].
  - destruct (IH (earlier ++ [d]) Hx) as [Hs|(e & He & Heq)].
    + rewrite seenBefore_app in Hs. apply orb_true_iff in Hs. destruct Hs as [Hs|Hs];
        [left; exact Hs|].
      simpl in Hs. rewrite orb_false_r in Hs.
      destruct (seenBefore (get d "uuid") earlier) eqn:E.
      * left. unfold seenBefore in *. apply existsb_exists in E.
        destruct E as (p & Hp & Hpd). apply existsb_exists. exists p. split; [exact Hp|].
        eapply strictEq_trans; eauto.
      * right. exists d. split; [left; reflexivity|exact Hs].
    + right. exists e. split; [|exact Heq].
      destruct (seenBefore (get d "uuid") earlier); [exact He|right; exact He].
Qed.

Lemma normalizeDevice_uuid (d : obj) :
  get (normalizeDevice d) "uuid" = or (get d "uuid") (get d "id")
  /\ get (normalizeDevice d) "id" = or (get d "id") (get d "uuid").
Proof.
  unfold normalizeDevice, get. split.
  - rewrite lookup_insert_ne by discriminate. rewrite lookup_insert_eq. reflexivity.
  - rewrite lookup_insert_eq. reflexivity.
Qed.

Lemma discoveryCalls_app (a b : list ScanEvent) :
  discoveryCalls (a ++ b) = (discoveryCalls a + discoveryCalls b)%nat.
Proof. unfold discoveryCalls. rewrite List.filter_app, length_app. reflexivity. Qed.

Lemma discoveryCalls_single (attempt : nat) (vendor : string) :
  discoveryCalls [EvDiscovery attempt vendor] = 1%nat.
Proof. reflexivity. Qed.

Lemma discoveryCalls_stop (stopped : bool) :
  discoveryCalls (if stopped then [EvStopScan] else []) = 0%nat.
Proof. destruct stopped; reflexivity. Qed.

Section Passes.
Variable env : nat -> PassEnv.
Variable deviceType : option string.

Lemma performScanFrom_calls (budget attempt : nat) :
  (discoveryCalls (snd (performScanFrom env deviceType budget attempt))
   <= 1 + (MAX_SCAN_RETRIES - 1 - attempt))%nat.
Proof.
  revert attempt. induction budget as [|b IH]; intros attempt.
  - simpl. destruct (discover (env attempt) deviceType) as [[[devices vendor]|] stopped];
      simpl; [|rewrite discoveryCalls_stop; lia].
    destruct (dedupe devices) as [|x l]; [destruct (attempt + 1 <? MAX_SCAN_RETRIES)%nat|];
      simpl; rewrite discoveryCalls_app, discoveryCalls_stop, discoveryCalls_single; lia.
  - simpl. destruct (discover (env attempt) deviceType) as [[[devices vendor]|] stopped];
      simpl; [|rewrite discoveryCalls_stop; lia].
    destruct (dedupe devices) as [|x l];
      [|simpl; rewrite discoveryCalls_app, discoveryCalls_stop, discoveryCalls_single; lia].
    destruct (Nat.ltb_spec (attempt + 1) MAX_SCAN_RETRIES) as [Hlt|Hge];
      [|simpl; rewrite discoveryCalls_app, discoveryCalls_stop, discoveryCalls_single; lia].
    specialize (IH (attempt + 1)%nat).
    destruct (performScanFrom env deviceType b (attempt + 1)) as [res evs]. cbn [snd] in *.
    change (EvDiscovery attempt vendor :: EvStopScan :: EvDelay 500 :: evs)
      with ([EvDiscovery attempt vendor; EvStopScan; EvDelay 500] ++ evs).
    rewrite !discoveryCalls_app, discoveryCalls_stop.
    change (discoveryCalls [EvDiscovery attempt vendor; EvStopScan; EvDelay 500]) with 1%nat.
    unfold MAX_SCAN_RETRIES in *. lia.
Qed.

(** A pass that finds nothing, with a retry still allowed. *)
Lemma performScanFrom_retry (b attempt : nat) devices vendor stopped :
  discover (env attempt) deviceType = (Some (devices, vendor), stopped) ->
  dedupe devices = [] ->
  (attempt + 1 < MAX_SCAN_RETRIES)%nat ->
  performScanFrom env deviceType (S b) attempt
  = (fst (performScanFrom env deviceType b (attempt + 1)),
     (if stopped then [EvStopScan] else [])
       ++ [EvDiscovery attempt vendor; EvStopScan; EvDelay 500]
       ++ snd (performScanFrom env deviceType b (attempt + 1))).
Proof.
  intros H He Hlt. simpl. rewrite H, He.
  destruct (Nat.ltb_spec (attempt + 1) MAX_SCAN_RETRIES); [|lia].
  destruct (performScanFrom env deviceType b (attempt + 1)). reflexivity.
Qed.

(** The last allowed pass answers with whatever it found. *)
Lemma performScanFrom_last (budget : nat) devices vendor stopped :
  discover (env 1) deviceType = (Some (devices, vendor), stopped) ->
  fst (performScanFrom env deviceType budget 1) = dedupe devices
  /\ discoveryCalls (snd (performScanFrom env deviceType budget 1)) = 1%nat.
Proof.
  intros H. destruct budget; simpl; rewrite H; simpl;
    destruct (dedupe devices); simpl;
    rewrite discoveryCalls_app, discoveryCalls_stop, discoveryCalls_single; split; reflexivity.
Qed.

End Passes.

(** With nothing ever found the scan gives up after one retry: the
    discovery call is made twice, not three times. *)
Lemma empty_scan_retries_once :
  let run := performScan nothingFound (Some "yc") in
  fst run = []
  /\ snd run = [EvStopScan; EvDiscovery 0 "yc"; EvStopScan; EvDelay 500;
                EvStopScan; EvDiscovery 1 "yc"]
  /\ retriesOf (snd run) = 1%nat
  /\ retriesOf (snd run) <> 2%nat.
Proof. vm_compute. repeat split; try reflexivity. discriminate. Qed.

(** C6, as amended.  A scan makes at most 2 discovery calls in all: when
    the first pass finds no device the discovery is retried once, and the
    second pass answers with what it finds, devices or none; when the
    first pass finds a device there is no retry.  The devices of a pass
    are deduplicated by identifier after aliasing [uuid] and [id] onto
    each other: the result lists the normalized devices in their order,
    no two with the same [uuid], each the first of its [uuid], and every
    discovered [uuid] is represented. *)
Theorem scan_passes_and_dedupe :
  forall (env : nat -> PassEnv) (deviceType : option string),
    let run := performScan env deviceType in
    (discoveryCalls (snd run) <= 2)%nat
    /\ (forall devices vendor stopped,
          discover (env 0%nat) deviceType = (Some (devices, vendor), stopped) ->
          dedupe devices <> [] ->
          fst run = dedupe devices /\ discoveryCalls (snd run) = 1%nat)
    /\ (forall devices0 vendor0 stopped0 devices1 vendor1 stopped1,
          discover (env 0%nat) deviceType = (Some (devices0, vendor0), stopped0) ->
          dedupe devices0 = [] ->
          discover (env 1%nat) deviceType = (Some (devices1, vendor1), stopped1) ->
          fst run = dedupe devices1 /\ discoveryCalls (snd run) = 2%nat)
    /\ (forall devices : list obj,
          let normalized := map normalizeDevice devices in
          let out := dedupe devices in
          distinctUuids out
          /\ sublist out normalized
          /\ (forall d, get (normalizeDevice d) "uuid" = or (get d "uuid") (get d "id"))
          /\ (forall e, In e out ->
                exists k, normalized !! k = Some e
                          /\ seenBefore (get e "uuid") (take k normalized) = false)
          /\ (forall x, In x normalized ->
                exists d, In d out /\ strictEq (get d "uuid") (get x "uuid") = true)).
Proof.
  intros env deviceType run. subst run. unfold performScan.
  split; [|split; [|split]].
  - apply (performScanFrom_calls env deviceType MAX_SCAN_RETRIES 0).
  - intros devices vendor stopped Hd Hne. simpl. rewrite Hd.
    destruct (dedupe devices) as [|x l] eqn:E; [congruence|].
    simpl. rewrite discoveryCalls_app, discoveryCalls_stop. split; reflexivity.
  - intros devices0 vendor0 stopped0 devices1 vendor1 stopped1 H0 He H1.
    destruct (performScanFrom_last env deviceType 1 devices1 vendor1 stopped1 H1) as [Hr Hc].
    change (performScanFrom env deviceType MAX_SCAN_RETRIES 0)
      with (performScanFrom env deviceType 2 0).
    rewrite (performScanFrom_retry env deviceType 1 0 devices0 vendor0 stopped0 H0 He)
      by (unfold MAX_SCAN_RETRIES; lia).
    change (0 + 1)%nat with 1%nat. cbn [fst snd].
    split; [exact Hr|].
    rewrite !discoveryCalls_app, discoveryCalls_stop, Hc. reflexivity.
  - intros devices. rewrite dedupe_keepUnseen.
    split; [apply keepUnseen_distinct|].
    split; [apply keepUnseen_sublist|].
    split; [intros d; apply (proj1 (normalizeDevice_uuid d))|].
    split.
    + intros e He. apply keepUnseen_first in He. exact He.
    + intros x Hx. destruct (keepUnseen_covers _ [] x Hx) as [Hs|Hc];
        [discriminate|exact Hc].
Qed.

Lemma scan_passes_and_dedupe_witness :
  let run := performScan foundOnRetry (Some "yc") in
  fst run = [normalizeDevice ringById; normalizeDevice otherRing]
  /\ discoveryCalls (snd run) = 2%nat
  /\ map (fun d => get d "uuid") (fst run) = [VStr "AA:01"; VStr "BB:02"].
Proof.
  intros run.
  destruct (scan_passes_and_dedupe foundOnRetry (Some "yc")) as (_ & _ & Hretry & _).
  destruct (Hretry [] "yc" true [ringById; ringByUuid; otherRing] "yc" true)
    as [Hres Hcalls]; [reflexivity|reflexivity|reflexivity|].
  fold run in Hres, Hcalls.
  split; [|split; [exact Hcalls|]].
  - rewrite Hres. vm_compute. reflexivity.
  - rewrite Hres. vm_compute. reflexivity.
Defined.

End ScannerFacts.

(** ** Back-off of a scan behind the connection locks *)

Module BackOffFacts.
Import Js Scanner.

Lemma scanGuards_backoff (v : LockView) (bypassLocks : bool) (retryCount : nat) :
  pendingScan v = None ->
  (retryCount < 5)%nat ->
  lockHeld bypassLocks v = true ->
  scanGuards v bypassLocks retryCount = BackOff.
Proof.
  intros Hp Hlt Hl. unfold scanGuards, lockHeld in *. rewrite Hp.
  destruct (Nat.leb_spec 5 retryCount); [lia|].
  destruct (connectionInProgress v); [reflexivity|].
  simpl in Hl. rewrite Hl. reflexivity.
Qed.

(** One back-off: a second of waiting, then the same call with the retry
    count raised by one. *)
Lemma scanDevices_backoff (view : nat -> LockView) (bypassLocks : bool) (retryCount : nat) :
  pendingScan (view retryCount) = None ->
  (retryCount < 5)%nat ->
  lockHeld bypassLocks (view retryCount) = true ->
  scanDevices view retryCount bypassLocks
  = (fst (scanDevices view (retryCount + 1) bypassLocks),
     1000 :: snd (scanDevices view (retryCount + 1) bypassLocks)).
Proof.
  intros Hp Hlt Hl. unfold scanDevices.
  replace (6 - retryCount)%nat with (S (6 - (retryCount + 1))) by lia.
  cbn [scanDevicesFrom]. rewrite (scanGuards_backoff _ _ _ Hp Hlt Hl).
  destruct (scanDevicesFrom view bypassLocks (6 - (retryCount + 1)) (retryCount + 1)).
  reflexivity.
Qed.

Lemma scanDevices_gives_up (view : nat -> LockView) (bypassLocks : bool) (retryCount : nat) :
  pendingScan (view retryCount) = None ->
  (5 <= retryCount)%nat ->
  scanDevices view retryCount bypassLocks = (EmptyResult, []).
Proof.
  intros Hp Hge. unfold scanDevices.
  assert (Hg : scanGuards (view retryCount) bypassLocks retryCount = GiveUp).
  { unfold scanGuards. rewrite Hp. destruct (Nat.leb_spec 5 retryCount); [reflexivity|lia]. }
  destruct (6 - retryCount)%nat; cbn [scanDevicesFrom]; rewrite Hg; reflexivity.
Qed.

(** C7.  While no scan is pending, a scan request that finds the connect
    lock held (or, with bypassLocks false, the health-fetch lock) waits
    one second and runs again with its retry count raised by one; when
    the lock is still held at each of the 5 tries, the request has waited
    5 times one second and returns the empty list. *)
Theorem scan_backs_off_five_times :
  forall (view : nat -> LockView) (bypassLocks : bool),
    (forall retryCount,
        pendingScan (view retryCount) = None ->
        (retryCount < 5)%nat ->
        lockHeld bypassLocks (view retryCount) = true ->
        scanDevices view retryCount bypassLocks
        = (fst (scanDevices view (retryCount + 1) bypassLocks),
           1000 :: snd (scanDevices view (retryCount + 1) bypassLocks)))
    /\ ((forall i, (i <= 5)%nat -> pendingScan (view i) = None) ->
        (forall i, (i < 5)%nat -> lockHeld bypassLocks (view i) = true) ->
        scanDevices view 0 bypassLocks = (EmptyResult, [1000; 1000; 1000; 1000; 1000])).
Proof.
  intros view bypassLocks. split.
  - intros retryCount. apply scanDevices_backoff.
  - intros Hp Hl.
    rewrite (scanDevices_backoff view bypassLocks 0) by (first [apply Hp; lia | apply Hl; lia | lia]).
    cbn [Nat.add fst snd].
    rewrite (scanDevices_backoff view bypassLocks 1) by (first [apply Hp; lia | apply Hl; lia | lia]).
    cbn [Nat.add fst snd].
    rewrite (scanDevices_backoff view bypassLocks 2) by (first [apply Hp; lia | apply Hl; lia | lia]).
    cbn [Nat.add fst snd].
    rewrite (scanDevices_backoff view bypassLocks 3) by (first [apply Hp; lia | apply Hl; lia | lia]).
    cbn [Nat.add fst snd].
    rewrite (scanDevices_backoff view bypassLocks 4) by (first [apply Hp; lia | apply Hl; lia | lia]).
    cbn [Nat.add fst snd].
    rewrite (scanDevices_gives_up view bypassLocks 5) by (first [apply Hp; lia | apply Hl; lia | lia]).
    reflexivity.
Qed.

Lemma scan_backs_off_five_times_witness :
  scanDevices connectHolds 0 true = (EmptyResult, [1000; 1000; 1000; 1000; 1000])
  /\ scanDevices connectHolds 0 false = (EmptyResult, [1000; 1000; 1000; 1000; 1000]).
Proof.
  split.
  - apply (proj2 (scan_backs_off_five_times connectHolds true)); intros; reflexivity.
  - apply (proj2 (scan_backs_off_five_times connectHolds false)); intros; reflexivity.
Defined.

End BackOffFacts.

(** ** Locks of connectDevice *)

Module ConnectionFacts.
Import Js Connection.
Import Mapping(Platform, ios, android).

Lemma is_empty_string_spec (s : string) : is_empty_string s = true <-> s = EmptyString.
Proof. destruct s; simpl; split; congruence. Qed.

(** The locked part always ends with the flag down and the identifier
    out of the attempt set, whatever the body did. *)
Lemma connectLocked_releases env clean type disableRetry st :
  let r := connectLocked env clean type disableRetry st in
  acquired (fst r) = true
  /\ _isConnecting (snd r) = false
  /\ clean ∉ _connectionAttempts (snd r).
Proof.
  unfold connectLocked.
  destruct (connectBody env clean type disableRetry (setConnecting true st)) as [[b|] st2];
    simpl; (split; [reflexivity|]); (split; [reflexivity|]); set_solver.
Qed.

(** C10, as stated, fails.  connectDevice has two returns ahead of its
    [try] ... [finally]: the one for an identifier that is empty once
    sanitized, and the one taken when the pre-connection probe finds the
    ring connected.  Neither touches the connecting flag, so a call made
    while the flag is up (for another connect) returns [false], or
    [true], with the flag still up. *)
Lemma early_return_leaves_flag_up :
  (let r := connectDevice refusingEnv (Some "   "%string) (Some "yc"%string)
              false false busyState in
   returned (fst r) = false /\ _isConnecting (snd r) = true)
  /\ (let r := connectDevice connectedEnv (Some "AA:BB:CC:DD:EE:01"%string)
                 (Some "yc"%string) false false busyState in
      returned (fst r) = true /\ _isConnecting (snd r) = true
      /\ "AA:BB:CC:DD:EE:01"%string ∉ _connectionAttempts (snd r)).
Proof.
  split.
  - vm_compute. split; reflexivity.
  - split; [vm_compute; reflexivity|].
    split; [vm_compute; reflexivity|].
    vm_compute. set_solver.
Qed.

(** C10, as amended.  Whatever connectDevice returns, and whether the
    native connect answered, refused or threw, the sanitized identifier
    is out of the attempt set when the call is over.  A call that got as far as raising
    the connecting flag leaves it lowered; a call that returns before
    that (identifier rejected, ring already connected) never touched the
    flag.  So after a call that started with the flag down, the flag is
    down and the identifier is not in the set. *)
Theorem connect_releases_locks :
  forall env (uuid deviceType : option string) (disableRetry skipPreConnectionCheck : bool)
         (st : State),
    let r := connectDevice env uuid deviceType disableRetry skipPreConnectionCheck st in
    let clean := cleanUuid uuid in
    (clean <> EmptyString -> clean ∉ _connectionAttempts (snd r))
    /\ (acquired (fst r) = true -> _isConnecting (snd r) = false)
    /\ (acquired (fst r) = false -> _isConnecting (snd r) = _isConnecting st)
    /\ (_isConnecting st = false ->
        _isConnecting (snd r) = false
        /\ (clean ∉ _connectionAttempts st -> clean ∉ _connectionAttempts (snd r)))
    /\ (clean = EmptyString -> snd r = st /\ returned (fst r) = false).
Proof.
  intros env uuid deviceType disableRetry skip st r clean.
  assert (Hmain :
    (clean <> EmptyString -> clean ∉ _connectionAttempts (snd r))
    /\ (acquired (fst r) = true -> _isConnecting (snd r) = false)
    /\ (acquired (fst r) = false -> _isConnecting (snd r) = _isConnecting st)
    /\ (clean = EmptyString -> snd r = st /\ returned (fst r) = false)).
  { subst r. unfold connectDevice. fold clean.
    destruct (is_empty_string clean) eqn:E.
    - apply is_empty_string_spec in E. simpl.
      repeat split; auto; congruence.
    - assert (Hne : clean <> EmptyString).
      { intros H. apply is_empty_string_spec in H. congruence. }
      set (type := toLowerCase _).
      set (st1 := cancelAllPendingOperations st).
      set (st2 := match storedDevice st1 with
                  | Some (Parsed u) => _ | Some Malformed => _ | None => _ end).
      set (st3 := if bool_decide _ then _ else st2).
      assert (Hflag : _isConnecting st3 = _isConnecting st).
      { subst st3 st2 st1. unfold clearOldDeviceData, cancelAllPendingOperations.
        simpl. repeat (case_match; simpl; try reflexivity). }
      destruct skip.
      + match goal with
        | |- context [connectLocked env clean type disableRetry ?s] =>
            destruct (connectLocked_releases env clean type disableRetry s) as (Ha & Hc & Hs)
        end.
        repeat split; auto; try congruence.
      + destruct (firstProbe env) as [[|]|].
        * simpl. repeat split; try congruence; try set_solver.
        * case_match.
          -- simpl. repeat split; try congruence; try set_solver.
          -- match goal with
             | |- context [connectLocked env clean type disableRetry ?s] =>
                 destruct (connectLocked_releases env clean type disableRetry s)
                   as (Ha & Hc & Hs)
             end.
             repeat split; auto; try congruence.
        * case_match.
          -- simpl. repeat split; try congruence; try set_solver.
          -- match goal with
             | |- context [connectLocked env clean type disableRetry ?s] =>
                 destruct (connectLocked_releases env clean type disableRetry s)
                   as (Ha & Hc & Hs)
             end.
             repeat split; auto; try congruence. }
  destruct Hmain as (H1 & H2 & H3 & H4).
  repeat split; auto.
  - destruct (acquired (fst r)) eqn:E; [apply H2; reflexivity|].
    rewrite H3 by reflexivity. assumption.
  - intros Hnot.
    destruct (String.eqb_spec clean EmptyString) as [He|Hne]; [|apply H1; exact Hne].
    destruct (H4 He) as [-> _]. exact Hnot.
  - apply H4; assumption.
  - apply H4; assumption.
Qed.

Lemma connect_releases_locks_witness :
  let r := connectDevice refusingEnv (Some " AA:BB:CC:DD:EE:01 "%string) (Some "YC"%string)
             false false staleState in
  returned (fst r) = false
  /\ acquired (fst r) = true
  /\ _isConnecting (snd r) = false
  /\ "AA:BB:CC:DD:EE:01"%string ∉ _connectionAttempts (snd r).
Proof.
  intros r.
  destruct (connect_releases_locks refusingEnv (Some " AA:BB:CC:DD:EE:01 "%string)
              (Some "YC"%string) false false staleState) as (Hset & Hflag & _).
  fold r in Hset, Hflag.
  assert (Hacq : acquired (fst r) = true) by (vm_compute; reflexivity).
  split; [vm_compute; reflexivity|].
  split; [exact Hacq|].
  split; [apply Hflag; exact Hacq|].
  apply Hset. vm_compute. discriminate.
Defined.

End ConnectionFacts.

(** ** Single flight of scanDevices *)

Module SingleFlightFacts.
Import Js Scanner SingleFlight.

Lemma Inv_initial : Inv initial.
Proof.
  unfold Inv, initial; simpl. split_and!; intros; try discriminate; try lia;
    rewrite lookup_empty in *; discriminate.
Qed.

Lemma scanGuards_start sys connecting healthOp bypassLocks retryCount :
  scanGuards (viewOf sys connecting healthOp) bypassLocks retryCount = Start ->
  scanPromise sys = None.
Proof.
  unfold scanGuards, viewOf; simpl. destruct (scanPromise sys); [discriminate|reflexivity].
Qed.

Lemma Inv_enter i connecting healthOp bypassLocks retryCount sys :
  Inv sys -> Inv (enter i connecting healthOp bypassLocks retryCount sys).
Proof.
  intros (Ia & Ib & Ic & Id & Ie). unfold enter.
  destruct (scanGuards _ bypassLocks retryCount) eqn:G.
  - unfold Inv; simpl. split_and!; auto.
    + intros j q. rewrite lookup_insert_Some. naive_solver.
    + intros j k q q'. rewrite !lookup_insert_Some. naive_solver.
    + intros j q r. rewrite lookup_insert_Some. naive_solver.
  - unfold Inv; simpl. split_and!; auto.
    + intros j q. rewrite lookup_insert_Some. naive_solver.
    + intros j k q q'. rewrite !lookup_insert_Some. naive_solver.
    + intros j q r. rewrite lookup_insert_Some. naive_solver.
  - unfold Inv; simpl. split_and!; auto.
    + intros j q. rewrite lookup_insert_Some. naive_solver.
    + intros j k q q'. rewrite !lookup_insert_Some. naive_solver.
    + intros j q r. rewrite lookup_insert_Some. naive_solver.
  - apply scanGuards_start in G.
    unfold Inv; simpl. split_and!.
    + intros p [= <-]. lia.
    + intros q Hq Hs. destruct (decide (q = launched sys)) as [->|Hne]; [reflexivity|].
      rewrite (Ib q) in G by (auto; lia). discriminate.
    + intros j q. rewrite lookup_insert_Some. intros [[_ [= <-]]|[_ H]]; [reflexivity|].
      rewrite (Ic _ _ H) in G. discriminate.
    + intros j k q q'. rewrite !lookup_insert_Some.
      intros [[<- _]|[_ H]] [[<- _]|[_ H']]; try reflexivity.
      * rewrite (Ic _ _ H') in G. discriminate.
      * rewrite (Ic _ _ H) in G. discriminate.
      * rewrite (Ic _ _ H) in G. discriminate.
    + intros j q r. rewrite lookup_insert_Some. naive_solver.
Qed.

Lemma Inv_scanStep sys sys' : Inv sys -> scanStep sys sys' -> Inv sys'.
Proof.
  intros HI Hstep. destruct Hstep as
    [i c h b rc sys _ | i rc b c h sys _ | p result sys Hp Hs
    | i p result sys Hc Hs | i p result sys Hc Hs].
  - apply Inv_enter. exact HI.
  - apply Inv_enter. exact HI.
  - destruct HI as (Ia & Ib & Ic & Id & Ie). unfold Inv; simpl. split_and!; auto.
    + intros q Hq. rewrite lookup_insert_None. intros [Hn _]. auto.
    + intros j q r Hj. specialize (Ie _ _ _ Hj).
      rewrite lookup_insert_ne; [exact Ie|]. intros ->. congruence.
  - destruct HI as (Ia & Ib & Ic & Id & Ie). unfold Inv; simpl. split_and!.
    + intros q [=].
    + intros q Hq Hn. specialize (Ib q Hq Hn). rewrite (Ic _ _ Hc) in Ib.
      injection Ib as <-. congruence.
    + intros j q. rewrite lookup_insert_Some. intros [[_ [=]]|[Hne H]].
      exfalso. apply Hne. eapply Id; eauto.
    + intros j k q q'. rewrite !lookup_insert_Some.
      intros [[_ [=]]|[_ H]] [[_ [=]]|[_ H']]. eapply Id; eauto.
    + intros j q r. rewrite lookup_insert_Some.
      intros [[_ [= <- <-]]|[_ H]]; [exact Hs|eauto].
  - destruct HI as (Ia & Ib & Ic & Id & Ie). unfold Inv; simpl. split_and!; auto.
    + intros j q. rewrite lookup_insert_Some. intros [[_ [=]]|[_ H]]. eauto.
    + intros j k q q'. rewrite !lookup_insert_Some.
      intros [[_ [=]]|[_ H]] [[_ [=]]|[_ H']]. eapply Id; eauto.
    + intros j q r. rewrite lookup_insert_Some.
      intros [[_ [= <- <-]]|[_ H]]; [exact Hs|eauto].
Qed.

Lemma resetScanLocks_idle sys : scanPromise sys = None -> resetScanLocks sys = sys.
Proof. destruct sys as [sp l st c]; simpl. intros ->. reflexivity. Qed.

Lemma Inv_calmStep sys sys' : Inv sys -> calmStep sys sys' -> Inv sys'.
Proof.
  intros HI [Hstep|[Hidle ->]].
  - eapply Inv_scanStep; eauto.
  - rewrite resetScanLocks_idle by exact Hidle. exact HI.
Qed.

Lemma Inv_undisturbed sys : undisturbed sys -> Inv sys.
Proof.
  unfold undisturbed. intros H.
  eapply (rtc_ind_r (fun s => Inv s) initial); [apply Inv_initial| |exact H].
  intros y z _ Hstep IH. eapply Inv_calmStep; eauto.
Qed.

Lemma afterBothResume_reachable : reachable afterSecondStart /\ reachable afterBothResume.
Proof.
  assert (H1 : reachable afterSecondStart).
  { unfold reachable.
    eapply rtc_l; [apply step_scan, (step_call 0 false false false 0 initial); reflexivity|].
    eapply rtc_l; [apply (step_reset afterFirstCall)|].
    eapply rtc_l; [apply step_scan, (step_call 1 false false false 0 afterReset);
                   reflexivity|].
    apply rtc_refl. }
  split; [exact H1|].
  unfold reachable in *. etrans; [exact H1|].
  eapply rtc_l; [apply step_scan, (step_settle 0 oneRing afterSecondStart);
                 [vm_compute; lia|reflexivity]|].
  eapply rtc_l; [apply step_scan, (step_settle 1 [] _); [vm_compute; lia|reflexivity]|].
  eapply rtc_l; [apply step_scan, (step_owner_resumes 0 0 oneRing _); reflexivity|].
  eapply rtc_l; [apply step_scan, (step_owner_resumes 1 1 [] _); reflexivity|].
  apply rtc_refl.
Qed.

(** C9, as stated, fails.  The scan lock is a module variable that
    resetScanLocks, forceStopScan and resetScanState clear without
    looking at it.  After the first call has started its discovery task,
    a reset lets the second call through the guard: it starts a second
    task while the first is still running, and the two callers end with
    different result sets. *)
Lemma reset_starts_second_discovery :
  reachable afterSecondStart
  /\ running afterSecondStart 0 /\ running afterSecondStart 1
  /\ calls afterSecondStart !! 0%nat = Some (Awaiting 0 true)
  /\ calls afterSecondStart !! 1%nat = Some (Awaiting 1 true)
  /\ reachable afterBothResume
  /\ calls afterBothResume !! 0%nat = Some (Finished (Some 0%nat) oneRing)
  /\ calls afterBothResume !! 1%nat = Some (Finished (Some 1%nat) []).
Proof.
  destruct afterBothResume_reachable as [H1 H2].
  split; [exact H1|].
  split; [split; [vm_compute; lia|reflexivity]|].
  split; [split; [vm_compute; lia|reflexivity]|].
  split; [reflexivity|]. split; [reflexivity|].
  split; [exact H2|].
  split; reflexivity.
Qed.

(** C9, as amended.  As long as the scan lock is not reset while a scan
    promise is pending: among any number of interleaved calls of
    scanDevices, at most one discovery task is running at any moment; a
    call that arrives, or wakes from its back-off, while a scan promise
    is pending is handed that very promise and starts no task; and all
    calls handed the same promise finish with the identical result
    set. *)
Theorem scan_is_single_flight :
  forall sys, undisturbed sys ->
    (forall p q, running sys p -> running sys q -> p = q)
    /\ (forall i connecting healthOp bypassLocks retryCount p,
          scanPromise sys = Some p ->
          let sys' := enter i connecting healthOp bypassLocks retryCount sys in
          calls sys' !! i = Some (Awaiting p false)
          /\ launched sys' = launched sys
          /\ scanPromise sys' = Some p)
    /\ (forall i j p r1 r2,
          calls sys !! i = Some (Finished (Some p) r1) ->
          calls sys !! j = Some (Finished (Some p) r2) ->
          r1 = r2).
Proof.
  intros sys Hreach. destruct (Inv_undisturbed sys Hreach) as (Ia & Ib & Ic & Id & Ie).
  split_and!.
  - intros p q [Hp Hps] [Hq Hqs].
    pose proof (Ib p Hp Hps) as H1. pose proof (Ib q Hq Hqs) as H2. congruence.
  - intros i connecting healthOp bypassLocks retryCount p Hp sys'. subst sys'.
    unfold enter, scanGuards, viewOf. simpl. rewrite Hp. simpl.
    rewrite lookup_insert_eq. auto.
  - intros i j p r1 r2 Hi Hj.
    pose proof (Ie _ _ _ Hi) as H1. pose proof (Ie _ _ _ Hj) as H2. congruence.
Qed.

Lemma afterSharer_undisturbed : undisturbed afterSharer.
Proof.
  unfold undisturbed.
  eapply rtc_l; [left; apply (step_call 0 false false false 0 initial); reflexivity|].
  eapply rtc_l; [left; apply (step_call 1 false false false 0 afterFirstCall);
                 reflexivity|].
  eapply rtc_l; [left; apply (step_settle 0 oneRing afterSecondCall);
                 [vm_compute; lia|reflexivity]|].
  eapply rtc_l; [left; apply (step_owner_resumes 0 0 oneRing afterSettle); reflexivity|].
  eapply rtc_l; [right; split; [reflexivity|reflexivity]|].
  eapply rtc_l; [left; apply (step_sharer_resumes 1 0 oneRing afterOwner); reflexivity|].
  apply rtc_refl.
Qed.

Lemma scan_is_single_flight_witness :
  launched afterSharer = 1%nat
  /\ calls afterSharer !! 0%nat = Some (Finished (Some 0%nat) oneRing)
  /\ calls afterSharer !! 1%nat = Some (Finished (Some 0%nat) oneRing)
  /\ (forall r1 r2,
        calls afterSharer !! 0%nat = Some (Finished (Some 0%nat) r1) ->
        calls afterSharer !! 1%nat = Some (Finished (Some 0%nat) r2) ->
        r1 = r2).
Proof.
  split; [reflexivity|]. split; [reflexivity|]. split; [reflexivity|].
  intros r1 r2.
  apply (proj2 (proj2 (scan_is_single_flight afterSharer afterSharer_undisturbed))).
Defined.

End SingleFlightFacts.

(** ** Normalizing a payload twice *)

Module IdempotenceFacts.
Import Js Mapping Normalizer SpecValidator.
Import StepsFacts.

Local Open Scope string_scope.

Section Reruns.
Variable h : Host.
Variable V : DataValidator.
Variable calc : HealthCalculator.
Variable days : DayReadings.
Variable hostOS : option Platform.
Hypothesis HV : readsByPath V.
Hypothesis HC : cleansByPath V.

Local Abbreviation run clock rawData deviceType platform :=
  (normalizeHealthData h V calc days clock hostOS rawData deviceType platform).

(** The paths the table reads the ranged metrics from. *)
Lemma ranged_paths deviceType platform :
  let mapping := applyPlatformAdjustments (getDeviceMapping hostOS deviceType) platform in
  dataPath (Mapping.heartRate mapping) <> "combinedData"
  /\ dataPath (Mapping.spo2 mapping) <> "combinedData".
Proof.
  destruct (getDeviceMapping_entries hostOS deviceType) as [E|[E|E]];
    simpl in *; rewrite E; simpl; split; discriminate.
Qed.

Lemma nonEmpty_inv (a : option (list obj)) (l : list obj) :
  nonEmpty a = Some l -> a = Some l.
Proof. destruct a as [[|x l']|]; simpl; congruence. Qed.

(** The alias written by the Android step normalizer is invisible to the
    ranged metrics on Android. *)
Lemma ranged_android_alias today (rawData : RawData) alias config fields ok u :
  dataPath config <> "combinedData" ->
  normalizeRangedMetric V today (<["combinedData" := alias]> rawData) config android fields ok u
  = normalizeRangedMetric V today rawData config android fields ok u.
Proof.
  intros Hp. unfold normalizeRangedMetric. rewrite HC by exact Hp. reflexivity.
Qed.

(** What the step normalizer leaves in the payload, and that running it
    again on that payload changes nothing more. *)
Lemma steps_rerun vday now now' (raw0 : RawData) config deviceType platform :
  dataPath config <> "combinedData" ->
  let r := normalizeStepsMetric h V calc vday now raw0 config deviceType platform in
  let r' := normalizeStepsMetric h V calc vday now' (snd r) config deviceType platform in
  snd r' = snd r
  /\ option_map stepsCurrent (fst r') = option_map stepsCurrent (fst r)
  /\ (now = now' -> fst r' = fst r)
  /\ (snd r = raw0
      \/ exists alias, platform = android /\ snd r = <["combinedData" := alias]> raw0).
Proof.
  intros Hp. destruct platform; simpl.
  - split; [reflexivity|].
    split; [unfold normalizeStepsMetricIOS; destruct (nonEmpty _); reflexivity|].
    split; [intros ->; reflexivity|]. left; reflexivity.
  - unfold normalizeStepsMetricAndroid.
    destruct (nonEmpty (extractDataArray V raw0 (dataPath config))) as [arr|] eqn:E; simpl.
    + destruct (isCombinedData arr) eqn:Ec.
      * rewrite HV by exact Hp. rewrite E, Ec. simpl.
        rewrite insert_insert_eq.
        split; [reflexivity|]. split; [reflexivity|]. split; [intros ->; reflexivity|].
        right. exists arr. auto.
      * rewrite E, Ec. simpl.
        split; [reflexivity|]. split; [reflexivity|]. split; [intros ->; reflexivity|].
        left; reflexivity.
    + rewrite E. simpl.
      split; [reflexivity|]. split; [reflexivity|]. split; [reflexivity|].
      left; reflexivity.
Qed.

Lemma sleep_clock vday now now' (rawData : RawData) config :
  option_map sleepValues (normalizeSleepMetric h V vday now rawData config)
  = option_map sleepValues (normalizeSleepMetric h V vday now' rawData config).
Proof.
  unfold normalizeSleepMetric.
  destruct (nonEmpty _); [|reflexivity].
  destruct (List.filter _ _); [reflexivity|].
  unfold sleepFromTotals.
  destruct (fgt _ MAX_SLEEP_MINUTES); [reflexivity|].
  destruct (fgt _ (Finite 0)); reflexivity.
Qed.

Lemma battery_clock now now' (rawData : RawData) config :
  option_map current (normalizeBatteryMetric V now rawData config)
  = option_map current (normalizeBatteryMetric V now' rawData config).
Proof.
  unfold normalizeBatteryMetric.
  destruct (nonEmpty _); [|reflexivity].
  destruct (fold_left _ _ _) as [b t]. destruct (Qgtb b 0); reflexivity.
Qed.

Lemma ranged_rerun today (raw0 raw1 : RawData) config platform fields ok u :
  dataPath config <> "combinedData" ->
  (raw1 = raw0
   \/ exists alias, platform = android /\ raw1 = <["combinedData" := alias]> raw0) ->
  normalizeRangedMetric V today raw1 config platform fields ok u
  = normalizeRangedMetric V today raw0 config platform fields ok u.
Proof.
  intros Hp [->|(alias & -> & ->)]; [reflexivity|].
  apply ranged_android_alias. exact Hp.
Qed.

(** C8.  Normalizing is a function of the mapping, the payload, the day
    windows and the clock, and a second run on the payload object the
    first run has handled sees nothing of the first: with the day windows
    read as in the first run, it yields the same metric value in every
    slot, leaves the payload as it found it, and, at the same clock
    readings, yields the identical record.  A second run on a fresh copy
    of the payload agrees in the same way.  (The validator is any
    implementation that reads arrays through their path.) *)
Theorem normalization_is_idempotent :
  forall (rawData : option RawData) deviceType platform clock1 clock2,
    let r1 := run clock1 rawData deviceType platform in
    let r2 := run clock2 (nRawData r1) deviceType platform in
    metricValues r2 = metricValues r1
    /\ nRawData r2 = nRawData r1
    /\ (clock1 = clock2 -> r2 = r1)
    /\ metricValues (run clock2 rawData deviceType platform) = metricValues r1.
Proof.
  intros rawData deviceType platform clock1 clock2.
  destruct rawData as [raw0|]; [|simpl; repeat split; intros; subst; reflexivity].
  unfold normalizeHealthData.
  destruct (ranged_paths deviceType platform) as [Hhr Hsp].
  destruct (calories_path_is_steps_path hostOS deviceType platform) as [_ Hst].
  set (mapping := applyPlatformAdjustments (getDeviceMapping hostOS deviceType) platform) in *.
  pose proof (steps_rerun (stepsDays days) (stepsNow clock1) (stepsNow clock2) raw0
                (Mapping.steps mapping) deviceType platform Hst)
    as (Hraw & Hcur & Hsame & Halias).
  destruct (normalizeStepsMetric h V calc (stepsDays days) (stepsNow clock1) raw0
              (Mapping.steps mapping) deviceType platform) as [st1 raw1] eqn:E1.
  cbn [fst snd] in Hraw, Hcur, Hsame, Halias. cbn [nRawData].
  destruct (normalizeStepsMetric h V calc (stepsDays days) (stepsNow clock2) raw1
              (Mapping.steps mapping) deviceType platform) as [st2 raw2] eqn:E2.
  cbn [fst snd] in Hraw, Hcur, Hsame. subst raw2.
  unfold normalizeHeartRateMetric, normalizeSpo2Metric.
  rewrite !(ranged_rerun _ raw0 raw1) by assumption.
  split; [|split; [|split]].
  - unfold metricValues. cbn [nHeartRate nSpo2 nSteps nCalories nDistance nSleep
      nBloodPressure nTemperature nBattery nDeviceType nPlatform].
    rewrite Hcur, (sleep_clock _ (sleepNow clock2) (sleepNow clock1)),
      (battery_clock (batteryNow clock2) (batteryNow clock1)). reflexivity.
  - reflexivity.
  - intros <-. rewrite Hsame by reflexivity. reflexivity.
  - assert (E3 : normalizeStepsMetric h V calc (stepsDays days) (stepsNow clock2) raw0
                   (Mapping.steps mapping) deviceType platform
                 = (fst (normalizeStepsMetric h V calc (stepsDays days) (stepsNow clock2) raw0
                           (Mapping.steps mapping) deviceType platform), raw1)).
    { clear -E1. destruct platform; simpl in *.
      - injection E1 as _ <-. reflexivity.
      - unfold normalizeStepsMetricAndroid in *.
        destruct (nonEmpty _); simpl in *; injection E1 as _ <-; reflexivity. }
    assert (E4 : option_map stepsCurrent
                   (fst (normalizeStepsMetric h V calc (stepsDays days) (stepsNow clock2) raw0
                           (Mapping.steps mapping) deviceType platform))
                 = option_map stepsCurrent st1).
    { clear -E1. destruct platform; simpl in *.
      - unfold normalizeStepsMetricIOS in *.
        destruct (nonEmpty _); simpl in *; injection E1 as <- _; reflexivity.
      - unfold normalizeStepsMetricAndroid in *.
        destruct (nonEmpty _); simpl in *; injection E1 as <- _; reflexivity. }
    rewrite E3. unfold metricValues.
    cbn [nHeartRate nSpo2 nSteps nCalories nDistance nSleep
      nBloodPressure nTemperature nBattery nDeviceType nPlatform].
    rewrite E4, (sleep_clock _ (sleepNow clock2) (sleepNow clock1)),
      (battery_clock (batteryNow clock2) (batteryNow clock1)). reflexivity.
Qed.

End Reruns.

Lemma specValidator_cleansByPath h : cleansByPath (specValidator h).
Proof.
  intros rawData alias path Hne. simpl. unfold specExtractDataArray.
  apply lookup_insert_ne. congruence.
Qed.

Lemma normalization_is_idempotent_witness :
  let r1 := normalizeHealthData decimalHost (specValidator decimalHost) sampleCalculator
              (sameDay sampleDay) (sameClock 1700000002000) (Some android)
              (Some combinedPayload) "yc" android in
  let r2 := normalizeHealthData decimalHost (specValidator decimalHost) sampleCalculator
              (sameDay sampleDay) (sameClock 1700000003000) (Some android) (nRawData r1)
              "yc" android in
  option_map stepsCurrent (nSteps r1) = Some (Finite 120)
  /\ option_map (fun raw : RawData => raw !! "combinedData") (nRawData r1)
     = Some (Some (cons combinedStep nil))
  /\ combinedPayload !! "combinedData" = None
  /\ metricValues r2 = metricValues r1
  /\ nRawData r2 = nRawData r1.
Proof.
  intros r1 r2.
  destruct (normalization_is_idempotent decimalHost (specValidator decimalHost)
              sampleCalculator (sameDay sampleDay) (Some android)
              (specValidator_readsByPath _) (specValidator_cleansByPath _)
              (Some combinedPayload) "yc" android (sameClock 1700000002000)
              (sameClock 1700000003000))
    as (Hvalues & Hraw & _).
  split; [vm_compute; reflexivity|].
  split; [vm_compute; reflexivity|].
  split; [vm_compute; reflexivity|].
  split; [exact Hvalues|exact Hraw].
Defined.

End IdempotenceFacts.

(** ** The YC bridge: connection flags and state descriptions *)

Module YCBridgeFacts.
Import Js YCBridge ConnectionQueries.
Import Mapping(Platform, ios, android).
Import Connection(StoredDevice, Malformed, Parsed).

Local Open Scope string_scope.

Lemma Qeq_bool_7_0 (q : Q) : Qeq_bool q 7 = true -> Qeq_bool q 0 = false.
Proof.
  intros H. apply Qeq_bool_iff in H.
  destruct (Qeq_bool q 0) eqn:E; [|reflexivity].
  apply Qeq_bool_iff in E. rewrite E in H. discriminate.
Qed.

(** X1.  isDeviceConnected and getConnectionStatus read the same sources
    but do not always agree.  Whenever the status reports connected,
    isDeviceConnected answers true.  The flag is true while the status
    reports not connected in exactly two cases: the YC module is asked
    (type yc on iOS with the module available) and its last state is a
    number other than 0 and 7, or the storage is asked and the stored
    descriptor is not JSON. *)
Theorem connected_flags_disagree :
  forall (deviceType : option string) (platformOS : option Platform) (ycAvailable : bool)
         (last : option Q) (stored : option StoredDevice),
    let flag := isDeviceConnected deviceType platformOS ycAvailable last stored in
    let status := getConnectionStatus deviceType platformOS ycAvailable last stored in
    (status = true -> flag = true)
    /\ ((flag = true /\ status = false)
        <-> (usesYCModule deviceType platformOS ycAvailable = true
             /\ exists q, last = Some q /\ Qeq_bool q 0 = false /\ Qeq_bool q 7 = false)
            \/ (usesYCModule deviceType platformOS ycAvailable = false
                /\ stored = Some Malformed)).
Proof.
  intros deviceType platformOS ycAvailable last stored flag status.
  subst flag status. unfold isDeviceConnected, getConnectionStatus.
  destruct (usesYCModule deviceType platformOS ycAvailable) eqn:U.
  - unfold ycGetConnectionStatus, ycDescribeState, ycIsConnected.
    destruct last as [q|]; simpl.
    + split.
      * intros H. rewrite (Qeq_bool_7_0 q H). reflexivity.
      * split.
        -- intros [H0 H7]. left. split; [reflexivity|]. exists q.
           split; [reflexivity|]. split; [|exact H7].
           destruct (Qeq_bool q 0); [discriminate|reflexivity].
        -- intros [[_ (q' & [= <-] & H0 & H7)]|[? _]]; [|discriminate].
           rewrite H0, H7. split; reflexivity.
    + split; [discriminate|]. split.
      * intros [? _]. discriminate.
      * intros [[_ (q' & ? & _)]|[? _]]; discriminate.
  - destruct stored as [[|u]|]; simpl.
    + split; [discriminate|]. split; [intros _; right; split; reflexivity|].
      intros _. split; reflexivity.
    + split; [reflexivity|]. split; [intros [_ ?]; discriminate|].
      intros [[? _]|[_ ?]]; discriminate.
    + split; [discriminate|]. split; [intros [? _]; discriminate|].
      intros [[? _]|[_ ?]]; discriminate.
Qed.

Lemma connected_flags_disagree_witness :
  isDeviceConnected (Some "YC") (Some ios) true (Some 6%Q) None = true
  /\ getConnectionStatus (Some "YC") (Some ios) true (Some 6%Q) None = false.
Proof.
  destruct (connected_flags_disagree (Some "YC") (Some ios) true (Some 6%Q) None)
    as [_ [_ H]].
  apply H. left. split; [reflexivity|]. exists 6%Q. repeat split; reflexivity.
Defined.

Lemma YC_STATE_MAP_domain (z : Z) (m : StateMeta) :
  YC_STATE_MAP !! z = Some m -> 0 <= z <= 21.
Proof.
  unfold YC_STATE_MAP, list_to_map. cbn [fold_right foldr fst snd].
  repeat (rewrite lookup_insert_Some; intros [[<- _]|[_ H]]; [lia|revert H]).
  rewrite lookup_empty. discriminate.
Qed.

Lemma YC_STATE_MAP_total (z : Z) :
  0 <= z <= 21 -> exists m, YC_STATE_MAP !! z = Some m.
Proof.
  intros H.
  assert (Hz : z = 0 \/ z = 1 \/ z = 2 \/ z = 3 \/ z = 4 \/ z = 5 \/ z = 6 \/ z = 7
               \/ z = 8 \/ z = 9 \/ z = 10 \/ z = 11 \/ z = 12 \/ z = 13 \/ z = 14
               \/ z = 15 \/ z = 16 \/ z = 17 \/ z = 18 \/ z = 19 \/ z = 20 \/ z = 21) by lia.
  repeat (destruct Hz as [->|Hz]; [eexists; vm_compute; reflexivity|]).
  subst z. eexists; vm_compute; reflexivity.
Qed.

(** X2.  ycDescribeState of a number keeps the number as the state and
    reports connected exactly for state 7.  A number that YC_STATE_MAP
    does not list (anything but 0..21) is described like state 0: code
    'unknown', category 'bluetooth', not an error.  A listed number gets
    its own entry. *)
Theorem unlisted_state_is_described_as_unknown :
  forall (s : Q),
    infoState (ycDescribeState (Some s)) = Some s
    /\ (connected (ycDescribeState (Some s)) = true <-> (s == 7)%Q)
    /\ ((forall z, 0 <= z <= 21 -> ~ (s == inject_Z z)%Q) ->
        code (infoMeta (ycDescribeState (Some s))) = "unknown"
        /\ isError (infoMeta (ycDescribeState (Some s))) = false
        /\ category (infoMeta (ycDescribeState (Some s))) = "bluetooth")
    /\ (forall z, 0 <= z <= 21 -> (s == inject_Z z)%Q ->
        Some (infoMeta (ycDescribeState (Some s))) = YC_STATE_MAP !! z).
Proof.
  intros s. split; [reflexivity|]. split; [apply Qeq_bool_iff|]. split.
  - intros Hout. unfold ycDescribeState, stateEntry. cbn [infoMeta].
    destruct (Qeq_bool s (inject_Z (Qfloor s))) eqn:E; [|repeat split; reflexivity].
    apply Qeq_bool_iff in E.
    destruct (YC_STATE_MAP !! Qfloor s) as [m|] eqn:L; [|repeat split; reflexivity].
    exfalso. apply (Hout (Qfloor s)); [|exact E].
    eapply YC_STATE_MAP_domain; exact L.
  - intros z Hz Hs. unfold ycDescribeState, stateEntry. cbn [infoMeta].
    assert (Hf : Qfloor s = z).
    { rewrite (Qfloor_comp _ _ Hs). apply Qfloor_Z. }
    rewrite Hf.
    assert (E : Qeq_bool s (inject_Z z) = true) by (apply Qeq_bool_iff; exact Hs).
    rewrite E.
    destruct (YC_STATE_MAP_total z Hz) as [m ->]. reflexivity.
Qed.

Lemma unlisted_state_is_described_as_unknown_witness :
  code (infoMeta (ycDescribeState (Some 22%Q))) = "unknown"
  /\ isError (infoMeta (ycDescribeState (Some 22%Q))) = false
  /\ category (infoMeta (ycDescribeState (Some 22%Q))) = "bluetooth".
Proof.
  destruct (unlisted_state_is_described_as_unknown 22%Q) as (_ & _ & H & _).
  apply H. intros z Hz E. unfold Qeq in E. simpl in E. lia.
Defined.

End YCBridgeFacts.

(** ** Battery level *)

Module BatteryFacts.
Import Js YCBridge Battery.
Import Mapping(Platform, ios, android).

Local Open Scope string_scope.

Lemma validLevel_range (r : Native) (q : Q) :
  validLevel r = Some q -> (0 <= q <= 100)%Q.
Proof.
  destruct r as [[| |b|x|s]|o]; simpl; try discriminate.
  destruct (Qle_bool 0 x) eqn:A; [|discriminate].
  destruct (Qle_bool x 100) eqn:B; [|discriminate].
  intros [= <-]. split; apply Qle_bool_iff; assumption.
Qed.

Lemma reconnection_without_uuid_fails env deviceType (st : State) :
  performDeviceReconnection env deviceType None st = (false, st, [EvReconnect "" deviceType]).
Proof. unfold performDeviceReconnection. simpl. destruct st; reflexivity. Qed.

(** X3.  getBatteryLevelByDeviceType answers null or a level between 0
    and 100.  For a placeholder uuid it answers null and touches
    nothing; while Bluetooth is not ready, and on Android with
    skipReconnect set, it answers null without reading a battery
    level. *)
Theorem battery_level_is_a_percentage :
  forall h env (deviceType uuid : string) (skipReconnect : bool) (st : State),
    let r := getBatteryLevelByDeviceType h env deviceType uuid skipReconnect st in
    (forall q, fst (fst r) = Some q -> (0 <= q <= 100)%Q)
    /\ (isPlaceholderUuid uuid = true -> r = (None, st, []))
    /\ (bluetoothReady env <> Some true -> fst (fst r) = None /\ reads (snd r) = 0%nat)
    /\ (skipReconnect = true -> platformOS env = Some android ->
        fst (fst r) = None /\ reads (snd r) = 0%nat).
Proof.
  intros h env deviceType uuid skip st r. subst r.
  unfold getBatteryLevelByDeviceType, performBatteryCheck.
  destruct (isPlaceholderUuid uuid) eqn:P.
  { repeat split; try discriminate; reflexivity. }
  destruct (bluetoothReady env) as [[|]|] eqn:B;
    [|repeat split; try discriminate; reflexivity
     |repeat split; try discriminate; reflexivity].
  set (probe := if String.eqb deviceType "yc" && _ then _ else _).
  assert (Hprobe : reads (snd probe) = 0%nat).
  { subst probe. destruct (String.eqb deviceType "yc" && _); [|reflexivity].
    destruct (uuidConnected env); [reflexivity|].
    unfold performDeviceReconnection.
    destruct (Connection.connectDevice _ _ _ _ _ _) as [out conn].
    destruct (Connection.returned out); reflexivity. }
  destruct probe as [[goOn st1] evs1]. cbn [snd] in Hprobe.
  destruct goOn; cbn [negb].
  2:{ repeat split; try discriminate; try (intros; congruence); exact Hprobe. }
  destruct (skip && match platformOS env with Some android => true | _ => false end) eqn:S.
  { repeat split; try discriminate; try (intros; congruence); exact Hprobe. }
  set (read := if String.eqb deviceType "yc" then _ else _).
  destruct read as [[result st2] evs2].
  split; [|split; [discriminate|split; [congruence|]]].
  - destruct result as [v|msg]; cbn [fst]; [|discriminate].
    intros q. apply validLevel_range.
  - intros -> Hand. rewrite Hand in S. discriminate.
Qed.

Lemma battery_level_is_a_percentage_witness :
  fst (fst (getBatteryLevelByDeviceType decimalHost (androidRing (Resolved (Scalar (VNum 87))))
              "yc" "AA:01" false idle)) = Some 87%Q
  /\ (0 <= 87 <= 100)%Q
  /\ getBatteryLevelByDeviceType decimalHost (androidRing (Resolved (Scalar (VNum 87))))
       "yc" "temp-1" false idle = (None, idle, [])
  /\ fst (fst (getBatteryLevelByDeviceType decimalHost (androidRing (Resolved (Scalar (VNum 87))))
                 "yc" "AA:01" true idle)) = None.
Proof.
  pose proof (battery_level_is_a_percentage decimalHost
                (androidRing (Resolved (Scalar (VNum 87)))) "yc" "AA:01" false idle) as H1.
  pose proof (battery_level_is_a_percentage decimalHost
                (androidRing (Resolved (Scalar (VNum 87)))) "yc" "temp-1" false idle) as H2.
  pose proof (battery_level_is_a_percentage decimalHost
                (androidRing (Resolved (Scalar (VNum 87)))) "yc" "AA:01" true idle) as H3.
  cbv zeta in H1, H2, H3.
  destruct H1 as (R1 & _). destruct H2 as (_ & P2 & _). destruct H3 as (_ & _ & _ & S3).
  assert (E : fst (fst (getBatteryLevelByDeviceType decimalHost
                          (androidRing (Resolved (Scalar (VNum 87)))) "yc" "AA:01" false idle))
              = Some 87%Q) by (vm_compute; reflexivity).
  split; [exact E|]. split; [exact (R1 _ E)|]. split; [apply P2; reflexivity|].
  apply S3; reflexivity.
Defined.

(** X4.  A timeout of the first battery read of an RW ring is never
    followed by a second read.  getRWBatteryLevel asks for a
    reconnection without a uuid, connectDevice refuses the empty uuid,
    and the original error is thrown after this one read with the
    connection service left as it was.  The retry counter goes up by
    one, and back to 0 once it would pass MAX_BATTERY_RETRIES. *)
Theorem rw_timeout_never_rereads :
  forall env (timeoutMs : Z) (st : State) (msg : string),
    rwFirst env = Rejected msg ->
    isTimeoutError msg = true ->
    let r := getRWBatteryLevel env timeoutMs st in
    fst (fst r) = Rejected msg
    /\ reads (snd r) = 1%nat
    /\ connection (snd (fst r)) = connection st
    /\ batteryRetryCount (snd (fst r))
       = (if (batteryRetryCount st <? 2)%nat then S (batteryRetryCount st) else 0%nat).
Proof.
  intros env timeoutMs st msg Hfirst Htimeout r. subst r.
  unfold getRWBatteryLevel. rewrite Hfirst, Htimeout.
  unfold handleBatteryRetry, MAX_BATTERY_RETRIES.
  change (2 <? S (batteryRetryCount st))%nat with (1 <? batteryRetryCount st)%nat.
  destruct (Nat.ltb_spec 1 (batteryRetryCount st)) as [Hge|Hlt].
  - cbn [fst snd]. repeat split.
    destruct (Nat.ltb_spec (batteryRetryCount st) 2); [lia|reflexivity].
  - rewrite reconnection_without_uuid_fails. cbn [fst snd app].
    repeat split.
    destruct (Nat.ltb_spec (batteryRetryCount st) 2); [reflexivity|lia].
Qed.

Lemma rw_timeout_never_rereads_witness :
  let r := getRWBatteryLevel (androidRing timedOut) 50000 idle in
  fst (fst r) = timedOut /\ reads (snd r) = 1%nat /\ batteryRetryCount (snd (fst r)) = 1%nat.
Proof.
  intros r.
  destruct (rw_timeout_never_rereads (androidRing timedOut) 50000 idle
              "Operation timeout after 50000ms" eq_refl eq_refl) as (A & B & _ & D).
  split; [exact A|]. split; [exact B|exact D].
Defined.

Lemma ycBasic_without_battery h (m : YCModule) (info : Native) :
  hasGetDeviceBasicInfo m = true ->
  infoBattery info = Scalar VNull ->
  ycGetBatteryLevel h (Some m) (Resolved info) = Some 0%Q.
Proof. intros Hm Hi. unfold ycGetBatteryLevel. rewrite Hm, Hi. reflexivity. Qed.

(** X5.  A basic-info answer of the YC module that carries neither
    batteryPower nor battery is read as a level of 0, not as unknown:
    ycGetBatteryLevel turns the missing field into null, and Number(null)
    is 0.  On iOS a connected YC ring then reports 0 percent through
    getBatteryLevelByDeviceType. *)
Theorem missing_battery_field_reads_as_zero :
  forall h env (m : YCModule) (info : Native) (uuid : string) (skipReconnect : bool)
         (st : State),
    hasGetDeviceBasicInfo m = true ->
    match info with
    | Object o => nullish (get o "batteryPower") = true /\ nullish (get o "battery") = true
    | Scalar _ => True
    end ->
    ycGetBatteryLevel h (Some m) (Resolved info) = Some 0%Q
    /\ (platformOS env = Some ios ->
        ycModule env = Some m ->
        ycFirst env = Resolved info ->
        bluetoothReady env = Some true ->
        uuidConnected env = true ->
        isPlaceholderUuid uuid = false ->
        fst (fst (getBatteryLevelByDeviceType h env "yc" uuid skipReconnect st)) = Some 0%Q).
Proof.
  intros h env m info uuid skip st Hm Hinfo.
  assert (Hb : infoBattery info = Scalar VNull).
  { destruct info as [v|o]; [reflexivity|]. destruct Hinfo as [A B].
    unfold infoBattery, coalesce. rewrite A, B. reflexivity. }
  split; [apply ycBasic_without_battery; assumption|].
  intros Hos Hmod Hfirst Hbt Hconn Hplace.
  unfold getBatteryLevelByDeviceType, performBatteryCheck.
  rewrite Hplace, Hbt, Hos, Hconn. cbn [String.eqb Ascii.eqb Bool.eqb andb negb].
  rewrite andb_false_r.
  unfold getYCBatteryLevel. rewrite Hos, Hmod, Hfirst.
  rewrite (ycBasic_without_battery h m info Hm Hb). reflexivity.
Qed.

Lemma missing_battery_field_reads_as_zero_witness :
  ycGetBatteryLevel decimalHost (Some basicInfoModule) (Resolved (Object firmwareOnly))
  = Some 0%Q
  /\ fst (fst (getBatteryLevelByDeviceType decimalHost iosRing "yc" "AA:01" false idle))
     = Some 0%Q.
Proof.
  destruct (missing_battery_field_reads_as_zero decimalHost iosRing basicInfoModule
              (Object firmwareOnly) "AA:01" false idle eq_refl) as [A B].
  - split; reflexivity.
  - split; [exact A|]. apply B; reflexivity.
Defined.

End BatteryFacts.

(** ** Bluetooth checks *)

Module BluetoothFacts.
Import Js Bluetooth.
Import Mapping(Platform, ios, android).

Local Open Scope string_scope.
Local Open Scope list_scope.


Lemma appended_refl w : appended w w [].
Proof. unfold appended. rewrite app_nil_r. reflexivity. Qed.

Lemma appended_trans w1 w2 w3 a b :
  appended w1 w2 a -> appended w2 w3 b -> appended w1 w3 (a ++ b).
Proof. unfold appended. intros -> ->. rewrite app_assoc. reflexivity. Qed.

Lemma totalWait_app a b : totalWait (a ++ b) = totalWait a + totalWait b.
Proof. induction a as [|e a IH]; simpl; [reflexivity|]. unfold totalWait in *. simpl. rewrite IH. lia. Qed.

Lemma prompts_app a b : prompts (a ++ b) = (prompts a + prompts b)%nat.
Proof. unfold prompts. rewrite List.filter_app, length_app. reflexivity. Qed.


(** A read of the radio changes no variable, asks once, and at most
    checks the permissions and the state. *)
Lemma raw_read env w :
  let w' := snd (getBluetoothStateRaw env w) in
  vars w' = vars w
  /\ radioCalls w' = S (radioCalls w)
  /\ clockReads w' = clockReads w
  /\ enableCalls w' = enableCalls w
  /\ exists evs, appended w w' evs /\ prompts evs = 0%nat /\ totalWait evs = 0
                 /\ (isAndroid env = true ->
                     managerAvailable (radio env (radioCalls w)) = true ->
                     permissionsGranted (radio env (radioCalls w)) = Some false ->
                     List.filter isGetState evs = [] /\ reading env w = None).
Proof.
  unfold reading, getBluetoothStateRaw, bind, ret, nextRadio, emit, appended. simpl.
  destruct (radio env (radioCalls w)) as [ma perm rs]. simpl.
  destruct ma; simpl.
  2:{ repeat split; try reflexivity. exists []. rewrite app_nil_r.
      repeat split; try reflexivity; discriminate. }
  destruct (isAndroid env); simpl.
  - destruct perm as [[|]|]; simpl;
      (repeat split; try reflexivity);
      try (exists [EvPermissionCheck; EvGetState]; rewrite <- app_assoc;
           repeat split; try reflexivity; discriminate);
      exists [EvPermissionCheck]; repeat split; reflexivity.
  - repeat split; try reflexivity. exists [EvGetState].
    repeat split; try reflexivity; discriminate.
Qed.

Ltac raw env w w' Hv Hr Hc He evs Ha Hp Hw :=
  let H := fresh in
  let r := fresh "state" in
  pose proof (raw_read env w) as H; cbv zeta in H;
  destruct (getBluetoothStateRaw env w) as [r w'] eqn:?; cbn [snd fst] in H;
  destruct H as (Hv & Hr & Hc & He & evs & Ha & Hp & Hw & _).

Ltac run_vars :=
  cbv beta iota zeta delta
    [bind ret getVars setVars emit updateBluetoothEnabledState setLastRequestEnableTime
     setChecking setListener resetBluetoothDialogCooldown].

Lemma state_only_core env (w : World) :
  isCheckingBluetooth (vars w) && bluetoothCheckPromise (vars w) = false ->
  let r := ensureBluetoothEnabled env false w in
  vars (snd r) = vars w
  /\ enableCalls (snd r) = enableCalls w
  /\ (radioCalls (snd r) <= S (radioCalls w))%nat
  /\ (exists evs, appended w (snd r) evs /\ prompts evs = 0%nat /\ totalWait evs = 0)
  /\ fst r = Answer (bluetoothEnabled (vars w) || isState "PoweredOn" (reading env w)).
Proof.
  intros G r. subst r.
  unfold ensureBluetoothEnabled, bind, ret, getVars, checkBluetoothStateOnlyInternal.
  cbn [negb]. rewrite G.
  destruct (bluetoothEnabled (vars w)) eqn:E.
  { cbn [fst snd]. split_and!; try lia; try reflexivity.
    exists []. split; [apply appended_refl|split; reflexivity]. }
  unfold reading, bind, ret.
  raw env w w' Hv Hr Hc He evs Ha Hp Hw. cbn [fst snd orb].
  split_and!; try assumption; try lia; try reflexivity.
  exists evs. split_and!; assumption.
Qed.

(** X6.  A state-only check ([ensureBluetoothEnabled(false)]) made while
    no check is under way reads the radio at most once, never prompts the
    user, never waits and changes no variable: in particular it does not
    cache a positive answer.  Its answer is the cached flag or, failing
    that, whether the radio reports PoweredOn.  [refreshBluetoothState],
    which clears the cache and then checks the state only, therefore
    leaves the cached flag cleared when no check is under way. *)
Theorem state_only_check_is_silent :
  forall env (w : World),
    isCheckingBluetooth (vars w) && bluetoothCheckPromise (vars w) = false ->
    let r := ensureBluetoothEnabled env false w in
    vars (snd r) = vars w
    /\ enableCalls (snd r) = enableCalls w
    /\ (radioCalls (snd r) <= S (radioCalls w))%nat
    /\ (exists evs, appended w (snd r) evs /\ prompts evs = 0%nat /\ totalWait evs = 0)
    /\ fst r = Answer (bluetoothEnabled (vars w) || isState "PoweredOn" (reading env w))
    /\ bluetoothEnabled (vars (snd (refreshBluetoothState env w))) = false.
Proof.
  intros env w G r. subst r.
  destruct (state_only_core env w G) as (A & B & C & D & E).
  split_and!; try assumption.
  run_vars. cbv beta iota zeta delta [refreshBluetoothState]. run_vars.
  match goal with
  | |- context [ensureBluetoothEnabled env false ?w0] =>
      destruct (state_only_core env w0 G) as (-> & _)
  end.
  reflexivity.
Qed.

Lemma state_only_check_is_silent_witness :
  fst (ensureBluetoothEnabled androidOn false (start cold)) = Answer true
  /\ bluetoothEnabled (vars (snd (ensureBluetoothEnabled androidOn false (start cold)))) = false
  /\ bluetoothEnabled (vars (snd (refreshBluetoothState androidOn (start cold)))) = false.
Proof.
  destruct (state_only_check_is_silent androidOn (start cold) eq_refl)
    as (A & _ & _ & _ & E & F).
  split; [exact E|]. split; [rewrite A; reflexivity|exact F].
Defined.

(** With a full check under way the state-only check waits for it, and
    what that check writes is what the caller finds: here the radio is on,
    so the refresh ends with the flag cached and the guard released. *)
Example refresh_during_check :
  let r := refreshBluetoothState androidOnMidCheck (start checking) in
  fst r = CheckUnderWay true
  /\ bluetoothEnabled (vars (snd r)) = true
  /\ isCheckingBluetooth (vars (snd r)) = false
  /\ bluetoothCheckPromise (vars (snd r)) = false.
Proof. vm_compute. repeat split; reflexivity. Qed.

Lemma raw_eq env (w : World) :
  getBluetoothStateRaw env w = (stateOf env (radio env (radioCalls w)), afterRead env w).
Proof.
  unfold getBluetoothStateRaw, afterRead, stateOf, readEvents, bind, ret, nextRadio, emit.
  destruct w as [v rc cr ec tr].
  cbn [vars radioCalls clockReads enableCalls trace fst snd].
  destruct (isAndroid env); destruct (radio env rc) as [[|] [[|]|] rs];
    cbn; rewrite <- ?app_assoc, ?app_nil_r; reflexivity.
Qed.

Lemma readEvents_quiet env r : prompts (readEvents env r) = 0%nat /\ totalWait (readEvents env r) = 0.
Proof.
  unfold readEvents. destruct (managerAvailable r); [|split; reflexivity].
  destruct (isAndroid env); [|split; reflexivity].
  destruct (permissionsGranted r) as [[|]|]; split; reflexivity.
Qed.

Ltac run :=
  cbv beta iota zeta delta
    [bind ret getVars setVars emit updateBluetoothEnabledState setLastRequestEnableTime
     setChecking setListener resetBluetoothDialogCooldown afterRead];
  cbn [vars radioCalls clockReads enableCalls trace fst snd].

Lemma stableLoop_step env (k i : nat) (lastState : string) (w : World) :
  stableLoop env (S k) i lastState w
  = let st := stateOf env (radio env (radioCalls w)) in
    let w1 := afterRead env w in
    if noState st then stableLoop env k (S i) lastState w1
    else
      let s := default "" st in
      if String.eqb s "PoweredOn" then (s, w1)
      else if String.eqb s "PoweredOff" && (3 <=? i)%nat then (s, w1)
      else stableLoop env k (S i) s
             (if (i <? 7)%nat then snd (emit (EvWait 1500) w1) else w1).
Proof.
  cbn [stableLoop]. unfold bind at 1. rewrite raw_eq. cbv zeta.
  destruct (noState (stateOf env (radio env (radioCalls w)))); [reflexivity|].
  destruct (String.eqb _ "PoweredOn"); [reflexivity|].
  change BLUETOOTH_STATE_STABLE_MIN_RETRIES_FOR_POWERED_OFF with 3%nat.
  destruct (String.eqb _ "PoweredOff" && (3 <=? i)%nat); [reflexivity|].
  change (BLUETOOTH_STATE_STABLE_MAX_RETRIES - 1)%nat with 7%nat.
  unfold bind. destruct (i <? 7)%nat; reflexivity.
Qed.

(** The loop of waitForStableBluetoothState, pass by pass. *)
Lemma stableLoop_spec env (remaining : nat) :
  forall (i : nat) (lastState : string) (w : World),
    (i + remaining = 8)%nat ->
    let r := stableLoop env remaining i lastState w in
    vars (snd r) = vars w
    /\ clockReads (snd r) = clockReads w
    /\ enableCalls (snd r) = enableCalls w
    /\ (radioCalls w <= radioCalls (snd r) <= radioCalls w + remaining)%nat
    /\ (exists evs, appended w (snd r) evs /\ prompts evs = 0%nat
                    /\ 0 <= totalWait evs <= 1500 * Z.of_nat (remaining - 1))
    /\ (fst r = "PoweredOn" ->
        lastState = "PoweredOn"
        \/ exists k, (k < remaining)%nat
                     /\ stateOf env (radio env (radioCalls w + k)) = Some "PoweredOn")
    /\ (fst r = "PoweredOff" -> (radioCalls w + 4 <= radioCalls (snd r) + i)%nat)
    /\ ((forall k, noState (stateOf env (radio env k)) = true) ->
        fst r = lastState /\ radioCalls (snd r) = (radioCalls w + remaining)%nat
        /\ exists evs, appended w (snd r) evs /\ totalWait evs = 0).
Proof.
  induction remaining as [|k IH]; intros i lastState w Hi r; subst r.
  - cbn [stableLoop]. unfold ret. cbn [fst snd].
    split_and!; try reflexivity; try lia.
    + exists []. split; [apply appended_refl|]. split; [reflexivity|]. cbn. lia.
    + intros ->. left. reflexivity.
    + intros _. split_and!; try reflexivity; [lia|].
      exists []. split; [apply appended_refl|reflexivity].
  - rewrite stableLoop_step. cbv zeta.
    set (st := stateOf env (radio env (radioCalls w))).
    assert (Hst : st = stateOf env (radio env (radioCalls w))) by reflexivity.
    clearbody st.
    set (w1 := afterRead env w).
    assert (Hw1 : vars w1 = vars w /\ clockReads w1 = clockReads w
                  /\ enableCalls w1 = enableCalls w /\ radioCalls w1 = S (radioCalls w)
                  /\ trace w1 = trace w ++ readEvents env (radio env (radioCalls w))).
    { subst w1. unfold afterRead. cbn. split_and!; reflexivity. }
    destruct (readEvents_quiet env (radio env (radioCalls w))) as [Qp Qw].
    destruct (noState st) eqn:N.
    + (* a read without a state: straight to the next pass *)
      clearbody w1. destruct Hw1 as (V1 & C1 & E1 & R1 & T1).
      pose proof (IH (S i) lastState w1 ltac:(lia)) as H. cbv zeta in H.
      destruct H as (V & C & E & R & (evs & A & P & W) & On & Off & Null).
      split_and!; try congruence; try lia.
      * exists (readEvents env (radio env (radioCalls w)) ++ evs).
        split; [eapply appended_trans; [exact T1|exact A]|].
        rewrite prompts_app, totalWait_app, Qp, Qw, P. split; [reflexivity|]. lia.
      * intros H. destruct (On H) as [?|(j & Hj & Hs)]; [left; assumption|].
        right. exists (S j). split; [lia|]. rewrite R1 in Hs.
        replace (radioCalls w + S j)%nat with (S (radioCalls w) + j)%nat by lia. exact Hs.
      * intros H1. specialize (Off H1). lia.
      * intros Hall. destruct (Null Hall) as (F & RR & evs' & A' & W').
        split_and!; [exact F|lia|].
        exists (readEvents env (radio env (radioCalls w)) ++ evs').
        split; [eapply appended_trans; [exact T1|exact A']|].
        rewrite totalWait_app, Qw, W'. reflexivity.
    + destruct st as [s|]; [|discriminate]. cbn [default from_option id].
      destruct (String.eqb_spec s "PoweredOn") as [->|Hon].
      { clearbody w1. destruct Hw1 as (V1 & C1 & E1 & R1 & T1).
        cbn [fst snd]. split_and!; try congruence; try lia.
        - exists (readEvents env (radio env (radioCalls w))).
          split; [exact T1|]. rewrite Qp, Qw. split; [reflexivity|lia].
        - intros _. right. exists 0%nat. split; [lia|]. rewrite Nat.add_0_r. congruence. }
      destruct (String.eqb s "PoweredOff" && (3 <=? i)%nat) eqn:Hoff.
      { clearbody w1. destruct Hw1 as (V1 & C1 & E1 & R1 & T1).
        apply andb_prop in Hoff. destruct Hoff as [Hs Hi3].
        apply Nat.leb_le in Hi3.
        cbn [fst snd]. split_and!; try congruence; try lia.
        - exists (readEvents env (radio env (radioCalls w))).
          split; [exact T1|]. rewrite Qp, Qw. split; [reflexivity|lia]. }
      set (w2 := if (i <? 7)%nat then _ else w1).
      assert (Hd : exists dv, vars w2 = vars w1
                 /\ clockReads w2 = clockReads w1 /\ enableCalls w2 = enableCalls w1
                 /\ radioCalls w2 = radioCalls w1 /\ trace w2 = trace w1 ++ dv
                 /\ prompts dv = 0%nat
                 /\ 0 <= totalWait dv <= (if (i <? 7)%nat then 1500 else 0)).
      { subst w2. destruct (i <? 7)%nat.
        - exists [EvWait 1500]. unfold emit. cbn. split_and!; try reflexivity; lia.
        - exists []. rewrite app_nil_r. cbn. split_and!; try reflexivity; lia. }
      clearbody w2. clearbody w1. destruct Hw1 as (V1 & C1 & E1 & R1 & T1).
      destruct Hd as (dv & V2 & C2 & E2 & R2 & T2 & P2 & W2).
      pose proof (IH (S i) s w2 ltac:(lia)) as H. cbv zeta in H.
      destruct H as (V & C & E & R & (evs & A & P & W) & On & Off & Null).
      split_and!; try congruence; try lia.
      * exists (readEvents env (radio env (radioCalls w)) ++ dv ++ evs).
        split.
        { eapply appended_trans; [exact T1|]. eapply appended_trans; [exact T2|exact A]. }
        rewrite !prompts_app, !totalWait_app, Qp, Qw, P, P2. split; [reflexivity|].
        destruct (Nat.ltb_spec i 7); lia.
      * intros H. destruct (On H) as [?|(j & Hj & Hs)]; [congruence|].
        right. exists (S j). split; [lia|]. rewrite R2, R1 in Hs.
        replace (radioCalls w + S j)%nat with (S (radioCalls w) + j)%nat by lia. exact Hs.
      * intros H1. specialize (Off H1). lia.
Qed.

(** X7.  waitForStableBluetoothState reads the radio at most 8 times and
    waits at most 7 times 1500 ms; it changes no variable and never
    prompts.  It reports PoweredOn only if one of its reads did, and
    PoweredOff only after at least 4 reads.  A read that yields no state
    is retried at once: when no read yields a state, the 8 reads follow
    each other without any wait and the answer is "Unknown". *)
Theorem stable_state_wait_is_bounded :
  forall env (w : World),
    let r := waitForStableBluetoothState env w in
    vars (snd r) = vars w
    /\ (radioCalls (snd r) <= radioCalls w + 8)%nat
    /\ (exists evs, appended w (snd r) evs /\ prompts evs = 0%nat
                    /\ 0 <= totalWait evs <= 10500)
    /\ (fst r = "PoweredOn" ->
        exists k, (k < 8)%nat
                  /\ stateOf env (radio env (radioCalls w + k)) = Some "PoweredOn")
    /\ (fst r = "PoweredOff" -> (radioCalls w + 4 <= radioCalls (snd r))%nat)
    /\ ((forall k, noState (stateOf env (radio env k)) = true) ->
        fst r = "Unknown" /\ radioCalls (snd r) = (radioCalls w + 8)%nat
        /\ exists evs, appended w (snd r) evs /\ totalWait evs = 0).
Proof.
  intros env w r. subst r. unfold waitForStableBluetoothState.
  change BLUETOOTH_STATE_STABLE_MAX_RETRIES with 8%nat.
  destruct (stableLoop_spec env 8 0 "Unknown" w eq_refl)
    as (V & _ & _ & R & (evs & A & P & W) & On & Off & Null).
  split_and!; try assumption; try lia.
  - exists evs. split_and!; try assumption; lia.
  - intros H. destruct (On H) as [?|?]; [discriminate|assumption].
  - intros H. specialize (Off H). lia.
Qed.


Lemma stable_state_wait_is_bounded_witness :
  let r := waitForStableBluetoothState iosSilent (start cold) in
  fst r = "Unknown" /\ radioCalls (snd r) = 8%nat /\ totalWait (trace (snd r)) = 0.
Proof.
  intros r.
  destruct (stable_state_wait_is_bounded iosSilent (start cold))
    as (_ & _ & _ & _ & _ & Null).
  destruct Null as (A & B & evs & C & D); [intros k; reflexivity|].
  fold r in A, B, C. split; [exact A|]. split; [exact B|].
  unfold appended in C. rewrite C. exact D.
Defined.


Ltac run_in H :=
  cbv beta iota zeta delta
    [bind ret getVars setVars emit updateBluetoothEnabledState setLastRequestEnableTime
     setChecking setListener resetBluetoothDialogCooldown afterRead] in H;
  cbn [vars radioCalls clockReads enableCalls trace fst snd] in H.

Ltac tail_of A :=
  eexists; split;
  [unfold appended; cbn [trace]; rewrite ?A, <- ?app_assoc; reflexivity|].

Lemma handleAndroid_handled env (w : World) :
  handled w (handleAndroidBluetooth env w) 1 0 0.
Proof.
  remember (handleAndroidBluetooth env w) as r eqn:Hr.
  unfold handleAndroidBluetooth in Hr. unfold bind at 1 in Hr. rewrite raw_eq in Hr.
  destruct (readEvents_quiet env (radio env (radioCalls w))) as [Qp Qw].
  destruct (isState "PoweredOn" _); run_in Hr; subst r; unfold handled;
    cbn [fst snd vars radioCalls enableCalls isCheckingBluetooth bluetoothCheckPromise
         bluetoothStateListener bluetoothEnabled];
    (split_and!; try reflexivity; try lia);
    (exists (readEvents env (radio env (radioCalls w)));
     split; [reflexivity|]; rewrite Qp, Qw; split; lia).
Qed.

Lemma handleIOS_handled env (w : World) :
  handled w (handleIOSBluetooth env w) 11 1 12500.
Proof.
  remember (handleIOSBluetooth env w) as r eqn:Hr.
  unfold handleIOSBluetooth, BLUETOOTH_RECHECK_DELAY_MS in Hr. unfold bind at 1 in Hr.
  unfold waitForStableBluetoothState in Hr.
  change BLUETOOTH_STATE_STABLE_MAX_RETRIES with 8%nat in Hr.
  destruct (stableLoop_spec env 8 0 "Unknown" w eq_refl)
    as (V & _ & E & R & (evs & A & P & W) & _).
  destruct (stableLoop env 8 0 "Unknown" w) as [s w0]. cbn [fst snd] in *.
  unfold appended in A.
  assert (Hfin : forall r', r = r' ->
            forall extra,
              vars (snd r')
              = {| bluetoothEnabled := fst r';
                   bluetoothStateListener := bluetoothStateListener (vars w0);
                   isCheckingBluetooth := isCheckingBluetooth (vars w0);
                   bluetoothCheckPromise := bluetoothCheckPromise (vars w0);
                   lastRequestEnableTime := lastRequestEnableTime (vars w0) |} ->
              enableCalls (snd r') = enableCalls w0 ->
              (radioCalls (snd r') <= radioCalls w0 + 3)%nat ->
              trace (snd r') = trace w0 ++ extra ->
              (prompts extra <= 1)%nat -> 0 <= totalWait extra <= 2000 ->
              handled w r 11 1 12500).
  { intros r' -> extra Hv He Hrc Ht Hp Hw. unfold handled. rewrite Hv, He, V.
    cbn [isCheckingBluetooth bluetoothCheckPromise bluetoothStateListener bluetoothEnabled].
    split_and!; try reflexivity; try lia; try assumption.
    exists (evs ++ extra). unfold appended. rewrite Ht, A, <- app_assoc.
    split; [reflexivity|]. rewrite prompts_app, totalWait_app, P. split; lia. }
  destruct (String.eqb s "PoweredOn").
  { run_in Hr. eapply (Hfin _ Hr []); cbn; rewrite ?app_nil_r; try reflexivity; lia. }
  destruct (String.eqb s "PoweredOff").
  2:{ run_in Hr. eapply (Hfin _ Hr []); cbn; rewrite ?app_nil_r; try reflexivity; lia. }
  unfold bind at 1 in Hr. unfold emit at 1 in Hr. unfold bind at 1 in Hr.
  rewrite raw_eq in Hr. cbn [radioCalls] in Hr.
  destruct (readEvents_quiet env (radio env (radioCalls w0))) as [Qp1 Qw1].
  destruct (isState "PoweredOn" (stateOf env (radio env (radioCalls w0)))).
  { run_in Hr.
    eapply (Hfin _ Hr ([EvWait 2000] ++ readEvents env (radio env (radioCalls w0))));
      cbn [fst snd vars enableCalls radioCalls trace]; rewrite <- ?app_assoc;
      try reflexivity; try lia;
      rewrite ?prompts_app, ?totalWait_app, ?Qp1, ?Qw1; cbn; lia. }
  unfold tryEnableIOSBluetooth in Hr.
  unfold bind at 1 in Hr. unfold updateBluetoothEnabledState at 1 in Hr.
  unfold bind at 1 in Hr. unfold getVars at 1 in Hr. unfold setVars at 1 in Hr.
  unfold bind at 1 in Hr. rewrite raw_eq in Hr. cbn [radioCalls afterRead] in Hr.
  destruct (readEvents_quiet env (radio env (S (radioCalls w0)))) as [Qp2 Qw2].
  destruct (isState "PoweredOn" (stateOf env (radio env (S (radioCalls w0))))).
  { run_in Hr.
    eapply (Hfin _ Hr ([EvWait 2000]
                         ++ readEvents env (radio env (radioCalls w0))
                         ++ readEvents env (radio env (S (radioCalls w0)))));
      cbn [fst snd vars enableCalls radioCalls trace]; rewrite <- ?app_assoc;
      try reflexivity; try lia;
      rewrite ?prompts_app, ?totalWait_app, ?Qp1, ?Qw1, ?Qp2, ?Qw2; cbn; lia. }
  unfold showBluetoothEnableDialog in Hr.
  unfold bind at 1 in Hr. unfold bind at 1 in Hr. rewrite raw_eq in Hr.
  cbn [radioCalls afterRead] in Hr.
  destruct (readEvents_quiet env (radio env (S (S (radioCalls w0))))) as [Qp3 Qw3].
  destruct (isState "PoweredOn" (stateOf env (radio env (S (S (radioCalls w0)))))).
  - run_in Hr.
    eapply (Hfin _ Hr ([EvWait 2000]
                         ++ readEvents env (radio env (radioCalls w0))
                         ++ readEvents env (radio env (S (radioCalls w0)))
                         ++ readEvents env (radio env (S (S (radioCalls w0))))));
      cbn [fst snd vars enableCalls radioCalls trace]; rewrite <- ?app_assoc;
      try reflexivity; try lia;
      rewrite ?prompts_app, ?totalWait_app, ?Qp1, ?Qw1, ?Qp2, ?Qw2, ?Qp3, ?Qw3; cbn; lia.
  - run_in Hr.
    eapply (Hfin _ Hr ([EvWait 2000]
                         ++ readEvents env (radio env (radioCalls w0))
                         ++ readEvents env (radio env (S (radioCalls w0)))
                         ++ readEvents env (radio env (S (S (radioCalls w0))))
                         ++ [EvSettingsDialog]));
      cbn [fst snd vars enableCalls radioCalls trace]; rewrite <- ?app_assoc;
      try reflexivity; try lia;
      rewrite ?prompts_app, ?totalWait_app, ?Qp1, ?Qw1, ?Qp2, ?Qw2, ?Qp3, ?Qw3; cbn; lia.
Qed.

(** X8.  A full check ([ensureBluetoothEnabled(true)]) started while no
    check is under way always ends with the guard released, and its
    answer is the flag it leaves in the cache.  It never asks the system
    to switch the radio on; it shows the settings dialog at most once,
    reads the radio at most 11 times and waits at most 12.5 s.  On
    Android it reads the radio once, shows nothing and does not wait.
    With the flag already cached it answers true without reading the
    radio at all. *)
Theorem full_check_releases_guard :
  forall env (w : World),
    isCheckingBluetooth (vars w) = false ->
    bluetoothCheckPromise (vars w) = false ->
    let r := ensureBluetoothEnabled env true w in
    isCheckingBluetooth (vars (snd r)) = false
    /\ bluetoothCheckPromise (vars (snd r)) = false
    /\ fst r = Answer (bluetoothEnabled (vars (snd r)))
    /\ enableCalls (snd r) = enableCalls w
    /\ (bluetoothEnabled (vars w) = true -> snd r = w)
    /\ (radioCalls (snd r) <= radioCalls w + 11)%nat
    /\ exists evs, appended w (snd r) evs /\ (prompts evs <= 1)%nat
                   /\ 0 <= totalWait evs <= 12500
                   /\ (isAndroid env = true ->
                       prompts evs = 0%nat /\ totalWait evs = 0
                       /\ (radioCalls (snd r) <= radioCalls w + 1)%nat).
Proof.
  intros env w Hc Hp r. subst r.
  remember (ensureBluetoothEnabled env true w) as r eqn:Hr.
  unfold ensureBluetoothEnabled in Hr. unfold bind at 1 in Hr. unfold getVars at 1 in Hr.
  rewrite Hc in Hr. cbn [andb negb] in Hr.
  destruct (bluetoothEnabled (vars w)) eqn:En.
  { unfold ret in Hr. subst r. cbn [fst snd]. rewrite Hc, Hp, En.
    split_and!; try reflexivity; try lia.
    exists []. split; [apply appended_refl|]. cbn. split_and!; try lia; try (intros _; split_and!; lia). }
  unfold bind at 1 in Hr. unfold setChecking at 1 in Hr. run_in Hr.
  set (w1 := {| vars := _; radioCalls := radioCalls w |}) in Hr.
  unfold performBluetoothCheck in Hr. unfold bind at 1 in Hr.
  remember (setupBluetoothListener env w1) as l eqn:Hl.
  assert (Hsetup : exists le, vars (snd l) = {| bluetoothEnabled := false;
                       bluetoothStateListener := bluetoothStateListener (vars (snd l));
                       isCheckingBluetooth := true; bluetoothCheckPromise := true;
                       lastRequestEnableTime := lastRequestEnableTime (vars w) |}
                    /\ radioCalls (snd l) = radioCalls w
                    /\ enableCalls (snd l) = enableCalls w
                    /\ trace (snd l) = trace w ++ le
                    /\ prompts le = 0%nat /\ totalWait le = 0).
  { unfold setupBluetoothListener in Hl. run_in Hl. subst w1.
    cbn [vars bluetoothStateListener] in Hl.
    destruct (bluetoothStateListener (vars w)) eqn:L.
    - subst l. exists []. cbn. rewrite ?L, ?En, ?app_nil_r. split_and!; reflexivity.
    - destruct (isIOS env && canAddListener env); subst l.
      + exists [EvAddListener]. cbn. rewrite ?L, ?En. split_and!; reflexivity.
      + exists []. cbn. rewrite ?L, ?En, ?app_nil_r. split_and!; reflexivity. }
  destruct Hsetup as (le & Lv & Lr & Le & Lt & Lp & Lw).
  destruct l as [[] w2]. cbn [snd] in *. clear Hl.
  destruct (isAndroid env) eqn:An.
  - pose proof (handleAndroid_handled env w2) as H.
    destruct (handleAndroidBluetooth env w2) as [b w3].
    destruct H as (H1 & H2 & H3 & H4 & H5 & H6 & evs & A & P & W).
    cbn [fst snd] in *. run_in Hr. subst r. cbn [fst snd vars radioCalls enableCalls
      isCheckingBluetooth bluetoothCheckPromise bluetoothEnabled].
    split_and!; try reflexivity; try lia; try congruence.
    exists (le ++ evs). unfold appended in *. cbn [trace]. rewrite A, Lt, <- app_assoc.
    split; [reflexivity|]. rewrite prompts_app, totalWait_app, Lp, Lw.
    split_and!; try lia; try (intros _; split_and!; lia).
  - pose proof (handleIOS_handled env w2) as H.
    destruct (handleIOSBluetooth env w2) as [b w3].
    destruct H as (H1 & H2 & H3 & H4 & H5 & H6 & evs & A & P & W).
    cbn [fst snd] in *. run_in Hr. subst r. cbn [fst snd vars radioCalls enableCalls
      isCheckingBluetooth bluetoothCheckPromise bluetoothEnabled].
    split_and!; try reflexivity; try lia; try congruence.
    exists (le ++ evs). unfold appended in *. cbn [trace]. rewrite A, Lt, <- app_assoc.
    split; [reflexivity|]. rewrite prompts_app, totalWait_app, Lp, Lw.
    split_and!; try lia; try discriminate.
Qed.


Lemma full_check_releases_guard_witness :
  let r := ensureBluetoothEnabled androidOff true (start cold) in
  fst r = Answer false
  /\ isCheckingBluetooth (vars (snd r)) = false
  /\ prompts (trace (snd r)) = 0%nat.
Proof.
  intros r.
  destruct (full_check_releases_guard androidOff (start cold) eq_refl eq_refl)
    as (A & _ & C & _ & _ & _ & evs & E & _ & _ & F).
  fold r in A, C, E, F.
  split; [rewrite C; vm_compute; reflexivity|]. split; [exact A|].
  unfold appended in E. rewrite E. apply F. reflexivity.
Defined.

(** One call of requestBtPermissionsAndroid inside a window that began
    at [T0] and has not yet lasted 30 s. *)
Ltac fin :=
  split_and!; try lia;
  first [left; split; reflexivity | right; split; [reflexivity|lia]].

Lemma request_in_window env (w : World) (T0 : Z) :
  (forall i j, (i <= j)%nat -> clock env i <= clock env j) ->
  (forall k, (k < clockReads w + 4)%nat -> clock env k < T0 + 30000) ->
  T0 <= clock env (clockReads w) ->
  let w' := snd (requestBtPermissionsAndroid env w) in
  (clockReads w <= clockReads w' <= clockReads w + 4)%nat
  /\ ((enableCalls w' = enableCalls w
       /\ lastRequestEnableTime (vars w') = lastRequestEnableTime (vars w))
      \/ (enableCalls w' = S (enableCalls w) /\ T0 <= lastRequestEnableTime (vars w')))
  /\ (T0 <= lastRequestEnableTime (vars w) ->
      enableCalls w' = enableCalls w
      /\ lastRequestEnableTime (vars w') = lastRequestEnableTime (vars w)).
Proof.
  intros Hmono Hwin HT0 w'. subst w'.
  remember (requestBtPermissionsAndroid env w) as r eqn:Hr.
  unfold requestBtPermissionsAndroid in Hr.
  destruct (isAndroid env); cbn [negb] in Hr.
  2:{ unfold ret in Hr. subst r. cbn [snd]. fin. }
  unfold bind at 1 in Hr. rewrite raw_eq in Hr.
  destruct (isState "PoweredOn" _).
  { unfold ret in Hr. subst r. cbn [snd afterRead vars clockReads enableCalls].
    fin. }
  unfold isInCooldownPeriod, getCooldownInfo, now, requestToEnable,
    REQUEST_ENABLE_COOLDOWN_MS in Hr.
  run_in Hr. cbn [lastRequestEnableTime] in Hr.
  pose proof (Hwin (clockReads w) ltac:(lia)) as W0.
  pose proof (Hwin (S (clockReads w)) ltac:(lia)) as W1.
  pose proof (Hwin (S (S (clockReads w))) ltac:(lia)) as W2.
  pose proof (Hmono (clockReads w) (S (clockReads w)) ltac:(lia)) as M1.
  pose proof (Hmono (S (clockReads w)) (S (S (clockReads w))) ltac:(lia)) as M2.
  destruct (Z.ltb_spec (clock env (clockReads w) - lastRequestEnableTime (vars w)) (30 * 1000))
    as [Hcool|Hcold]; run_in Hr; cbn [lastRequestEnableTime] in Hr.
  { subst r. cbn [snd vars clockReads enableCalls].
    fin. }
  destruct (enableRequest env (enableCalls w)) as [message|];
    run_in Hr; cbn [lastRequestEnableTime] in Hr.
  2:{ subst r. cbn [snd vars clockReads enableCalls lastRequestEnableTime].
      fin. }
  destruct (includes "NullPointerException" message || includes "getCurrentActivity" message);
    run_in Hr; cbn [lastRequestEnableTime] in Hr.
  2:{ subst r. cbn [snd vars clockReads enableCalls lastRequestEnableTime].
      fin. }
  destruct (Z.ltb_spec (clock env (S (S (clockReads w))) - clock env (S (clockReads w)))
              (30 * 1000)) as [Hc2|Hc2]; [|lia].
  run_in Hr. subst r. cbn [snd vars clockReads enableCalls lastRequestEnableTime].
  fin.
Qed.

(** X9.  Two calls of requestBtPermissionsAndroid that both run inside a
    window of less than 30 s ask the system to switch the radio on at
    most once between them. *)
Theorem enable_request_cooldown :
  forall env (w : World),
    (forall i j, (i <= j)%nat -> clock env i <= clock env j) ->
    (forall k, (k < clockReads w + 8)%nat ->
               clock env k < clock env (clockReads w) + REQUEST_ENABLE_COOLDOWN_MS) ->
    let w1 := snd (requestBtPermissionsAndroid env w) in
    let w2 := snd (requestBtPermissionsAndroid env w1) in
    (enableCalls w2 <= enableCalls w + 1)%nat.
Proof.
  intros env w Hmono Hwin w1 w2. subst w2 w1.
  change REQUEST_ENABLE_COOLDOWN_MS with 30000 in Hwin.
  destruct (request_in_window env w (clock env (clockReads w)) Hmono) as (C1 & R1 & _).
  { intros k Hk. apply Hwin. lia. }
  { lia. }
  set (w1 := snd (requestBtPermissionsAndroid env w)) in *.
  destruct (request_in_window env w1 (clock env (clockReads w)) Hmono) as (C2 & R2 & S2).
  { intros k Hk. apply Hwin. lia. }
  { apply Hmono. lia. }
  destruct R1 as [[E1 L1]|[E1 L1]].
  - destruct R2 as [[E2 _]|[E2 _]]; lia.
  - destruct (S2 L1) as [E2 _]. lia.
Qed.


Lemma enable_request_cooldown_witness :
  let w1 := snd (requestBtPermissionsAndroid radioOffDenied (start cold)) in
  let w2 := snd (requestBtPermissionsAndroid radioOffDenied w1) in
  enableCalls w1 = 1%nat /\ (enableCalls w2 <= 1)%nat.
Proof.
  intros w1 w2. split; [vm_compute; reflexivity|].
  apply (enable_request_cooldown radioOffDenied (start cold)).
  - intros i j Hij. unfold radioOffDenied. cbn [clock]. lia.
  - intros k Hk. unfold radioOffDenied, start, REQUEST_ENABLE_COOLDOWN_MS in *.
    cbn [clock clockReads] in *. lia.
Defined.

End BluetoothFacts.

(** ** SDK initialisation *)

Module SDKManagerFacts.
Import Js SDKManager.
Import Mapping(Platform, ios, android).

Local Open Scope string_scope.
Local Open Scope list_scope.

Lemma isState_eq name s : isState name s = true -> s = Some name.
Proof.
  destruct s as [x|]; simpl; [|discriminate].
  intros H. apply String.eqb_eq in H. congruence.
Qed.

Ltac settle :=
  cbn; split_and!;
  try lia; try reflexivity;
  try (intros; discriminate);
  try (intros; congruence).

Lemma checkIOS_spec env :
  (1 <= snd (checkIOS env) <= 4)%nat
  /\ (fst (checkIOS env) = true ->
      bluetoothState env (snd (checkIOS env) - 1) = Some (Some "PoweredOn"))
  /\ (forall s, bluetoothState env 0 = Some (Some s) ->
                s = "PoweredOff" \/ s = "Unauthorized" -> checkIOS env = (false, 1%nat))
  /\ (bluetoothState env 0 = Some (Some "PoweredOn") -> checkIOS env = (true, 1%nat)).
Proof.
  unfold checkIOS.
  destruct (bluetoothState env 0) as [s0|] eqn:R0; [|settle].
  destruct (noState s0) eqn:N0.
  - (* no state at first: one wait, one more read *)
    assert (Hs0 : forall s, s0 = Some s -> s = "").
    { intros s ->. cbn in N0. destruct s; [reflexivity|discriminate]. }
    assert (Hoff : forall (P : Prop) s, Some s0 = Some (Some s) ->
                          s = "PoweredOff" \/ s = "Unauthorized" -> P).
    { intros P s [= ->] [->| ->]; specialize (Hs0 _ eq_refl); discriminate. }
    assert (Hon : forall P : Prop, Some s0 = Some (Some "PoweredOn") -> P).
    { intros P [= ->]. specialize (Hs0 _ eq_refl). discriminate. }
    destruct (bluetoothState env 1) as [s1|] eqn:R1;
      [|settle; solve [apply Hoff | apply Hon]].
    destruct (noState s1) eqn:N1; [settle; solve [apply Hoff | apply Hon]|].
    destruct s1 as [x1|]; [|discriminate].
    set (s1 := Some x1) in *.
    destruct (isState "PoweredOn" s1) eqn:On1.
    { settle; try solve [apply Hoff | apply Hon].
      intros _. rewrite R1. f_equal. apply isState_eq. exact On1. }
    destruct (isState "Unauthorized" s1); [settle; solve [apply Hoff | apply Hon]|].
    destruct (isState "PoweredOff" s1); [settle; solve [apply Hoff | apply Hon]|].
    destruct (isState "Unknown" s1); [|settle; solve [apply Hoff | apply Hon]].
    destruct (bluetoothState env 2) as [a1|] eqn:R2;
      [|settle; solve [apply Hoff | apply Hon]].
    destruct (isState "PoweredOn" a1) eqn:On2.
    { settle; try solve [apply Hoff | apply Hon].
      intros _. rewrite R2. f_equal. apply isState_eq. exact On2. }
    destruct (noState a1 || isState "Unknown" a1);
      [|settle; solve [apply Hoff | apply Hon]].
    destruct (bluetoothState env 3) as [a2|] eqn:R3;
      [|settle; solve [apply Hoff | apply Hon]].
    settle; try solve [apply Hoff | apply Hon].
    intros On3. rewrite R3. f_equal. apply isState_eq. exact On3.
  - destruct s0 as [x|]; [|discriminate].
    destruct (isState "PoweredOn" (Some x)) eqn:On0.
    { settle.
      - intros _. rewrite R0. f_equal. apply isState_eq. exact On0.
      - intros s [= ->] [->| ->]; discriminate. }
    assert (Hon : forall P : Prop, Some (Some x) = Some (Some "PoweredOn") -> P).
    { intros P [= ->]. discriminate. }
    destruct (isState "Unauthorized" (Some x)) eqn:Un0; [settle; apply Hon|].
    destruct (isState "PoweredOff" (Some x)) eqn:Off0; [settle; apply Hon|].
    assert (Hoff : forall (P : Prop) s, Some (Some x) = Some (Some s) ->
                                s = "PoweredOff" \/ s = "Unauthorized" -> P).
    { intros P s [= ->] [->| ->]; discriminate. }
    destruct (isState "Unknown" (Some x));
      [|settle; solve [apply Hoff | apply Hon]].
    destruct (bluetoothState env 1) as [a1|] eqn:R1;
      [|settle; solve [apply Hoff | apply Hon]].
    destruct (isState "PoweredOn" a1) eqn:On1.
    { settle; try solve [apply Hoff | apply Hon].
      intros _. rewrite R1. f_equal. apply isState_eq. exact On1. }
    destruct (noState a1 || isState "Unknown" a1);
      [|settle; solve [apply Hoff | apply Hon]].
    destruct (bluetoothState env 2) as [a2|] eqn:R2;
      [|settle; solve [apply Hoff | apply Hon]].
    settle; try solve [apply Hoff | apply Hon].
    intros On2. rewrite R2. f_equal. apply isState_eq. exact On2.
Qed.

Lemma waits_repeat (n : nat) :
  waits (concat (repeat [EvWait 2000; EvGetState] n)) = 2000 * Z.of_nat n.
Proof.
  induction n as [|n IH]; [reflexivity|].
  cbn [repeat concat app]. unfold waits in *. cbn [fold_right]. rewrite IH. lia.
Qed.

Lemma nativeInits_app (a b : list Event) :
  nativeInits (a ++ b) = (nativeInits a + nativeInits b)%nat.
Proof. unfold nativeInits. rewrite List.filter_app, length_app. reflexivity. Qed.

Lemma nativeInits_repeat (n : nat) :
  nativeInits (concat (repeat [EvWait 2000; EvGetState] n)) = 0%nat.
Proof. induction n as [|n IH]; [reflexivity|]. cbn [repeat concat]. rewrite nativeInits_app, IH. reflexivity. Qed.

Lemma permission_no_init env :
  nativeInits (snd (checkBluetoothPermissionBeforeInit env)) = 0%nat.
Proof.
  unfold checkBluetoothPermissionBeforeInit.
  destruct (platformOS env) as [[|]|]; try reflexivity.
  destruct (checkIOS env) as [v n]. cbn [snd].
  change (EvGetState :: ?l) with ([EvGetState] ++ l).
  rewrite nativeInits_app, nativeInits_repeat. reflexivity.
Qed.

(** X10.  On iOS the permission check that precedes SDK initialisation
    reads the radio state at most 4 times, waits 2 s before every read
    but the first (6 s at most), and allows initialisation only when the
    last state it read is PoweredOn.  A first state of PoweredOff or
    Unauthorized is refused at once, without waiting. *)
Theorem ios_permission_check_is_bounded :
  forall env,
    platformOS env = Some ios ->
    let r := checkBluetoothPermissionBeforeInit env in
    let reads := snd (checkIOS env) in
    (1 <= reads <= 4)%nat
    /\ waits (snd r) = 2000 * Z.of_nat (reads - 1)
    /\ waits (snd r) <= 6000
    /\ (fst r = true -> bluetoothState env (reads - 1) = Some (Some "PoweredOn"))
    /\ (forall s, bluetoothState env 0 = Some (Some s) ->
                  s = "PoweredOff" \/ s = "Unauthorized" ->
                  fst r = false /\ waits (snd r) = 0).
Proof.
  intros env Hios r reads. subst r reads.
  unfold checkBluetoothPermissionBeforeInit. rewrite Hios.
  destruct (checkIOS_spec env) as (B & On & Off & _).
  destruct (checkIOS env) as [v n]. cbn [fst snd] in *.
  assert (W : waits (EvGetState :: concat (repeat [EvWait 2000; EvGetState] (n - 1)))
              = 2000 * Z.of_nat (n - 1)).
  { change (waits (EvGetState :: ?l)) with (waits l). apply waits_repeat. }
  rewrite W. split_and!; try lia; try assumption.
  intros s H1 H2. specialize (Off s H1 H2). injection Off as -> ->. split; reflexivity.
Qed.


Lemma ios_permission_check_is_bounded_witness :
  (1 <= snd (checkIOS quietIOS) <= 4)%nat
  /\ waits (snd (checkBluetoothPermissionBeforeInit quietIOS)) = 6000.
Proof.
  pose proof (ios_permission_check_is_bounded quietIOS eq_refl) as H.
  cbv zeta in H. destruct H as (B & W & _). split; [exact B|].
  rewrite W. reflexivity.
Defined.


Ltac count_inits :=
  rewrite ?nativeInits_app, ?permission_no_init; cbn; try lia.

Lemma body_spec env st :
  _ycSDKInitialized st && match platformOS env with Some android => true | _ => false end = false ->
  let r := initializationBody env st in
  _isInitializing (fst r) = _isInitializing st
  /\ _initializationPromise (fst r) = _initializationPromise st
  /\ (nativeInits (snd r) <= 1)%nat
  /\ (fst (checkBluetoothPermissionBeforeInit env) = false ->
      nativeInits (snd r) = 0%nat
      /\ storedFlag (fst r) = storedFlag st
      /\ _ycSDKInitialized (fst r) = _ycSDKInitialized st)
  /\ (storedFlag (fst r) <> storedFlag st ->
      storedFlag (fst r) = Some "true"
      /\ fst (checkBluetoothPermissionBeforeInit env) = true
      /\ nativeInits (snd r) = 1%nat
      /\ nativeInitSettled env)
  /\ (nativeInits (snd r) = 1%nat -> nativeInitSettled env ->
      flagIsTrue (fst r) = true
      /\ (platformOS env = Some android -> _ycSDKInitialized (fst r) = true)).
Proof.
  intros Hfresh r. subst r. unfold initializationBody, nativeInitSettled.
  destruct (flagIsTrue st && _ycSDKInitialized st) eqn:Hskip.
  { cbn. split_and!; try reflexivity; try lia; try congruence; try (intros; discriminate).
    intros _. split_and!; reflexivity. }
  pose proof (permission_no_init env) as Hperm.
  destruct (checkBluetoothPermissionBeforeInit env) as [p evs] eqn:Hcheck.
  cbn [fst snd] in *.
  destruct p; cbn [negb].
  2:{ cbn [fst snd]. rewrite Hperm.
      split_and!; try reflexivity; try lia; try congruence; try (intros; discriminate).
      intros _. split_and!; reflexivity. }
  destruct (platformOS env) as [[|]|] eqn:Hos.
  - (* iOS *)
    unfold initializeRWSDK. rewrite Hos.
    destruct (rwInit env) eqn:Hrw; cbn [fst snd setFlag storedFlag
        _isInitializing _initializationPromise _ycSDKInitialized flagIsTrue];
      count_inits; rewrite ?Hperm;
      split_and!; try reflexivity; try lia; try congruence; try (intros; discriminate);
      try (intros; split_and!; try reflexivity; try lia; congruence).
  - (* Android *)
    unfold initializeYCSDK.
    rewrite andb_true_r in Hfresh. rewrite Hfresh.
    destruct (ycInit env) eqn:Hyc; cbn [fst snd setFlag setYC storedFlag andb
        _isInitializing _initializationPromise _ycSDKInitialized flagIsTrue];
      count_inits; rewrite ?Hperm;
      split_and!; try reflexivity; try lia; try congruence; try (intros; discriminate);
      try (intros; split_and!; try reflexivity; try lia; congruence).
  - cbn [fst snd]. rewrite Hperm.
    split_and!; try reflexivity; try lia; try congruence; try (intros; discriminate).
Qed.

(** X11.  initializeDeviceSDKs, started while no initialisation is under
    way, always releases the initialising mark, calls a native initSDK
    at most once, and calls none when the Bluetooth permission check
    refuses; then the stored flag and the session mark stay as they
    were.  The stored flag changes only to 'true', and only after the
    permission check passed and the platform's native initSDK was called
    once and did not throw. *)
Theorem sdk_flag_needs_permission_and_native_init :
  forall env st,
    _isInitializing st = false ->
    let r := initializeDeviceSDKs env st in
    _isInitializing (fst r) = false
    /\ (nativeInits (snd r) <= 1)%nat
    /\ (fst (checkBluetoothPermissionBeforeInit env) = false ->
        nativeInits (snd r) = 0%nat
        /\ storedFlag (fst r) = storedFlag st
        /\ _ycSDKInitialized (fst r) = _ycSDKInitialized st)
    /\ (storedFlag (fst r) <> storedFlag st ->
        storedFlag (fst r) = Some "true"
        /\ fst (checkBluetoothPermissionBeforeInit env) = true
        /\ nativeInits (snd r) = 1%nat
        /\ nativeInitSettled env).
Proof.
  intros env st Hidle r. subst r. unfold initializeDeviceSDKs.
  destruct (_ycSDKInitialized st
            && match platformOS env with Some android => true | _ => false end) eqn:Hfresh.
  { cbn. split_and!; try assumption; try lia; try congruence.
    intros _. split_and!; reflexivity. }
  rewrite Hidle.
  pose proof (body_spec env (setInitializing true true st) Hfresh) as H.
  cbv zeta in H.
  destruct (initializationBody env (setInitializing true true st)) as [st1 evs].
  cbn [fst snd setInitializing storedFlag _isInitializing _ycSDKInitialized] in *.
  destruct H as (_ & _ & H1 & H2 & H3 & _).
  split_and!; [reflexivity|exact H1|exact H2|exact H3].
Qed.


Lemma sdk_flag_needs_permission_and_native_init_witness :
  storedFlag (fst (initializeDeviceSDKs quietIOS fresh)) = Some "true"
  /\ nativeInits (snd (initializeDeviceSDKs quietIOS fresh)) = 1%nat.
Proof.
  pose proof (sdk_flag_needs_permission_and_native_init quietIOS fresh eq_refl) as H.
  cbv zeta in H. destruct H as (_ & _ & _ & H).
  assert (Hchg : storedFlag (fst (initializeDeviceSDKs quietIOS fresh)) <> storedFlag fresh)
    by (vm_compute; discriminate).
  destruct (H Hchg) as (F & _ & N & _). split; assumption.
Defined.

(** X12.  ensureSDKsInitialized does nothing when the stored flag is
    'true' and, on Android, the YC SDK has also been initialised in this
    session.  Once a run has called the native initSDK and it did not
    throw, every later call on that platform is such a no-op.  On
    Android the stored flag of an earlier session does not count: with
    Bluetooth enabled the first call of a session calls the native
    initSDK again. *)
Theorem ensure_initializes_once_per_session :
  forall env st,
    _isInitializing st = false ->
    let r := ensureSDKsInitialized env st in
    (flagIsTrue st = true ->
     (platformOS env <> Some android \/ _ycSDKInitialized st = true) ->
     r = (st, []))
    /\ (nativeInits (snd r) = 1%nat -> nativeInitSettled env ->
        forall env', platformOS env' = platformOS env ->
                     ensureSDKsInitialized env' (fst r) = (fst r, []))
    /\ (platformOS env = Some android -> _ycSDKInitialized st = false ->
        bluetoothEnabled env = Some true ->
        nativeInits (snd r) = 1%nat).
Proof.
  intros env st Hidle r.
  assert (Hr : r = if flagIsTrue st
                      && (negb match platformOS env with Some android => true | _ => false end
                          || _ycSDKInitialized st)
                   then (st, []) else initializeDeviceSDKs env st).
  { subst r. unfold ensureSDKsInitialized. rewrite Hidle. reflexivity. }
  clearbody r. split_and!.
  - intros Hflag Hsess. rewrite Hr, Hflag. cbn [andb].
    destruct Hsess as [Hios|Hyc].
    + destruct (platformOS env) as [[|]|]; try reflexivity. congruence.
    + rewrite Hyc, orb_true_r. reflexivity.
  - destruct (flagIsTrue st
              && (negb match platformOS env with Some android => true | _ => false end
                  || _ycSDKInitialized st)) eqn:Hskip.
    { subst r. intros Hn. discriminate Hn. }
    unfold initializeDeviceSDKs in Hr.
    destruct (_ycSDKInitialized st
              && match platformOS env with Some android => true | _ => false end) eqn:Hfresh.
    { subst r. intros Hn. discriminate Hn. }
    rewrite Hidle in Hr.
    pose proof (body_spec env (setInitializing true true st) Hfresh) as H.
    cbv zeta in H.
    destruct (initializationBody env (setInitializing true true st)) as [st1 evs].
    subst r. cbn [fst snd] in *.
    destruct H as (_ & _ & _ & _ & _ & H).
    intros Hn Hs env' Hos. destruct (H Hn Hs) as [Hflag Hyc].
    unfold ensureSDKsInitialized.
    cbn [setInitializing _isInitializing _initializationPromise andb].
    assert (Hflag' : flagIsTrue (setInitializing false false st1) = true) by exact Hflag.
    rewrite Hflag'. cbn [andb]. rewrite Hos.
    destruct (platformOS env) as [[|]|] eqn:Hp; try reflexivity.
    cbn [setInitializing _ycSDKInitialized negb orb]. rewrite (Hyc eq_refl). reflexivity.
  - intros Hos Hyc Hbt. rewrite Hr, Hos, Hyc. cbn [negb orb]. rewrite andb_false_r.
    unfold initializeDeviceSDKs. rewrite Hos, Hyc, Hidle. cbn [andb].
    unfold initializationBody.
    cbn [setInitializing _ycSDKInitialized]. rewrite Hyc, andb_false_r.
    unfold checkBluetoothPermissionBeforeInit. rewrite Hos, Hbt. cbn [negb].
    unfold initializeYCSDK. cbn [setInitializing _ycSDKInitialized]. rewrite Hyc.
    destruct (ycInit env); reflexivity.
Qed.


Lemma ensure_initializes_once_per_session_witness :
  nativeInits (snd (ensureSDKsInitialized androidReady restarted)) = 1%nat
  /\ ensureSDKsInitialized androidReady
       (fst (ensureSDKsInitialized androidReady restarted))
     = (fst (ensureSDKsInitialized androidReady restarted), []).
Proof.
  pose proof (ensure_initializes_once_per_session androidReady restarted eq_refl) as H.
  cbv zeta in H. destruct H as (_ & Once & Again).
  pose proof (Again eq_refl eq_refl eq_refl) as N.
  split; [exact N|].
  apply (Once N); [cbn; discriminate|reflexivity].
Defined.

End SDKManagerFacts.

(** ** Heart rate, SpO2, temperature and battery metrics *)

Module MetricSelectionFacts.
Import Js Mapping Normalizer SpecValidator MetricSelection.
Import BloodPressureFacts(Qgtb_true, Qgtb_false).

Section Ranged.
Variable V : DataValidator.
Variable today : DayRange.
Variable valueFields timestampFields : list string.
Variable validator : Q -> bool.

Local Abbreviation timeOf := (rangedTime V timestampFields).
Local Abbreviation valueOf := (rangedValue V valueFields validator).
Local Abbreviation qualifies := (rangedQualifies V today valueFields timestampFields validator).
Local Abbreviation Selected := (rangedSelected V today valueFields timestampFields validator).

Lemma bestInRangeStep_selected (seen : list obj) (best : Q * Q) (x : obj) :
  Selected seen best ->
  Selected (seen ++ [x])
    (bestInRangeStep V today valueFields timestampFields validator x best).
Proof.
  intros H. unfold bestInRangeStep.
  change (normalizeTimestamp (extractTimestamp V x timestampFields)) with (timeOf x).
  change (extractBestValue V x valueFields (Some validator)) with (valueOf x).
  destruct (Qeq_bool (timeOf x) 0 || Qltb (timeOf x) (inject_Z (dayStart today))
            || Qgtb (timeOf x) (inject_Z (dayEnd today))) eqn:Eday.
  { (* the record is skipped *)
    assert (Hx : qualifies x = false).
    { unfold rangedQualifies, inToday. rewrite Eday. reflexivity. }
    destruct H as [[-> Hnone]|(r & Hin & Hq & -> & Hmax)].
    - left. split; [reflexivity|].
      intros r' Hr'. apply in_app_or in Hr'. destruct Hr' as [Hr'|[<-|[]]]; auto.
    - right. exists r. split; [apply in_or_app; left; exact Hin|].
      split; [exact Hq|]. split; [reflexivity|].
      intros r' Hr' Hq'. apply in_app_or in Hr'. destruct Hr' as [Hr'|[<-|[]]].
      + apply (Hmax r' Hr' Hq').
      + rewrite Hx in Hq'. discriminate. }
  assert (Hday : inToday today (timeOf x) = true).
  { unfold inToday. rewrite Eday. reflexivity. }
  destruct H as [[-> Hnone]|(r & Hin & Hq & -> & Hmax)]; cbn [fst].
  - destruct (Qgtb (valueOf x) 0 && Qgtb (timeOf x) 0) eqn:E.
    + right. exists x. split; [apply in_or_app; right; left; reflexivity|].
      split.
      { unfold rangedQualifies. rewrite Hday. cbn [andb]. exact E. }
      split; [reflexivity|].
      intros r' Hr' Hq'. apply in_app_or in Hr'. destruct Hr' as [Hr'|[<-|[]]].
      * rewrite (Hnone r' Hr') in Hq'. discriminate.
      * apply Qle_refl.
    + left. split; [reflexivity|].
      intros r' Hr'. apply in_app_or in Hr'. destruct Hr' as [Hr'|[<-|[]]]; auto.
      unfold rangedQualifies. rewrite Hday. cbn [andb]. exact E.
  - destruct (Qgtb (valueOf x) 0 && Qgtb (timeOf x) (timeOf r)) eqn:E.
    + apply andb_true_iff in E. destruct E as [Ev Et].
      apply Qgtb_true in Et.
      assert (Hr0 : (0 < timeOf r)%Q).
      { unfold rangedQualifies in Hq. apply andb_true_iff in Hq. destruct Hq as [_ Hq].
        apply Qgtb_true in Hq. exact Hq. }
      right. exists x. split; [apply in_or_app; right; left; reflexivity|].
      split.
      { unfold rangedQualifies. rewrite Hday, Ev. cbn [andb]. apply Qgtb_true.
        eapply Qlt_trans; eauto. }
      split; [reflexivity|].
      intros r' Hr' Hq'. apply in_app_or in Hr'. destruct Hr' as [Hr'|[<-|[]]].
      * eapply Qle_trans; [apply (Hmax r' Hr' Hq')|]. apply Qlt_le_weak. exact Et.
      * apply Qle_refl.
    + right. exists r. split; [apply in_or_app; left; exact Hin|].
      split; [exact Hq|]. split; [reflexivity|].
      intros r' Hr' Hq'. apply in_app_or in Hr'. destruct Hr' as [Hr'|[<-|[]]].
      * apply (Hmax r' Hr' Hq').
      * unfold rangedQualifies in Hq'. apply andb_true_iff in Hq'. destruct Hq' as [Hq' _].
        apply andb_true_iff in Hq'. destruct Hq' as [_ Hv].
        rewrite Hv in E. cbn [andb] in E. apply Qgtb_false in E. exact E.
Qed.

Lemma ranged_fold_selected (l seen : list obj) (best : Q * Q) :
  Selected seen best ->
  Selected (seen ++ l)
    (fold_left (fun best record =>
                  bestInRangeStep V today valueFields timestampFields validator record best)
       l best).
Proof.
  revert seen best. induction l as [|x l IH]; intros seen best H.
  - rewrite app_nil_r. exact H.
  - simpl. replace (seen ++ x :: l) with ((seen ++ [x]) ++ l)
      by (rewrite <- app_assoc; reflexivity).
    apply IH. apply bestInRangeStep_selected. exact H.
Qed.

Lemma findBestValueInTimeRange_spec (dataArray : list obj) :
  match findBestValueInTimeRange V today dataArray valueFields timestampFields validator with
  | Some (v, t) =>
      exists r, In r dataArray /\ qualifies r = true
                /\ v = valueOf r /\ t = timeOf r
                /\ forall r', In r' dataArray -> qualifies r' = true ->
                              (timeOf r' <= timeOf r)%Q
  | None => forall r, In r dataArray -> qualifies r = false
  end.
Proof.
  unfold findBestValueInTimeRange.
  pose proof (ranged_fold_selected (rev dataArray) [] (0%Q, 0%Q)) as H.
  cbn [app] in H.
  destruct H as [[-> Hnone]|(r & Hin & Hq & -> & Hmax)].
  - left. split; [reflexivity|]. intros r [].
  - cbn. intros r Hr. apply Hnone. apply in_rev in Hr. exact Hr.
  - pose proof Hq as Hq'. unfold rangedQualifies in Hq'.
    apply andb_true_iff in Hq'. destruct Hq' as [Hq' Ht].
    apply andb_true_iff in Hq'. destruct Hq' as [_ Hv].
    rewrite Hv, Ht. cbn [andb].
    exists r. split; [apply in_rev; exact Hin|].
    split; [exact Hq|]. split; [reflexivity|]. split; [reflexivity|].
    intros r' Hr' Hq''. apply Hmax; [|exact Hq'']. apply in_rev in Hr'. exact Hr'.
Qed.

End Ranged.

Lemma inToday_range today t :
  inToday today t = true ->
  (inject_Z (dayStart today) <= t)%Q /\ (t <= inject_Z (dayEnd today))%Q.
Proof.
  unfold inToday. rewrite negb_true_iff, !orb_false_iff.
  intros [[_ H1] H2]. split.
  - unfold Qltb in H1. apply negb_false_iff in H1. apply Qle_bool_iff in H1. exact H1.
  - apply Qgtb_false in H2. exact H2.
Qed.

Lemma ranged_metric_spec V today (rawData : RawData) config platform combinedFields ok u :
  match normalizeRangedMetric V today rawData config platform combinedFields ok u with
  | Some m =>
      exists arr r,
        nonEmpty (fst (rangedSource V rawData config platform combinedFields)) = Some arr
        /\ In r arr
        /\ rangedQualifies V today
             (snd (rangedSource V rawData config platform combinedFields))
             (timestampFields config) ok r = true
        /\ current m = rangedValue V (snd (rangedSource V rawData config platform combinedFields))
                         ok r
        /\ timestamp m = rangedTime V (timestampFields config) r
        /\ unit m = u
        /\ forall r', In r' arr ->
             rangedQualifies V today
               (snd (rangedSource V rawData config platform combinedFields))
               (timestampFields config) ok r' = true ->
             (rangedTime V (timestampFields config) r' <= timestamp m)%Q
  | None =>
      forall arr r,
        nonEmpty (fst (rangedSource V rawData config platform combinedFields)) = Some arr ->
        In r arr ->
        rangedQualifies V today
          (snd (rangedSource V rawData config platform combinedFields))
          (timestampFields config) ok r = false
  end.
Proof.
  unfold normalizeRangedMetric.
  change (match platform with
          | ios =>
              let '(arr, dataSource) :=
                extractDataArrayForIOS V (validateAndCleanData V rawData) "combinedData"
                  (dataPath config) in
              (arr, if String.eqb dataSource "combinedData" then combinedFields
                    else valueFields config)
          | android =>
              (extractDataArray V (validateAndCleanData V rawData) (dataPath config),
               valueFields config)
          end) with (rangedSource V rawData config platform combinedFields).
  destruct (rangedSource V rawData config platform combinedFields) as [dataArray fields].
  cbn [fst snd].
  destruct (nonEmpty dataArray) as [arr|] eqn:Harr.
  2:{ intros arr r H. discriminate H. }
  pose proof (findBestValueInTimeRange_spec V today fields (timestampFields config) ok arr) as H.
  destruct (findBestValueInTimeRange V today arr fields (timestampFields config) ok)
    as [[v t]|].
  - destruct H as (r & Hin & Hq & -> & -> & Hmax).
    exists arr, r. cbn [current timestamp unit]. split_and!; auto.
  - intros arr' r [= <-] Hin. apply H. exact Hin.
Qed.

(** X13.  The heart rate and SpO2 metrics are readings of the current day:
    the value and time are those of one record of the array read, whose
    time lies within today's range, whose value is positive, and no record
    of that array with a positive value and a time of today is later.
    The metric is null exactly when the array has no such record, so a
    reading of an earlier day is never reported.  With a validator that
    hands back only values passing the filter, the heart rate lies in
    (0,200) and the SpO2 in (0,100]. *)
Theorem vital_signs_are_todays_latest :
  forall V today (rawData : RawData) (config : FieldMapping) (platform : Platform),
    let hrFields := snd (rangedSource V rawData config platform
                           ["heartRate"; "heartValue"; "heart"; "hr"; "bpm"; "value"]%string) in
    let o2Fields := snd (rangedSource V rawData config platform
                           ["bloodOxygen"; "spO2"; "spo2"; "OOValue"; "spo2Value";
                            "oxygenValue"; "value"]%string) in
    let source := fst (rangedSource V rawData config platform []) in
    match normalizeHeartRateMetric V today rawData config platform with
    | Some m =>
        (exists arr r,
            nonEmpty source = Some arr /\ In r arr
            /\ current m = rangedValue V hrFields heartRateValid r
            /\ timestamp m = rangedTime V (timestampFields config) r
            /\ forall r', In r' arr ->
                 rangedQualifies V today hrFields (timestampFields config)
                   heartRateValid r' = true ->
                 (rangedTime V (timestampFields config) r' <= timestamp m)%Q)
        /\ (inject_Z (dayStart today) <= timestamp m)%Q
        /\ (timestamp m <= inject_Z (dayEnd today))%Q
        /\ (0 < timestamp m)%Q /\ (0 < current m)%Q
        /\ (filtersValues V -> (current m < 200)%Q)
    | None =>
        forall arr r, nonEmpty source = Some arr -> In r arr ->
          rangedQualifies V today hrFields (timestampFields config) heartRateValid r = false
    end
    /\ match normalizeSpo2Metric V today rawData config platform with
       | Some m =>
           (exists arr r,
               nonEmpty source = Some arr /\ In r arr
               /\ current m = rangedValue V o2Fields spo2Valid r
               /\ timestamp m = rangedTime V (timestampFields config) r
               /\ forall r', In r' arr ->
                    rangedQualifies V today o2Fields (timestampFields config)
                      spo2Valid r' = true ->
                    (rangedTime V (timestampFields config) r' <= timestamp m)%Q)
           /\ (inject_Z (dayStart today) <= timestamp m)%Q
           /\ (timestamp m <= inject_Z (dayEnd today))%Q
           /\ (0 < timestamp m)%Q /\ (0 < current m)%Q
           /\ (filtersValues V -> (current m <= 100)%Q)
       | None =>
           forall arr r, nonEmpty source = Some arr -> In r arr ->
             rangedQualifies V today o2Fields (timestampFields config) spo2Valid r = false
       end.
Proof.
  intros V today rawData config platform hrFields o2Fields source.
  assert (Hsrc : forall fields, fst (rangedSource V rawData config platform fields) = source).
  { intros fields. subst source. unfold rangedSource.
    destruct platform; [|reflexivity].
    destruct (extractDataArrayForIOS V (validateAndCleanData V rawData) "combinedData"
                (dataPath config)); reflexivity. }
  split.
  - unfold normalizeHeartRateMetric.
    pose proof (ranged_metric_spec V today rawData config platform
                  ["heartRate"; "heartValue"; "heart"; "hr"; "bpm"; "value"]%string
                  heartRateValid "bpm"%string) as H.
    rewrite Hsrc in H. fold hrFields in H.
    destruct (normalizeRangedMetric V today rawData config platform _ heartRateValid "bpm")
      as [m|]; [|exact H].
    destruct H as (arr & r & Harr & Hin & Hq & Hv & Ht & _ & Hmax).
    unfold rangedQualifies in Hq.
    apply andb_true_iff in Hq. destruct Hq as [Hq Hpos].
    apply andb_true_iff in Hq. destruct Hq as [Hday Hval].
    apply inToday_range in Hday. rewrite <- Ht in Hday, Hpos. rewrite <- Hv in Hval.
    apply Qgtb_true in Hpos. pose proof Hval as Hval'. apply Qgtb_true in Hval'.
    split_and!; try tauto.
    + exists arr, r. split_and!; auto.
    + intros HV. rewrite Hv in Hval |- *.
      set (v := rangedValue V hrFields heartRateValid r) in *.
      assert (Hok : heartRateValid v = true) by (apply HV; exact Hval).
      clearbody v. unfold heartRateValid, HEART_RATE_MAX, Qltb in Hok.
      apply andb_true_iff in Hok. destruct Hok as [_ Hlt].
      apply negb_true_iff in Hlt.
      apply Qnot_le_lt. intros Hle. apply Qle_bool_iff in Hle. congruence.
  - unfold normalizeSpo2Metric.
    pose proof (ranged_metric_spec V today rawData config platform
                  ["bloodOxygen"; "spO2"; "spo2"; "OOValue"; "spo2Value";
                   "oxygenValue"; "value"]%string
                  spo2Valid "%"%string) as H.
    rewrite Hsrc in H. fold o2Fields in H.
    destruct (normalizeRangedMetric V today rawData config platform _ spo2Valid "%")
      as [m|]; [|exact H].
    destruct H as (arr & r & Harr & Hin & Hq & Hv & Ht & _ & Hmax).
    unfold rangedQualifies in Hq.
    apply andb_true_iff in Hq. destruct Hq as [Hq Hpos].
    apply andb_true_iff in Hq. destruct Hq as [Hday Hval].
    apply inToday_range in Hday. rewrite <- Ht in Hday, Hpos. rewrite <- Hv in Hval.
    apply Qgtb_true in Hpos. pose proof Hval as Hval'. apply Qgtb_true in Hval'.
    split_and!; try tauto.
    + exists arr, r. split_and!; auto.
    + intros HV. rewrite Hv in Hval |- *.
      set (v := rangedValue V o2Fields spo2Valid r) in *.
      assert (Hok : spo2Valid v = true) by (apply HV; exact Hval).
      clearbody v. unfold spo2Valid, SPO2_MAX, Qleb in Hok.
      apply andb_true_iff in Hok. destruct Hok as [_ Hle].
      apply Qle_bool_iff in Hle. exact Hle.
Qed.

Lemma vital_signs_are_todays_latest_witness :
  exists m,
    normalizeHeartRateMetric (specValidator decimalHost) sampleDay pulses
      (Mapping.heartRate mapping_rw) android = Some m
    /\ current m = 72%Q
    /\ (inject_Z (dayStart sampleDay) <= timestamp m)%Q.
Proof.
  pose proof (vital_signs_are_todays_latest (specValidator decimalHost) sampleDay pulses
                (Mapping.heartRate mapping_rw) android) as H.
  cbv zeta in H. destruct H as [H _].
  destruct (normalizeHeartRateMetric (specValidator decimalHost) sampleDay pulses
              (Mapping.heartRate mapping_rw) android) as [m|] eqn:E.
  - exists m. split; [reflexivity|]. split; [|apply H].
    vm_compute in E. injection E as <-. reflexivity.
  - exfalso.
    specialize (H [pulse 1699990000000 61; pulse 1700000005000 72; pulse 1700000009000 250]
                  (pulse 1700000005000 72) eq_refl (or_intror (or_introl eq_refl))).
    vm_compute in H. discriminate H.
Defined.

Section Timed.
Variable V : DataValidator.
Variable valueOf : obj -> Q.
Variable timestampFields : list string.

Local Abbreviation timeOf := (timedAt V timestampFields).

Local Abbreviation timedStep := (MetricSelection.timedStep V valueOf timestampFields).

Lemma timedStep_selected (seen : list obj) (best : Q * Q) (x : obj) :
  timedSelected V valueOf timestampFields seen (fst best) (snd best) ->
  timedSelected V valueOf timestampFields (seen ++ [x])
    (fst (timedStep best x)) (snd (timedStep best x)).
Proof.
  destruct best as [bt bv]. cbn [fst snd]. unfold MetricSelection.timedStep. cbn [fst].
  intros [(-> & -> & Hnone)|(r & Hin & Hv & Hpos & -> & -> & Hmax)].
  - destruct (Qgtb (valueOf x) 0 && Qgtb (timeOf x) 0) eqn:E; cbn [fst snd].
    + apply andb_true_iff in E. destruct E as [Ev Et].
      right. exists x. split; [apply in_or_app; right; left; reflexivity|].
      split_and!; auto.
      intros r' Hr' Hv'. apply in_app_or in Hr'. destruct Hr' as [Hr'|[<-|[]]].
      * specialize (Hnone r' Hr'). rewrite Hv' in Hnone. cbn [andb] in Hnone.
        apply Qgtb_false in Hnone. eapply Qle_trans; [exact Hnone|].
        apply Qlt_le_weak. apply Qgtb_true. exact Et.
      * apply Qle_refl.
    + left. split_and!; auto.
      intros r' Hr'. apply in_app_or in Hr'. destruct Hr' as [Hr'|[<-|[]]]; auto.
  - destruct (Qgtb (valueOf x) 0 && Qgtb (timeOf x) (timeOf r)) eqn:E; cbn [fst snd].
    + apply andb_true_iff in E. destruct E as [Ev Et].
      apply Qgtb_true in Et. apply Qgtb_true in Hpos.
      right. exists x. split; [apply in_or_app; right; left; reflexivity|].
      split_and!; auto.
      * apply Qgtb_true. eapply Qlt_trans; eauto.
      * intros r' Hr' Hv'. apply in_app_or in Hr'. destruct Hr' as [Hr'|[<-|[]]].
        -- eapply Qle_trans; [apply (Hmax r' Hr' Hv')|]. apply Qlt_le_weak. exact Et.
        -- apply Qle_refl.
    + right. exists r. split; [apply in_or_app; left; exact Hin|].
      split_and!; auto.
      intros r' Hr' Hv'. apply in_app_or in Hr'. destruct Hr' as [Hr'|[<-|[]]].
      * apply (Hmax r' Hr' Hv').
      * rewrite Hv' in E. cbn [andb] in E. apply Qgtb_false in E. exact E.
Qed.

Lemma timed_fold_selected (l seen : list obj) (best : Q * Q) :
  timedSelected V valueOf timestampFields seen (fst best) (snd best) ->
  timedSelected V valueOf timestampFields (seen ++ l)
    (fst (fold_left timedStep l best)) (snd (fold_left timedStep l best)).
Proof.
  revert seen best. induction l as [|x l IH]; intros seen best H.
  - rewrite app_nil_r. exact H.
  - simpl. replace (seen ++ x :: l) with ((seen ++ [x]) ++ l)
      by (rewrite <- app_assoc; reflexivity).
    apply IH. apply timedStep_selected. exact H.
Qed.

Lemma timed_fold_start (l : list obj) :
  timedSelected V valueOf timestampFields l
    (fst (fold_left timedStep l (0%Q, 0%Q))) (snd (fold_left timedStep l (0%Q, 0%Q))).
Proof.
  apply (timed_fold_selected l [] (0%Q, 0%Q)).
  left. split_and!; try reflexivity. intros r [].
Qed.

End Timed.

Lemma temperature_fold V config (l : list obj) (best : Q * Q) :
  fold_left (temperatureStep V config) l best
  = fold_left (timedStep V (temperatureOf V config) (timestampFields config)) l best.
Proof.
  revert best. induction l as [|x l IH]; intros best; [reflexivity|].
  simpl. rewrite IH. reflexivity.
Qed.

Lemma battery_fold V config (l : list obj) (best : Q * Q) :
  fold_left (batteryStep V config) l best
  = (snd (fold_left (timedStep V (batteryOf V config) (timestampFields config)) l
            (snd best, fst best)),
     fst (fold_left (timedStep V (batteryOf V config) (timestampFields config)) l
            (snd best, fst best))).
Proof.
  revert best. induction l as [|x l IH]; intros [b t]; [reflexivity|].
  simpl. rewrite IH. unfold batteryStep, timedStep, batteryOf, timedAt. cbn [fst snd].
  destruct (Qgtb _ 0 && Qgtb _ t); reflexivity.
Qed.

(** X14.  The battery metric is the rounded level of a record of the
    battery array whose level and time are both positive, the latest such
    record, and it carries that record's time: the clock reading that the
    code keeps as a fallback is never used.  A record without a time is
    never selected, so an array whose records carry no time gives no
    battery metric whatever their levels. *)
Theorem battery_metric_needs_a_timed_record :
  forall V now (rawData : RawData) (config : FieldMapping) (dataArray : list obj),
    nonEmpty (extractDataArray V rawData (dataPath config)) = Some dataArray ->
    match normalizeBatteryMetric V now rawData config with
    | Some m =>
        exists r, In r dataArray
                  /\ (0 < batteryOf V config r)%Q
                  /\ (0 < timedAt V (timestampFields config) r)%Q
                  /\ current m = inject_Z (round (batteryOf V config r))
                  /\ timestamp m = timedAt V (timestampFields config) r
                  /\ forall r', In r' dataArray -> (0 < batteryOf V config r')%Q ->
                       (timedAt V (timestampFields config) r' <= timestamp m)%Q
    | None =>
        forall r, In r dataArray ->
                  (batteryOf V config r <= 0)%Q
                  \/ (timedAt V (timestampFields config) r <= 0)%Q
    end
    /\ ((forall r, In r dataArray ->
                   extractTimestamp V r (timestampFields config) = None) ->
        normalizeBatteryMetric V now rawData config = None).
Proof.
  intros V now rawData config dataArray Harr.
  unfold normalizeBatteryMetric. rewrite Harr, battery_fold. cbn [fst snd].
  pose proof (timed_fold_start V (batteryOf V config) (timestampFields config) dataArray) as H.
  destruct (fold_left _ dataArray (0%Q, 0%Q)) as [bt bv]. cbn [fst snd] in *.
  destruct H as [(-> & -> & Hnone)|(r & Hin & Hv & Hpos & -> & -> & Hmax)].
  - cbn. split; [|reflexivity].
    intros r Hr. specialize (Hnone r Hr). apply andb_false_iff in Hnone.
    destruct Hnone as [H|H]; apply Qgtb_false in H; auto.
  - rewrite Hv. pose proof Hpos as Hpos'. apply Qgtb_true in Hpos'.
    assert (Hne : Qeq_bool (timedAt V (timestampFields config) r) 0 = false).
    { destruct (Qeq_bool _ 0) eqn:E; [|reflexivity].
      apply Qeq_bool_iff in E. rewrite E in Hpos'. discriminate Hpos'. }
    rewrite Hne. split.
    + exists r. cbn [current timestamp]. split_and!; auto.
      * apply Qgtb_true. exact Hv.
      * intros r' Hr' Hv'. apply Hmax; [exact Hr'|]. apply Qgtb_true. exact Hv'.
    + intros Hall. exfalso. unfold timedAt in Hpos'. rewrite (Hall r Hin) in Hpos'.
      discriminate Hpos'.
Qed.

Lemma battery_metric_needs_a_timed_record_witness :
  normalizeBatteryMetric (specValidator decimalHost) 1700000000000 untimedLevels
    (Mapping.battery mapping_yc) = None
  /\ exists m,
       normalizeBatteryMetric (specValidator decimalHost) 1700000000000 timedLevels
         (Mapping.battery mapping_yc) = Some m
       /\ timestamp m = 1690000000000%Q.
Proof.
  split.
  - apply (battery_metric_needs_a_timed_record (specValidator decimalHost) 1700000000000
             untimedLevels (Mapping.battery mapping_yc) [level None 80; level None 75] eq_refl).
    intros r [<-|[<-|[]]]; reflexivity.
  - pose proof (battery_metric_needs_a_timed_record (specValidator decimalHost) 1700000000000
                  timedLevels (Mapping.battery mapping_yc)
                  [level (Some 1690000000000%Q) 80; level None 75] eq_refl) as [H _].
    destruct (normalizeBatteryMetric (specValidator decimalHost) 1700000000000 timedLevels
                (Mapping.battery mapping_yc)) as [m|] eqn:E.
    + exists m. split; [reflexivity|].
      vm_compute in E. injection E as <-. reflexivity.
    + exfalso. destruct (H (level (Some 1690000000000%Q) 80) (or_introl eq_refl)) as [Hc|Hc];
        vm_compute in Hc; apply Hc; reflexivity.
Defined.

(** X15.  The temperature metric is the reading of a record whose reading
    and time are both positive, the latest such record; it is null
    exactly when the array has no such record.  So a reading of 0 degrees
    or below is never reported, although the plausibility filter starts at
    -10, and neither is a reading without a time.  With a validator that
    hands back only values passing the filter the temperature reported
    lies in (0,100). *)
Theorem temperature_metric_is_positive_and_timed :
  forall V (rawData : RawData) (config : FieldMapping) (dataArray : list obj),
    nonEmpty (extractDataArray V rawData (dataPath config)) = Some dataArray ->
    match normalizeTemperatureMetric V rawData config with
    | Some m =>
        (exists r, In r dataArray
                   /\ current m = temperatureOf V config r
                   /\ timestamp m = timedAt V (timestampFields config) r
                   /\ forall r', In r' dataArray -> (0 < temperatureOf V config r')%Q ->
                        (timedAt V (timestampFields config) r' <= timestamp m)%Q)
        /\ (0 < current m)%Q /\ (0 < timestamp m)%Q
        /\ (filtersValues V -> (current m < 100)%Q)
    | None =>
        forall r, In r dataArray ->
                  (temperatureOf V config r <= 0)%Q
                  \/ (timedAt V (timestampFields config) r <= 0)%Q
    end.
Proof.
  intros V rawData config dataArray Harr.
  unfold normalizeTemperatureMetric. rewrite Harr, temperature_fold.
  pose proof (timed_fold_start V (temperatureOf V config) (timestampFields config) dataArray)
    as H.
  destruct (fold_left _ dataArray (0%Q, 0%Q)) as [bt bv]. cbn [fst snd] in *.
  destruct H as [(-> & -> & Hnone)|(r & Hin & Hv & Hpos & -> & -> & Hmax)].
  - cbn. intros r Hr. specialize (Hnone r Hr). apply andb_false_iff in Hnone.
    destruct Hnone as [H|H]; apply Qgtb_false in H; auto.
  - rewrite Hv. cbn [current timestamp]. split_and!.
    + exists r. split_and!; auto.
      intros r' Hr' Hv'. apply Hmax; [exact Hr'|]. apply Qgtb_true. exact Hv'.
    + apply Qgtb_true. exact Hv.
    + apply Qgtb_true. exact Hpos.
    + intros HV.
      set (v := temperatureOf V config r) in *.
      assert (Hok : temperatureValid v = true) by (apply HV; exact Hv).
      clearbody v. unfold temperatureValid, TEMPERATURE_MAX, Qltb in Hok.
      apply andb_true_iff in Hok. destruct Hok as [_ Hlt].
      apply negb_true_iff in Hlt.
      apply Qnot_le_lt. intros Hle. apply Qle_bool_iff in Hle. congruence.
Qed.

Lemma temperature_metric_is_positive_and_timed_witness :
  exists m,
    normalizeTemperatureMetric (specValidator decimalHost) coldAndWarm
      (Mapping.temperature mapping_yc) = Some m
    /\ (0 < current m)%Q.
Proof.
  pose proof (temperature_metric_is_positive_and_timed (specValidator decimalHost) coldAndWarm
                (Mapping.temperature mapping_yc)
                [degrees 1690000000000 (-5); degrees 1690000001000 (365 # 10)] eq_refl) as H.
  destruct (normalizeTemperatureMetric (specValidator decimalHost) coldAndWarm
              (Mapping.temperature mapping_yc)) as [m|] eqn:E.
  - exists m. split; [reflexivity|]. apply H.
  - exfalso.
    destruct (H (degrees 1690000001000 (365 # 10)) (or_intror (or_introl eq_refl))) as [Hc|Hc];
      vm_compute in Hc; apply Hc; reflexivity.
Defined.

End MetricSelectionFacts.

(** ** Sleep stages *)

Module SleepStageFacts.
Import Js Mapping Normalizer SpecValidator MetricSelection.

(** X16.  A sleep record reports a whole number of minutes from 0 to
    1440.  The total is 0 only for the empty record, which is what is
    returned when no session starts in the current day; when there are
    such sessions the record reports at least one minute, and when their
    durations give no whole minute (or no number at all) the metric is
    null, not the empty record. *)
Theorem sleep_record_is_empty_only_without_sessions :
  forall h V vday now (rawData : RawData) (config : SleepMapping),
    let sessions :=
      match nonEmpty (extractDataArray V rawData (sleepPath config)) with
      | Some dataArray => List.filter (isCurrentDaySession h V vday config) dataArray
      | None => []
      end in
    match normalizeSleepMetric h V vday now rawData config with
    | Some s =>
        (exists m : Z,
            totalMinutes s = Finite (inject_Z m) /\ (0 <= m <= 1440)%Z
            /\ (sessions <> [] -> (0 < m)%Z))
        /\ (sessions = [] -> s = createEmptySleepData now)
    | None => sessions <> []
    end.
Proof.
  intros h V vday now rawData config sessions. subst sessions.
  unfold normalizeSleepMetric.
  destruct (nonEmpty (extractDataArray V rawData (sleepPath config))) as [arr|].
  2:{ split; [|reflexivity]. exists 0%Z. split_and!; try reflexivity; try lia. congruence. }
  destruct (List.filter (isCurrentDaySession h V vday config) arr) as [|x rest].
  { split; [|reflexivity]. exists 0%Z. split_and!; try reflexivity; try lia. congruence. }
  unfold sleepFromTotals.
  set (t := sleepTotals h V config (x :: rest)).
  set (total := mathRound (fdiv (fadd (fadd (deepSeconds t) (lightSeconds t)) (remSeconds t))
                             (Finite 60))).
  destruct (fgt total MAX_SLEEP_MINUTES) eqn:Hcap.
  - split; [|discriminate]. exists 1440%Z. cbn [totalMinutes].
    split_and!; try reflexivity; lia.
  - destruct (fgt total (Finite 0)) eqn:Hpos; [|discriminate].
    split; [|discriminate]. cbn [totalMinutes].
    unfold total in *.
    destruct (fdiv (fadd (fadd (deepSeconds t) (lightSeconds t)) (remSeconds t)) (Finite 60))
      as [q|[|]|]; cbn [mathRound] in *; try discriminate.
    exists (round q).
    apply (SleepFacts.fgt_finite_false (round q) 1440) in Hcap.
    apply (SleepFacts.fgt_finite_true (round q) 0) in Hpos.
    split_and!; try reflexivity; lia.
Qed.

Lemma sleep_record_is_empty_only_without_sessions_witness :
  exists s,
    normalizeSleepMetric decimalHost (specValidator decimalHost) sampleDay
      1700000003000 scenarioD sleepConfig = Some s
    /\ exists m : Z, totalMinutes s = Finite (inject_Z m) /\ (0 < m <= 1440)%Z.
Proof.
  pose proof (sleep_record_is_empty_only_without_sessions decimalHost
                (specValidator decimalHost) sampleDay 1700000003000 scenarioD sleepConfig)
    as H.
  cbv zeta in H.
  destruct (normalizeSleepMetric decimalHost (specValidator decimalHost) sampleDay
              1700000003000 scenarioD sleepConfig) as [s|] eqn:E.
  - exists s. destruct H as ((m & Hm & Hle & Hpos) & _).
    split; [reflexivity|]. exists m. split; [exact Hm|].
    split; [|lia]. apply Hpos.
    intros Hnil. apply (f_equal (@length obj)) in Hnil. vm_compute in Hnil.
    discriminate Hnil.
  - vm_compute in E. discriminate E.
Defined.

End SleepStageFacts.

(** ** The automatic device sync and its lock *)

Module DeviceSyncFacts.
Import Js DeviceSync.

Local Open Scope string_scope.

Lemma syncBody_frame env d conn st :
  let r := syncBody env d conn st in
  autoSyncLock (snd (fst r)) = autoSyncLock st
  /\ (fst (fst r) = Skipped ->
      snd r = [] /\ sanitizeUuid (uuid d) = None).
Proof.
  unfold syncBody.
  destruct (bluetoothReady env) as [msg|[|]]; cbn [fst snd];
    try (split; [reflexivity|discriminate]).
  destruct (sanitizeUuid (uuid d)) as [u|].
  - match goal with
    | |- context [HealthSync.fetchHealthDataWithRetry ?a ?b ?c ?e ?f] =>
        destruct (HealthSync.fetchHealthDataWithRetry a b c e f) as [[msg|raw] evs]
    end; cbn; (split; [reflexivity|discriminate]).
  - cbn. split; [reflexivity|]. intros _. split; reflexivity.
Qed.

(** X17.  runAutoDeviceSync leaves its lock as it found it: a call that is
    refused at the guards changes nothing but the skip reason, and a call
    that gets past them releases the lock, the health-data operation lock
    and the skip reason on every exit, whether the fetch delivered, threw,
    or the uuid was refused.  So the reason INVALID_UUID is never there to
    be read once the call has returned: the error built from it says
    'unknown'.  A call that finds the lock held is skipped with LOCKED,
    and the message built from that is one AutoSyncService treats as a
    locked device, which puts its error counter at the ceiling. *)
Theorem auto_sync_lock_is_restored :
  forall env device conn st,
    let r := runAutoDeviceSync env device conn st in
    let st' := snd (fst r) in
    autoSyncLock st' = autoSyncLock st
    /\ (passesGuards env device st = false ->
        fst (fst r) = Skipped /\ snd r = []
        /\ connection st' = connection st
        /\ lastSkipReason st' <> None)
    /\ (passesGuards env device st = true ->
        lastSkipReason st' = None
        /\ Connection._isHealthDataOperationInProgress (connection st') = false
        /\ (fst (fst r) = Skipped ->
            snd r = []
            /\ (forall d, device = Some d -> sanitizeUuid (uuid d) = None)
            /\ failedMessage st' = "Failed to get health data: unknown"))
    /\ (match inDetailDevice env with Some true => False | _ => True end ->
        (exists d, device = Some d /\ truthy (uuid d) = true) ->
        autoSyncLock st = true ->
        fst (fst r) = Skipped
        /\ AutoSync.errorKind (failedMessage st') = AutoSync.KLocked
        /\ forall tmo now ast,
             AutoSync.consecutiveErrorCount
               (fst (AutoSync.handleDeviceSyncError (failedMessage st') tmo now ast))
             = AutoSync.MAX_CONSECUTIVE_ERRORS).
Proof.
  intros env device conn st r st'. subst st' r.
  unfold runAutoDeviceSync, passesGuards.
  destruct (match inDetailDevice env with Some true => true | _ => false end) eqn:Hdetail.
  { cbn [fst snd negb andb setSkipReason autoSyncLock lastSkipReason connection].
    split; [reflexivity|]. split; [|split; [discriminate|]].
    - intros _. split_and!; try reflexivity. discriminate.
    - destruct (inDetailDevice env) as [[|]|]; try discriminate. intros []. }
  destruct device as [d|].
  2:{ cbn [fst snd negb andb setSkipReason autoSyncLock lastSkipReason connection].
      split; [reflexivity|]. split; [|split; [discriminate|]].
      - intros _. split_and!; try reflexivity. discriminate.
      - intros _ (d & Hd & _). discriminate Hd. }
  destruct (truthy (uuid d)) eqn:Huuid; cbn [negb andb].
  2:{ cbn [fst snd negb andb setSkipReason autoSyncLock lastSkipReason connection].
      split; [reflexivity|]. split; [|split; [discriminate|]].
      - intros _. split_and!; try reflexivity. discriminate.
      - intros _ (d' & Hd' & Hd). injection Hd' as <-. congruence. }
  destruct (autoSyncLock st) eqn:Hlock; cbn [negb andb].
  { cbn [fst snd negb andb setSkipReason autoSyncLock lastSkipReason connection].
    split; [exact Hlock|]. split; [|split; [discriminate|]].
    - intros _. split_and!; try reflexivity. discriminate.
    - intros _ _ _. split; [reflexivity|]. split; [vm_compute; reflexivity|].
      intros tmo now ast.
      apply (AutoSyncFacts.locked_or_empty_enters_cooldown _ tmo now ast).
      left. vm_compute. reflexivity. }
  destruct (scanInProgress env || Connection._isConnecting (connection st)) eqn:Hbusy;
    cbn [negb andb].
  { cbn [fst snd negb andb setSkipReason autoSyncLock lastSkipReason connection].
    split; [exact Hlock|]. split; [|split; discriminate].
    intros _. split_and!; try reflexivity. discriminate. }
  pose proof (syncBody_frame env d conn
                (setConnection (setHealthDataOperationLock true (connection st))
                   (setAutoSyncLock true st))) as H.
  cbv zeta in H.
  destruct (syncBody env d conn _) as [[res st2] evs]. cbn [fst snd] in *.
  destruct H as [_ Hskip].
  split; [reflexivity|]. split; [discriminate|]. split; [|discriminate].
  intros _. split_and!; try reflexivity.
  intros Hres. destruct (Hskip Hres) as [-> Hsan]. split_and!; try reflexivity.
  intros d' Hd'. injection Hd' as <-. exact Hsan.
Qed.

Lemma auto_sync_lock_is_restored_witness :
  let r := runAutoDeviceSync quiet (Some placeholderRing) true idle in
  fst (fst r) = Skipped
  /\ failedMessage (snd (fst r)) = "Failed to get health data: unknown".
Proof.
  pose proof (auto_sync_lock_is_restored quiet (Some placeholderRing) true idle) as H.
  cbv zeta in H. destruct H as (_ & _ & H & _).
  destruct (H eq_refl) as (_ & _ & Hu).
  assert (Hs : fst (fst (runAutoDeviceSync quiet (Some placeholderRing) true idle)) = Skipped)
    by (vm_compute; reflexivity).
  split; [exact Hs|]. apply (Hu Hs).
Defined.

End DeviceSyncFacts.

(** ** The device type of a sync and the mapping it selects *)

Module DeviceMapperFacts.
Import Js Mapping DeviceMapper.

Local Open Scope string_scope.

Lemma sync_type_cases (deviceType : option string) :
  (DeviceSync.normalizeDeviceType deviceType = "rw"
   /\ exists s, deviceType = Some s /\ toLowerCase s = "rw")
  \/ (DeviceSync.normalizeDeviceType deviceType = "yc"
      /\ forall s, deviceType = Some s -> toLowerCase s <> "rw").
Proof.
  unfold DeviceSync.normalizeDeviceType.
  destruct deviceType as [s|].
  - destruct s as [|c s'].
    + right. split; [reflexivity|]. intros s [= <-]. discriminate.
    + cbn [is_empty_string].
      destruct (String.eqb_spec (toLowerCase (String c s')) "rw") as [E|E].
      * left. split; [reflexivity|]. exists (String c s'). split; [reflexivity|exact E].
      * right. split; [reflexivity|]. intros s [= <-]. exact E.
  - right. split; [reflexivity|]. intros s H. discriminate H.
Qed.

Lemma tables_differ :
  mapping_rw <> mapping_yc /\ mapping_rw <> mapping_android_yc.
Proof.
  split; intros H; apply (f_equal (fun m => dataPath (Mapping.spo2 m))) in H;
    discriminate H.
Qed.

(** X18.  The device type that the sync hands to the normalizer is always
    'rw' or 'yc': 'rw' only for a type that reads rw whatever its case,
    and 'yc' for everything else, a missing type included.  The mapper
    knows both and does not rename them, so the field table is never the
    fallback: rw fields for 'rw', and for 'yc' the android_yc table on
    Android and the yc fields elsewhere (on iOS through the ios_yc entry,
    which repeats them).  A type that the mapper alone
    would resolve to the rw table through an alias or after trimming
    (ring, ringtech, a padded rw) is therefore read with a yc table. *)
Theorem sync_device_type_selects_table :
  forall (hostOS : option Platform) (deviceType : option string),
    let t := DeviceSync.normalizeDeviceType deviceType in
    (t = "rw" \/ t = "yc")
    /\ (t = "rw" <-> exists s, deviceType = Some s /\ toLowerCase s = "rw")
    /\ In t getAvailableDeviceTypes
    /\ isDeviceTypeSupported t = true
    /\ normalizeDeviceType t = t
    /\ getDeviceMapping hostOS t
       = (if String.eqb t "rw" then mapping_rw
          else match hostOS with
               | Some android => mapping_android_yc
               | _ => mapping_yc
               end)
    /\ (forall s, deviceType = Some s ->
                  normalizeDeviceType s = "rw" -> toLowerCase s <> "rw" ->
                  getDeviceMapping hostOS s = mapping_rw
                  /\ getDeviceMapping hostOS t <> getDeviceMapping hostOS s).
Proof.
  intros hostOS deviceType t. subst t.
  destruct (sync_type_cases deviceType) as [[-> Hrw]|[-> Hyc]].
  - split; [left; reflexivity|].
    split; [split; [intros _; exact Hrw|reflexivity]|].
    split; [vm_compute; tauto|].
    split; [vm_compute; reflexivity|].
    split; [vm_compute; reflexivity|].
    split; [destruct hostOS as [[|]|]; reflexivity|].
    intros s -> _ Hne. destruct Hrw as (s' & [= <-] & Hs'). congruence.
  - split; [right; reflexivity|].
    split; [split; [discriminate|]; intros (s & Hs & Hl); destruct (Hyc s Hs Hl)|].
    split; [vm_compute; tauto|].
    split; [vm_compute; reflexivity|].
    split; [vm_compute; reflexivity|].
    split; [destruct hostOS as [[|]|]; reflexivity|].
    intros s _ Hn _.
    assert (Hs : getDeviceMapping hostOS s = mapping_rw).
    { unfold getDeviceMapping. rewrite Hn. destruct hostOS as [[|]|]; reflexivity. }
    split; [exact Hs|]. rewrite Hs.
    destruct tables_differ as [H1 H2].
    destruct hostOS as [[|]|]; intros H; [apply H1|apply H2|apply H1]; symmetry; exact H.
Qed.

Lemma sync_device_type_selects_table_witness :
  getDeviceMapping (Some android) "RingTech" = mapping_rw
  /\ getDeviceMapping (Some android) (DeviceSync.normalizeDeviceType (Some "RingTech"))
     = mapping_android_yc.
Proof.
  pose proof (sync_device_type_selects_table (Some android) (Some "RingTech")) as H.
  cbv zeta in H. destruct H as (_ & _ & _ & _ & _ & Htable & Halias).
  split.
  - apply (Halias "RingTech" eq_refl); [vm_compute; reflexivity|vm_compute; discriminate].
  - rewrite Htable. reflexivity.
Defined.

End DeviceMapperFacts.

(** ** The detail screen and the error counter *)

Module AutoSyncControlFacts.
Import Js AutoSync AutoSyncControl.

Local Open Scope string_scope.

Lemma detail_blocks_gate loggedIn loggedOut manual now st :
  isInDetailDeviceScreen st = true ->
  fst (fst (performSafeSyncGate loggedIn loggedOut manual now st)) <> Proceed
  /\ snd (fst (performSafeSyncGate loggedIn loggedOut manual now st)) = st.
Proof.
  intros Hd. unfold performSafeSyncGate, shouldAbort. rewrite Hd, orb_true_r.
  destruct loggedIn, loggedOut, manual; cbn; split; try discriminate; reflexivity.
Qed.

(** X19.  Entering the detail screen from outside stops the service from
    syncing: afterwards no tick, manual or not, gets past the guards of
    performSafeSync, no sync is marked as running, and a running service
    is paused.  Leaving it again resumes a running service and restarts
    its interval, also when the service had been paused before the screen
    was entered: the earlier pause is not remembered.  A service that is
    not running keeps its pause flag.  The error counter and the time of
    the last error are the same after the round trip, and entering twice
    is entering once. *)
Theorem detail_screen_round_trip :
  forall c,
    isInDetailDeviceScreen (service c) = false ->
    let inside := fst (setDetailDeviceScreenState true c) in
    let back := fst (setDetailDeviceScreenState false inside) in
    (forall loggedIn loggedOut manual now,
        fst (fst (performSafeSyncGate loggedIn loggedOut manual now (service inside)))
        <> Proceed)
    /\ isDeviceSyncRunning (service inside) = false
    /\ isOSSyncRunning (service inside) = false
    /\ activeDeviceSyncPromise inside = false
    /\ (isRunning (service c) = true -> isPaused (service inside) = true)
    /\ setDetailDeviceScreenState true inside = (inside, [])
    /\ isInDetailDeviceScreen (service back) = false
    /\ (isRunning (service c) = true ->
        isPaused (service back) = false /\ intervalActive (service back) = true)
    /\ (isRunning (service c) = false -> isPaused (service back) = isPaused (service c))
    /\ consecutiveErrorCount (service back) = consecutiveErrorCount (service c)
    /\ lastErrorTime (service back) = lastErrorTime (service c).
Proof.
  intros [st active] Hout. cbn [service] in Hout.
  destruct st as [dev os detail paused running interval count lastErr lastSync source].
  cbn in Hout. subst detail.
  intros inside back.
  assert (Hin : isInDetailDeviceScreen (service inside) = true).
  { subst inside. unfold setDetailDeviceScreenState, forceInterruptSyncOperations, pause.
    cbn. destruct running, paused, dev, os, active; reflexivity. }
  split.
  { intros loggedIn loggedOut manual now.
    apply (detail_blocks_gate loggedIn loggedOut manual now _ Hin). }
  subst back inside.
  unfold setDetailDeviceScreenState, forceInterruptSyncOperations, pause, resume.
  cbn.
  destruct running, paused, dev, os, active; cbn;
    split_and!; try reflexivity; try discriminate; intros _; split; reflexivity.
Qed.

Lemma detail_screen_round_trip_witness :
  isPaused (service pausedByUser) = true
  /\ isPaused (service (fst (setDetailDeviceScreenState false
                               (fst (setDetailDeviceScreenState true pausedByUser))))) = false.
Proof.
  pose proof (detail_screen_round_trip pausedByUser eq_refl) as H.
  cbv zeta in H. destruct H as (_ & _ & _ & _ & _ & _ & _ & H & _).
  split; [reflexivity|]. apply (H eq_refl).
Defined.

Lemma below_ceiling_step msg now st :
  countedBelowCeiling msg = true ->
  consecutiveErrorCount st <= 2 ->
  consecutiveErrorCount (fst (deviceSyncFailure msg now st)) <= 2
  /\ consecutiveErrorCount st <= consecutiveErrorCount (fst (deviceSyncFailure msg now st)).
Proof.
  unfold countedBelowCeiling, errorKind, deviceSyncFailure, handleDeviceSyncError.
  intros Hk Hc.
  destruct (isLocked (classifyError msg)); [discriminate Hk|].
  destruct (isEmptyData (classifyError msg)); [discriminate Hk|].
  destruct (isBluetooth (classifyError msg)); [cbn; lia|].
  destruct (isConnection (classifyError msg)).
  { destruct (2 <=? consecutiveErrorCount st)%Z eqn:E; cbn; [lia|].
    apply Z.leb_gt in E.
    destruct (Z.ltb_spec (consecutiveErrorCount st) 3); lia. }
  destruct (isNullPointer (classifyError msg)).
  { destruct (1 <=? consecutiveErrorCount st)%Z eqn:E; cbn; [lia|].
    apply Z.leb_gt in E.
    destruct (Z.ltb_spec (consecutiveErrorCount st) 2); lia. }
  destruct (isTimeout (classifyError msg)); [|discriminate Hk].
  destruct (2 <=? consecutiveErrorCount st)%Z eqn:E; cbn; [lia|].
  apply Z.leb_gt in E.
  destruct (Z.ltb_spec (consecutiveErrorCount st) 1); lia.
Qed.

(** X20.  Device-sync failures that are handled as radio, connection,
    null-reference or timeout errors never start the cooldown, however
    many follow one another and whether or not their recoveries reset the
    counters in between: from a count of at most 2 the counter never
    passes 2, so it stays below MAX_CONSECUTIVE_ERRORS and the next
    automatic tick is not held back by the cooldown. *)
Theorem classified_failures_never_start_cooldown :
  forall (errors : list (string * Z * bool)) (st : State),
    Forall (fun e => countedBelowCeiling (fst (fst e)) = true) errors ->
    consecutiveErrorCount st <= 2 ->
    let st' := deviceSyncFailures errors st in
    consecutiveErrorCount st' <= 2
    /\ consecutiveErrorCount st' < MAX_CONSECUTIVE_ERRORS
    /\ forall later, inCooldown later st' = false.
Proof.
  intros errors st Hall Hc st'. subst st'.
  assert (H : consecutiveErrorCount (deviceSyncFailures errors st) <= 2).
  { revert st Hc. induction Hall as [|[[msg now] recovered] rest Hk _ IH]; intros st Hc.
    - cbn. lia.
    - cbn [deviceSyncFailures]. cbn [fst] in Hk.
      apply IH.
      apply (below_ceiling_step msg now (if recovered then resetLocks st else st) Hk).
      destruct recovered; [cbn; lia|exact Hc]. }
  split; [exact H|]. split; [unfold MAX_CONSECUTIVE_ERRORS; lia|].
  intros later. unfold inCooldown, MAX_CONSECUTIVE_ERRORS.
  destruct (Z.leb_spec 3 (consecutiveErrorCount (deviceSyncFailures errors st))); [lia|].
  reflexivity.
Qed.

Lemma classified_failures_never_start_cooldown_witness :
  consecutiveErrorCount
    (deviceSyncFailures
       [(connectionMessage, 1000, false); (connectionMessage, 2000, false);
        (nullMessage, 3000, true); (AutoSync.timeoutMessage, 4000, false);
        (connectionMessage, 5000, false)] initialState) <= 2.
Proof.
  apply (classified_failures_never_start_cooldown
           [(connectionMessage, 1000, false); (connectionMessage, 2000, false);
            (nullMessage, 3000, true); (AutoSync.timeoutMessage, 4000, false);
            (connectionMessage, 5000, false)] initialState).
  - repeat constructor.
  - cbn. lia.
Defined.

End AutoSyncControlFacts.

(** ** Placeholder uuids *)

Module UuidFacts.
Import Js.

Local Open Scope string_scope.

Lemma append_cons (x : ascii) (a b : string) : String x a ++ b = String x (a ++ b).
Proof. reflexivity. Qed.

Lemma append_assoc (a b c : string) : (a ++ b) ++ c = a ++ (b ++ c).
Proof.
  induction a as [|x a IH]; [reflexivity|]. rewrite !append_cons, IH. reflexivity.
Qed.

Lemma append_empty_r (a : string) : a ++ "" = a.
Proof.
  induction a as [|x a IH]; [reflexivity|]. rewrite append_cons, IH. reflexivity.
Qed.

Lemma rev_string_acc (s acc : string) :
  rev_string acc s = rev_string "" s ++ acc.
Proof.
  revert acc. induction s as [|c s IH]; intros acc; [reflexivity|].
  cbn [rev_string]. rewrite (IH (String c acc)), (IH (String c "")).
  rewrite append_assoc. reflexivity.
Qed.

Lemma rev_string_append (a b : string) :
  rev_string "" (a ++ b) = rev_string "" b ++ rev_string "" a.
Proof.
  induction a as [|c a IH].
  - cbn. rewrite append_empty_r. reflexivity.
  - rewrite append_cons. cbn [rev_string].
    rewrite (rev_string_acc (a ++ b)), (rev_string_acc a), IH.
    rewrite append_assoc. reflexivity.
Qed.

Lemma trimStart_app_nonspace (a b : string) (c : ascii) :
  is_space c = false ->
  trimStart (a ++ String c b) = trimStart a ++ String c b.
Proof.
  intros Hc. induction a as [|x a IH].
  - change ("" ++ String c b) with (String c b). cbn [trimStart]. rewrite Hc. reflexivity.
  - rewrite append_cons. cbn [trimStart].
    destruct (is_space x); [exact IH|rewrite append_cons; reflexivity].
Qed.

Lemma startsWith_split (p s : string) :
  startsWith p s = true -> exists rest, s = p ++ rest.
Proof.
  revert s. induction p as [|a p IH]; intros s H.
  - exists s. reflexivity.
  - destruct s as [|b s]; [discriminate H|]. cbn in H.
    destruct (Ascii.eqb_spec a b) as [->|]; [|discriminate H].
    destruct (IH s H) as [rest ->]. exists rest. reflexivity.
Qed.

Lemma startsWith_append (p rest : string) : startsWith p (p ++ rest) = true.
Proof.
  induction p as [|a p IH]; [reflexivity|].
  rewrite append_cons. cbn [startsWith]. rewrite Ascii.eqb_refl. exact IH.
Qed.

(** Trimming keeps a prefix that starts and ends with a character which
    is not white space. *)
Lemma trim_keeps_temp (s : string) :
  startsWith "temp" s = true -> startsWith "temp" (trim s) = true.
Proof.
  intros H. destruct (startsWith_split _ _ H) as [rest ->].
  unfold trim.
  change (trimStart ("temp" ++ rest)) with ("temp" ++ rest).
  rewrite rev_string_append.
  change (rev_string "" "temp") with (String "p" "met").
  rewrite trimStart_app_nonspace by reflexivity.
  rewrite rev_string_append.
  change (rev_string "" (String "p" "met")) with "temp".
  apply startsWith_append.
Qed.

Lemma startsWith_temp_dash (s : string) :
  startsWith "temp-" s = true -> startsWith "temp" s = true.
Proof.
  intros H. destruct (startsWith_split _ _ H) as [rest ->].
  apply (startsWith_append "temp" (String "-" rest)).
Qed.

Lemma trim_nonempty_source (s : string) :
  is_empty_string (trim s) = false -> is_empty_string s = false.
Proof. destruct s; [discriminate|reflexivity]. Qed.

(** X21.  The three placeholder checks on a device uuid nest.  Every uuid
    that sanitizeUuid of the sync accepts is valid for AutoSyncService,
    and every uuid valid for AutoSyncService gets past the placeholder
    guard of the battery check.  Neither converse holds: a valid uuid is
    refused by the sync exactly when it reads temp... after trimming (it
    is padded in front), and the battery guard lets through a uuid that
    reads temp... without the dash, and a blank one. *)
Theorem placeholder_checks_nest :
  forall s : string,
    (forall t, DeviceSync.sanitizeUuid (VStr s) = Some t ->
               t = trim s /\ AutoSyncControl.isValidDeviceUuid (VStr s) = true)
    /\ (AutoSyncControl.isValidDeviceUuid (VStr s) = true ->
        Battery.isPlaceholderUuid s = false)
    /\ (AutoSyncControl.isValidDeviceUuid (VStr s) = true ->
        (DeviceSync.sanitizeUuid (VStr s) = None <-> startsWith "temp" (trim s) = true))
    /\ (Battery.isPlaceholderUuid s = false ->
        (AutoSyncControl.isValidDeviceUuid (VStr s) = false
         <-> is_empty_string (trim s) = true
             \/ (startsWith "temp" s = true /\ startsWith "temp-" s = false))).
Proof.
  intros s.
  unfold DeviceSync.sanitizeUuid, AutoSyncControl.isValidDeviceUuid, Battery.isPlaceholderUuid.
  destruct (is_empty_string s) eqn:Hs.
  { destruct s; [|discriminate Hs]. cbn. split_and!; discriminate. }
  cbn [orb].
  destruct (is_empty_string (trim s)) eqn:Ht; cbn [orb].
  { split_and!; try discriminate.
    intros _. split; [intros _; left; reflexivity|reflexivity]. }
  destruct (String.eqb_spec s "temp-device") as [->|Hne].
  { cbn. split_and!; try discriminate. }
  cbn [negb andb orb].
  destruct (startsWith "temp" s) eqn:Hp; cbn [negb].
  - rewrite (trim_keeps_temp s Hp), orb_true_r. split_and!; try discriminate.
    intros Hd. split; [intros _; right; split; [reflexivity|exact Hd]|reflexivity].
  - assert (Hd : startsWith "temp-" s = false).
    { destruct (startsWith "temp-" s) eqn:E; [|reflexivity].
      apply startsWith_temp_dash in E. congruence. }
    rewrite Hd. split_and!.
    + intros t H. destruct (String.eqb (trim s) "temp-device" || startsWith "temp" (trim s));
        [discriminate H|]. injection H as <-. split; reflexivity.
    + reflexivity.
    + intros _.
      destruct (String.eqb_spec (trim s) "temp-device") as [E|E].
      * rewrite E. cbn. split; reflexivity.
      * cbn [orb]. destruct (startsWith "temp" (trim s)); split; congruence.
    + intros _. split; [discriminate|]. intros [H|[H _]]; discriminate H.
Qed.

Lemma placeholder_checks_nest_witness :
  AutoSyncControl.isValidDeviceUuid (VStr " temp-1") = true
  /\ DeviceSync.sanitizeUuid (VStr " temp-1") = None
  /\ Battery.isPlaceholderUuid "temp1" = false
  /\ AutoSyncControl.isValidDeviceUuid (VStr "temp1") = false.
Proof.
  destruct (placeholder_checks_nest " temp-1") as (_ & _ & Hsync & _).
  destruct (placeholder_checks_nest "temp1") as (_ & _ & _ & Hbattery).
  split; [reflexivity|]. split; [apply (Hsync eq_refl); reflexivity|].
  split; [reflexivity|]. apply (Hbattery eq_refl). right. split; reflexivity.
Defined.

End UuidFacts.

(** ** Vendor scans *)

Module ScannerVendorsFacts.
Import Js Scanner ScannerVendors.
Import Mapping(Platform, ios, android).

Local Open Scope string_scope.
Local Open Scope list_scope.


Lemma detect_tagged (vendor : string) (d : obj) :
  vendor = "yc" \/ vendor = "rw" ->
  get d "type" = VStr vendor -> detectDeviceType (Some d) = Some vendor.
Proof.
  intros Hv Ht. unfold detectDeviceType. rewrite Ht.
  destruct Hv as [-> | ->]; reflexivity.
Qed.

Lemma namedAndTagged_tagged vendor devices d :
  In d (namedAndTagged vendor devices) -> tagged vendor d.
Proof.
  unfold namedAndTagged. intros H. apply in_map_iff in H.
  destruct H as (item & <- & Hitem). apply filter_In in Hitem. destruct Hitem as [_ Hn].
  unfold tagged, get. split.
  - rewrite lookup_insert_ne by discriminate. exact Hn.
  - rewrite lookup_insert_eq. reflexivity.
Qed.

Lemma describeYC_tagged ids d :
  truthy (get d "name") = true -> tagged "yc" (describeYC ids d).
Proof.
  intros Hn. unfold tagged, describeYC, get. split.
  - rewrite lookup_insert_ne by discriminate. rewrite lookup_insert_eq. cbn [default].
    unfold or. unfold get in Hn. rewrite Hn. exact Hn.
  - rewrite !lookup_insert_ne by discriminate. rewrite lookup_insert_eq. reflexivity.
Qed.

Lemma scanYCDevices_tagged e d : In d (scanYCDevices e) -> tagged "yc" d.
Proof.
  unfold scanYCDevices.
  destruct (match platformOS e with Some ios => ycAvailable e | _ => false end).
  - destruct (connectedPeripherals e) as [connected|]; [|intros []].
    intros H. apply in_map_iff in H. destruct H as (x & <- & Hx).
    apply filter_In in Hx. apply describeYC_tagged. apply Hx.
  - destruct (hasYCManager e); [|intros []].
    destruct (hasYCScan e); [|intros []].
    apply namedAndTagged_tagged.
Qed.

Lemma scanRWDevices_tagged e d : In d (scanRWDevices e) -> tagged "rw" d.
Proof.
  unfold scanRWDevices.
  destruct (hasRWManager e); [|intros []].
  destruct (hasRWScan e); [|intros []].
  apply namedAndTagged_tagged.
Qed.

Lemma normalizeDevice_tagged vendor d : tagged vendor d -> tagged vendor (normalizeDevice d).
Proof.
  unfold tagged, normalizeDevice, get. intros [Hn Ht].
  rewrite !lookup_insert_ne by discriminate. split; assumption.
Qed.

Lemma dedupe_In (l : list obj) (d : obj) :
  In d (dedupe l) -> exists d0, In d0 l /\ d = normalizeDevice d0.
Proof.
  rewrite ScannerFacts.dedupe_keepUnseen. intros H.
  pose proof (ScannerFacts.keepUnseen_sublist (map normalizeDevice l) []) as Hsub.
  assert (Hin : In d (map normalizeDevice l)).
  { apply list_elem_of_In. eapply elem_of_sublist; [|exact Hsub].
    apply list_elem_of_In. exact H. }
  apply in_map_iff in Hin. destruct Hin as (d0 & <- & Hd0). exists d0. split; [exact Hd0|].
  reflexivity.
Qed.

(** X22.  Every device that scanYCDevices or scanRWDevices hands out has a
    name and carries the type of the scanner that found it, never more
    devices than the native scan reported, and the deduplication of
    performScan keeps both.  detectDeviceType then answers the scanner's
    vendor for each of them whatever the name or identifier says; on a
    device without the type tag it goes by the name, where rw and ring
    beat yc. *)
Theorem scanned_devices_keep_their_vendor :
  forall (e : Env),
    (forall d, In d (dedupe (scanYCDevices e)) ->
               truthy (get d "name") = true /\ get d "type" = VStr "yc"
               /\ detectDeviceType (Some d) = Some "yc")
    /\ (forall d, In d (dedupe (scanRWDevices e)) ->
                  truthy (get d "name") = true /\ get d "type" = VStr "rw"
                  /\ detectDeviceType (Some d) = Some "rw")
    /\ (length (scanYCDevices e)
        <= length (default [] (ycStartScan e)) + length (default [] (ycLegacyScan e)))%nat
    /\ (length (scanRWDevices e) <= length (default [] (rwScan e)))%nat
    /\ (forall d name,
           truthy (get d "type") = false -> get d "name" = VStr name ->
           includes "ring" (toLowerCase name) = true ->
           detectDeviceType (Some d) = Some "rw").
Proof.
  intros e. split_and!.
  - intros d H. destruct (dedupe_In _ _ H) as (d0 & Hd0 & ->).
    apply scanYCDevices_tagged in Hd0. apply normalizeDevice_tagged in Hd0.
    destruct Hd0 as [Hn Ht]. split_and!; auto.
    apply detect_tagged; [left; reflexivity|exact Ht].
  - intros d H. destruct (dedupe_In _ _ H) as (d0 & Hd0 & ->).
    apply scanRWDevices_tagged in Hd0. apply normalizeDevice_tagged in Hd0.
    destruct Hd0 as [Hn Ht]. split_and!; auto.
    apply detect_tagged; [right; reflexivity|exact Ht].
  - unfold scanYCDevices, namedAndTagged.
    destruct (match platformOS e with Some ios => ycAvailable e | _ => false end).
    + destruct (connectedPeripherals e); [|cbn; lia].
      rewrite length_map.
      pose proof (List.filter_length_le (fun d => truthy (get d "name"))
                    (default [] (ycStartScan e))). lia.
    + destruct (hasYCManager e); [|cbn; lia].
      destruct (hasYCScan e); [|cbn; lia].
      cbn [negb]. rewrite length_map.
      pose proof (List.filter_length_le (fun d => truthy (get d "name"))
                    (default [] (ycLegacyScan e))). lia.
  - unfold scanRWDevices, namedAndTagged.
    destruct (hasRWManager e); [|cbn; lia].
    destruct (hasRWScan e); [|cbn; lia].
    cbn [negb]. rewrite length_map.
    apply List.filter_length_le.
  - intros d name Ht Hn Hring. unfold detectDeviceType. rewrite Ht, Hn.
    assert (Hname : truthy (VStr name) = true).
    { destruct name; [discriminate Hring|reflexivity]. }
    rewrite Hname. cbn [lowerOf]. unfold vendorHint. rewrite Hring, orb_true_r. reflexivity.
Qed.

Lemma scanned_devices_keep_their_vendor_witness :
  detectDeviceType (Some smartRing) = Some "rw"
  /\ length (dedupe (scanYCDevices androidScan)) = 1%nat
  /\ forall d, In d (dedupe (scanYCDevices androidScan)) ->
               detectDeviceType (Some d) = Some "yc".
Proof.
  destruct (scanned_devices_keep_their_vendor androidScan) as (Hyc & _ & _ & _ & Hname).
  split; [apply (Hname smartRing "Smart Ring 2"); reflexivity|].
  split; [vm_compute; reflexivity|].
  intros d Hd. apply (Hyc d Hd).
Defined.

End ScannerVendorsFacts.

(** ** The connection probe and its cache *)

Module ConnectionCheckFacts.
Import Js ConnectionCheck.
Import Mapping(Platform, ios, android).

Local Open Scope string_scope.


Lemma skipped_battery_check h benv deviceType uuid st :
  Battery.platformOS benv = Some android ->
  String.eqb deviceType "yc" && false = false ->
  let r := Battery.getBatteryLevelByDeviceType h benv deviceType uuid true st in
  fst (fst r) = None /\ snd (fst r) = st /\ Battery.reads (snd r) = 0%nat.
Proof.
  intros Hos _ r. subst r.
  unfold Battery.getBatteryLevelByDeviceType, Battery.performBatteryCheck.
  destruct (Battery.isPlaceholderUuid uuid); [split_and!; reflexivity|].
  destruct (Battery.bluetoothReady benv) as [[|]|]; try (split_and!; reflexivity).
  rewrite Hos. rewrite andb_false_r. cbn. split_and!; reflexivity.
Qed.

(** X23.  On Android the connection probe answers false for every ring
    that it does not probe through getDeviceInfoRaw: an RW ring, and a YC
    ring when the native module lacks getDeviceInfoRaw.  It asks the
    battery check with skipReconnect set, and on Android that check
    returns null before it reads any battery level.  No battery read is
    made and the state of the services is left as it was. *)
Theorem android_probe_without_device_info_answers_false :
  forall h env (uuid deviceType : option string) (st : Battery.State),
    platformOS env = Some android ->
    probedType deviceType <> "yc"
    \/ Connection.hasGetDeviceInfoRaw (Battery.connectEnv (batteryEnv env)) = false ->
    let r := _checkDeviceConnection h env uuid deviceType st in
    fst (fst r) = false /\ snd (fst r) = st /\ Battery.reads (snd r) = 0%nat.
Proof.
  intros h env uuid deviceType st Hos Hpath r. subst r.
  unfold _checkDeviceConnection, isIOS, isAndroid. fold (probedType deviceType).
  rewrite Hos.
  destruct (is_empty_string (Connection.cleanUuid uuid)); [split_and!; reflexivity|].
  rewrite andb_false_r. cbn [andb].
  assert (Hno : String.eqb (probedType deviceType) "yc"
                && Connection.hasGetDeviceInfoRaw (Battery.connectEnv (batteryEnv env))
                = false).
  { destruct Hpath as [Hne|Hraw].
    - apply andb_false_iff. left. apply String.eqb_neq. exact Hne.
    - rewrite Hraw. apply andb_false_r. }
  rewrite Hno.
  pose proof (skipped_battery_check h (batteryEnv env) (probedType deviceType)
                (Connection.cleanUuid uuid) st Hos (andb_false_r _)) as H.
  cbv zeta in H.
  destruct (Battery.getBatteryLevelByDeviceType h (batteryEnv env) (probedType deviceType)
              (Connection.cleanUuid uuid) true st) as [[b st1] evs].
  cbn [fst snd] in *. destruct H as (-> & -> & Hreads). split_and!; try reflexivity.
  exact Hreads.
Qed.


Lemma android_probe_without_device_info_answers_false_witness :
  fst (fst (_checkDeviceConnection decimalHost androidProbe (Some "AA:BB:CC:DD:EE:01")
              (Some "rw") Battery.idle)) = false.
Proof.
  apply (android_probe_without_device_info_answers_false decimalHost androidProbe
           (Some "AA:BB:CC:DD:EE:01") (Some "rw") Battery.idle).
  - reflexivity.
  - left. vm_compute. discriminate.
Defined.

Lemma append_inj_l (a b c : string) : a ++ b = a ++ c -> b = c.
Proof.
  induction a as [|x a IH]; [intros H; exact H|].
  intros H. injection H as H. apply IH. exact H.
Qed.

Lemma cacheKey_suffix (uuid deviceType : option string) (suffix : string) :
  cacheKey uuid deviceType = Connection.cleanUuid uuid ++ "_" ++ suffix ->
  trim (probedType deviceType) = suffix.
Proof.
  unfold cacheKey. fold (probedType deviceType). intros H.
  apply append_inj_l in H. injection H as H. exact H.
Qed.

(** X24.  isDeviceConnectedByUUID remembers its answer for two seconds:
    a call that probed and stored its answer is repeated by every call
    for the same ring and type made less than 2000 ms after the answer
    was stored, without any probe, whatever the ring does meanwhile; from
    2000 ms on the ring is probed again.  A call with skipCache neither
    reads nor writes the cache.  invalidateConnectionCache with the uuid
    drops the answer for types yc, dh and jl only: the answer for any
    other type, rw included, is still served. *)
Theorem connection_answer_is_cached_for_two_seconds :
  forall h env (uuid deviceType : option string) (now later : Z) (st : State),
    is_empty_string (Connection.cleanUuid uuid) = false ->
    _connectionCheckCache st !! cacheKey uuid deviceType = None ->
    let first := isDeviceConnectedByUUID h env uuid deviceType false now later st in
    let answer := fst (fst first) in
    let st1 := snd (fst first) in
    answer = fst (fst (_checkDeviceConnection h env uuid deviceType (probing st)))
    /\ (forall env' now' later',
          now' - later < 2000 ->
          isDeviceConnectedByUUID h env' uuid deviceType false now' later' st1
          = (answer, st1, []))
    /\ (forall env' now' later',
          2000 <= now' - later ->
          fst (fst (isDeviceConnectedByUUID h env' uuid deviceType false now' later' st1))
          = fst (fst (_checkDeviceConnection h env' uuid deviceType (probing st1))))
    /\ (forall env' now' later',
          _connectionCheckCache
            (snd (fst (isDeviceConnectedByUUID h env' uuid deviceType true now' later' st1)))
          = _connectionCheckCache st1
          /\ fst (fst (isDeviceConnectedByUUID h env' uuid deviceType true now' later' st1))
             = fst (fst (_checkDeviceConnection h env' uuid deviceType (probing st1))))
    /\ (forall env' now' later',
          now' - later < 2000 ->
          let cleared := invalidateConnectionCache uuid st1 in
          (trim (probedType deviceType) <> "yc" ->
           trim (probedType deviceType) <> "dh" ->
           trim (probedType deviceType) <> "jl" ->
           isDeviceConnectedByUUID h env' uuid deviceType false now' later' cleared
           = (answer, cleared, []))
          /\ (trim (probedType deviceType) = "yc" ->
              fst (fst (isDeviceConnectedByUUID h env' uuid deviceType false now' later'
                          cleared))
              = fst (fst (_checkDeviceConnection h env' uuid deviceType (probing cleared))))).
Proof.
  intros h env uuid deviceType now later st Hid Hfresh first answer st1.
  assert (Hfirst : first
                   = (fst (fst (_checkDeviceConnection h env uuid deviceType (probing st))),
                      {| probing := snd (fst (_checkDeviceConnection h env uuid deviceType
                                                (probing st)));
                         _connectionCheckCache :=
                           <[cacheKey uuid deviceType :=
                               (fst (fst (_checkDeviceConnection h env uuid deviceType
                                            (probing st))), later)]>
                             (_connectionCheckCache st) |},
                      snd (_checkDeviceConnection h env uuid deviceType (probing st)))).
  { subst first. unfold isDeviceConnectedByUUID. rewrite Hid, Hfresh.
    destruct (_checkDeviceConnection h env uuid deviceType (probing st)) as [[r p] evs].
    reflexivity. }
  assert (Hst1 : _connectionCheckCache st1 !! cacheKey uuid deviceType = Some (answer, later)).
  { subst st1 answer. rewrite Hfirst. cbn [fst snd _connectionCheckCache].
    apply lookup_insert_eq. }
  assert (Hanswer : answer
                    = fst (fst (_checkDeviceConnection h env uuid deviceType (probing st)))).
  { subst answer. rewrite Hfirst. reflexivity. }
  clearbody first answer st1. clear Hfirst.
  destruct uuid as [u|]; [|discriminate Hid].
  assert (Hne : is_empty_string u = false).
  { destruct u; [discriminate Hid|reflexivity]. }
  split; [exact Hanswer|]. split_and!.
  - intros env' now' later' Hnow. unfold isDeviceConnectedByUUID. rewrite Hid, Hst1.
    unfold Connection.CONNECTION_CHECK_CACHE_TTL.
    destruct (Z.ltb_spec (now' - later) 2000) as [_|Hge]; [reflexivity|lia].
  - intros env' now' later' Hnow. unfold isDeviceConnectedByUUID. rewrite Hid, Hst1.
    unfold Connection.CONNECTION_CHECK_CACHE_TTL.
    destruct (Z.ltb_spec (now' - later) 2000) as [Hlt|_]; [lia|].
    destruct (_checkDeviceConnection h env' (Some u) deviceType (probing st1)) as [[r p] evs].
    reflexivity.
  - intros env' now' later'. unfold isDeviceConnectedByUUID. rewrite Hid.
    destruct (_checkDeviceConnection h env' (Some u) deviceType (probing st1)) as [[r p] evs].
    split; reflexivity.
  - intros env' now' later' Hnow cleared. subst cleared.
    split.
    + intros Hyc Hdh Hjl. unfold isDeviceConnectedByUUID. rewrite Hid.
      assert (Hkept : _connectionCheckCache (invalidateConnectionCache (Some u) st1)
                        !! cacheKey (Some u) deviceType = Some (answer, later)).
      { unfold invalidateConnectionCache. cbn [_connectionCheckCache].
        rewrite Hne.
        rewrite !lookup_delete_ne; [exact Hst1| | |].
        - intros E. symmetry in E. apply cacheKey_suffix in E. congruence.
        - intros E. symmetry in E. apply cacheKey_suffix in E. congruence.
        - intros E. symmetry in E. apply cacheKey_suffix in E. congruence. }
      rewrite Hkept. unfold Connection.CONNECTION_CHECK_CACHE_TTL.
      destruct (Z.ltb_spec (now' - later) 2000) as [_|Hge]; [reflexivity|lia].
    + intros Hyc. unfold isDeviceConnectedByUUID. rewrite Hid.
      assert (Hgone : _connectionCheckCache (invalidateConnectionCache (Some u) st1)
                        !! cacheKey (Some u) deviceType = None).
      { unfold invalidateConnectionCache. cbn [_connectionCheckCache].
        rewrite Hne.
        assert (Hkey : cacheKey (Some u) deviceType = Connection.cleanUuid (Some u) ++ "_yc").
        { unfold cacheKey. fold (probedType deviceType). rewrite Hyc. reflexivity. }
        rewrite Hkey.
        rewrite lookup_delete_ne by (intros E; apply append_inj_l in E; discriminate E).
        rewrite lookup_delete_ne by (intros E; apply append_inj_l in E; discriminate E).
        apply lookup_delete_eq. }
      rewrite Hgone.
      destruct (_checkDeviceConnection h env' (Some u) deviceType
                  (probing (invalidateConnectionCache (Some u) st1))) as [[r p] evs].
      reflexivity.
Qed.


Lemma connection_answer_is_cached_for_two_seconds_witness :
  let st1 := snd (fst (isDeviceConnectedByUUID decimalHost androidProbe (Some "AA:01")
                         (Some "rw") false 1000 1010 emptyCache)) in
  isDeviceConnectedByUUID decimalHost androidProbe (Some "AA:01") (Some "rw") false
    2500 2510 (invalidateConnectionCache (Some "AA:01") st1)
  = (false, invalidateConnectionCache (Some "AA:01") st1, []).
Proof.
  pose proof (connection_answer_is_cached_for_two_seconds decimalHost androidProbe
                (Some "AA:01") (Some "rw") 1000 1010 emptyCache eq_refl eq_refl) as H.
  cbv zeta in H. destruct H as (_ & _ & _ & _ & H).
  destruct (H androidProbe 2500 2510 ltac:(lia)) as [Hkept _].
  apply Hkept; vm_compute; discriminate.
Defined.

End ConnectionCheckFacts.

(** ** The connect retry loop *)

Module ConnectRetryFacts.
Import Js Connection ConnectRetry.

Local Open Scope string_scope.
Local Open Scope list_scope.

Lemma connectCalls_cons e evs :
  connectCalls (e :: evs) = ((if isNativeConnect e then 1 else 0) + connectCalls evs)%nat.
Proof. unfold connectCalls. cbn [List.filter]. destruct (isNativeConnect e); reflexivity. Qed.

Lemma connectCalls_app a b : connectCalls (a ++ b) = (connectCalls a + connectCalls b)%nat.
Proof. unfold connectCalls. rewrite List.filter_app, length_app. reflexivity. Qed.

Lemma totalDelay_app a b : totalDelay (a ++ b) = totalDelay a + totalDelay b.
Proof.
  induction a as [|e a IH]; [reflexivity|].
  cbn [app]. unfold totalDelay in *. cbn [fold_right]. rewrite IH. destruct e; lia.
Qed.

Lemma beforeRetry_spec stillConnected retryCount code message :
  connectCalls (beforeRetry stillConnected retryCount code message) = 0%nat
  /\ 1000 <= totalDelay (beforeRetry stillConnected retryCount code message)
  /\ totalDelay (beforeRetry stillConnected retryCount code message)
     <= (if (retryCount =? 0)%nat then 2500 else 2000).
Proof.
  unfold beforeRetry, RETRY_DELAY_MS, SDK_RESET_DELAY_MS.
  rewrite !connectCalls_app, !totalDelay_app.
  destruct (String.eqb code "not_found" || includes "Peripheral not found" message);
    destruct (stillConnected retryCount) as [[|]|];
    destruct (isGattError code message); destruct (retryCount =? 0)%nat;
    cbn; lia.
Qed.

Section Loop.
Variable env : Env.
Variable stillConnected : nat -> option bool.

Lemma ycManagerTrace_verdict (remaining retryCount maxRetries : nat) :
  fst (ycManagerTrace env stillConnected remaining retryCount maxRetries)
  = ycManagerLoop env remaining retryCount maxRetries.
Proof.
  revert retryCount. induction remaining as [|k IH]; intros retryCount; [reflexivity|].
  cbn [ycManagerTrace ycManagerLoop].
  destruct (ycManagerConnect env retryCount) as [v|code message].
  - destruct (truthy v); [reflexivity|].
    destruct (retryCount <? maxRetries - 1)%nat; [|reflexivity].
    specialize (IH (S retryCount)).
    destruct (ycManagerTrace env stillConnected k (S retryCount) maxRetries). exact IH.
  - destruct (isRetryable code message && (retryCount <? maxRetries - 1)%nat); [|reflexivity].
    specialize (IH (S retryCount)).
    destruct (ycManagerTrace env stillConnected k (S retryCount) maxRetries). exact IH.
Qed.

(** Entered with as many passes left as the bound allows, the loop makes
    between 1 and that many native calls and waits at most 2000 ms per
    retry, 500 ms more before the first. *)
Lemma ycManagerTrace_bounds (remaining retryCount maxRetries : nat) :
  (retryCount + remaining = maxRetries)%nat -> (0 < remaining)%nat ->
  let evs := snd (ycManagerTrace env stillConnected remaining retryCount maxRetries) in
  (1 <= connectCalls evs <= remaining)%nat
  /\ 0 <= totalDelay evs
     <= 2000 * (Z.of_nat (connectCalls evs) - 1)
        + (if (retryCount =? 0)%nat then 500 else 0)
  /\ (forall i, (retryCount <= i < retryCount + connectCalls evs)%nat ->
                In (EvNativeConnect i) evs).
Proof.
  revert retryCount. induction remaining as [|k IH]; intros retryCount Hsum Hpos; [lia|].
  cbn [ycManagerTrace].
  assert (Hlast : forall evs : list Event,
             evs = [EvNativeConnect retryCount] ->
             (1 <= connectCalls evs <= S k)%nat
             /\ 0 <= totalDelay evs
                <= 2000 * (Z.of_nat (connectCalls evs) - 1)
                   + (if (retryCount =? 0)%nat then 500 else 0)
             /\ (forall i, (retryCount <= i < retryCount + connectCalls evs)%nat ->
                           In (EvNativeConnect i) evs)).
  { intros evs ->. cbn. split; [lia|]. split; [destruct (retryCount =? 0)%nat; lia|].
    intros i Hi. left. f_equal. lia. }
  destruct (ycManagerConnect env retryCount) as [v|code message].
  - destruct (truthy v); [apply Hlast; reflexivity|].
    destruct (Nat.ltb_spec retryCount (maxRetries - 1)) as [Hlt|Hge];
      [|apply Hlast; reflexivity].
    specialize (IH (S retryCount) ltac:(lia) ltac:(lia)). cbv zeta in IH.
    destruct (ycManagerTrace env stillConnected k (S retryCount) maxRetries) as [r evs].
    cbn [snd] in *. destruct IH as (Hc & Hd & Hin).
    rewrite !connectCalls_cons. cbn [isNativeConnect].
    change (totalDelay (EvNativeConnect retryCount :: EvDelay RETRY_DELAY_MS :: evs))
      with (RETRY_DELAY_MS + totalDelay evs).
    unfold RETRY_DELAY_MS. cbn [Nat.eqb] in Hd.
    split; [lia|]. split; [destruct (retryCount =? 0)%nat; lia|].
    intros i Hi. destruct (Nat.eq_dec i retryCount) as [->|Hne]; [left; reflexivity|].
    right. right. apply Hin. lia.
  - destruct (isRetryable code message) eqn:Hretry; cbn [andb]; [|apply Hlast; reflexivity].
    destruct (Nat.ltb_spec retryCount (maxRetries - 1)) as [Hlt|Hge];
      [|apply Hlast; reflexivity].
    specialize (IH (S retryCount) ltac:(lia) ltac:(lia)). cbv zeta in IH.
    destruct (ycManagerTrace env stillConnected k (S retryCount) maxRetries) as [r evs].
    cbn [snd] in *. destruct IH as (Hc & Hd & Hin).
    destruct (beforeRetry_spec stillConnected retryCount code message) as (B0 & B1 & B2).
    rewrite connectCalls_cons, connectCalls_app, B0. cbn [isNativeConnect].
    change (totalDelay (EvNativeConnect retryCount
                          :: beforeRetry stillConnected retryCount code message ++ evs))
      with (totalDelay (beforeRetry stillConnected retryCount code message ++ evs)).
    rewrite totalDelay_app. cbn [Nat.eqb] in Hd.
    split; [lia|]. split; [destruct (retryCount =? 0)%nat; lia|].
    intros i Hi. destruct (Nat.eq_dec i retryCount) as [->|Hne]; [left; reflexivity|].
    right. apply in_or_app. right. apply Hin. lia.
Qed.

End Loop.

(** X25.  The retry loop of connectDevice over YCRingManager.connectDevice
    makes at least one and at most three native connect calls, numbered
    from 0 without a gap, and exactly one when disableRetry is set; it
    never waits more than 4500 ms in all between them (2000 ms per retry,
    500 ms more once for an SDK reset), and not at all with disableRetry.
    A rejection that is not retryable ends the loop at the first call.
    Its verdict is the one connectDevice acts on. *)
Theorem yc_connect_retries_are_bounded :
  forall (env : Env) (stillConnected : nat -> option bool) (disableRetry : bool),
    let maxRetries := if disableRetry then 1%nat else 3%nat in
    let run := ycManagerTrace env stillConnected maxRetries 0 maxRetries in
    fst run = ycManagerLoop env maxRetries 0 maxRetries
    /\ (1 <= connectCalls (snd run) <= maxRetries)%nat
    /\ 0 <= totalDelay (snd run) <= 4500
    /\ (forall i, (i < connectCalls (snd run))%nat -> In (EvNativeConnect i) (snd run))
    /\ (disableRetry = true -> snd run = [EvNativeConnect 0])
    /\ (forall code message,
           ycManagerConnect env 0 = Rejected code message ->
           isRetryable code message = false ->
           run = (false, [EvNativeConnect 0])).
Proof.
  intros env stillConnected disableRetry maxRetries run. subst run.
  split; [apply ycManagerTrace_verdict|].
  pose proof (ycManagerTrace_bounds env stillConnected maxRetries 0 maxRetries
                ltac:(lia) ltac:(subst maxRetries; destruct disableRetry; lia)) as H.
  cbv zeta in H. destruct H as (Hc & Hd & Hin). cbn [Nat.eqb] in Hd.
  split; [exact Hc|].
  split; [subst maxRetries; destruct disableRetry; lia|].
  split; [intros i Hi; apply Hin; lia|].
  split.
  - intros ->. subst maxRetries. cbn.
    destruct (ycManagerConnect env 0) as [v|code message]; [destruct (truthy v)|];
      try reflexivity.
    rewrite andb_false_r. reflexivity.
  - intros code message Hrej Hno. subst maxRetries.
    destruct disableRetry; cbn; rewrite Hrej, Hno; reflexivity.
Qed.

Lemma yc_connect_retries_are_bounded_witness :
  connectCalls (snd (ycManagerTrace refusingEnv (fun _ => None) 3 0 3)) = 3%nat
  /\ totalDelay (snd (ycManagerTrace refusingEnv (fun _ => None) 3 0 3)) <= 4500.
Proof.
  destruct (yc_connect_retries_are_bounded refusingEnv (fun _ => None) false)
    as (_ & _ & Hd & _).
  split; [vm_compute; reflexivity|apply Hd].
Defined.

End ConnectRetryFacts.

(** ** The stored device descriptor *)

Module StoredDeviceFacts.
Import Js Connection StoredDescriptor.
Import Mapping(Platform, ios, android).

Local Open Scope string_scope.

Lemma keptOrForgotten_refl clean st st' :
  storedDevice st' = storedDevice st -> keptOrForgotten clean st st'.
Proof. intros H. left. exact H. Qed.

Lemma keptOrForgotten_trans clean a b c :
  keptOrForgotten clean a b -> keptOrForgotten clean b c -> keptOrForgotten clean a c.
Proof.
  intros [Hab|(Hb & u & Hu)] [Hbc|(Hc & v & Hv & Hrest)].
  - left. congruence.
  - right. split; [exact Hc|]. rewrite Hab in Hv. exists v. split; assumption.
  - right. split; [congruence|]. exists u. exact Hu.
  - congruence.
Qed.

Lemma differsFrom_spec u clean : differsFrom u clean = true <-> u <> VStr clean.
Proof.
  destruct u as [| |b|q|s]; cbn; try (split; [discriminate|reflexivity]).
  rewrite negb_true_iff. split.
  - intros H [= ->]. rewrite String.eqb_refl in H. discriminate.
  - intros H. apply String.eqb_neq. congruence.
Qed.

Lemma clearOldDeviceData_keptOrForgotten clean st :
  keptOrForgotten clean st (clearOldDeviceData clean st).
Proof.
  unfold clearOldDeviceData.
  destruct (storedDevice st) as [[|u]|] eqn:E; try (left; reflexivity).
  destruct (truthy u) eqn:Ht; cbn [andb]; [|left; reflexivity].
  destruct (differsFrom u clean) eqn:Hd; [|left; reflexivity].
  right. split; [reflexivity|]. exists u. split_and!; auto.
  apply differsFrom_spec. exact Hd.
Qed.

Lemma connectBody_keptOrForgotten env clean type disableRetry st :
  keptOrForgotten clean st (snd (connectBody env clean type disableRetry st)).
Proof.
  unfold connectBody.
  repeat (case_match; cbn [snd]);
    try (left; reflexivity); try apply clearOldDeviceData_keptOrForgotten.
Qed.

Lemma connectLocked_keptOrForgotten env clean type disableRetry st :
  keptOrForgotten clean st (snd (connectLocked env clean type disableRetry st)).
Proof.
  unfold connectLocked.
  pose proof (connectBody_keptOrForgotten env clean type disableRetry (setConnecting true st))
    as H.
  destruct (connectBody env clean type disableRetry (setConnecting true st)) as [[b|] st2];
    cbn [snd] in *.
  - eapply keptOrForgotten_trans; [apply (keptOrForgotten_refl clean st (setConnecting true st));
                                   reflexivity|].
    eapply keptOrForgotten_trans; [exact H|]. left. reflexivity.
  - eapply keptOrForgotten_trans; [apply (keptOrForgotten_refl clean st (setConnecting true st));
                                   reflexivity|].
    eapply keptOrForgotten_trans; [exact H|].
    eapply keptOrForgotten_trans; [apply clearOldDeviceData_keptOrForgotten|].
    left. reflexivity.
Qed.

(** The descriptor after the clean-up at the head of connectDevice. *)
Lemma head_cleanup clean st :
  let st1 := cancelAllPendingOperations st in
  let st2 :=
    match storedDevice st1 with
    | Some (Parsed u) => if differsFrom u clean then clearOldDeviceData clean st1 else st1
    | Some Malformed => clearOldDeviceData clean st1
    | None => clearOldDeviceData clean st1
    end in
  keptOrForgotten clean st st2
  /\ forall u, storedDevice st2 = Some (Parsed u) -> truthy u = true -> u = VStr clean.
Proof.
  intros st1 st2. subst st1 st2. unfold cancelAllPendingOperations.
  cbn [setPending storedDevice].
  destruct (storedDevice st) as [[|u]|] eqn:E.
  - assert (Hc : clearOldDeviceData clean (setPending false st) = setPending false st).
    { unfold clearOldDeviceData. cbn [setPending storedDevice]. rewrite E. reflexivity. }
    rewrite Hc. split; [left; reflexivity|].
    cbn [setPending storedDevice]. intros u H. rewrite E in H. discriminate H.
  - destruct (differsFrom u clean) eqn:Hd.
    + split.
      * eapply keptOrForgotten_trans; [|apply clearOldDeviceData_keptOrForgotten].
        left. reflexivity.
      * unfold clearOldDeviceData. cbn [setPending storedDevice]. rewrite E, Hd.
        destruct (truthy u) eqn:Ht; cbn [andb setStored setPending storedDevice].
        -- intros v H. discriminate H.
        -- intros v H Hv. rewrite E in H. injection H as <-. congruence.
    + split; [left; reflexivity|].
      cbn [setPending storedDevice]. intros v H _. rewrite E in H. injection H as <-.
      destruct u as [| |b|q|s]; try discriminate Hd.
      cbn in Hd. apply negb_false_iff, String.eqb_eq in Hd. congruence.
  - assert (Hc : clearOldDeviceData clean (setPending false st) = setPending false st).
    { unfold clearOldDeviceData. cbn [setPending storedDevice]. rewrite E. reflexivity. }
    rewrite Hc. split; [left; reflexivity|].
    cbn [setPending storedDevice]. intros u H. rewrite E in H. discriminate H.
Qed.

(** X26.  connectDevice never writes the stored descriptor of the
    connected device; it either keeps it or removes it, and it removes it
    only when it names a ring other than the one asked for.  So after a
    call for a usable uuid the descriptor, if it still names a ring,
    names that one: connecting to another ring forgets the stored ring
    even when the connection fails, a failed reconnection to the stored
    ring does not forget it, and a descriptor that cannot be parsed is
    left where it is. *)
Theorem connect_forgets_only_another_ring :
  forall env (uuid deviceType : option string) (disableRetry skipPreConnectionCheck : bool)
         (st : State),
    cleanUuid uuid <> "" ->
    let st' := snd (connectDevice env uuid deviceType disableRetry skipPreConnectionCheck st) in
    let clean := cleanUuid uuid in
    keptOrForgotten clean st st'
    /\ (forall u, storedDevice st' = Some (Parsed u) -> truthy u = true -> u = VStr clean)
    /\ (forall u, storedDevice st = Some (Parsed u) -> truthy u = true -> u <> VStr clean ->
                  storedDevice st' = None)
    /\ (storedDevice st = Some (Parsed (VStr clean)) -> storedDevice st' = storedDevice st)
    /\ (storedDevice st = Some Malformed -> storedDevice st' = Some Malformed).
Proof.
  intros env uuid deviceType disableRetry skip st Hne st' clean.
  assert (Hmain : keptOrForgotten clean st st'
                  /\ forall u, storedDevice st' = Some (Parsed u) -> truthy u = true ->
                               u = VStr clean).
  { subst st'. unfold connectDevice. fold clean.
    destruct (is_empty_string clean) eqn:E.
    { exfalso. apply Hne. apply ConnectionFacts.is_empty_string_spec. exact E. }
    destruct (head_cleanup clean st) as [Hk Hnames]. cbv zeta in Hk, Hnames.
    set (type := toLowerCase _).
    set (st1 := cancelAllPendingOperations st) in *.
    set (st2 := match storedDevice st1 with
                | Some (Parsed u) => _ | Some Malformed => _ | None => _ end) in *.
    set (st3 := if bool_decide _ then _ else st2).
    assert (H3 : storedDevice st3 = storedDevice st2).
    { subst st3. destruct (bool_decide _); reflexivity. }
    assert (Hfrom : forall s, keptOrForgotten clean st3 s ->
                keptOrForgotten clean st s
                /\ forall u, storedDevice s = Some (Parsed u) -> truthy u = true ->
                             u = VStr clean).
    { intros s Hs. split.
      - eapply keptOrForgotten_trans; [exact Hk|].
        eapply keptOrForgotten_trans; [|exact Hs]. left. exact H3.
      - intros u Hu Ht. destruct Hs as [Hs|[Hs _]]; [|congruence].
        apply Hnames; [congruence|exact Ht]. }
    clearbody st3 st2 st1 type.
    destruct skip.
    - apply Hfrom.
      eapply keptOrForgotten_trans; [|apply connectLocked_keptOrForgotten]. left. reflexivity.
    - destruct (firstProbe env) as [[|]|].
      + apply Hfrom. left. reflexivity.
      + case_match.
        * apply Hfrom. left. reflexivity.
        * apply Hfrom.
          eapply keptOrForgotten_trans; [|apply connectLocked_keptOrForgotten].
          left. reflexivity.
      + case_match.
        * apply Hfrom. left. reflexivity.
        * apply Hfrom.
          eapply keptOrForgotten_trans; [|apply connectLocked_keptOrForgotten].
          left. reflexivity. }
  destruct Hmain as [Hk Hnames].
  split_and!.
  - exact Hk.
  - exact Hnames.
  - intros u Hu Ht Hd. destruct Hk as [Hk|[Hk _]]; [|exact Hk].
    exfalso. apply Hd. apply Hnames; [congruence|exact Ht].
  - intros Hs. destruct Hk as [Hk|(_ & u & Hu & _ & Hd)]; [exact Hk|].
    rewrite Hs in Hu. injection Hu as <-. congruence.
  - intros Hs. destruct Hk as [Hk|(_ & u & Hu & _)]; [congruence|].
    rewrite Hs in Hu. discriminate Hu.
Qed.

Lemma connect_forgets_only_another_ring_witness :
  returned (fst (connectDevice refusingEnv (Some "AA:BB:CC:DD:EE:01") (Some "yc") false false
                   otherRingStored)) = false
  /\ storedDevice (snd (connectDevice refusingEnv (Some "AA:BB:CC:DD:EE:01") (Some "yc")
                          false false otherRingStored)) = None.
Proof.
  split; [vm_compute; reflexivity|].
  destruct (connect_forgets_only_another_ring refusingEnv (Some "AA:BB:CC:DD:EE:01")
              (Some "yc") false false otherRingStored)
    as (_ & _ & H & _).
  - vm_compute. discriminate.
  - apply (H (VStr "11:22:33:44:55:66")); [reflexivity|reflexivity|discriminate].
Defined.

End StoredDeviceFacts.

(** ** Payloads the sync refuses *)

Module PayloadViewsFacts.
Import Js Mapping Normalizer SpecValidator PayloadViews.

Local Open Scope string_scope.
Local Open Scope list_scope.

Lemma hasMeaningfulData_payloadOf (raw : RawData) :
  HealthSync.hasMeaningfulData (Some (payloadOf raw))
  = existsb (carries raw) HealthSync.arraysToCheck.
Proof.
  unfold HealthSync.hasMeaningfulData, payloadOf. cbn [HealthSync.collections HealthSync.summary].
  assert (H : forall name,
             match HealthSync.extractArray
                     (default HealthSync.COther ((HealthSync.CArray <$> raw) !! name)) with
             | [] => false
             | _ => true
             end = carries raw name).
  { intros name. unfold carries. rewrite lookup_fmap.
    destruct (raw !! name) as [[|x l]|]; reflexivity. }
  assert (E : existsb (fun name =>
                         match HealthSync.extractArray
                                 (default HealthSync.COther
                                    ((HealthSync.CArray <$> raw) !! name)) with
                         | [] => false
                         | _ => true
                         end) HealthSync.arraysToCheck
              = existsb (carries raw) HealthSync.arraysToCheck).
  { induction HealthSync.arraysToCheck as [|n l IH]; [reflexivity|].
    cbn [existsb]. rewrite H, IH. reflexivity. }
  rewrite E. destruct (existsb (carries raw) HealthSync.arraysToCheck); reflexivity.
Qed.

(** X27.  The sync judges a payload by eleven array names, and the
    temperature and battery arrays are not among them, nor is the spo2
    array of an RW ring; every mapping reads temperature and battery
    from these two names.  So a payload that carries readings only there
    is refused as empty: the fetch gives up after a single pull with an
    EMPTY_DATA error, without a retry, and AutoSyncService counts that
    error up to its ceiling at once.  The normalizer would have read the
    metrics from the same payload. *)
Theorem vitals_only_payload_is_refused :
  forall (raw : RawData),
    (forall name, carries raw name = true ->
                  name = "temperature" \/ name = "battery" \/ name = "spo2") ->
    HealthSync.hasMeaningfulData (Some (payloadOf raw)) = false
    /\ (forall hostOS deviceType platform,
           let m := applyPlatformAdjustments (getDeviceMapping hostOS deviceType) platform in
           dataPath (temperature m) = "temperature" /\ dataPath (battery m) = "battery"
           /\ dataPath (spo2 (getDeviceMapping hostOS "rw")) = "spo2")
    /\ (forall uuid deviceType platformOS (env : nat -> HealthSync.AttemptEnv),
           HealthSync.pullResult (env 0%nat) = inr (Some (payloadOf raw)) ->
           let run := HealthSync.fetchHealthDataWithRetry uuid deviceType platformOS true env in
           fst run = inl (HealthSync.createSyncError "EMPTY_DATA"
                            "Health data payload is empty - sync failed")
           /\ HealthSync.countAttempts (snd run) = 1%nat
           /\ HealthSync.countPulls (snd run) = 1%nat
           /\ forall now st,
                AutoSync.consecutiveErrorCount
                  (fst (AutoSync.deviceSyncFailure
                          (HealthSync.createSyncError "EMPTY_DATA"
                             "Health data payload is empty - sync failed") now st))
                = AutoSync.MAX_CONSECUTIVE_ERRORS).
Proof.
  intros raw Honly.
  assert (Hempty : HealthSync.hasMeaningfulData (Some (payloadOf raw)) = false).
  { rewrite hasMeaningfulData_payloadOf.
    destruct (existsb (carries raw) HealthSync.arraysToCheck) eqn:E; [|reflexivity].
    apply existsb_exists in E. destruct E as (name & Hin & Hc).
    apply Honly in Hc. exfalso.
    unfold HealthSync.arraysToCheck in Hin. cbn [In] in Hin.
    destruct Hc as [-> | [-> | ->]];
      repeat (destruct Hin as [Hin|Hin]; [discriminate Hin|]); exact Hin. }
  split; [exact Hempty|]. split.
  - intros hostOS deviceType platform m. subst m.
    pose proof (StepsFacts.getDeviceMapping_entries hostOS deviceType) as Hm.
    split_and!.
    + destruct Hm as [-> | [-> | ->]]; destruct platform; reflexivity.
    + destruct Hm as [-> | [-> | ->]]; destruct platform; reflexivity.
    + destruct hostOS as [[|]|]; reflexivity.
  - intros uuid deviceType platformOS env Hpull run. subst run.
    unfold HealthSync.fetchHealthDataWithRetry, HealthSync.DATA_RETRY_ATTEMPTS.
    cbn [HealthSync.retryLoop]. unfold HealthSync.tryAttempt. rewrite Hpull, Hempty.
    cbn. split_and!; reflexivity.
Qed.

Lemma vitals_only_payload_is_refused_witness :
  fst (HealthSync.fetchHealthDataWithRetry "AA:01" "rw" "android" true vitalsOnlyRing)
  = inl (HealthSync.createSyncError "EMPTY_DATA" "Health data payload is empty - sync failed")
  /\ option_map current
       (normalizeTemperatureMetric (specValidator decimalHost) vitalsOnly
          (temperature mapping_rw)) = Some (365 # 10)%Q
  /\ option_map current
       (normalizeBatteryMetric (specValidator decimalHost) 1700000002000 vitalsOnly
          (battery mapping_rw)) = Some 80%Q.
Proof.
  assert (Honly : forall name, carries vitalsOnly name = true ->
                               name = "temperature" \/ name = "battery" \/ name = "spo2").
  { intros name. unfold carries, vitalsOnly.
    destruct (String.eqb_spec name "temperature") as [->|H1]; [auto|].
    destruct (String.eqb_spec name "battery") as [->|H2]; [auto|].
    rewrite lookup_insert_ne by congruence. rewrite lookup_insert_ne by congruence.
    rewrite lookup_empty. discriminate. }
  destruct (vitals_only_payload_is_refused vitalsOnly Honly) as (_ & _ & H).
  destruct (H "AA:01" "rw" "android" vitalsOnlyRing eq_refl) as (Hrun & _).
  split; [exact Hrun|]. split; vm_compute; reflexivity.
Defined.

End PayloadViewsFacts.

(** ** The step total *)

Module StepTotalFacts.
Import Js DataProcessors StepTotal.

Local Open Scope Z_scope.

Section WithHost.
Variable h : Host.
Variable day : DayRange.
Variable calc : HealthCalculator.

Local Abbreviation days := (fun _ : nat => day).
Local Abbreviation within r := (isWithinCurrentDayGMT7 day (extractTimestamp h r)).

Lemma magnitude_nonneg (vs : list Z) : 0 <= magnitude vs.
Proof.
  induction vs as [|v vs IH]; unfold total, magnitude in *; cbn [fold_right]; lia.
Qed.

Lemma total_le_magnitude (vs : list Z) : Z.abs (total vs) <= magnitude vs.
Proof.
  induction vs as [|v vs IH]; unfold total, magnitude in *; cbn [fold_right]; lia.
Qed.

Lemma total_app (a b : list Z) : total (a ++ b) = total a + total b.
Proof.
  induction a as [|v a IH]; unfold total, magnitude in *; cbn [fold_right app]; lia.
Qed.

Lemma magnitude_app (a b : list Z) : magnitude (a ++ b) = magnitude a + magnitude b.
Proof.
  induction a as [|v a IH]; unfold total, magnitude in *; cbn [fold_right app]; lia.
Qed.

Lemma total_perm (a b : list Z) : Permutation a b -> total a = total b.
Proof. induction 1; unfold total, magnitude in *; cbn [fold_right]; lia. Qed.

Lemma magnitude_perm (a b : list Z) : Permutation a b -> magnitude a = magnitude b.
Proof. induction 1; unfold total, magnitude in *; cbn [fold_right]; lia. Qed.

(** The step component of the loop, as long as the running total stays
    within 2^53. *)
Lemma sumCurrentDay_steps_exact (l : list obj) :
  forall (i : nat) (s : Z) (c d : double),
    Z.abs s + magnitude (map (extractSteps h) (List.filter (fun r => within r) l)) <= 2 ^ 53 ->
    fst (fst (sumCurrentDay h days i l (Finite (inject_Z s), c, d)))
    = Finite (inject_Z (s + total (map (extractSteps h) (List.filter (fun r => within r) l)))).
Proof.
  induction l as [|r l IH]; intros i s c d Hb.
  - cbn. rewrite Z.add_0_r. reflexivity.
  - revert Hb. cbn [sumCurrentDay List.filter].
    destruct (isWithinCurrentDayGMT7 day (extractTimestamp h r)) eqn:E; intros Hb.
    + cbn [map] in Hb |- *.
      change (magnitude (?v :: ?vs)) with (Z.abs v + magnitude vs) in Hb.
      change (total (?v :: ?vs)) with (v + total vs).
      pose proof (magnitude_nonneg (map (extractSteps h) (List.filter (fun r => within r) l)))
        as Hm.
      rewrite DoubleFacts.fadd_exact by lia.
      rewrite IH by lia. f_equal. f_equal. lia.
    + apply IH. exact Hb.
Qed.

Lemma filter_counted (l : list obj) :
  List.filter (fun r => within r) (filterStepRecords h l) = List.filter (counted h day) l.
Proof.
  unfold filterStepRecords, counted. induction l as [|r l IH]; [reflexivity|].
  cbn [List.filter]. destruct (isStepRecord h r); cbn [List.filter andb].
  - destruct (isWithinCurrentDayGMT7 day (extractTimestamp h r)); rewrite IH; reflexivity.
  - exact IH.
Qed.

Lemma currentDaySteps_exact (l : list obj) :
  magnitude (countedSteps h day l) <= 2 ^ 53 ->
  currentDaySteps h days l = Finite (inject_Z (total (countedSteps h day l))).
Proof.
  intros Hb. unfold currentDaySteps, countedSteps in *.
  change (Finite 0) with (Finite (inject_Z 0)) at 1.
  rewrite sumCurrentDay_steps_exact; rewrite filter_counted; [reflexivity|].
  cbn. exact Hb.
Qed.

Lemma countedSteps_app (a b : list obj) :
  countedSteps h day (a ++ b) = (countedSteps h day a ++ countedSteps h day b)%list.
Proof. unfold countedSteps. rewrite List.filter_app, map_app. reflexivity. Qed.

Lemma countedSteps_perm (a b : list obj) :
  Permutation a b -> Permutation (countedSteps h day a) (countedSteps h day b).
Proof.
  intros Hp. unfold countedSteps. apply Permutation_map.
  induction Hp as [|x l l' _ IH|x y l|l l' l'' _ IH1 _ IH2].
  - constructor.
  - cbn [List.filter]. destruct (counted h day x); [constructor|]; exact IH.
  - cbn [List.filter]. destruct (counted h day x), (counted h day y);
      try apply Permutation_refl. apply perm_swap.
  - eapply perm_trans; eauto.
Qed.

End WithHost.

(** X28.  With one day window throughout a run, and as long as the
    absolute values of the step values counted add up to no more than
    2^53, the step count that processYCStepsData and processRWStepsData
    report is the exact sum over the records of the array: each record
    that is a pure step record dated within the current day adds its
    rounded step value, and every other record adds nothing.  Then the
    count of two arrays put together is the sum of their counts, and the
    order of the records does not matter. *)
Theorem step_count_is_a_sum_over_todays_step_records :
  forall h day calc (l : list obj),
    magnitude (countedSteps h day l) <= 2 ^ 53 ->
    let count l := steps (processYCStepsData h (fun _ => day) calc l) in
    count l = Finite (inject_Z (total (countedSteps h day l)))
    /\ steps (processRWStepsData h (fun _ => day) calc l) = count l
    /\ (forall a b, l = (a ++ b)%list ->
          count a = Finite (inject_Z (total (countedSteps h day a)))
          /\ count b = Finite (inject_Z (total (countedSteps h day b)))
          /\ count l = Finite (inject_Z (total (countedSteps h day a)
                                         + total (countedSteps h day b))))
    /\ (forall l', Permutation l l' -> count l' = count l).
Proof.
  intros h day calc l Hb count. subst count. cbv beta.
  unfold processYCStepsData, processRWStepsData.
  rewrite !StepsFacts.process_steps.
  rewrite (currentDaySteps_exact h day l Hb).
  split_and!; try reflexivity.
  - intros a b ->. rewrite !StepsFacts.process_steps.
    rewrite countedSteps_app, magnitude_app in Hb.
    pose proof (magnitude_nonneg (countedSteps h day a)).
    pose proof (magnitude_nonneg (countedSteps h day b)).
    rewrite (currentDaySteps_exact h day a) by lia.
    rewrite (currentDaySteps_exact h day b) by lia.
    rewrite countedSteps_app, total_app. split_and!; reflexivity.
  - intros l' Hp. rewrite StepsFacts.process_steps.
    pose proof (countedSteps_perm h day l l' Hp) as Hc.
    rewrite (currentDaySteps_exact h day l').
    + rewrite (total_perm _ _ Hc). reflexivity.
    + rewrite <- (magnitude_perm _ _ Hc). exact Hb.
Qed.

Lemma step_count_is_a_sum_over_todays_step_records_witness :
  let count l :=
    steps (processYCStepsData decimalHost (fun _ => SpecValidator.sampleDay)
             SpecValidator.sampleCalculator l) in
  count [todayStep; earlierStep; pulseStep; todayStep] = Finite 240
  /\ count [todayStep; todayStep; earlierStep; pulseStep] = Finite 240.
Proof.
  intros count.
  destruct (step_count_is_a_sum_over_todays_step_records decimalHost SpecValidator.sampleDay
              SpecValidator.sampleCalculator [todayStep; earlierStep; pulseStep; todayStep])
    as (Hsum & _ & _ & Hperm).
  { vm_compute. discriminate. }
  cbv beta in Hsum, Hperm. subst count. cbv beta.
  split; [rewrite Hsum; vm_compute; reflexivity|].
  rewrite (Hperm [todayStep; todayStep; earlierStep; pulseStep]).
  - rewrite Hsum. vm_compute. reflexivity.
  - apply perm_skip. apply Permutation_sym.
    apply (Permutation_cons_append [earlierStep; pulseStep] todayStep).
Defined.

(** Past 2^53 the count is a sum of doubles, and the order of the
    records shows. *)
Example step_count_past_2_53 :
  let count l :=
    steps (processYCStepsData decimalHost (fun _ => SpecValidator.sampleDay)
             SpecValidator.sampleCalculator l) in
  count [oneStep 1700000001000; oneStep 1700000002000; hugeStep]
  = Finite (inject_Z (2 ^ 53 + 2))
  /\ count [hugeStep; oneStep 1700000001000; oneStep 1700000002000]
     = Finite (inject_Z (2 ^ 53)).
Proof. split; vm_compute; reflexivity. Qed.

End StepTotalFacts.

(** ** The OS sync switch *)

Module OSSyncFacts.
Import Js AutoSync OSSync.

Local Open Scope string_scope.
Local Open Scope Z_scope.

Lemma switched_off_makes_no_call env now st :
  syncDataStatus (statusEntry st) = false ->
  osSyncCalls (snd (runOSSync env now st)) = 0%nat
  /\ statusEntry (fst (runOSSync env now st)) = statusEntry st
  /\ consecutiveErrorCount (service (fst (runOSSync env now st)))
     = consecutiveErrorCount (service st).
Proof.
  intros Hoff. unfold runOSSync. rewrite Hoff.
  destruct (shouldAbort (service st)); cbn; split_and!; reflexivity.
Qed.

(** X29.  runOSSync counts an error of osSync that speaks of a missing
    permission without a ceiling, on the counter it shares with the
    device sync, and when the count reaches MAX_CONSECUTIVE_ERRORS it
    writes false into the stored sync switch.  From then on no run calls
    osSync again, whatever the permissions are by then, and the counter
    stays where it is.  Below the ceiling the switch is left as it was. *)
Theorem permission_errors_switch_os_sync_off :
  forall env now st message,
    shouldAbort (service st) = false ->
    syncDataStatus (statusEntry st) = true ->
    hasOSHealthPermissions env = true ->
    osSync env = OsRejected message ->
    isPermissionError message = true ->
    let st' := fst (runOSSync env now st) in
    consecutiveErrorCount (service st') = consecutiveErrorCount (service st) + 1
    /\ (consecutiveErrorCount (service st) + 1 < MAX_CONSECUTIVE_ERRORS ->
        statusEntry st' = statusEntry st)
    /\ (MAX_CONSECUTIVE_ERRORS <= consecutiveErrorCount (service st) + 1 ->
        syncDataStatus (statusEntry st') = false
        /\ forall env' now',
             osSyncCalls (snd (runOSSync env' now' st')) = 0%nat
             /\ statusEntry (fst (runOSSync env' now' st')) = statusEntry st'
             /\ consecutiveErrorCount (service (fst (runOSSync env' now' st')))
                = consecutiveErrorCount (service st')).
Proof.
  intros env now st message Habort Hon Hperm Hrej Hmsg st'.
  assert (Hst' : st' = {| service := setOSSyncRunning false
                                       (setErrors (consecutiveErrorCount (service st) + 1)
                                          (Some now) (service st));
                          statusEntry :=
                            if MAX_CONSECUTIVE_ERRORS <=? consecutiveErrorCount (service st) + 1
                            then JsonEntry (VBool false) else statusEntry st |}).
  { subst st'. unfold runOSSync. rewrite Habort, Hon, Hperm, Hrej, Hmsg. reflexivity. }
  clearbody st'. subst st'. cbn [service statusEntry].
  assert (Hoff : MAX_CONSECUTIVE_ERRORS <= consecutiveErrorCount (service st) + 1 ->
                 syncDataStatus
                   (if MAX_CONSECUTIVE_ERRORS <=? consecutiveErrorCount (service st) + 1
                    then JsonEntry (VBool false) else statusEntry st) = false).
  { intros Hge.
    destruct (Z.leb_spec MAX_CONSECUTIVE_ERRORS (consecutiveErrorCount (service st) + 1));
      [reflexivity|lia]. }
  split_and!.
  - reflexivity.
  - intros Hlt.
    destruct (Z.leb_spec MAX_CONSECUTIVE_ERRORS (consecutiveErrorCount (service st) + 1));
      [lia|reflexivity].
  - intros Hge. split; [apply Hoff; exact Hge|].
    intros env' now'. apply switched_off_makes_no_call. cbn [statusEntry].
    apply Hoff. exact Hge.
Qed.

Lemma permission_errors_switch_os_sync_off_witness :
  let st1 := fst (runOSSync deniedEnv 1000 switchedOn) in
  let st2 := fst (runOSSync deniedEnv 2000 st1) in
  let st3 := fst (runOSSync deniedEnv 3000 st2) in
  consecutiveErrorCount (service st1) = 1
  /\ syncDataStatus (statusEntry st2) = true
  /\ syncDataStatus (statusEntry st3) = false.
Proof.
  intros st1 st2 st3.
  destruct (permission_errors_switch_os_sync_off deniedEnv 1000 switchedOn
              "HealthKit: Not authorized to read steps"
              eq_refl eq_refl eq_refl eq_refl eq_refl) as (H1 & _).
  destruct (permission_errors_switch_os_sync_off deniedEnv 3000 st2
              "HealthKit: Not authorized to read steps"
              eq_refl eq_refl eq_refl eq_refl eq_refl) as (_ & _ & H3).
  split; [exact H1|]. split; [reflexivity|].
  apply H3. vm_compute. discriminate.
Defined.

End OSSyncFacts.
